(** * Grounding and execution engine of the digital-twin query service

    A shallow embedding of the TypeScript sources: the twin model
    ([DTDLModel]), the entity resolver, the query executors (count,
    aggregate, property), the update validator and the schema resolver.

    Conventions of the embedding.
    - A JavaScript [number] is an IEEE-754 binary64 value: Rocq's primitive
      [float], with the kernel's own arithmetic and comparisons.
    - A JavaScript string is a [string] of 8-bit characters; [toLowerCase],
      [\s], [\d] and [[a-z]] are the ASCII ones.
    - A value of type [any] is a [JSValue].
    - [Map<string, Entity>] keeps insertion order, which the resolver scans
      in: it is an association list with one binding per key.
    - A plain object used as a dictionary ([Record<string, T>]) is a
      [gmap string T].
    - A function that may throw returns a [Result]: [Ok] of its value or
      [Throw] of what it throws.
    - Mutation of the shared model is explicit state passing. *)

From Stdlib Require Import ZArith Floats Ascii String List Bool Lia Sorted.
From stdpp Require Import base option list strings gmap fin_maps.

Local Open Scope string_scope.
Local Open Scope list_scope.
Local Set Warnings "-inexact-float".

(** ** JavaScript strings *)

Module JSString.

Definition code (c : ascii) : nat := nat_of_ascii c.

(** [\s] restricted to ASCII: TAB, LF, VT, FF, CR and SPACE. *)
Definition isSpace (c : ascii) : bool :=
  let n := code c in ((9 <=? n)%nat && (n <=? 13)%nat) || (n =? 32)%nat.

(** [\d] *)
Definition isDigit (c : ascii) : bool :=
  let n := code c in (48 <=? n)%nat && (n <=? 57)%nat.

Definition isUpper (c : ascii) : bool :=
  let n := code c in (65 <=? n)%nat && (n <=? 90)%nat.

Definition isLower (c : ascii) : bool :=
  let n := code c in (97 <=? n)%nat && (n <=? 122)%nat.

(** [[a-z]] under the [i] flag. *)
Definition isAlpha (c : ascii) : bool := isLower c || isUpper c.

Definition lowerChar (c : ascii) : ascii :=
  if isUpper c then ascii_of_nat (code c + 32) else c.

Definition upperChar (c : ascii) : ascii :=
  if isLower c then ascii_of_nat (code c - 32) else c.

Fixpoint mapChars (f : ascii -> ascii) (s : string) : string :=
  match s with
  | EmptyString => EmptyString
  | String c r => String (f c) (mapChars f r)
  end.

(** [s.toLowerCase()] and [s.toUpperCase()] *)
Definition toLowerCase (s : string) : string := mapChars lowerChar s.
Definition toUpperCase (s : string) : string := mapChars upperChar s.

Definition eqbChar (a b : ascii) : bool := Ascii.eqb a b.

(** [s.startsWith(p)] *)
Fixpoint startsWith (p s : string) : bool :=
  match p, s with
  | EmptyString, _ => true
  | String a p', String b s' => eqbChar a b && startsWith p' s'
  | String _ _, EmptyString => false
  end.

(** [s.includes(sub)] *)
Fixpoint includes (s sub : string) : bool :=
  startsWith sub s ||
  match s with
  | EmptyString => false
  | String _ r => includes r sub
  end.

(** [s.replace(/C+/g, rep)] for a character class [C]: every maximal run
    of characters of the class becomes one copy of [rep]. [inRun] tells
    that the previous character was in the class. *)
Fixpoint replaceRuns (cls : ascii -> bool) (rep : string) (inRun : bool)
    (s : string) : string :=
  match s with
  | EmptyString => EmptyString
  | String c r =>
      if cls c then
        if inRun then replaceRuns cls rep true r
        else rep +:+ replaceRuns cls rep true r
      else String c (replaceRuns cls rep false r)
  end.

Fixpoint trimStart (s : string) : string :=
  match s with
  | EmptyString => EmptyString
  | String c r => if isSpace c then trimStart r else s
  end.

(** Drops the trailing white space: a character is kept when it is not
    white space or when something is kept after it. *)
Fixpoint trimEnd (s : string) : string :=
  match s with
  | EmptyString => EmptyString
  | String c r =>
      match trimEnd r with
      | EmptyString => if isSpace c then EmptyString else String c EmptyString
      | r' => String c r'
      end
  end.

(** [s.trim()] *)
Definition trim (s : string) : string := trimEnd (trimStart s).

(** [s.split(/C+/)] for a character class [C]: the pieces between the
    maximal runs of the class, empty pieces at both ends included. *)
Fixpoint splitRuns (cls : ascii -> bool) (inRun : bool) (cur : string)
    (s : string) : list string :=
  match s with
  | EmptyString => [cur]
  | String c r =>
      if cls c then
        if inRun then splitRuns cls true cur r
        else cur :: splitRuns cls true EmptyString r
      else splitRuns cls false (cur +:+ String c EmptyString) r
  end.

Definition split (cls : ascii -> bool) (s : string) : list string :=
  splitRuns cls false EmptyString s.

(** [s.charAt(0)] and [s.slice(1)] *)
Definition charAt0 (s : string) : string :=
  match s with
  | EmptyString => EmptyString
  | String c _ => String c EmptyString
  end.

Definition slice1 (s : string) : string :=
  match s with
  | EmptyString => EmptyString
  | String _ r => r
  end.

End JSString.

(** ** JavaScript values *)

(** A value of type [any]. Objects and arrays are opaque references. *)
Inductive JSValue : Type :=
| VUndefined
| VNull
| VBool (b : bool)
| VNum (x : float)
| VStr (s : string)
| VObj (ref : nat).

Inductive JSType : Type :=
| TUndefined | TObject | TBoolean | TNumber | TString.

(** [typeof v] *)
Definition typeof (v : JSValue) : JSType :=
  match v with
  | VUndefined => TUndefined
  | VNull => TObject
  | VBool _ => TBoolean
  | VNum _ => TNumber
  | VStr _ => TString
  | VObj _ => TObject
  end.

(** [a ?? b] *)
Definition nullish (v : JSValue) : bool :=
  match v with
  | VUndefined | VNull => true
  | _ => false
  end.

Definition coalesce (a b : JSValue) : JSValue :=
  if nullish a then b else a.

(** The SameValueZero comparison of [Array.prototype.includes]: as [===]
    except that NaN equals NaN. *)
Definition sameValueZero (a b : JSValue) : bool :=
  match a, b with
  | VUndefined, VUndefined => true
  | VNull, VNull => true
  | VBool x, VBool y => Bool.eqb x y
  | VNum x, VNum y =>
      PrimFloat.eqb x y || (PrimFloat.is_nan x && PrimFloat.is_nan y)
  | VStr x, VStr y => String.eqb x y
  | VObj x, VObj y => Nat.eqb x y
  | _, _ => false
  end.

(** [n] as a number, for an array length or a counter; the conversion is
    exact below 2^53. *)
Definition numOfNat (n : nat) : float :=
  PrimFloat.of_uint63 (Uint63.of_Z (Z.of_nat n)).

(** ** Domain: entities (domain/Entity.ts) *)

(** [PropertyValue.type] *)
Inductive PropType : Type :=
| PNumber | PString | PBoolean | PObject.

(** [PropertyConstraints] *)
Record PropertyConstraints : Type := mkPropertyConstraints {
  pc_min : option float;
  pc_max : option float;
  pc_allowedValues : option (list JSValue);
  pc_readOnly : option bool
}.

(** [PropertyValue]: one entry of the property cache. *)
Record PropertyValue : Type := mkPropertyValue {
  pv_value : JSValue;
  pv_type : PropType;
  pv_editable : option bool;
  pv_constraints : option PropertyConstraints
}.

(** The [schema] field of a content item: absent, a schema name, or a
    complex schema object with its own ["@type"]. *)
Inductive Schema : Type :=
| SchemaAbsent
| SchemaName (s : string)
| SchemaObject (atType : string).

(** One item of [Entity.contents]: a DTDL Property, Relationship or
    Telemetry definition. [c_atType] is the item's ["@type"]; an absent
    [value] or [initialValue] is [VUndefined]. *)
Record Content : Type := mkContent {
  c_atType : string;
  c_name : string;
  c_displayName : option string;
  c_schema : Schema;
  c_value : JSValue;
  c_initialValue : JSValue;
  c_writable : option bool;
  c_target : option string
}.

(** [Entity], with the fields the engine reads. [e_contents] is optional
    because the code guards every use with
    [entity.contents && Array.isArray(entity.contents)]. *)
Record Entity : Type := mkEntity {
  e_id : string;
  e_dtdlId : string;
  e_displayName : option string;
  e_contents : option (list Content);
  e_type : option string;
  e_properties : option (gmap string PropertyValue);
  e_relationships : option (gmap string string)
}.

(** [UpdateResult] *)
Record UpdateResult : Type := mkUpdateResult {
  ur_success : bool;
  ur_entityId : string;
  ur_property : string;
  ur_oldValue : JSValue;
  ur_newValue : JSValue;
  ur_error : option string
}.

(** ** Domain: the twin model (domain/DTDLModel.ts) *)

Module DTDLModel.

(** [private entities: Map<string, Entity>], in insertion order. *)
Definition t : Type := list (string * Entity).

(** [Map.prototype.get] *)
Fixpoint mapGet (m : t) (id : string) : option Entity :=
  match m with
  | [] => None
  | (k, e) :: r => if String.eqb k id then Some e else mapGet r id
  end.

(** [Map.prototype.set]: an existing key keeps its place. *)
Fixpoint mapSet (m : t) (id : string) (e : Entity) : t :=
  match m with
  | [] => [(id, e)]
  | (k, e0) :: r =>
      if String.eqb k id then (k, e) :: r else (k, e0) :: mapSet r id e
  end.

(** [constructor(entities)]: [new Map(entities.map((e) => [e.id, e]))] *)
Definition make (entities : list Entity) : t :=
  fold_left (fun m e => mapSet m (e_id e) e) entities [].

(** [getEntity(id)] *)
Definition getEntity (m : t) (id : string) : option Entity := mapGet m id.

(** [getAllEntities()] *)
Definition getAllEntities (m : t) : list Entity := map snd m.

(** [e.type === type] *)
Definition hasType (ty : string) (e : Entity) : bool :=
  match e_type e with
  | Some t' => String.eqb t' ty
  | None => false
  end.

(** [getEntitiesByType(type)] *)
Definition getEntitiesByType (m : t) (ty : string) : list Entity :=
  filter (fun e => hasType ty e = true) (getAllEntities m).

(** [addEntity(entity)] *)
Definition addEntity (m : t) (e : Entity) : t := mapSet m (e_id e) e.

(** [c["@type"] === "Property" && c.name === property] *)
Definition isPropertyNamed (property : string) (c : Content) : bool :=
  String.eqb (c_atType c) "Property" && String.eqb (c_name c) property.

(** [propertyContent.value = value] *)
Definition setContentValue (value : JSValue) (c : Content) : Content :=
  {| c_atType := c_atType c;
     c_name := c_name c;
     c_displayName := c_displayName c;
     c_schema := c_schema c;
     c_value := value;
     c_initialValue := c_initialValue c;
     c_writable := c_writable c;
     c_target := c_target c |}.

(** [entity.properties[property].value = value] *)
Definition setCacheValue (value : JSValue) (pv : PropertyValue)
    : PropertyValue :=
  {| pv_value := value;
     pv_type := pv_type pv;
     pv_editable := pv_editable pv;
     pv_constraints := pv_constraints pv |}.

(** The second step of [updateEntityProperty]: the first Property item of
    that name in the contents array gets the value; when there is none a
    warning is logged and the array is left as it is. *)
Definition updateContents (entityId property : string) (value : JSValue)
    (contents : option (list Content))
    : option (list Content) * list string :=
  match contents with
  | None => (None, [])
  | Some cs =>
      match list_find (fun c => isPropertyNamed property c = true) cs with
      | Some (i, c) => (Some (<[i := setContentValue value c]> cs), [])
      | None =>
          (Some cs,
           ["Property '" +:+ property +:+
            "' found in computed properties but not in contents array for entity '"
            +:+ entityId +:+ "'"])
      end
  end.

Definition withState (e : Entity) (contents : option (list Content))
    (properties : option (gmap string PropertyValue)) : Entity :=
  {| e_id := e_id e;
     e_dtdlId := e_dtdlId e;
     e_displayName := e_displayName e;
     e_contents := contents;
     e_type := e_type e;
     e_properties := properties;
     e_relationships := e_relationships e |}.

(** The entity object is shared between the map and every caller that
    holds it: a write to it is a write to the binding of its key. *)
Fixpoint mutate (m : t) (id : string) (e' : Entity) : t :=
  match m with
  | [] => []
  | (k, e) :: r =>
      if String.eqb k id then (k, e') :: r else (k, e) :: mutate r id e'
  end.

(** [entity.properties[property]], when [entity.properties] is there:
    the entry of the cache under the name. For a name that every object
    inherits ("constructor", "toString" and the like) and that has no
    entry, the code reads a function where this gives [None]; the
    statements that depend on the difference exclude these names. *)
Definition cached (e : Entity) (property : string) : option PropertyValue :=
  match e_properties e with
  | Some props => props !! property
  | None => None
  end.

(** What [updateEntityProperty] leaves behind: the result, the model
    after the call and the warnings logged. *)
Record Outcome : Type := mkOutcome {
  o_result : UpdateResult;
  o_model : t;
  o_warnings : list string
}.

(** [updateEntityProperty(entityId, property, value)] *)
Definition updateEntityProperty (m : t) (entityId property : string)
    (value : JSValue) : Outcome :=
  match getEntity m entityId with
  | None =>
      {| o_result :=
           {| ur_success := false;
              ur_entityId := entityId;
              ur_property := property;
              ur_oldValue := VUndefined;
              ur_newValue := value;
              ur_error := Some ("Entity '" +:+ entityId +:+ "' not found") |};
         o_model := m;
         o_warnings := [] |}
  | Some entity =>
      match e_properties entity, cached entity property with
      | Some props, Some pv =>
          let oldValue := pv_value pv in
          let props' := <[property := setCacheValue value pv]> props in
          let (contents', warnings) :=
            updateContents entityId property value (e_contents entity) in
          {| o_result :=
               {| ur_success := true;
                  ur_entityId := entityId;
                  ur_property := property;
                  ur_oldValue := oldValue;
                  ur_newValue := value;
                  ur_error := None |};
             o_model :=
               mutate m entityId (withState entity contents' (Some props'));
             o_warnings := warnings |}
      | _, _ =>
          {| o_result :=
               {| ur_success := false;
                  ur_entityId := entityId;
                  ur_property := property;
                  ur_oldValue := VUndefined;
                  ur_newValue := value;
                  ur_error :=
                    Some ("Property '" +:+ property +:+
                          "' does not exist on entity '" +:+ entityId +:+ "'") |};
             o_model := m;
             o_warnings := [] |}
      end
  end.

(** Reading back: the cached value and the current value of the first
    Property item of that name, as [updateEntityProperty] finds it. *)
Definition readCache (m : t) (entityId property : string) : option JSValue :=
  e ← getEntity m entityId; pv ← cached e property; Some (pv_value pv).

Definition findContent (m : t) (entityId property : string) : option Content :=
  e ← getEntity m entityId;
  cs ← e_contents e;
  snd <$> list_find (fun c => isPropertyNamed property c = true) cs.

Definition readContent (m : t) (entityId property : string) : option JSValue :=
  c_value <$> findContent m entityId property.

Definition readInitial (m : t) (entityId property : string) : option JSValue :=
  c_initialValue <$> findContent m entityId property.

End DTDLModel.

(** ** Errors (domain/errors.ts) *)

(** What a [throw] carries: a [DomainError] with its code, a plain
    [Error], the [RangeError] of the engine, or a value that is not an
    [Error], with the text that [String(value)] gives. *)
Inductive Exn : Type :=
| DomainError (message code : string)
| PlainError (message : string)
| RangeError (message : string)
| NonError (text : string).

(** [new EntityNotFoundError(entityId)] *)
Definition EntityNotFoundError (entityId : string) : Exn :=
  DomainError ("Entity '" +:+ entityId +:+ "' not found") "ENTITY_NOT_FOUND".

(** The outcome of a call that may throw. *)
Inductive Result (A : Type) : Type :=
| Ok (a : A)
| Throw (e : Exn).
Arguments Ok {A} a.
Arguments Throw {A} e.

Definition exnCode (e : Exn) : option string :=
  match e with
  | DomainError _ code => Some code
  | PlainError _ => None
  | RangeError _ => None
  | NonError _ => None
  end.

(** ** Regular expressions, with JavaScript's backtracking order *)

Module Regex.

(** The fragment the sources use. [Lit] compares exactly, [LitI] without
    regard to case; [Chr], [Star] and [Plus] take a character class;
    quantifiers are greedy and alternatives are tried left to right. *)
Inductive t : Type :=
| Lit (s : string)
| LitI (s : string)
| Chr (cls : ascii -> bool)
| Star (cls : ascii -> bool)
| Plus (cls : ascii -> bool)
| Seq (a b : t)
| Alt (a b : t)
| Opt (a : t)
| Group (n : nat) (a : t)
| Eos.

Definition Captures : Type := gmap nat string.

Fixpoint stripPrefix (eqc : ascii -> ascii -> bool) (p s : string)
    : option string :=
  match p, s with
  | EmptyString, _ => Some s
  | String a p', String b s' =>
      if eqc a b then stripPrefix eqc p' s' else None
  | String _ _, EmptyString => None
  end.

Definition eqCase (a b : ascii) : bool := Ascii.eqb a b.
Definition eqNoCase (a b : ascii) : bool :=
  Ascii.eqb (JSString.lowerChar a) (JSString.lowerChar b).

(** Greedy [C*]: the longest run first, then shorter ones. *)
Fixpoint star {A : Type} (cls : ascii -> bool) (s : string)
    (k : string -> option A) : option A :=
  match s with
  | String c r =>
      if cls c then
        match star cls r k with
        | Some x => Some x
        | None => k s
        end
      else k s
  | EmptyString => k s
  end.

(** The text a sub-match consumed: [s] without its suffix [rest]. *)
Definition consumed (s rest : string) : string :=
  substring 0 (String.length s - String.length rest) s.

(** [run r s caps k]: match [r] at the start of [s], then go on with [k]
    on the rest; the first success in backtracking order is the answer. *)
Fixpoint run (r : t) (s : string) (caps : Captures)
    (k : string -> Captures -> option Captures) : option Captures :=
  match r with
  | Lit p =>
      match stripPrefix eqCase p s with
      | Some s' => k s' caps
      | None => None
      end
  | LitI p =>
      match stripPrefix eqNoCase p s with
      | Some s' => k s' caps
      | None => None
      end
  | Chr cls =>
      match s with
      | String c s' => if cls c then k s' caps else None
      | EmptyString => None
      end
  | Star cls => star cls s (fun s' => k s' caps)
  | Plus cls =>
      match s with
      | String c s' =>
          if cls c then star cls s' (fun s'' => k s'' caps) else None
      | EmptyString => None
      end
  | Seq a b => run a s caps (fun s' caps' => run b s' caps' k)
  | Alt a b =>
      match run a s caps k with
      | Some x => Some x
      | None => run b s caps k
      end
  | Opt a =>
      match run a s caps k with
      | Some x => Some x
      | None => k s caps
      end
  | Group n a =>
      run a s caps (fun s' caps' => k s' (<[n := consumed s s']> caps'))
  | Eos =>
      match s with
      | EmptyString => k s caps
      | String _ _ => None
      end
  end.

(** [s.match(/^r/)]: the capture groups of the match, if any. *)
Definition matchStart (r : t) (s : string) : option Captures :=
  run r s ∅ (fun _ caps => Some caps).

Fixpoint seq (rs : list t) : t :=
  match rs with
  | [] => Lit EmptyString
  | [r] => r
  | r :: rs' => Seq r (seq rs')
  end.

Fixpoint alt (r : t) (rs : list t) : t :=
  match rs with
  | [] => r
  | r' :: rs' => Alt r (alt r' rs')
  end.

End Regex.

(** ** [Number(s)] is not NaN *)

Module JSNumber.
Import Regex.

Definition isChar (c : ascii) (x : ascii) : bool := Ascii.eqb c x.
Definition isSign (x : ascii) : bool := isChar "+" x || isChar "-" x.
Definition isExpMark (x : ascii) : bool := isChar "e" x || isChar "E" x.
Definition isBin (x : ascii) : bool := isChar "0" x || isChar "1" x.
Definition isOct (x : ascii) : bool :=
  let n := JSString.code x in (48 <=? n)%nat && (n <=? 55)%nat.
Definition isHex (x : ascii) : bool :=
  let n := JSString.code x in
  JSString.isDigit x || ((97 <=? n)%nat && (n <=? 102)%nat)
  || ((65 <=? n)%nat && (n <=? 70)%nat).

Definition exponentPart : Regex.t :=
  Opt (seq [Chr isExpMark; Opt (Chr isSign); Plus JSString.isDigit]).

(** ECMAScript's StrDecimalLiteral *)
Definition strDecimalLiteral : Regex.t :=
  Seq (Opt (Chr isSign))
    (alt (Lit "Infinity")
       [seq [Plus JSString.isDigit; Chr (isChar ".");
             Star JSString.isDigit; exponentPart];
        seq [Chr (isChar "."); Plus JSString.isDigit; exponentPart];
        seq [Plus JSString.isDigit; exponentPart]]).

(** ECMAScript's NonDecimalIntegerLiteral *)
Definition nonDecimalIntegerLiteral : Regex.t :=
  alt (seq [Chr (isChar "0"); LitI "b"; Plus isBin])
    [seq [Chr (isChar "0"); LitI "o"; Plus isOct];
     seq [Chr (isChar "0"); LitI "x"; Plus isHex]].

(** ECMAScript's StringNumericLiteral: the strings [Number] turns into a
    number; the empty and the all-blank string give 0. *)
Definition stringNumericLiteral : Regex.t :=
  seq [Star JSString.isSpace;
       Opt (Alt nonDecimalIntegerLiteral strDecimalLiteral);
       Star JSString.isSpace; Eos].

(** [!isNaN(Number(s))] *)
Definition isNumeric (s : string) : bool :=
  match matchStart stringNumericLiteral s with
  | Some _ => true
  | None => false
  end.

End JSNumber.

(** ** Entity resolver (infrastructure/resolvers/EntityResolver.ts) *)

Module EntityResolver.
Import JSString.

(** [reference.toLowerCase().replace(/\s+/g, "_").trim()] *)
Definition normalize (reference : string) : string :=
  trim (replaceRuns isSpace "_" false (toLowerCase reference)).

(** [[_\s]] *)
Definition isSeparator (c : ascii) : bool := Ascii.eqb c "_" || isSpace c.

Definition nonEmpty (p : string) : bool :=
  negb (String.length p =? 0)%nat.

(** [normalized.split(/[_\s]+/).filter(p => p.length > 0)] *)
Definition parts (normalized : string) : list string :=
  List.filter nonEmpty (split isSeparator normalized).

(** [Array.prototype.find] *)
Definition find {A : Type} (f : A -> bool) (l : list A) : option A :=
  List.find f l.

(** [parts.every((part) => entityIdLower.includes(part))] *)
Definition allPartsIn (ps : list string) (e : Entity) : bool :=
  forallb (fun part => includes (toLowerCase (e_id e)) part) ps.

(** The pattern of the typed stage, with the [i] flag (written here with
    [{0,}] for the star):
    [^(haul\s{0,})?(truck|loader|route|stockpile|mill|layout)\s{0,}(cat\s{0,})?(\d+|[a-z]+)(\s{0,}(\d+))?$] *)
Definition typePattern : Regex.t :=
  Regex.seq
    [Regex.Opt (Regex.Group 1 (Regex.Seq (Regex.LitI "haul") (Regex.Star isSpace)));
     Regex.Group 2
       (Regex.alt (Regex.LitI "truck")
          [Regex.LitI "loader"; Regex.LitI "route"; Regex.LitI "stockpile";
           Regex.LitI "mill"; Regex.LitI "layout"]);
     Regex.Star isSpace;
     Regex.Opt (Regex.Group 3 (Regex.Seq (Regex.LitI "cat") (Regex.Star isSpace)));
     Regex.Group 4 (Regex.Alt (Regex.Plus isDigit) (Regex.Plus isAlpha));
     Regex.Opt
       (Regex.Group 5
          (Regex.Seq (Regex.Star isSpace) (Regex.Group 6 (Regex.Plus isDigit))));
     Regex.Eos].

(** The type word of the reference as a model type. *)
Definition typeName (type : string) : string :=
  if String.eqb type "truck" then "HaulTruck"
  else if String.eqb type "loader" then "Loader"
  else if String.eqb type "route" then "HaulRoute"
  else if String.eqb type "stockpile" then "Stockpile"
  else if String.eqb type "mill" then "Mill"
  else if String.eqb type "layout" then "MineLayout"
  else toUpperCase (charAt0 type) +:+ slice1 type.

(** A capture group that did not take part in the match is [undefined],
    and reads as the empty string where the code only tests or
    lower-cases it. *)
Definition group (caps : Regex.Captures) (n : nat) : string :=
  default EmptyString (caps !! n).

(** [p.length > 1 && !isNaN(Number(p)) || p.match(/[a-z]{2,}/i)] *)
Fixpoint hasTwoLetters (s : string) : bool :=
  match s with
  | String a ((String b _) as r) => (isAlpha a && isAlpha b) || hasTwoLetters r
  | _ => false
  end.

Definition isKeyPart (p : string) : bool :=
  ((1 <? String.length p)%nat && JSNumber.isNumeric p) || hasTwoLetters p.

(** [normalized.split(/[_\s]+/).filter(...)] of the last stage. *)
Definition keyParts (normalized : string) : list string :=
  List.filter isKeyPart (split isSeparator normalized).

(** [keyParts.filter(part => entityIdLower.includes(part)).length] *)
Definition matches (kps : list string) (e : Entity) : nat :=
  List.length (List.filter (fun part => includes (toLowerCase (e_id e)) part) kps).

(** The six stages of [resolve], each as the entity it finds. *)

(** Exact match on the reference as given. *)
Definition stageExact (reference : string) (model : DTDLModel.t)
    : option Entity :=
  DTDLModel.getEntity model reference.

(** Exact match on the normalized reference. *)
Definition stageNormalized (reference : string) (model : DTDLModel.t)
    : option Entity :=
  DTDLModel.getEntity model (normalize reference).

(** Case-insensitive match. *)
Definition stageCaseInsensitive (reference : string) (model : DTDLModel.t)
    : option Entity :=
  find (fun e => String.eqb (toLowerCase (e_id e)) (normalize reference))
    (DTDLModel.getAllEntities model).

(** Partial match: all parts of the reference occur in the id. *)
Definition stagePartial (reference : string) (model : DTDLModel.t)
    : option Entity :=
  let ps := parts (normalize reference) in
  if (0 <? List.length ps)%nat
  then find (allPartsIn ps) (DTDLModel.getAllEntities model)
  else None.

(** Match by type and identifier. *)
Definition stageTyped (reference : string) (model : DTDLModel.t)
    : option Entity :=
  match Regex.matchStart typePattern (normalize reference) with
  | Some caps =>
      let type := group caps 2 in
      let identifier := group caps 4 in
      let subIdentifier := group caps 6 in
      let typeEntities := DTDLModel.getEntitiesByType model (typeName type) in
      if nonEmpty subIdentifier then
        find (fun e =>
                let idLower := toLowerCase (e_id e) in
                includes idLower (toLowerCase identifier)
                && includes idLower (toLowerCase subIdentifier))
          typeEntities
      else
        find (fun e => includes (toLowerCase (e_id e)) (toLowerCase identifier))
          typeEntities
  | None => None
  end.

(** Fuzzy match on the key parts. *)
Definition stageFuzzy (reference : string) (model : DTDLModel.t)
    : option Entity :=
  let kps := keyParts (normalize reference) in
  if (0 <? List.length kps)%nat
  then find (fun e => (Nat.min 2 (List.length kps) <=? matches kps e)%nat)
         (DTDLModel.getAllEntities model)
  else None.

Inductive Stage : Type :=
| Exact | Normalized | CaseInsensitive | Partial | Typed | Fuzzy.

Definition stageFn (s : Stage) : string -> DTDLModel.t -> option Entity :=
  match s with
  | Exact => stageExact
  | Normalized => stageNormalized
  | CaseInsensitive => stageCaseInsensitive
  | Partial => stagePartial
  | Typed => stageTyped
  | Fuzzy => stageFuzzy
  end.

(** The order in which [resolve] goes through the stages. *)
Definition cascade : list Stage :=
  [Exact; Normalized; CaseInsensitive; Partial; Typed; Fuzzy].

(** [resolve(reference, model)] *)
Definition resolve (reference : string) (model : DTDLModel.t)
    : Result Entity :=
  match stageExact reference model with
  | Some entity => Ok entity
  | None =>
  match stageNormalized reference model with
  | Some entity => Ok entity
  | None =>
  match stageCaseInsensitive reference model with
  | Some entity => Ok entity
  | None =>
  match stagePartial reference model with
  | Some entity => Ok entity
  | None =>
  match stageTyped reference model with
  | Some entity => Ok entity
  | None =>
  match stageFuzzy reference model with
  | Some entity => Ok entity
  | None => Throw (EntityNotFoundError reference)
  end end end end end end.

(** The stage that answers, for the statements about the cascade: the
    first stage of [stages] that finds an entity, with that entity. *)
Fixpoint firstHit (stages : list Stage) (reference : string)
    (model : DTDLModel.t) : option (Stage * Entity) :=
  match stages with
  | [] => None
  | s :: rest =>
      match stageFn s reference model with
      | Some e => Some (s, e)
      | None => firstHit rest reference model
      end
  end.

(** The [filter] argument of [resolveBulk]. *)
Record RelationshipFilter : Type := mkRelationshipFilter {
  rf_name : string;
  rf_targetId : string
}.

Record BulkUpdateFilter : Type := mkBulkUpdateFilter {
  bf_type : option string;
  bf_relationship : option RelationshipFilter
}.

(** A string in a condition: [undefined] and the empty string are falsy. *)
Definition truthy (s : option string) : bool :=
  match s with
  | Some x => nonEmpty x
  | None => false
  end.

Definition optEqb (a b : option string) : bool :=
  match a, b with
  | Some x, Some y => String.eqb x y
  | None, None => true
  | _, _ => false
  end.

(** [e.relationships[name] === targetId] under [if (!e.relationships)
    return false] *)
Definition related (rf : RelationshipFilter) (e : Entity) : bool :=
  match e_relationships e with
  | None => false
  | Some rels => optEqb (rels !! rf_name rf) (Some (rf_targetId rf))
  end.

(** [resolveBulk(reference, model, filter)] *)
Definition resolveBulk (reference : string) (model : DTDLModel.t)
    (filter : option BulkUpdateFilter) : Result (list Entity) :=
  if includes (toLowerCase reference) "all" then
    let entities := DTDLModel.getAllEntities model in
    let entities :=
      match filter with
      | Some f =>
          if truthy (bf_type f)
          then List.filter (fun e => optEqb (e_type e) (bf_type f)) entities
          else entities
      | None => entities
      end in
    let entities :=
      match filter with
      | Some f =>
          match bf_relationship f with
          | Some rf => List.filter (related rf) entities
          | None => entities
          end
      | None => entities
      end in
    Ok entities
  else
    match resolve reference model with
    | Ok e => Ok [e]
    | Throw x => Throw x
    end.

End EntityResolver.


(** ** Telemetry records (domain/TelemetryRecord.ts) *)

(** [TelemetryRecord]. [timestamp] is [timestamp.getTime()], milliseconds
    since the epoch; an optional field that is absent is [None];
    [rawData], the original JSON, is an opaque object. *)
Record TelemetryRecord : Type := mkTelemetryRecord {
  id : string;
  timestamp : Z;
  truckId : string;
  status : option string;
  payload : option float;
  speedMph : option float;
  posX : option float;
  posY : option float;
  posZ : option float;
  headingDeg : option float;
  haulPhase : option string;
  haulPathId : option string;
  engineTemp : option float;
  fuelLevel : option float;
  fuelConsumptionRate : option float;
  brakePedalPos : option float;
  throttlePos : option float;
  vibrationLevel : option float;
  tirePressureFL : option float;
  tirePressureFR : option float;
  tirePressureRLO : option float;
  tirePressureRLI : option float;
  tirePressureRRO : option float;
  tirePressureRRI : option float;
  rawData : option nat
}.

Definition ofStr (o : option string) : JSValue :=
  match o with
  | Some s => VStr s
  | None => VUndefined
  end.

Definition ofNum (o : option float) : JSValue :=
  match o with
  | Some x => VNum x
  | None => VUndefined
  end.

Definition ofObj (o : option nat) : JSValue :=
  match o with
  | Some ref => VObj ref
  | None => VUndefined
  end.

(** [(record as any)[fieldName]]: the declared fields by name, anything
    else [undefined]. The [Date] of [timestamp] is an object. (A name
    that every object inherits gives a function in the code: it is no
    number either, but it is not [undefined].) *)
Definition getField (r : TelemetryRecord) (fieldName : string) : JSValue :=
  if String.eqb fieldName "id" then VStr (id r)
  else if String.eqb fieldName "timestamp" then VObj 0
  else if String.eqb fieldName "truckId" then VStr (truckId r)
  else if String.eqb fieldName "status" then ofStr (status r)
  else if String.eqb fieldName "payload" then ofNum (payload r)
  else if String.eqb fieldName "speedMph" then ofNum (speedMph r)
  else if String.eqb fieldName "posX" then ofNum (posX r)
  else if String.eqb fieldName "posY" then ofNum (posY r)
  else if String.eqb fieldName "posZ" then ofNum (posZ r)
  else if String.eqb fieldName "headingDeg" then ofNum (headingDeg r)
  else if String.eqb fieldName "haulPhase" then ofStr (haulPhase r)
  else if String.eqb fieldName "haulPathId" then ofStr (haulPathId r)
  else if String.eqb fieldName "engineTemp" then ofNum (engineTemp r)
  else if String.eqb fieldName "fuelLevel" then ofNum (fuelLevel r)
  else if String.eqb fieldName "fuelConsumptionRate"
    then ofNum (fuelConsumptionRate r)
  else if String.eqb fieldName "brakePedalPos" then ofNum (brakePedalPos r)
  else if String.eqb fieldName "throttlePos" then ofNum (throttlePos r)
  else if String.eqb fieldName "vibrationLevel" then ofNum (vibrationLevel r)
  else if String.eqb fieldName "tirePressureFL" then ofNum (tirePressureFL r)
  else if String.eqb fieldName "tirePressureFR" then ofNum (tirePressureFR r)
  else if String.eqb fieldName "tirePressureRLO" then ofNum (tirePressureRLO r)
  else if String.eqb fieldName "tirePressureRLI" then ofNum (tirePressureRLI r)
  else if String.eqb fieldName "tirePressureRRO" then ofNum (tirePressureRRO r)
  else if String.eqb fieldName "tirePressureRRI" then ofNum (tirePressureRRI r)
  else if String.eqb fieldName "rawData" then ofObj (rawData r)
  else VUndefined.

(** ** Property descriptors (domain/PropertyInfo.ts) *)

Inductive InfoType : Type :=
| INumber | IString | IBoolean | IObject | IArray.

(** [DTDLPropertyInfo]; its [source] is ["dtdl"]. *)
Record DTDLPropertyInfo : Type := mkDTDLPropertyInfo {
  dp_name : string;
  dp_displayName : option string;
  dp_type : InfoType;
  dp_schema : Schema;
  dp_value : JSValue;
  dp_initialValue : JSValue;
  dp_writable : bool;
  dp_dtdlProperty : Content
}.

(** [TelemetryPropertyInfo]; its [source] is ["telemetry"]. *)
Record TelemetryPropertyInfo : Type := mkTelemetryPropertyInfo {
  tp_name : string;
  tp_type : InfoType;
  tp_units : option string;
  tp_telemetryField : string
}.

(** [PropertyInfo = DTDLPropertyInfo | TelemetryPropertyInfo] *)
Inductive PropertyInfo : Type :=
| FromDTDL (p : DTDLPropertyInfo)
| FromTelemetry (p : TelemetryPropertyInfo).

Inductive Source : Type :=
| SourceDtdl | SourceTelemetry.

(** [property.source] *)
Definition source (p : PropertyInfo) : Source :=
  match p with
  | FromDTDL _ => SourceDtdl
  | FromTelemetry _ => SourceTelemetry
  end.

(** [property.name] *)
Definition infoName (p : PropertyInfo) : string :=
  match p with
  | FromDTDL d => dp_name d
  | FromTelemetry t => tp_name t
  end.

(** [property.units]: a DTDL descriptor has no such field. *)
Definition infoUnits (p : PropertyInfo) : option string :=
  match p with
  | FromDTDL _ => None
  | FromTelemetry t => tp_units t
  end.

(** ** Resolved queries (domain/ResolvedQuery.ts, domain/QueryIntent.ts) *)

Inductive Intent : Type :=
| GetProperty | Aggregate | Count | Current | Relationship.

Inductive Operation : Type :=
| Average | Max | Min | Sum.

(** [TimeWindow] *)
Record TimeWindow : Type := mkTimeWindow {
  tw_minutes : float;
  tw_startTime : option Z;
  tw_endTime : option Z
}.

(** [ResolvedQuery.filters] *)
Record Filters : Type := mkFilters {
  f_sourcePath : option string;
  f_destinationPath : option string;
  f_relationshipName : option string;
  f_relationshipTarget : option string
}.

Inductive DataSource : Type :=
| DataDtdl | DataTelemetry | DataBoth.

(** [ResolvedQuery] *)
Record ResolvedQuery : Type := mkResolvedQuery {
  rq_intent : Intent;
  rq_targetEntity : Entity;
  rq_property : option PropertyInfo;
  rq_operation : option Operation;
  rq_timeWindow : TimeWindow;
  rq_filters : option Filters;
  rq_dataSource : option DataSource
}.

(** [resolvedQuery.filters?.sourcePath] and [...?.destinationPath] *)
Definition sourcePathOf (q : ResolvedQuery) : option string :=
  match rq_filters q with
  | Some f => f_sourcePath f
  | None => None
  end.

Definition destinationPathOf (q : ResolvedQuery) : option string :=
  match rq_filters q with
  | Some f => f_destinationPath f
  | None => None
  end.

(** ** Query results (services/executors/IQueryExecutor.ts) *)

Record Metadata : Type := mkMetadata {
  md_recordCount : option nat;
  md_timeWindow : option TimeWindow
}.

(** [QueryResult] *)
Record QueryResult : Type := mkQueryResult {
  qr_value : JSValue;
  qr_units : string;
  qr_metadata : option Metadata
}.

(** [result.metadata?.recordCount] *)
Definition recordCount (r : QueryResult) : option nat :=
  match qr_metadata r with
  | Some md => md_recordCount md
  | None => None
  end.

(** ** Count executor (services/executors/CountExecutor.ts) *)

Module CountExecutor.

Definition canHandle (intent : Intent) : bool :=
  match intent with
  | Count => true
  | _ => false
  end.

(** [record.haulPathId === path] *)
Definition onPath (record : TelemetryRecord) (path : string) : bool :=
  match haulPathId record with
  | Some p => String.eqb p path
  | None => false
  end.

(** The loop of [countTripsBetweenPaths], from the state
    [(tripCount, wasOnSource)]. *)
Fixpoint betweenLoop (sourcePath destinationPath : string)
    (telemetry : list TelemetryRecord) (tripCount : nat) (wasOnSource : bool)
    : nat :=
  match telemetry with
  | [] => tripCount
  | record :: rest =>
      let isOnSource := onPath record sourcePath in
      let isOnDestination := onPath record destinationPath in
      if isOnSource then
        betweenLoop sourcePath destinationPath rest tripCount true
      else if isOnDestination && wasOnSource then
        betweenLoop sourcePath destinationPath rest (S tripCount) false
      else
        betweenLoop sourcePath destinationPath rest tripCount wasOnSource
  end.

(** [countTripsBetweenPaths(telemetry, sourcePath, destinationPath)] *)
Definition countTripsBetweenPaths (telemetry : list TelemetryRecord)
    (sourcePath destinationPath : string) : nat :=
  betweenLoop sourcePath destinationPath telemetry 0 false.

(** The loop of [countTripsOnPath], from the state [(tripCount, wasOnPath)]. *)
Fixpoint onPathLoop (pathId : string) (telemetry : list TelemetryRecord)
    (tripCount : nat) (wasOnPath : bool) : nat :=
  match telemetry with
  | [] => tripCount
  | record :: rest =>
      let isOnPath := onPath record pathId in
      onPathLoop pathId rest
        (if isOnPath && negb wasOnPath then S tripCount else tripCount)
        isOnPath
  end.

(** [countTripsOnPath(telemetry, pathId)] *)
Definition countTripsOnPath (telemetry : list TelemetryRecord)
    (pathId : string) : nat :=
  onPathLoop pathId telemetry 0 false.

(** [currentPathId && currentPathId !== lastPathId] *)
Definition pathChanged (currentPathId lastPathId : option string) : bool :=
  EntityResolver.truthy currentPathId
  && negb (EntityResolver.optEqb currentPathId lastPathId).

(** The loop of [countAllPathEntries], from the state
    [(tripCount, lastPathId)]. *)
Fixpoint allEntriesLoop (telemetry : list TelemetryRecord) (tripCount : nat)
    (lastPathId : option string) : nat :=
  match telemetry with
  | [] => tripCount
  | record :: rest =>
      let currentPathId := haulPathId record in
      allEntriesLoop rest
        (if pathChanged currentPathId lastPathId then S tripCount else tripCount)
        currentPathId
  end.

(** [countAllPathEntries(telemetry)] *)
Definition countAllPathEntries (telemetry : list TelemetryRecord) : nat :=
  allEntriesLoop telemetry 0 None.

(** The three ways of counting, as [execute] chooses among them. *)
Inductive Mode : Type :=
| Between (sourcePath destinationPath : string)
| OnPath (sourcePath : string)
| AllEntries.

(** [if (sourcePath && destinationPath && sourcePath !== destinationPath)
    ... else if (sourcePath) ... else ...] *)
Definition mode (sourcePath destinationPath : option string) : Mode :=
  match sourcePath, destinationPath with
  | Some s, Some d =>
      if EntityResolver.nonEmpty s && EntityResolver.nonEmpty d
         && negb (String.eqb s d)
      then Between s d
      else if EntityResolver.nonEmpty s then OnPath s else AllEntries
  | Some s, None =>
      if EntityResolver.nonEmpty s then OnPath s else AllEntries
  | None, _ => AllEntries
  end.

Definition count (telemetry : list TelemetryRecord) (m : Mode) : nat :=
  match m with
  | Between s d => countTripsBetweenPaths telemetry s d
  | OnPath s => countTripsOnPath telemetry s
  | AllEntries => countAllPathEntries telemetry
  end.

(** [execute(resolvedQuery, telemetry)] *)
Definition execute (resolvedQuery : ResolvedQuery)
    (telemetry : list TelemetryRecord) : QueryResult :=
  if (List.length telemetry =? 0)%nat then
    {| qr_value := VNum 0%float;
       qr_units := "trips";
       qr_metadata :=
         Some {| md_recordCount := Some 0%nat; md_timeWindow := None |} |}
  else
    let sourcePath := sourcePathOf resolvedQuery in
    let destinationPath := destinationPathOf resolvedQuery in
    let count := count telemetry (mode sourcePath destinationPath) in
    {| qr_value := VNum (numOfNat count);
       qr_units := "trips";
       qr_metadata :=
         Some {| md_recordCount := Some (List.length telemetry);
                 md_timeWindow := Some (rq_timeWindow resolvedQuery) |} |}.

End CountExecutor.

(** ** [Math.max] and [Math.min] over an array of numbers *)

Module JSMath.

Definition isPosZero (x : float) : bool :=
  PrimFloat.is_zero x && negb (PrimFloat.get_sign x).
Definition isNegZero (x : float) : bool :=
  PrimFloat.is_zero x && PrimFloat.get_sign x.

(** [Math.max] of the values: NaN if any value is NaN, else the
    largest, from [-Infinity], with [+0] above [-0]. The call that
    spreads an array into it is [spread], below. *)
Definition maxStep (highest number : float) : float :=
  if (isPosZero number && isNegZero highest) || PrimFloat.ltb highest number
  then number else highest.

Definition max (values : list float) : float :=
  if existsb PrimFloat.is_nan values then PrimFloat.nan
  else fold_left maxStep values PrimFloat.neg_infinity.

(** [Math.min] of the values *)
Definition minStep (lowest number : float) : float :=
  if (isNegZero number && isPosZero lowest) || PrimFloat.ltb number lowest
  then number else lowest.

Definition min (values : list float) : float :=
  if existsb PrimFloat.is_nan values then PrimFloat.nan
  else fold_left minStep values PrimFloat.infinity.

(** [values.reduce((sum, val) => sum + val, 0)] *)
Definition sum (values : list float) : float :=
  fold_left PrimFloat.add values 0%float.

(** What the engine throws when the arguments of a call do not fit on
    its stack. *)
Definition stackExceeded : Exn :=
  RangeError "Maximum call stack size exceeded".

(** [f(...values)], a call whose arguments are spread from an array. The
    engine passes the arguments on its stack and throws a [RangeError]
    when there are more than fit. [argumentLimit], the number of
    arguments that fit at the call, belongs to the engine and not to the
    program. *)
Definition spread {A : Type} (argumentLimit : nat) (f : list float -> A)
    (values : list float) : Result A :=
  if (List.length values <=? argumentLimit)%nat then Ok (f values)
  else Throw stackExceeded.

End JSMath.

(** The factor from miles per hour to kilometres per hour. *)
Definition MPH_TO_KMH : float := 1.60934%float.

(** ** Aggregate executor (services/executors/AggregateExecutor.ts) *)

Module AggregateExecutor.
Import JSString.

Definition canHandle (intent : Intent) : bool :=
  match intent with
  | Aggregate => true
  | _ => false
  end.

(** [TelemetryService.calculateRouteUtilization(records, timeWindowMinutes)] *)
Definition calculateRouteUtilization (records : list TelemetryRecord)
    (timeWindowMinutes : float) : float :=
  if (List.length records =? 0)%nat then 0%float
  else
    let totalMinutes := timeWindowMinutes in
    let utilizationMinutes := numOfNat (List.length records) in
    PrimFloat.mul (PrimFloat.div utilizationMinutes totalMinutes) 100%float.

(** [telemetryProperty.telemetryField || telemetryProperty.name] *)
Definition fieldOf (t : TelemetryPropertyInfo) : string :=
  if EntityResolver.nonEmpty (tp_telemetryField t)
  then tp_telemetryField t else tp_name t.

(** [getAggregateField(resolvedQuery)] *)
Definition getAggregateField (resolvedQuery : ResolvedQuery) : string :=
  match rq_property resolvedQuery with
  | Some (FromTelemetry t) => fieldOf t
  | _ => "speedMph"
  end.

(** [extractValues(telemetry, fieldName)] *)
Fixpoint extractValues (telemetry : list TelemetryRecord) (fieldName : string)
    : list float :=
  match telemetry with
  | [] => []
  | record :: rest =>
      match getField record fieldName with
      | VNum value =>
          if negb (PrimFloat.is_nan value) then
            (if String.eqb fieldName "speedMph"
             then PrimFloat.mul value MPH_TO_KMH
             else value) :: extractValues rest fieldName
          else extractValues rest fieldName
      | _ => extractValues rest fieldName
      end
  end.

(** [getUnitsForProperty(property)], [property] possibly [undefined]. *)
Definition getUnitsForProperty (property : option PropertyInfo) : string :=
  match property with
  | Some p =>
      if EntityResolver.truthy (infoUnits p) then default "" (infoUnits p)
      else
        let propertyName := toLowerCase (infoName p) in
        if includes propertyName "speed" then "km/h"
        else if includes propertyName "temp"
                || includes propertyName "temperature" then "Â°F"
        else if includes propertyName "level"
                || includes propertyName "fuel" then "%"
        else ""
  | None => ""
  end.

(** [resolvedQuery.operation === "average" && !resolvedQuery.property &&
    resolvedQuery.filters?.sourcePath && this.telemetryService &&
    resolvedQuery.timeWindow] *)
Definition isRouteUtilization (telemetryService : bool)
    (resolvedQuery : ResolvedQuery) : bool :=
  match rq_operation resolvedQuery, rq_property resolvedQuery with
  | Some Average, None =>
      EntityResolver.truthy (sourcePathOf resolvedQuery) && telemetryService
  | _, _ => false
  end.

(** The [switch] over the operation: the maximum and the minimum are
    calls with the values spread, [Math.max(...values)] and
    [Math.min(...values)]. *)
Definition aggregate (argumentLimit : nat) (op : Operation)
    (values : list float) : Result float :=
  match op with
  | Average =>
      Ok (PrimFloat.div (JSMath.sum values) (numOfNat (List.length values)))
  | Max => JSMath.spread argumentLimit JSMath.max values
  | Min => JSMath.spread argumentLimit JSMath.min values
  | Sum => Ok (JSMath.sum values)
  end.

(** [execute(resolvedQuery, telemetry)]; [telemetryService] tells whether
    the executor was built with a telemetry service, [argumentLimit] how
    many spread arguments the engine takes. *)
Definition execute (argumentLimit : nat) (telemetryService : bool)
    (resolvedQuery : ResolvedQuery)
    (telemetry : list TelemetryRecord) : Result QueryResult :=
  match rq_operation resolvedQuery with
  | None =>
      Throw (PlainError
        "Aggregate executor requires an operation (average, max, min, sum)")
  | Some op =>
      if (List.length telemetry =? 0)%nat then
        Ok {| qr_value := VNum 0%float;
              qr_units := getUnitsForProperty (rq_property resolvedQuery);
              qr_metadata :=
                Some {| md_recordCount := Some 0%nat;
                        md_timeWindow := None |} |}
      else if isRouteUtilization telemetryService resolvedQuery then
        let utilization :=
          calculateRouteUtilization telemetry
            (tw_minutes (rq_timeWindow resolvedQuery)) in
        Ok {| qr_value := VNum utilization;
              qr_units := "%";
              qr_metadata :=
                Some {| md_recordCount := Some (List.length telemetry);
                        md_timeWindow := Some (rq_timeWindow resolvedQuery) |} |}
      else
        let fieldName := getAggregateField resolvedQuery in
        let values := extractValues telemetry fieldName in
        if (List.length values =? 0)%nat then
          Ok {| qr_value := VNum 0%float;
                qr_units := getUnitsForProperty (rq_property resolvedQuery);
                qr_metadata :=
                  Some {| md_recordCount := Some (List.length telemetry);
                          md_timeWindow := None |} |}
        else
          match aggregate argumentLimit op values with
          | Throw e => Throw e
          | Ok result =>
              Ok {| qr_value := VNum result;
                    qr_units := getUnitsForProperty (rq_property resolvedQuery);
                    qr_metadata :=
                      Some {| md_recordCount := Some (List.length telemetry);
                              md_timeWindow :=
                                Some (rq_timeWindow resolvedQuery) |} |}
          end
  end.

End AggregateExecutor.

(** ** Property executor (services/executors/PropertyExecutor.ts) *)

Module PropertyExecutor.
Import JSString.

Definition canHandle (intent : Intent) : bool :=
  match intent with
  | GetProperty | Current => true
  | _ => false
  end.

(** [getUnitsForProperty(property)] *)
Definition getUnitsForProperty (property : PropertyInfo) : string :=
  if EntityResolver.truthy (infoUnits property)
  then default "" (infoUnits property)
  else
    let propertyName := toLowerCase (infoName property) in
    if includes propertyName "temp" || includes propertyName "temperature"
    then "°F"
    else if includes propertyName "level" || includes propertyName "fuel"
    then "%"
    else if includes propertyName "heading" then "degrees"
    else if includes propertyName "payload" then "tonnes"
    else if includes propertyName "speed"
            && match source property with
               | SourceTelemetry => true
               | SourceDtdl => false
               end
    then "km/h"
    else "".

(** Insertion of [x] into a list sorted by [cmp], before the first
    element it does not come after. *)
Fixpoint insertBy {A : Type} (cmp : A -> A -> Z) (x : A) (l : list A)
    : list A :=
  match l with
  | [] => [x]
  | y :: r => if (cmp x y <=? 0)%Z then x :: y :: r else y :: insertBy cmp x r
  end.

(** [[...l].sort(cmp)]: the sort is stable, so for a comparator that is
    an order the outcome is that of any stable sort; this is insertion
    from the right. *)
Definition sort {A : Type} (cmp : A -> A -> Z) (l : list A) : list A :=
  fold_right (insertBy cmp) [] l.

(** [(a, b) => b.timestamp.getTime() - a.timestamp.getTime()] *)
Definition byTimeDescending (a b : TelemetryRecord) : Z :=
  (timestamp b - timestamp a)%Z.

(** [fieldName === "speedMph" && typeof value === "number"], with the
    converted speed [value * 1.60934]. *)
Definition convertedSpeed (fieldName : string) (value : JSValue)
    : option float :=
  match value with
  | VNum x =>
      if String.eqb fieldName "speedMph"
      then Some (PrimFloat.mul x MPH_TO_KMH) else None
  | _ => None
  end.

(** The telemetry branch from the most recent record on. *)
Definition fromRecord (telemetryProperty : TelemetryPropertyInfo)
    (mostRecent : TelemetryRecord) (recordCount : nat) : QueryResult :=
  let fieldName := AggregateExecutor.fieldOf telemetryProperty in
  let value := getField mostRecent fieldName in
  let finalValue := coalesce value (VStr "N/A") in
  let units := getUnitsForProperty (FromTelemetry telemetryProperty) in
  match convertedSpeed fieldName value with
  | Some kmh =>
      {| qr_value := VNum kmh;
         qr_units := "km/h";
         qr_metadata :=
           Some {| md_recordCount := Some recordCount;
                   md_timeWindow := None |} |}
  | None =>
      {| qr_value := finalValue;
         qr_units := units;
         qr_metadata :=
           Some {| md_recordCount := Some recordCount;
                   md_timeWindow := None |} |}
  end.

(** [execute(resolvedQuery, telemetry)]. Reading a field of
    [sortedTelemetry[0]] when there is no such record would be a
    TypeError; the sorted copy of a non-empty array is never empty. *)
Definition execute (resolvedQuery : ResolvedQuery)
    (telemetry : list TelemetryRecord) : Result QueryResult :=
  match rq_property resolvedQuery with
  | None =>
      Throw (PlainError "Property executor requires a property to be resolved")
  | Some (FromDTDL dtdlProperty) =>
      Ok {| qr_value :=
              coalesce
                (coalesce (dp_value dtdlProperty) (dp_initialValue dtdlProperty))
                (VStr "N/A");
            qr_units := getUnitsForProperty (FromDTDL dtdlProperty);
            qr_metadata := None |}
  | Some (FromTelemetry telemetryProperty) =>
      if (List.length telemetry =? 0)%nat then
        Ok {| qr_value := VStr "N/A";
              qr_units := getUnitsForProperty (FromTelemetry telemetryProperty);
              qr_metadata :=
                Some {| md_recordCount := Some 0%nat;
                        md_timeWindow := None |} |}
      else
        match sort byTimeDescending telemetry with
        | mostRecent :: _ =>
            Ok (fromRecord telemetryProperty mostRecent (List.length telemetry))
        | [] => Throw (PlainError "TypeError: Cannot read properties of undefined")
        end
  end.

End PropertyExecutor.

(** ** Update validator (services/UpdateValidator.ts) *)

(** [PropertyConstraint]: a row of the constraint store
    (infrastructure/repositories/ConstraintRepository.ts). *)
Record PropertyConstraint : Type := mkPropertyConstraint {
  k_id : string;
  k_entityType : string;
  k_property : string;
  k_minValue : option float;
  k_maxValue : option float;
  k_readOnly : bool;
  k_editable : bool;
  k_allowedValues : option (list JSValue)
}.

Module UpdateValidator.

(** The reason of a rejection. Each constructor stands for one message
    of the source, with the values the message quotes:
    - [NoSuchProperty p id]: "Property 'p' does not exist on entity 'id'"
    - [ReadOnly p]: "Property 'p' is read-only"
    - [NotEditable p]: "Property 'p' is not editable"
    - [WrongType p t got]: "Property 'p' must be a t, got typeof newValue"
    - [BelowMinimum v min]: "Value v is below minimum min"
    - [AboveMaximum v max]: "Value v is above maximum max"
    - [NotAllowed v l]: "Value 'v' is not in allowed values: l" *)
Inductive Rejection : Type :=
| NoSuchProperty (property entityId : string)
| ReadOnly (property : string)
| NotEditable (property : string)
| WrongType (property : string) (expected : PropType) (got : JSType)
| BelowMinimum (numValue minValue : float)
| AboveMaximum (numValue maxValue : float)
| NotAllowed (newValue : JSValue) (allowedValues : list JSValue).

(** [ValidationResult] *)
Record ValidationResult : Type := mkValidationResult {
  valid : bool;
  error : option Rejection
}.

Definition accept : ValidationResult := {| valid := true; error := None |}.
Definition reject (r : Rejection) : ValidationResult :=
  {| valid := false; error := Some r |}.

(** [propertyDef.constraints?.readOnly], [?.min], [?.max] and
    [?.allowedValues] *)
Definition defReadOnly (propertyDef : PropertyValue) : bool :=
  match pv_constraints propertyDef with
  | Some c => default false (pc_readOnly c)
  | None => false
  end.

Definition defMin (propertyDef : PropertyValue) : option float :=
  match pv_constraints propertyDef with
  | Some c => pc_min c
  | None => None
  end.

Definition defMax (propertyDef : PropertyValue) : option float :=
  match pv_constraints propertyDef with
  | Some c => pc_max c
  | None => None
  end.

Definition defAllowedValues (propertyDef : PropertyValue)
    : option (list JSValue) :=
  match pv_constraints propertyDef with
  | Some c => pc_allowedValues c
  | None => None
  end.

(** [constraint?.x ?? y] *)
Definition orElse {A : Type} (constraint : option PropertyConstraint)
    (field : PropertyConstraint -> option A) (y : option A) : option A :=
  match constraint with
  | Some c =>
      match field c with
      | Some x => Some x
      | None => y
      end
  | None => y
  end.

(** [const minValue = constraint?.minValue ?? propertyDef.constraints?.min]
    and the like. *)
Definition minValueOf (constraint : option PropertyConstraint)
    (propertyDef : PropertyValue) : option float :=
  orElse constraint k_minValue (defMin propertyDef).

Definition maxValueOf (constraint : option PropertyConstraint)
    (propertyDef : PropertyValue) : option float :=
  orElse constraint k_maxValue (defMax propertyDef).

Definition allowedValuesOf (constraint : option PropertyConstraint)
    (propertyDef : PropertyValue) : option (list JSValue) :=
  orElse constraint k_allowedValues (defAllowedValues propertyDef).

(** [allowedValues.includes(newValue)] *)
Definition arrayIncludes (l : list JSValue) (v : JSValue) : bool :=
  existsb (sameValueZero v) l.

(** Check 3: editability. *)
Definition checkEditable (property : string)
    (constraint : option PropertyConstraint) (propertyDef : PropertyValue)
    : option Rejection :=
  if defReadOnly propertyDef then Some (ReadOnly property)
  else
    match constraint with
    | Some c =>
        if k_readOnly c || negb (k_editable c)
        then Some (NotEditable property) else None
    | None =>
        match pv_editable propertyDef with
        | Some false => Some (NotEditable property)
        | _ => None
        end
    end.

(** Check 4: the type of the value. *)
Definition checkType (property : string) (expectedType : PropType)
    (newValue : JSValue) : option Rejection :=
  match expectedType, typeof newValue with
  | PNumber, TNumber => None
  | PNumber, got => Some (WrongType property PNumber got)
  | PString, TString => None
  | PString, got => Some (WrongType property PString got)
  | PBoolean, TBoolean => None
  | PBoolean, got => Some (WrongType property PBoolean got)
  | PObject, _ => None
  end.

(** Check 5: the range of a number.
    [minValue !== undefined && numValue < minValue], then
    [maxValue !== undefined && numValue > maxValue]. *)
Definition belowMinimum (numValue : float) (minValue : option float)
    : option Rejection :=
  match minValue with
  | Some m =>
      if PrimFloat.ltb numValue m then Some (BelowMinimum numValue m) else None
  | None => None
  end.

Definition aboveMaximum (numValue : float) (maxValue : option float)
    : option Rejection :=
  match maxValue with
  | Some m =>
      if PrimFloat.ltb m numValue then Some (AboveMaximum numValue m) else None
  | None => None
  end.

Definition checkRange (expectedType : PropType)
    (constraint : option PropertyConstraint) (propertyDef : PropertyValue)
    (newValue : JSValue) : option Rejection :=
  match expectedType, newValue with
  | PNumber, VNum numValue =>
      match belowMinimum numValue (minValueOf constraint propertyDef) with
      | Some r => Some r
      | None => aboveMaximum numValue (maxValueOf constraint propertyDef)
      end
  | _, _ => None
  end.

(** Check 6: the allowed values. *)
Definition checkAllowed (constraint : option PropertyConstraint)
    (propertyDef : PropertyValue) (newValue : JSValue) : option Rejection :=
  match allowedValuesOf constraint propertyDef with
  | Some allowedValues =>
      if negb (arrayIncludes allowedValues newValue)
      then Some (NotAllowed newValue allowedValues) else None
  | None => None
  end.

Section WithRepository.

(** [constraintRepository.getConstraint(entityType, property)], for a
    store that answers: the row of the property, if there is one. *)
Variable getConstraint : string -> string -> option PropertyConstraint.

(** [entity.type || "Unknown"] *)
Definition entityTypeOf (entity : Entity) : string :=
  if EntityResolver.truthy (e_type entity)
  then default "Unknown" (e_type entity) else "Unknown".

(** [validate(entity, property, newValue)] *)
Definition validate (entity : Entity) (property : string)
    (newValue : JSValue) : ValidationResult :=
  match DTDLModel.cached entity property with
  | None => reject (NoSuchProperty property (e_id entity))
  | Some propertyDef =>
      let constraint := getConstraint (entityTypeOf entity) property in
      match checkEditable property constraint propertyDef with
      | Some r => reject r
      | None =>
      let expectedType := pv_type propertyDef in
      match checkType property expectedType newValue with
      | Some r => reject r
      | None =>
      match checkRange expectedType constraint propertyDef newValue with
      | Some r => reject r
      | None =>
      match checkAllowed constraint propertyDef newValue with
      | Some r => reject r
      | None => accept
      end end end end
  end.

(** [validateBulk(entities, property, newValue)] *)
Definition validateBulk (entities : list Entity) (property : string)
    (newValue : JSValue) : list ValidationResult :=
  map (fun entity => validate entity property newValue) entities.

End WithRepository.

End UpdateValidator.

(** ** Property resolver (services/PropertyResolver.ts) *)

Module PropertyResolver.
Import JSString.

(** [TELEMETRY_FIELDS], in the order of the source. Keys that a
    JavaScript object inherits from its prototype are not modelled. *)
Definition TELEMETRY_FIELDS : list (string * (InfoType * option string)) :=
  [("status", (IString, None));
   ("truckId", (IString, None));
   ("haulPathId", (IString, None));
   ("haulPhase", (IString, None));
   ("speedMph", (INumber, Some "mph"));
   ("posX", (INumber, None));
   ("posY", (INumber, None));
   ("posZ", (INumber, None));
   ("headingDeg", (INumber, Some "degrees"));
   ("payload", (INumber, Some "tonnes"));
   ("engineTemp", (INumber, Some "°F"));
   ("fuelLevel", (INumber, Some "%"));
   ("fuelConsumptionRate", (INumber, None));
   ("brakePedalPos", (INumber, Some "%"));
   ("throttlePos", (INumber, Some "%"));
   ("vibrationLevel", (INumber, None));
   ("tirePressureFL", (INumber, Some "psi"));
   ("tirePressureFR", (INumber, Some "psi"));
   ("tirePressureRLO", (INumber, Some "psi"));
   ("tirePressureRLI", (INumber, Some "psi"));
   ("tirePressureRRO", (INumber, Some "psi"));
   ("tirePressureRRI", (INumber, Some "psi"))].

(** [PROPERTY_NAME_VARIATIONS], in the order of the source. *)
Definition PROPERTY_NAME_VARIATIONS : list (string * list string) :=
  [("haulPathId", ["haul path id"; "haul path"; "path id"; "pathid";
                   "route id"; "routeid"; "current path"]);
   ("haulPhase", ["haul phase"; "phase"; "current phase"]);
   ("speedMph", ["speed"; "current speed"; "speed mph"; "velocity"]);
   ("maxSpeedKph", ["speed limit"; "max speed"; "maximum speed"; "maxspeed"]);
   ("status", ["status"; "current status"; "state"; "equipment status"]);
   ("engineTemp", ["engine temperature"; "engine temp"; "temperature";
                   "enginetemp"]);
   ("fuelLevel", ["fuel level"; "fuel"; "fuellevel"; "fuel percentage"]);
   ("fuelConsumptionRate", ["fuel consumption"; "fuel consumption rate";
                            "fuel rate"]);
   ("posX", ["position x"; "x position"; "x coordinate"; "pos x"]);
   ("posY", ["position y"; "y position"; "y coordinate"; "pos y"]);
   ("posZ", ["position z"; "z position"; "z coordinate"; "pos z"; "altitude"]);
   ("headingDeg", ["heading"; "direction"; "heading degrees"; "headingdeg"]);
   ("payload", ["payload"; "load"; "weight"; "tonnage"]);
   ("focusSnapDistanceMeters", ["focus snap distance"; "snap distance";
                                "focus distance"; "focussnapdistancemeters"]);
   ("builderCategory", ["builder category"; "category"; "buildercategory"]);
   ("builderIsPhysical", ["builder is physical"; "is physical"; "physical";
                          "builderisphysical"])].

(** [table[key]], among the entries of the table. (A key that every
    object inherits, such as "constructor", reads as a function in the
    code; the statements that depend on it exclude these keys.) *)
Fixpoint lookup {A : Type} (table : list (string * A)) (key : string)
    : option A :=
  match table with
  | [] => None
  | (k, v) :: r => if String.eqb k key then Some v else lookup r key
  end.

(** [PropertyResolutionResult] *)
Record PropertyResolutionResult : Type := mkPropertyResolutionResult {
  success : bool;
  property : option PropertyInfo;
  error : option string;
  suggestions : option (list string)
}.

Definition found (p : PropertyInfo) : PropertyResolutionResult :=
  {| success := true; property := Some p; error := None;
     suggestions := None |}.

Definition notFound (msg : string) : PropertyResolutionResult :=
  {| success := false; property := None; error := Some msg;
     suggestions := None |}.

(** [[_\s-]] *)
Definition isPunct (c : ascii) : bool :=
  Ascii.eqb c "_" || isSpace c || Ascii.eqb c "-".

(** [normalizePropertyName(name)] *)
Definition normalizePropertyName (name : string) : string :=
  replaceRuns isSpace "" false
    (replaceRuns isPunct "" false (trim (toLowerCase name))).

(** [createDTDLPropertyInfo(dtdlProperty)] *)
Definition createDTDLPropertyInfo (dtdlProperty : Content)
    : DTDLPropertyInfo :=
  let schema := c_schema dtdlProperty in
  let propType :=
    match schema with
    | SchemaName s =>
        if String.eqb s "double" || String.eqb s "float" || String.eqb s "int"
        then INumber
        else if String.eqb s "boolean" then IBoolean
        else if String.eqb s "Array" then IArray
        else if String.eqb s "Object" then IObject
        else IString
    | SchemaObject atType =>
        if String.eqb atType "Object" then IObject
        else if String.eqb atType "Array" then IArray
        else IString
    | SchemaAbsent => IString
    end in
  {| dp_name := c_name dtdlProperty;
     dp_displayName := c_displayName dtdlProperty;
     dp_type := propType;
     dp_schema := schema;
     dp_value :=
       match c_value dtdlProperty with
       | VUndefined => c_initialValue dtdlProperty
       | v => v
       end;
     dp_initialValue := c_initialValue dtdlProperty;
     dp_writable :=
       match c_writable dtdlProperty with
       | Some false => false
       | _ => true
       end;
     dp_dtdlProperty := dtdlProperty |}.

(** [variations.some(v => this.normalizePropertyName(v) === normalizedName)] *)
Definition someVariation (variations : list string) (normalizedName : string)
    : bool :=
  existsb (fun v => String.eqb (normalizePropertyName v) normalizedName)
    variations.

(** The three tests of [findPropertyInDTDL] on one Property item. *)
Definition dtdlMatches (propName normalizedName : string) : bool :=
  String.eqb (normalizePropertyName propName) normalizedName
  || someVariation (default [] (lookup PROPERTY_NAME_VARIATIONS propName))
       normalizedName
  || includes (toLowerCase propName) normalizedName
  || includes normalizedName (toLowerCase propName).

(** [findPropertyInDTDL(entity, normalizedName)] *)
Definition findPropertyInDTDL (entity : Entity) (normalizedName : string)
    : PropertyResolutionResult :=
  match e_contents entity with
  | None => notFound "Entity has no contents array"
  | Some contents =>
      match List.find
              (fun content =>
                 String.eqb (c_atType content) "Property"
                 && dtdlMatches (c_name content) normalizedName)
              contents with
      | Some content => found (FromDTDL (createDTDLPropertyInfo content))
      | None => notFound "Property not found in DTDL contents"
      end
  end.

Definition telemetryInfo (fieldName : string)
    (field : InfoType * option string) : PropertyInfo :=
  FromTelemetry
    {| tp_name := fieldName;
       tp_type := fst field;
       tp_units := snd field;
       tp_telemetryField := fieldName |}.

(** The second loop of [findPropertyInTelemetry]: the first entry of the
    variations table with a matching variation that names a telemetry
    field. *)
Fixpoint byVariation (table : list (string * list string))
    (normalizedName : string) : option PropertyInfo :=
  match table with
  | [] => None
  | (fieldName, variations) :: rest =>
      if someVariation variations normalizedName then
        match lookup TELEMETRY_FIELDS fieldName with
        | Some field => Some (telemetryInfo fieldName field)
        | None => byVariation rest normalizedName
        end
      else byVariation rest normalizedName
  end.

(** The third loop: the first field whose name contains the phrase or is
    contained in it. *)
Fixpoint byContainment (fields : list (string * (InfoType * option string)))
    (normalizedName : string) : option PropertyInfo :=
  match fields with
  | [] => None
  | (fieldName, field) :: rest =>
      if includes (toLowerCase fieldName) normalizedName
         || includes normalizedName (toLowerCase fieldName)
      then Some (telemetryInfo fieldName field)
      else byContainment rest normalizedName
  end.

(** [findPropertyInTelemetry(normalizedName)] *)
Definition findPropertyInTelemetry (normalizedName : string)
    : PropertyResolutionResult :=
  match lookup TELEMETRY_FIELDS normalizedName with
  | Some field => found (telemetryInfo normalizedName field)
  | None =>
      match byVariation PROPERTY_NAME_VARIATIONS normalizedName with
      | Some p => found p
      | None =>
          match byContainment TELEMETRY_FIELDS normalizedName with
          | Some p => found p
          | None => notFound "Property not found in telemetry schema"
          end
      end
  end.

(** One row of the matrix of [levenshteinDistance], after the first
    column: [diag] is [matrix[i-1][j-1]], [above] holds [matrix[i-1][j..]],
    [left] is [matrix[i][j-1]]. *)
Fixpoint levRow (c1 : ascii) (str2 : string) (diag : nat) (above : list nat)
    (left : nat) : list nat :=
  match str2, above with
  | String c2 r2, up :: above' =>
      let cell :=
        if Ascii.eqb c1 c2 then diag
        else Nat.min (Nat.min (up + 1) (left + 1)) (diag + 1) in
      cell :: levRow c1 r2 up above' cell
  | _, _ => []
  end.

(** The rows of the matrix, from row [i] on, given row [i-1]. *)
Fixpoint levRows (str1 str2 : string) (i : nat) (prev : list nat) : list nat :=
  match str1 with
  | EmptyString => prev
  | String c1 r1 =>
      match prev with
      | diag :: above => levRows r1 str2 (S i) (i :: levRow c1 str2 diag above i)
      | [] => []
      end
  end.

(** [levenshteinDistance(str1, str2)]: [matrix[len1][len2]] *)
Definition levenshteinDistance (str1 str2 : string) : nat :=
  List.last (levRows str1 str2 1 (seq 0 (S (String.length str2)))) 0.

(** The names of the Property items of the contents array. *)
Definition propertyNames (entity : Entity) : list string :=
  match e_contents entity with
  | Some contents =>
      map c_name
        (List.filter (fun content => String.eqb (c_atType content) "Property")
           contents)
  | None => []
  end.

(** [getSuggestions(entity, normalizedName)] *)
Definition getSuggestions (entity : Entity) (normalizedName : string)
    : list string :=
  let suggestions := propertyNames entity ++ map fst TELEMETRY_FIELDS in
  firstn 5
    (List.filter
       (fun suggestion =>
          let normalized := normalizePropertyName suggestion in
          includes normalized normalizedName
          || includes normalizedName normalized
          || (levenshteinDistance normalized normalizedName <=? 3)%nat)
       suggestions).

(** [resolveProperty(entity, naturalLanguageName)] *)
Definition resolveProperty (entity : Entity) (naturalLanguageName : string)
    : PropertyResolutionResult :=
  let normalized := normalizePropertyName naturalLanguageName in
  let dtdlResult := findPropertyInDTDL entity normalized in
  match success dtdlResult, property dtdlResult with
  | true, Some _ => dtdlResult
  | _, _ =>
      let telemetryResult := findPropertyInTelemetry normalized in
      match success telemetryResult, property telemetryResult with
      | true, Some _ => telemetryResult
      | _, _ =>
          {| success := false;
             property := None;
             error :=
               Some ("Property '" +:+ naturalLanguageName +:+
                     "' not found in DTDL model or telemetry schema");
             suggestions := Some (getSuggestions entity normalized) |}
      end
  end.

End PropertyResolver.

(** ** Schema resolver (services/SchemaResolver.ts) *)

Inductive Action : Type :=
| ActSet | ActUpdate | ActChange.

Inductive Scope : Type :=
| Single | Bulk.

(** [CommandIntent] (domain/CommandIntent.ts) *)
Record CommandIntent : Type := mkCommandIntent {
  ci_action : Action;
  ci_targetEntity : string;
  ci_property : string;
  ci_value : JSValue;
  ci_scope : option Scope;
  ci_filter : option EntityResolver.BulkUpdateFilter
}.

(** [ResolvedCommand] (domain/ResolvedQuery.ts) *)
Record ResolvedCommand : Type := mkResolvedCommand {
  rc_action : Action;
  rc_targetEntities : list Entity;
  rc_property : PropertyInfo;
  rc_value : JSValue;
  rc_scope : Scope;
  rc_filters : option EntityResolver.BulkUpdateFilter
}.

Module SchemaResolver.

(** [array.join(", ")] *)
Fixpoint join (l : list string) : string :=
  match l with
  | [] => ""
  | [x] => x
  | x :: r => x +:+ ", " +:+ join r
  end.

(** The PROPERTY_NOT_FOUND error built from a failed resolution. *)
Definition propertyNotFound (r : PropertyResolver.PropertyResolutionResult)
    : Exn :=
  let errorMsg :=
    if EntityResolver.truthy (PropertyResolver.error r)
    then default "" (PropertyResolver.error r) else "Property not found" in
  let suggestions :=
    match PropertyResolver.suggestions r with
    | Some l => " Available properties: " +:+ join l
    | None => ""
    end in
  DomainError (errorMsg +:+ "." +:+ suggestions) "PROPERTY_NOT_FOUND".

(** [intent.scope || (entities.length > 1 ? "bulk" : "single")] *)
Definition scopeOf (scope : option Scope) (entities : list Entity) : Scope :=
  match scope with
  | Some s => s
  | None => if (1 <? List.length entities)%nat then Bulk else Single
  end.

(** [resolveCommand(intent)], on the model [dtdlModel]. *)
Definition resolveCommand (dtdlModel : DTDLModel.t) (intent : CommandIntent)
    : Result ResolvedCommand :=
  match EntityResolver.resolveBulk (ci_targetEntity intent) dtdlModel
          (ci_filter intent) with
  | Throw e => Throw e
  | Ok [] =>
      Throw (DomainError
               ("No entities found matching '" +:+ ci_targetEntity intent +:+ "'")
               "ENTITY_NOT_FOUND")
  | Ok ((first :: _) as entities) =>
      let propertyResult :=
        PropertyResolver.resolveProperty first (ci_property intent) in
      match PropertyResolver.success propertyResult,
            PropertyResolver.property propertyResult with
      | true, Some property =>
          match source property with
          | SourceTelemetry =>
              Throw (DomainError
                ("Property '" +:+ ci_property intent +:+
                 "' is a telemetry field and cannot be modified. Only DTDL properties can be updated.")
                "PROPERTY_NOT_EDITABLE")
          | SourceDtdl =>
              Ok {| rc_action := ci_action intent;
                    rc_targetEntities := entities;
                    rc_property := property;
                    rc_value := ci_value intent;
                    rc_scope := scopeOf (ci_scope intent) entities;
                    rc_filters := ci_filter intent |}
          end
      | _, _ => Throw (propertyNotFound propertyResult)
      end
  end.

End SchemaResolver.

(** * Further parts of the service

    The conventions are those of the first part. In particular a table
    or an object used as a dictionary is read at its own keys: the
    members that every JavaScript object inherits from
    [Object.prototype] ("constructor", "toString", "__proto__" and the
    like) are no keys of the embedding, neither as the name that is
    asked for nor as the name of a property of an entity. *)

(** ** The twin model as JSON (domain/DTDLModel.ts) *)

(** [toJSON()] *)
Definition toJSON (m : DTDLModel.t) : list Entity := DTDLModel.getAllEntities m.

(** [static fromJSON(entities)] *)
Definition fromJSON (entities : list Entity) : DTDLModel.t :=
  DTDLModel.make entities.

(** ** Entities from the store (infrastructure/repositories/DTDLRepository.ts) *)

Module DTDLRepository.
Import JSString.

(** A row of the entity table, with the columns [mapToDomain] turns into
    the fields of the embedded [Entity]. *)
Record Row : Type := mkRow {
  r_id : string;
  r_dtdlId : string;
  r_displayName : option string;
  r_contents : option (list Content)
}.

(** The type of an entity from its display name, as [mapToDomain] and
    [computeType] derive it. *)
Definition typeOfDisplayName (displayName : string) : string :=
  if includes displayName "Haul Truck" then "HaulTruck"
  else if includes displayName "Loader" then "Loader"
  else if includes displayName "HaulPath" || includes displayName "Path"
  then "HaulRoute"
  else if includes displayName "Stockpile" then "Stockpile"
  else if includes displayName "Mine Layout" then "MineLayout"
  else
    let stripped := replaceRuns isSpace "" false displayName in
    if EntityResolver.nonEmpty stripped then stripped else "Unknown".

(** [computeType(entity)] *)
Definition computeType (entity : Entity) : string :=
  if EntityResolver.truthy (e_type entity) then default "" (e_type entity)
  else typeOfDisplayName (default "" (e_displayName entity)).

(** The cache entry [extractProperties] makes of a Property item. *)
Definition propertyEntry (content : Content) : PropertyValue :=
  let propValue :=
    match c_value content with
    | VUndefined => c_initialValue content
    | v => v
    end in
  let propType :=
    match c_schema content with
    | SchemaName s =>
        if String.eqb s "double" || String.eqb s "float" || String.eqb s "int"
        then PNumber
        else if String.eqb s "boolean" then PBoolean
        else PString
    | _ => PString
    end in
  {| pv_value :=
       match propValue with
       | VUndefined => VNull
       | v => v
       end;
     pv_type := propType;
     pv_editable :=
       Some match c_writable content with
            | Some false => false
            | _ => true
            end;
     pv_constraints := None |}.

(** One turn of the loop of [extractProperties]. *)
Definition addProperty (properties : gmap string PropertyValue)
    (content : Content) : gmap string PropertyValue :=
  if String.eqb (c_atType content) "Property"
  then <[c_name content := propertyEntry content]> properties
  else properties.

(** [extractProperties(contents)] *)
Definition extractProperties (contents : list Content)
    : gmap string PropertyValue :=
  fold_left addProperty contents ∅.

(** One turn of the loop of [extractRelationships]. *)
Definition addRelationship (relationships : gmap string string)
    (content : Content) : gmap string string :=
  if String.eqb (c_atType content) "Relationship" then
    match c_target content with
    | Some relTarget =>
        if EntityResolver.nonEmpty (c_name content)
           && EntityResolver.nonEmpty relTarget
        then <[c_name content := relTarget]> relationships
        else relationships
    | None => relationships
    end
  else relationships.

(** [extractRelationships(contents)] *)
Definition extractRelationships (contents : list Content)
    : gmap string string :=
  fold_left addRelationship contents ∅.

(** [mapToDomain(entity)] *)
Definition mapToDomain (row : Row) : Entity :=
  let contents := default [] (r_contents row) in
  let displayName :=
    if EntityResolver.truthy (r_displayName row)
    then default "" (r_displayName row) else "" in
  {| e_id := r_id row;
     e_dtdlId := r_dtdlId row;
     e_displayName := r_displayName row;
     e_contents := Some contents;
     e_type := Some (typeOfDisplayName displayName);
     e_properties := Some (extractProperties contents);
     e_relationships := Some (extractRelationships contents) |}.

(** The columns that [save] writes for an entity, in its [create] and in
    its [update]: the fields of the DTDL document, and none of the
    computed ones. *)
Definition savedRow (entity : Entity) : Row :=
  {| r_id := e_id entity;
     r_dtdlId := e_dtdlId entity;
     r_displayName := e_displayName entity;
     r_contents := e_contents entity |}.

End DTDLRepository.

(** ** Telemetry service (services/TelemetryService.ts) *)

Module TelemetryService.

(** [r.speedMph ? r.speedMph * 1.60934 : 0]: a speed that is 0 or NaN is
    falsy, as an absent one. *)
Definition speedKmh (r : TelemetryRecord) : float :=
  match speedMph r with
  | Some x =>
      if PrimFloat.is_zero x || PrimFloat.is_nan x then 0%float
      else PrimFloat.mul x MPH_TO_KMH
  | None => 0%float
  end.

(** [records.map(...).filter((s) => s > 0)] *)
Definition speeds (records : list TelemetryRecord) : list float :=
  List.filter (fun s => PrimFloat.ltb 0%float s) (map speedKmh records).

(** [calculateAverageSpeed(records)] *)
Definition calculateAverageSpeed (records : list TelemetryRecord) : float :=
  if (List.length records =? 0)%nat then 0%float
  else
    let speeds := speeds records in
    if (List.length speeds =? 0)%nat then 0%float
    else PrimFloat.div (JSMath.sum speeds) (numOfNat (List.length speeds)).

(** [calculateMaxSpeed(records)], which ends in [Math.max(...speeds)];
    [argumentLimit] is the number of spread arguments the engine takes. *)
Definition calculateMaxSpeed (argumentLimit : nat)
    (records : list TelemetryRecord) : Result float :=
  if (List.length records =? 0)%nat then Ok 0%float
  else
    let speeds := speeds records in
    if (List.length speeds =? 0)%nat then Ok 0%float
    else JSMath.spread argumentLimit JSMath.max speeds.

(** [calculateMinSpeed(records)], which ends in [Math.min(...speeds)] *)
Definition calculateMinSpeed (argumentLimit : nat)
    (records : list TelemetryRecord) : Result float :=
  if (List.length records =? 0)%nat then Ok 0%float
  else
    let speeds := speeds records in
    if (List.length speeds =? 0)%nat then Ok 0%float
    else JSMath.spread argumentLimit JSMath.min speeds.

(** The loop of [countTrips], from the state [(tripCount, wasOnSource)]. *)
Fixpoint tripsLoop (sourceRouteId destinationRouteId : string)
    (records : list TelemetryRecord) (tripCount : nat) (wasOnSource : bool)
    : nat :=
  match records with
  | [] => tripCount
  | record :: rest =>
      let isOnSource := CountExecutor.onPath record sourceRouteId in
      let isOnDestination := CountExecutor.onPath record destinationRouteId in
      if isOnSource then
        tripsLoop sourceRouteId destinationRouteId rest tripCount true
      else if isOnDestination && wasOnSource then
        tripsLoop sourceRouteId destinationRouteId rest (S tripCount) false
      else
        tripsLoop sourceRouteId destinationRouteId rest tripCount wasOnSource
  end.

(** [countTrips(records, sourceRouteId, destinationRouteId)] *)
Definition countTrips (records : list TelemetryRecord)
    (sourceRouteId destinationRouteId : string) : nat :=
  if (List.length records =? 0)%nat then 0
  else tripsLoop sourceRouteId destinationRouteId records 0 false.

(** The loop of [countTripsOnPath], from the state
    [(tripCount, wasOnPath)]. *)
Fixpoint pathLoop (pathId : string) (records : list TelemetryRecord)
    (tripCount : nat) (wasOnPath : bool) : nat :=
  match records with
  | [] => tripCount
  | record :: rest =>
      let isOnPath := CountExecutor.onPath record pathId in
      pathLoop pathId rest
        (if isOnPath && negb wasOnPath then S tripCount else tripCount)
        isOnPath
  end.

(** [countTripsOnPath(records, pathId)] *)
Definition countTripsOnPath (records : list TelemetryRecord) (pathId : string)
    : nat :=
  if (List.length records =? 0)%nat then 0
  else pathLoop pathId records 0 false.

(** [TelemetryMetrics], without the optional trip count that
    [calculateMetrics] does not set. *)
Record TelemetryMetrics : Type := mkTelemetryMetrics {
  averageSpeed : float;
  maxSpeed : float;
  minSpeed : float;
  tm_recordCount : nat
}.

(** [calculateMetrics(records)]: the fields are computed in the order
    of the object literal. *)
Definition calculateMetrics (argumentLimit : nat)
    (records : list TelemetryRecord) : Result TelemetryMetrics :=
  let average := calculateAverageSpeed records in
  match calculateMaxSpeed argumentLimit records with
  | Throw e => Throw e
  | Ok highest =>
      match calculateMinSpeed argumentLimit records with
      | Throw e => Throw e
      | Ok lowest =>
          Ok {| averageSpeed := average;
                maxSpeed := highest;
                minSpeed := lowest;
                tm_recordCount := List.length records |}
      end
  end.

End TelemetryService.

(** ** Executor registry (services/executors/QueryExecutorRegistry.ts) *)

(** [IQueryExecutor]: an executor with its three methods. *)
Record Executor : Type := mkExecutor {
  getName : string;
  canHandle : Intent -> bool;
  execute : ResolvedQuery -> list TelemetryRecord -> Result QueryResult
}.

(** [new PropertyExecutor()], [new AggregateExecutor(telemetryService)]
    and [new CountExecutor()]; [argumentLimit] is the number of spread
    arguments the engine takes. *)
Definition propertyExecutor : Executor :=
  {| getName := "PropertyExecutor";
     canHandle := PropertyExecutor.canHandle;
     execute := PropertyExecutor.execute |}.

Definition aggregateExecutor (argumentLimit : nat) (telemetryService : bool)
    : Executor :=
  {| getName := "AggregateExecutor";
     canHandle := AggregateExecutor.canHandle;
     execute := AggregateExecutor.execute argumentLimit telemetryService |}.

Definition countExecutor : Executor :=
  {| getName := "CountExecutor";
     canHandle := CountExecutor.canHandle;
     execute := fun q telemetry => Ok (CountExecutor.execute q telemetry) |}.

(** The text of an intent. *)
Definition intentText (intent : Intent) : string :=
  match intent with
  | GetProperty => "get_property"
  | Aggregate => "aggregate"
  | Count => "count"
  | Current => "current"
  | Relationship => "relationship"
  end.

Module QueryExecutorRegistry.

(** [private executors: IQueryExecutor[]] *)
Definition t : Type := list Executor.

Definition sameName (a b : Executor) : bool :=
  String.eqb (getName a) (getName b).

(** [register(executor)]: the registry after the call, and the warning
    logged when an executor of that name was there. *)
Definition register (executors : t) (executor : Executor) : t * list string :=
  match List.find (fun e => sameName e executor) executors with
  | Some _ =>
      (List.filter (fun e => negb (sameName e executor)) executors
         ++ [executor],
       ["Executor " +:+ getName executor +:+ " already registered. Replacing..."])
  | None => (executors ++ [executor], [])
  end.

(** [constructor(telemetryService)], on an engine that takes
    [argumentLimit] spread arguments. *)
Definition make (argumentLimit : nat) (telemetryService : bool) : t :=
  let r1 := fst (register [] propertyExecutor) in
  let r2 :=
    fst (register r1 (aggregateExecutor argumentLimit telemetryService)) in
  fst (register r2 countExecutor).

(** [getExecutor(resolvedQuery)] *)
Definition getExecutor (executors : t) (resolvedQuery : ResolvedQuery)
    : Result Executor :=
  match List.find (fun e => canHandle e (rq_intent resolvedQuery)) executors with
  | Some executor => Ok executor
  | None =>
      Throw (PlainError
        ("No executor found for intent type: "
         +:+ intentText (rq_intent resolvedQuery) +:+ ". "
         +:+ "Available executors: "
         +:+ SchemaResolver.join (map getName executors)))
  end.

(** [getAllExecutors()] *)
Definition getAllExecutors (executors : t) : list Executor := executors.

(** [getExecutorByName(name)] *)
Definition getExecutorByName (executors : t) (name : string)
    : option Executor :=
  List.find (fun e => String.eqb (getName e) name) executors.

End QueryExecutorRegistry.

(** ** Query intents (domain/QueryIntent.ts) and their resolution
    (services/SchemaResolver.ts, [resolveQuery]) *)

Inductive QuestionType : Type :=
| AverageSpeed | CurrentSpeed | TripCount | RouteUtilization
| MaxSpeed | MinSpeed | PropertyQuestion.

(** [QueryIntent] *)
Record QueryIntent : Type := mkQueryIntent {
  qi_questionType : QuestionType;
  qi_targetEntity : string;
  qi_timeWindow : TimeWindow;
  qi_sourcePath : option string;
  qi_destinationPath : option string;
  qi_propertyName : option string
}.

Module QueryResolution.
Import JSString.

(** [mapQuestionTypeToIntent(questionType)] *)
Definition mapQuestionTypeToIntent (questionType : QuestionType) : Intent :=
  match questionType with
  | AverageSpeed | MaxSpeed | MinSpeed => Aggregate
  | CurrentSpeed | PropertyQuestion => GetProperty
  | TripCount => Count
  | RouteUtilization => Aggregate
  end.

(** The object that stands for all entities in a route utilization
    query: [{ id: "ALL", displayName: "All entities" }]. It has no other
    field; [e_dtdlId], which nothing reads, is left empty. *)
Definition allEntities : Entity :=
  {| e_id := "ALL";
     e_dtdlId := "";
     e_displayName := Some "All entities";
     e_contents := None;
     e_type := None;
     e_properties := None;
     e_relationships := None |}.

(** The speed property [resolveQuery] falls back on. The object literal
    of the source also has a [displayName], "Speed", which is not a field
    of [TelemetryPropertyInfo] and which no executor reads. *)
Definition fallbackSpeed : PropertyInfo :=
  FromTelemetry
    {| tp_name := "speedMph"; tp_type := INumber; tp_units := Some "km/h";
       tp_telemetryField := "speedMph" |}.

Definition isCurrentSpeed (q : QuestionType) : bool :=
  match q with
  | CurrentSpeed => true
  | _ => false
  end.

Definition isRouteUtilization (q : QuestionType) : bool :=
  match q with
  | RouteUtilization => true
  | _ => false
  end.

(** Step 1: the entity. *)
Definition resolveEntity (dtdlModel : DTDLModel.t) (intent : QueryIntent)
    : Result Entity :=
  if isRouteUtilization (qi_questionType intent)
     && String.eqb (qi_targetEntity intent) "ALL"
  then Ok allEntities
  else EntityResolver.resolve (qi_targetEntity intent) dtdlModel.

(** Step 3: the property and the data source. *)
Definition resolveQueryProperty (entity : Entity) (intent : QueryIntent)
    : Result (option PropertyInfo * DataSource) :=
  if isCurrentSpeed (qi_questionType intent)
     && negb (EntityResolver.truthy (qi_propertyName intent))
  then
    let propertyResult := PropertyResolver.resolveProperty entity "speed" in
    match PropertyResolver.success propertyResult,
          PropertyResolver.property propertyResult with
    | true, Some property => Ok (Some property, DataTelemetry)
    | _, _ => Ok (Some fallbackSpeed, DataTelemetry)
    end
  else if EntityResolver.truthy (qi_propertyName intent) then
    let propertyResult :=
      PropertyResolver.resolveProperty entity
        (default "" (qi_propertyName intent)) in
    match PropertyResolver.success propertyResult,
          PropertyResolver.property propertyResult with
    | true, Some property =>
        Ok (Some property,
            match source property with
            | SourceDtdl => DataDtdl
            | SourceTelemetry => DataTelemetry
            end)
    | _, _ => Throw (SchemaResolver.propertyNotFound propertyResult)
    end
  else Ok (None, DataTelemetry).

(** Step 4: the operation. *)
Definition operationOf (questionType : QuestionType) : option Operation :=
  match questionType with
  | AverageSpeed => Some Average
  | MaxSpeed => Some Max
  | MinSpeed => Some Min
  | RouteUtilization => Some Average
  | _ => None
  end.

(** Step 5: the source path, taken from the target of a route
    utilization query that names a path and gives no source path. *)
Definition sourcePathFor (intent : QueryIntent) : option string :=
  if isRouteUtilization (qi_questionType intent)
     && negb (EntityResolver.truthy (qi_sourcePath intent))
  then
    if includes (toLowerCase (qi_targetEntity intent)) "path_"
       || includes (toLowerCase (qi_targetEntity intent)) "route_"
    then Some (qi_targetEntity intent)
    else qi_sourcePath intent
  else qi_sourcePath intent.

(** [resolveQuery(intent)], on the model [dtdlModel]. *)
Definition resolveQuery (dtdlModel : DTDLModel.t) (intent : QueryIntent)
    : Result ResolvedQuery :=
  match resolveEntity dtdlModel intent with
  | Throw e => Throw e
  | Ok entity =>
      let genericIntent := mapQuestionTypeToIntent (qi_questionType intent) in
      match resolveQueryProperty entity intent with
      | Throw e => Throw e
      | Ok (property, dataSource) =>
          Ok {| rq_intent := genericIntent;
                rq_targetEntity := entity;
                rq_property := property;
                rq_operation := operationOf (qi_questionType intent);
                rq_timeWindow := qi_timeWindow intent;
                rq_filters :=
                  Some {| f_sourcePath := sourcePathFor intent;
                          f_destinationPath := qi_destinationPath intent;
                          f_relationshipName := None;
                          f_relationshipTarget := None |};
                rq_dataSource := Some dataSource |}
      end
  end.

End QueryResolution.

(** ** Applying updates (services/CommandService.ts, [applyUpdates]) *)

Module CommandService.

(** [result.success = false; result.error = error] *)
Definition failed (result : UpdateResult) (error : string) : UpdateResult :=
  {| ur_success := false;
     ur_entityId := ur_entityId result;
     ur_property := ur_property result;
     ur_oldValue := ur_oldValue result;
     ur_newValue := ur_newValue result;
     ur_error := Some error |}.

(** What [applyUpdates] leaves behind: the results, the model, the
    entities handed to the repository, in order, and the log. *)
Record Applied : Type := mkApplied {
  a_updates : list UpdateResult;
  a_model : DTDLModel.t;
  a_saved : list Entity;
  a_log : list string
}.

Section WithRepository.

(** [dtdlRepository.save(entity)]: [None] when the entity is saved,
    [Some message] when the call throws an error with that message. *)
Variable save : Entity -> option string.

(** One turn of the loop of [applyUpdates], on the model [model]. *)
Definition applyOne (model : DTDLModel.t) (entity : Entity)
    (property : string) (value : JSValue)
    : UpdateResult * DTDLModel.t * list Entity * list string :=
  let o := DTDLModel.updateEntityProperty model (e_id entity) property value in
  let result := DTDLModel.o_result o in
  let model' := DTDLModel.o_model o in
  if ur_success result then
    match DTDLModel.getEntity model' (e_id entity) with
    | Some updatedEntity =>
        match save updatedEntity with
        | None => (result, model', [updatedEntity], DTDLModel.o_warnings o)
        | Some message =>
            (failed result ("Database persistence failed: " +:+ message),
             model', [updatedEntity],
             DTDLModel.o_warnings o
             ++ ["Failed to persist update for entity '" +:+ e_id entity
                 +:+ "': " +:+ message])
        end
    | None =>
        (failed result "Entity not found after update", model', [],
         DTDLModel.o_warnings o
         ++ ["Entity '" +:+ e_id entity +:+
             "' not found in model after update. This indicates a synchronization issue."])
    end
  else (result, model', [], DTDLModel.o_warnings o).

(** [applyUpdates(entities, property, value)], on the model [model]. *)
Fixpoint applyUpdates (model : DTDLModel.t) (entities : list Entity)
    (property : string) (value : JSValue) : Applied :=
  match entities with
  | [] =>
      {| a_updates := []; a_model := model; a_saved := []; a_log := [] |}
  | entity :: rest =>
      let '(result, model', saved, log) :=
        applyOne model entity property value in
      let r := applyUpdates model' rest property value in
      {| a_updates := result :: a_updates r;
         a_model := a_model r;
         a_saved := saved ++ a_saved r;
         a_log := log ++ a_log r |}
  end.

(** An entry of the errors of a response: [`${id}: ${result.error}`] for
    a target that validation refused, or a message. *)
Inductive CommandError : Type :=
| Invalid (entityId : string) (error : option UpdateValidator.Rejection)
| Message (message : string).

(** [CommandResponse], without its [message], the sentence that
    [formatResponse] writes around the updates and the errors. *)
Record CommandResponse : Type := mkCommandResponse {
  cr_success : bool;
  cr_updates : list UpdateResult;
  cr_errors : option (list CommandError)
}.

(** [u.error || "Unknown error"] *)
Definition errorOf (u : UpdateResult) : CommandError :=
  Message (if EntityResolver.truthy (ur_error u)
           then default "" (ur_error u) else "Unknown error").

(** [formatResponse(updates, errors)] *)
Definition formatResponse (updates : list UpdateResult)
    (errors : list CommandError) : CommandResponse :=
  let successful := List.filter ur_success updates in
  let failed := List.filter (fun u => negb (ur_success u)) updates in
  let allErrors :=
    if (0 <? List.length failed)%nat || (0 <? List.length errors)%nat
    then map errorOf failed ++ errors else [] in
  {| cr_success := (0 <? List.length successful)%nat;
     cr_updates := updates;
     cr_errors :=
       if (0 <? List.length allErrors)%nat then Some allErrors else None |}.

(** [constraintRepository.getConstraint(entityType, property)], for a
    store that answers. (A call that is rejected makes [executeCommand]
    throw before any update; that is outside this embedding.) *)
Variable getConstraint : string -> string -> option PropertyConstraint.

(** [targetEntities.filter((_, index) => validationResults[index].valid)] *)
Definition validEntities (targetEntities : list Entity)
    (validationResults : list UpdateValidator.ValidationResult)
    : list Entity :=
  map fst
    (List.filter (fun p => UpdateValidator.valid (snd p))
       (combine targetEntities validationResults)).

(** [validationResults.map((result, index) => result.valid ? null :
    `${targetEntities[index].id}: ${result.error}`).filter(e => e !== null)] *)
Definition validationErrors (targetEntities : list Entity)
    (validationResults : list UpdateValidator.ValidationResult)
    : list CommandError :=
  omap (fun p =>
          if UpdateValidator.valid (snd p) then None
          else Some (Invalid (e_id (fst p)) (UpdateValidator.error (snd p))))
       (combine targetEntities validationResults).

(** What [executeCommand] leaves behind: the response, or the error
    thrown, and the model, the entities handed to the repository and the
    log. *)
Record Executed : Type := mkExecuted {
  x_response : Result CommandResponse;
  x_model : DTDLModel.t;
  x_saved : list Entity;
  x_log : list string
}.

(** [executeCommand(userInput)], from the intent that the language model
    has parsed out of the input, on the model [model]. The validations
    are all done before the first update. *)
Definition executeCommand (model : DTDLModel.t) (intent : CommandIntent)
    : Executed :=
  match SchemaResolver.resolveCommand model intent with
  | Throw (DomainError message _) =>
      {| x_response :=
           Ok {| cr_success := false;
                 cr_updates := [];
                 cr_errors := Some [Message message] |};
         x_model := model; x_saved := []; x_log := [] |}
  | Throw error =>
      {| x_response := Throw error;
         x_model := model; x_saved := []; x_log := [] |}
  | Ok resolvedCommand =>
      let name := infoName (rc_property resolvedCommand) in
      let value := rc_value resolvedCommand in
      let targetEntities := rc_targetEntities resolvedCommand in
      let validationResults :=
        map (fun entity =>
               UpdateValidator.validate getConstraint entity name value)
            targetEntities in
      let applied :=
        applyUpdates model
          (validEntities targetEntities validationResults) name value in
      {| x_response :=
           Ok (formatResponse (a_updates applied)
                 (validationErrors targetEntities validationResults));
         x_model := a_model applied;
         x_saved := a_saved applied;
         x_log := a_log applied |}
  end.

End WithRepository.

End CommandService.

(** ** Query service (services/QueryService.ts) *)

Module QueryService.

(** [QueryResponse], without its [answer], the sentence that
    [generateAnswer] writes around the value. *)
Record QueryResponse : Type := mkQueryResponse {
  resp_value : JSValue;
  resp_units : string;
  resp_entityId : string;
  resp_entityName : string;
  resp_recordCount : nat;
  resp_timeWindow : TimeWindow
}.

(** [intent.questionType === "current_speed" ||
    intent.questionType === "property"] *)
Definition isCurrentQuery (questionType : QuestionType) : bool :=
  match questionType with
  | CurrentSpeed | PropertyQuestion => true
  | _ => false
  end.

(** [effectiveTimeWindow]: for the current queries
    [{...intent.timeWindow, minutes: Math.max(intent.timeWindow.minutes, 30)}] *)
Definition effectiveTimeWindow (intent : QueryIntent) : TimeWindow :=
  if isCurrentQuery (qi_questionType intent) then
    {| tw_minutes := JSMath.max [tw_minutes (qi_timeWindow intent); 30%float];
       tw_startTime := tw_startTime (qi_timeWindow intent);
       tw_endTime := tw_endTime (qi_timeWindow intent) |}
  else qi_timeWindow intent.

(** [resolvedQuery.timeWindow = effectiveTimeWindow] *)
Definition withTimeWindow (resolvedQuery : ResolvedQuery)
    (timeWindow : TimeWindow) : ResolvedQuery :=
  {| rq_intent := rq_intent resolvedQuery;
     rq_targetEntity := rq_targetEntity resolvedQuery;
     rq_property := rq_property resolvedQuery;
     rq_operation := rq_operation resolvedQuery;
     rq_timeWindow := timeWindow;
     rq_filters := rq_filters resolvedQuery;
     rq_dataSource := rq_dataSource resolvedQuery |}.

(** [formatResponse(result, resolvedQuery, recordCount)], without the
    answer. *)
Definition formatResponse (result : QueryResult)
    (resolvedQuery : ResolvedQuery) (recordCount' : nat) : QueryResponse :=
  {| resp_value := qr_value result;
     resp_units := qr_units result;
     resp_entityId := e_id (rq_targetEntity resolvedQuery);
     resp_entityName := e_id (rq_targetEntity resolvedQuery);
     resp_recordCount := default recordCount' (recordCount result);
     resp_timeWindow := rq_timeWindow resolvedQuery |}.

Section WithServices.

(** [telemetryService.getTelemetry(truckId, windowMinutes)] and
    [telemetryService.getTelemetryByPath(pathId, windowMinutes)]: what the
    store holds for the window that ends at the time of the call, or
    what the awaited call throws when the store fails. *)
Variable getTelemetry : string -> float -> Result (list TelemetryRecord).
Variable getTelemetryByPath : string -> float -> Result (list TelemetryRecord).

Variable executorRegistry : QueryExecutorRegistry.t.
Variable dtdlModel : DTDLModel.t.

(** Step 4 of [executeQuery]: the records read. [calculateTimeWindow]
    leaves the minutes as they are. *)
Definition readTelemetry (intent : QueryIntent) (resolvedQuery : ResolvedQuery)
    : Result (list TelemetryRecord) :=
  let minutes := tw_minutes (effectiveTimeWindow intent) in
  if QueryResolution.isRouteUtilization (qi_questionType intent)
     && EntityResolver.truthy (sourcePathOf resolvedQuery)
  then getTelemetryByPath (default "" (sourcePathOf resolvedQuery)) minutes
  else getTelemetry (e_id (rq_targetEntity resolvedQuery)) minutes.

(** The [catch] of [executeQuery]: an [Error] is thrown again as it is,
    anything else inside a new [Error]. *)
Definition caught (error : Exn) : Exn :=
  match error with
  | NonError text => PlainError ("Query execution failed: " +:+ text)
  | _ => error
  end.

(** [executeQuery(userInput)], from the intent that the language model
    has parsed out of the input. *)
Definition executeQuery (intent : QueryIntent) : Result QueryResponse :=
  match QueryResolution.resolveQuery dtdlModel intent with
  | Throw e => Throw (caught e)
  | Ok resolved =>
      let resolvedQuery := withTimeWindow resolved (effectiveTimeWindow intent) in
      match readTelemetry intent resolvedQuery with
      | Throw e => Throw (caught e)
      | Ok telemetry =>
          match QueryExecutorRegistry.getExecutor executorRegistry
                  resolvedQuery with
          | Throw e => Throw (caught e)
          | Ok executor =>
              match execute executor resolvedQuery telemetry with
              | Throw e => Throw (caught e)
              | Ok result =>
                  Ok (formatResponse result resolvedQuery
                        (List.length telemetry))
              end
          end
      end
  end.

End WithServices.

End QueryService.

(** ** Vocabulary of the statements *)

(** The entities of the examples: a haul truck with one DTDL property,
    [focusSnapDistanceMeters], declared with the initial value 250. *)
Definition snapDistance : Content :=
  {| c_atType := "Property";
     c_name := "focusSnapDistanceMeters";
     c_displayName := Some "Focus Snap Distance";
     c_schema := SchemaName "double";
     c_value := VUndefined;
     c_initialValue := VNum 250%float;
     c_writable := Some true;
     c_target := None |}.

Definition haulTruck (id : string) : Entity :=
  {| e_id := id;
     e_dtdlId := "dtmi:twin:" +:+ id;
     e_displayName := Some "Haul Truck";
     e_contents := Some [snapDistance];
     e_type := Some "HaulTruck";
     e_properties :=
       Some {[ "focusSnapDistanceMeters" :=
                 {| pv_value := VNum 250%float;
                    pv_type := PNumber;
                    pv_editable := Some true;
                    pv_constraints := None |} ]};
     e_relationships := Some ∅ |}.

Definition truck2 : Entity := haulTruck "Haul_Truck_CAT_777_2".
Definition truck20 : Entity := haulTruck "Haul_Truck_CAT_777_20".

(** The two orders of insertion of the truck and its decoy. *)
Definition truckFirst : DTDLModel.t := DTDLModel.make [truck2; truck20].
Definition decoyFirst : DTDLModel.t := DTDLModel.make [truck20; truck2].

(** A telemetry record that only tells the time and the haul path. *)
Definition onRoute (time : Z) (path : string) : TelemetryRecord :=
  {| id := "r"; timestamp := time; truckId := "Haul_Truck_CAT_777_2";
     status := None; payload := None; speedMph := None;
     posX := None; posY := None; posZ := None; headingDeg := None;
     haulPhase := None; haulPathId := Some path;
     engineTemp := None; fuelLevel := None; fuelConsumptionRate := None;
     brakePedalPos := None; throttlePos := None; vibrationLevel := None;
     tirePressureFL := None; tirePressureFR := None;
     tirePressureRLO := None; tirePressureRLI := None;
     tirePressureRRO := None; tirePressureRRI := None; rawData := None |}.

(** A telemetry record that only tells the time and the speed. *)
Definition atSpeed (time : Z) (mph : float) : TelemetryRecord :=
  {| id := "r"; timestamp := time; truckId := "Haul_Truck_CAT_777_2";
     status := None; payload := None; speedMph := Some mph;
     posX := None; posY := None; posZ := None; headingDeg := None;
     haulPhase := None; haulPathId := None;
     engineTemp := None; fuelLevel := None; fuelConsumptionRate := None;
     brakePedalPos := None; throttlePos := None; vibrationLevel := None;
     tirePressureFL := None; tirePressureFR := None;
     tirePressureRLO := None; tirePressureRLI := None;
     tirePressureRRO := None; tirePressureRRI := None; rawData := None |}.

(** The path sequence [A, A, B, A, B, B, C], one record a minute. *)
Definition tripSample : list TelemetryRecord :=
  [onRoute 0 "A"; onRoute 60000 "A"; onRoute 120000 "B"; onRoute 180000 "A";
   onRoute 240000 "B"; onRoute 300000 "B"; onRoute 360000 "C"].

Definition window (minutes : float) : TimeWindow :=
  {| tw_minutes := minutes; tw_startTime := None; tw_endTime := None |}.

(** A query on [truck2] with the given parts. *)
Definition queryOf (intent : Intent) (property : option PropertyInfo)
    (operation : option Operation) (sourcePath destinationPath : option string)
    : ResolvedQuery :=
  {| rq_intent := intent;
     rq_targetEntity := truck2;
     rq_property := property;
     rq_operation := operation;
     rq_timeWindow := window 60%float;
     rq_filters :=
       Some {| f_sourcePath := sourcePath;
               f_destinationPath := destinationPath;
               f_relationshipName := None;
               f_relationshipTarget := None |};
     rq_dataSource := Some DataTelemetry |}.

(** The descriptor the property resolver gives for the telemetry speed. *)
Definition speedInfo : PropertyInfo :=
  FromTelemetry
    {| tp_name := "speedMph"; tp_type := INumber; tp_units := Some "mph";
       tp_telemetryField := "speedMph" |}.

(** The place of a stage in the cascade. *)
Definition rank (s : EntityResolver.Stage) : nat :=
  match s with
  | EntityResolver.Exact => 0
  | EntityResolver.Normalized => 1
  | EntityResolver.CaseInsensitive => 2
  | EntityResolver.Partial => 3
  | EntityResolver.Typed => 4
  | EntityResolver.Fuzzy => 5
  end.

(** The test a scanning stage applies to each entity of the model, in
    the order of insertion; the two keyed stages have none. *)
Definition scanPredicate (s : EntityResolver.Stage) (reference : string)
    : option (Entity -> bool) :=
  let normalized := EntityResolver.normalize reference in
  match s with
  | EntityResolver.Exact | EntityResolver.Normalized => None
  | EntityResolver.CaseInsensitive =>
      Some (fun e => String.eqb (JSString.toLowerCase (e_id e)) normalized)
  | EntityResolver.Partial =>
      let ps := EntityResolver.parts normalized in
      Some (fun e => (0 <? List.length ps)%nat && EntityResolver.allPartsIn ps e)
  | EntityResolver.Typed =>
      match Regex.matchStart EntityResolver.typePattern normalized with
      | Some caps =>
          let identifier := JSString.toLowerCase (EntityResolver.group caps 4) in
          let subIdentifier := EntityResolver.group caps 6 in
          Some (fun e =>
                  let idLower := JSString.toLowerCase (e_id e) in
                  DTDLModel.hasType
                    (EntityResolver.typeName (EntityResolver.group caps 2)) e
                  && JSString.includes idLower identifier
                  && (negb (EntityResolver.nonEmpty subIdentifier)
                      || JSString.includes idLower
                           (JSString.toLowerCase subIdentifier)))
      | None => Some (fun _ => false)
      end
  | EntityResolver.Fuzzy =>
      let kps := EntityResolver.keyParts normalized in
      Some (fun e =>
              (0 <? List.length kps)%nat
              && (Nat.min 2 (List.length kps) <=? EntityResolver.matches kps e)%nat)
  end.

(** [e] is the first element of [l], in the order of [l], that passes [p]. *)
Definition firstPassing {A : Type} (p : A -> bool) (l : list A) (e : A) : Prop :=
  exists before after,
    l = before ++ e :: after
    /\ p e = true
    /\ Forall (fun x => p x = false) before.

(** The decompositions [pre ++ record :: _] of [pre ++ rest], one for each
    record of [rest]: each record with the records before it. *)
Fixpoint splitsFrom (pre rest : list TelemetryRecord)
    : list (list TelemetryRecord * TelemetryRecord) :=
  match rest with
  | [] => []
  | record :: rest' => (pre, record) :: splitsFrom (pre ++ [record]) rest'
  end.

(** Each record of the sequence with the records that came before it. *)
Definition withHistory (telemetry : list TelemetryRecord)
    : list (list TelemetryRecord * TelemetryRecord) :=
  splitsFrom [] telemetry.

(** "Currently on source": the most recent record on either path, if
    there is one, is on the source. *)
Definition lastSeenOnSource (sourcePath destinationPath : string)
    (pre : list TelemetryRecord) : bool :=
  match List.find
          (fun r => CountExecutor.onPath r sourcePath
                    || CountExecutor.onPath r destinationPath)
          (rev pre) with
  | Some r => CountExecutor.onPath r sourcePath
  | None => false
  end.

(** A record completes a trip when it is on the destination and the
    flag is set by the records before it. *)
Definition completesTrip (sourcePath destinationPath : string)
    (h : list TelemetryRecord * TelemetryRecord) : bool :=
  CountExecutor.onPath (snd h) destinationPath
  && lastSeenOnSource sourcePath destinationPath (fst h).

(** The truck was on the path at the record before, if there is one. *)
Definition wasOn (pathId : string) (pre : list TelemetryRecord) : bool :=
  match rev pre with
  | r :: _ => CountExecutor.onPath r pathId
  | [] => false
  end.

(** A record enters the path when it is on it and the record just before
    it, if any, is not. *)
Definition entersPath (pathId : string)
    (h : list TelemetryRecord * TelemetryRecord) : bool :=
  CountExecutor.onPath (snd h) pathId && negb (wasOn pathId (fst h)).

(** The speeds the aggregate executor reads: the [speedMph] of the
    records that have one that is a number and not NaN, in miles per
    hour, in the order of the records. *)
Definition speedsRead (telemetry : list TelemetryRecord) : list float :=
  omap (fun r =>
          match speedMph r with
          | Some x => if PrimFloat.is_nan x then None else Some x
          | None => None
          end)
    telemetry.

(** Miles per hour to kilometres per hour. *)
Definition toKmh (mph : float) : float := PrimFloat.mul mph MPH_TO_KMH.

(** [r] is a record of [telemetry] and none is later. *)
Definition isLatest (telemetry : list TelemetryRecord) (r : TelemetryRecord)
    : Prop :=
  In r telemetry
  /\ forall r', In r' telemetry -> (timestamp r' <= timestamp r)%Z.

(** The descriptor of the DTDL property of the truck. *)
Definition snapInfo : PropertyInfo :=
  FromDTDL (PropertyResolver.createDTDLPropertyInfo snapDistance).

(** The value, the units and the record count of an answer of an
    executor; there is none when the executor throws. *)
Definition resultValue (r : Result QueryResult) : option JSValue :=
  match r with
  | Ok x => Some (qr_value x)
  | Throw _ => None
  end.

Definition resultUnits (r : Result QueryResult) : option string :=
  match r with
  | Ok x => Some (qr_units x)
  | Throw _ => None
  end.

Definition resultCount (r : Result QueryResult) : option nat :=
  match r with
  | Ok x => recordCount x
  | Throw _ => None
  end.

Definition throws {A : Type} (r : Result A) : bool :=
  match r with
  | Ok _ => false
  | Throw _ => true
  end.

(** The order of the sorted copy: later records first. *)
Definition laterFirst (x y : TelemetryRecord) : Prop :=
  (timestamp y <= timestamp x)%Z.

(** The code of the [DomainError] a call throws, if it throws one. *)
Definition thrownCode {A : Type} (r : Result A) : option string :=
  match r with
  | Ok _ => None
  | Throw e => exnCode e
  end.

(** The scope of a command that does not state one. *)
Definition defaultScope (entities : list Entity) : Scope :=
  if (1 <? List.length entities)%nat then Bulk else Single.

(** A constraint store with one row: the snap distance of a haul truck
    is editable between 0 and 100. *)
Definition snapRow : PropertyConstraint :=
  {| k_id := "c1";
     k_entityType := "HaulTruck";
     k_property := "focusSnapDistanceMeters";
     k_minValue := Some 0%float;
     k_maxValue := Some 100%float;
     k_readOnly := false;
     k_editable := true;
     k_allowedValues := None |}.

Definition snapStore (entityType property : string)
    : option PropertyConstraint :=
  if String.eqb entityType "HaulTruck"
     && String.eqb property "focusSnapDistanceMeters"
  then Some snapRow else None.

(** A command on the trucks. *)
Definition commandOn (target property : string) (scope : option Scope)
    : CommandIntent :=
  {| ci_action := ActSet;
     ci_targetEntity := target;
     ci_property := property;
     ci_value := VNum 300%float;
     ci_scope := scope;
     ci_filter := None |}.

(** ** Vocabulary of the further statements *)

(** A model as the constructor and [addEntity] build it: one binding for
    each key, and each entity under its own id. *)
Definition wellFormed (m : DTDLModel.t) : Prop :=
  NoDup (map fst m) /\ Forall (fun b => fst b = e_id (snd b)) m.

(** The last entity of a list that has the given id. *)
Definition lastWithId (entities : list Entity) (id : string) : option Entity :=
  List.find (fun e => String.eqb (e_id e) id) (rev entities).

(** The Property item of the given name is the only one of that name in
    the contents array. *)
Definition onlyPropertyNamed (property : string) (cs : list Content)
    (i : nat) : Prop :=
  forall j c,
    cs !! j = Some c ->
    DTDLModel.isPropertyNamed property c = true ->
    j = i.

(** The cache of the entity is what [extractProperties] makes of its
    contents array. *)
Definition cacheFromContents (e : Entity) : Prop :=
  exists cs,
    e_contents e = Some cs
    /\ e_properties e = Some (DTDLRepository.extractProperties cs).

(** A truck whose cache has a property that its contents array lacks. *)
Definition divergedTruck : Entity :=
  {| e_id := "Haul_Truck_CAT_777_2";
     e_dtdlId := "dtmi:twin:Haul_Truck_CAT_777_2";
     e_displayName := Some "Haul Truck";
     e_contents := Some [];
     e_type := Some "HaulTruck";
     e_properties :=
       Some {[ "focusSnapDistanceMeters" :=
                 {| pv_value := VNum 250%float;
                    pv_type := PNumber;
                    pv_editable := Some true;
                    pv_constraints := None |} ]};
     e_relationships := Some ∅ |}.

(** The row of the store from which the truck of the examples comes. *)
Definition truckRow : DTDLRepository.Row :=
  {| DTDLRepository.r_id := "Haul_Truck_CAT_777_2";
     DTDLRepository.r_dtdlId := "dtmi:twin:Haul_Truck_CAT_777_2";
     DTDLRepository.r_displayName := Some "Haul Truck";
     DTDLRepository.r_contents := Some [snapDistance] |}.

(** Every character of the string passes the test. *)
Fixpoint allChars (p : ascii -> bool) (s : string) : bool :=
  match s with
  | EmptyString => true
  | String c r => p c && allChars p r
  end.

(** A letter or a digit. *)
Definition isAlnum (c : ascii) : bool :=
  JSString.isAlpha c || JSString.isDigit c.

Definition notSpace (c : ascii) : bool := negb (JSString.isSpace c).

(** The characters a pattern can consume are among those that pass
    [ok]. *)
Fixpoint consumesOnly (ok : ascii -> bool) (r : Regex.t) : Prop :=
  match r with
  | Regex.Lit p => allChars ok p = true
  | Regex.LitI p =>
      forall c, allChars (fun a => negb (Regex.eqNoCase a c)) p = false ->
                ok c = true
  | Regex.Chr cls | Regex.Star cls | Regex.Plus cls =>
      forall c, cls c = true -> ok c = true
  | Regex.Seq a b | Regex.Alt a b => consumesOnly ok a /\ consumesOnly ok b
  | Regex.Opt a | Regex.Group _ a => consumesOnly ok a
  | Regex.Eos => True
  end.

(** The pattern ends with the end of the input. *)
Fixpoint endsWithEos (r : Regex.t) : bool :=
  match r with
  | Regex.Eos => true
  | Regex.Seq _ b => endsWithEos b
  | _ => false
  end.

Definition isAlnumOrSpace (c : ascii) : bool := isAlnum c || JSString.isSpace c.

(** The haul path of the record just before, if there is a record before
    and it has a path. *)
Definition pathBefore (pre : list TelemetryRecord) : option string :=
  match rev pre with
  | r :: _ => haulPathId r
  | [] => None
  end.

(** A record changes the path when it has a path, not the empty string,
    that is not the path of the record just before it. *)
Definition changesPath (h : list TelemetryRecord * TelemetryRecord) : bool :=
  match haulPathId (snd h) with
  | Some p =>
      negb (String.eqb p "")
      && match pathBefore (fst h) with
         | Some p' => negb (String.eqb p p')
         | None => true
         end
  | None => false
  end.

(** The number of records on a path. *)
Definition recordsOn (pathId : string) (telemetry : list TelemetryRecord)
    : nat :=
  List.length (List.filter (fun r => CountExecutor.onPath r pathId) telemetry).

(** The readings of a field: the values of the records that have a number
    there that is not NaN, in the order of the records. *)
Definition readings (fieldName : string) (telemetry : list TelemetryRecord)
    : list float :=
  omap (fun r =>
          match getField r fieldName with
          | VNum x => if PrimFloat.is_nan x then None else Some x
          | _ => None
          end)
       telemetry.

(** A telemetry record that only tells the time and the engine
    temperature. *)
Definition atTemp (time : Z) (temp : float) : TelemetryRecord :=
  {| id := "r"; timestamp := time; truckId := "Haul_Truck_CAT_777_2";
     status := None; payload := None; speedMph := None;
     posX := None; posY := None; posZ := None; headingDeg := None;
     haulPhase := None; haulPathId := None;
     engineTemp := Some temp; fuelLevel := None; fuelConsumptionRate := None;
     brakePedalPos := None; throttlePos := None; vibrationLevel := None;
     tirePressureFL := None; tirePressureFR := None;
     tirePressureRLO := None; tirePressureRLI := None;
     tirePressureRRO := None; tirePressureRRI := None; rawData := None |}.

(** The descriptor of the engine temperature among the telemetry
    fields. *)
Definition tempInfo : PropertyInfo :=
  FromTelemetry
    {| tp_name := "engineTemp"; tp_type := INumber; tp_units := Some "°F";
       tp_telemetryField := "engineTemp" |}.

(** No record of the sequence is later than [r]. *)
Definition noneLater (telemetry : list TelemetryRecord) (r : TelemetryRecord)
    : bool :=
  forallb (fun r' => (timestamp r' <=? timestamp r)%Z) telemetry.

(** The first record of the sequence, in its order, than which none is
    later. *)
Definition firstLatest (telemetry : list TelemetryRecord)
    : option TelemetryRecord :=
  List.find (noneLater telemetry) telemetry.

(** The record the head of the stable descending sort is, computed from
    the right: a record takes the place of the one kept so far when it is
    not earlier. *)
Fixpoint pickLatest (telemetry : list TelemetryRecord)
    : option TelemetryRecord :=
  match telemetry with
  | [] => None
  | x :: rest =>
      match pickLatest rest with
      | Some y => if (timestamp y <=? timestamp x)%Z then Some x else Some y
      | None => Some x
      end
  end.

(** The question "how fast is truck 777 2 going", over five minutes. *)
Definition speedQuestion : QueryIntent :=
  {| qi_questionType := CurrentSpeed;
     qi_targetEntity := "truck 777 2";
     qi_timeWindow := window 5%float;
     qi_sourcePath := None;
     qi_destinationPath := None;
     qi_propertyName := None |}.

(** A property question that names no property. *)
Definition namelessQuestion : QueryIntent :=
  {| qi_questionType := PropertyQuestion;
     qi_targetEntity := "truck 777 2";
     qi_timeWindow := window 5%float;
     qi_sourcePath := None;
     qi_destinationPath := None;
     qi_propertyName := None |}.

(** A store that holds one record for every truck and none for any
    path. *)
Definition oneRecord (truckId : string) (minutes : float)
    : Result (list TelemetryRecord) := Ok [atSpeed 0 10].
Definition noRecord (pathId : string) (minutes : float)
    : Result (list TelemetryRecord) := Ok [].

(** A store that is down, and one that fails with a value that is not
    an [Error]. *)
Definition timedOut : Exn := PlainError "connect ETIMEDOUT".
Definition storeTimesOut (key : string) (minutes : float)
    : Result (list TelemetryRecord) := Throw timedOut.
Definition storeFails (key : string) (minutes : float)
    : Result (list TelemetryRecord) := Throw (NonError "timeout").

(** What [validate] demands of a value for a property with the entry
    [def] in the cache of the entity and the row [constraint] in the
    store: the property is not read-only; the row, when there is one,
    says editable and not read-only, and without a row the entry does
    not say [editable: false]; the value has the type of the property,
    and a number is not below the minimum nor above the maximum; the
    value is among the allowed values when there are allowed values. *)
Definition acceptable (constraint : option PropertyConstraint)
    (def : PropertyValue) (newValue : JSValue) : Prop :=
  UpdateValidator.defReadOnly def = false
  /\ match constraint with
     | Some c => k_readOnly c = false /\ k_editable c = true
     | None => pv_editable def <> Some false
     end
  /\ match pv_type def with
     | PNumber =>
         exists x,
           newValue = VNum x
           /\ (forall m,
                 UpdateValidator.minValueOf constraint def = Some m ->
                 PrimFloat.ltb x m = false)
           /\ (forall m,
                 UpdateValidator.maxValueOf constraint def = Some m ->
                 PrimFloat.ltb m x = false)
     | PString => exists s, newValue = VStr s
     | PBoolean => exists b, newValue = VBool b
     | PObject => True
     end
  /\ (forall allowed,
        UpdateValidator.allowedValuesOf constraint def = Some allowed ->
        exists v, In v allowed /\ sameValueZero newValue v = true).

(** The truck with a snap distance that its cache marks as not
    editable. *)
Definition lockedTruck : Entity :=
  {| e_id := "Haul_Truck_CAT_777_2";
     e_dtdlId := "dtmi:twin:Haul_Truck_CAT_777_2";
     e_displayName := Some "Haul Truck";
     e_contents := Some [snapDistance];
     e_type := Some "HaulTruck";
     e_properties :=
       Some {[ "focusSnapDistanceMeters" :=
                 {| pv_value := VNum 250%float;
                    pv_type := PNumber;
                    pv_editable := Some false;
                    pv_constraints := None |} ]};
     e_relationships := Some ∅ |}.

(** A repository that is down, and one that saves. *)
Definition storeDown (entity : Entity) : option string :=
  Some "connection refused".
Definition storeUp (entity : Entity) : option string := None.

(** The targets of a resolved command that validation accepts, and those
    that it refuses, in their order. *)
Definition accepted
    (getConstraint : string -> string -> option PropertyConstraint)
    (rc : ResolvedCommand) : list Entity :=
  List.filter
    (fun e =>
       UpdateValidator.valid
         (UpdateValidator.validate getConstraint e
            (infoName (rc_property rc)) (rc_value rc)))
    (rc_targetEntities rc).

Definition refused
    (getConstraint : string -> string -> option PropertyConstraint)
    (rc : ResolvedCommand) : list Entity :=
  List.filter
    (fun e =>
       negb (UpdateValidator.valid
               (UpdateValidator.validate getConstraint e
                  (infoName (rc_property rc)) (rc_value rc))))
    (rc_targetEntities rc).

(** The model of the locked truck and the decoy, and a store without
    rows. *)
Definition lockedFirst : DTDLModel.t := DTDLModel.make [lockedTruck; truck20].
Definition noRows (entityType property : string)
    : option PropertyConstraint := None.

(** Not a capital letter, and none of the underscore, the white space
    and the hyphen that [normalizePropertyName] removes. *)
Definition isPlain (c : ascii) : bool :=
  negb (JSString.isUpper c) && negb (PropertyResolver.isPunct c).

(** The first Property item of the contents array of the entity. *)
Definition firstProperty (entity : Entity) : option Content :=
  match e_contents entity with
  | Some contents =>
      List.find (fun content => String.eqb (c_atType content) "Property")
        contents
  | None => None
  end.

(** A row of the store without display name and without contents. *)
Definition bareRow : DTDLRepository.Row :=
  {| DTDLRepository.r_id := "E1";
     DTDLRepository.r_dtdlId := "dtmi:twin:E1";
     DTDLRepository.r_displayName := None;
     DTDLRepository.r_contents := None |}.

(** The names that every object inherits from [Object.prototype]. Read
    on a plain object, each of them gives a function, or the prototype
    itself, whether the object has an entry of that name or not. *)
Definition inheritedNames : list string :=
  ["constructor"; "hasOwnProperty"; "isPrototypeOf"; "propertyIsEnumerable";
   "toLocaleString"; "toString"; "valueOf"; "__proto__";
   "__defineGetter__"; "__defineSetter__"; "__lookupGetter__";
   "__lookupSetter__"].

Definition inherited (name : string) : bool :=
  existsb (String.eqb name) inheritedNames.

(** What the property resolver reads from its tables for this entity and
    this name are entries of the tables: no Property item of the entity
    has an inherited name, and the name asked for is none once it is
    normalized. *)
Definition readsEntries (entity : Entity) (name : string) : bool :=
  negb (inherited (PropertyResolver.normalizePropertyName name))
  && forallb (fun propName => negb (inherited propName))
       (PropertyResolver.propertyNames entity).

(** The same for every entity of the model. *)
Definition readsEntriesOf (model : DTDLModel.t) (name : string) : bool :=
  forallb (fun entity => readsEntries entity name)
    (DTDLModel.getAllEntities model).

(** The engine of the examples takes a thousand spread arguments. *)
Definition sampleLimit : nat := 1000.

(** The average, the maximum, the minimum and the sum of an array of
    numbers. *)
Definition aggregateOf (op : Operation) (values : list float) : float :=
  match op with
  | Average => PrimFloat.div (JSMath.sum values) (numOfNat (List.length values))
  | Max => JSMath.max values
  | Min => JSMath.min values
  | Sum => JSMath.sum values
  end.

(** An entity passes the filter of a bulk resolution when it has the
    type of the filter, if the filter names a type that is not the empty
    string, and is related to the target of the relationship of the
    filter, if the filter names one. *)
Definition passesFilter (filter : option EntityResolver.BulkUpdateFilter)
    (e : Entity) : bool :=
  match filter with
  | None => true
  | Some f =>
      match EntityResolver.bf_type f with
      | Some ty =>
          if EntityResolver.nonEmpty ty
          then EntityResolver.optEqb (e_type e) (Some ty) else true
      | None => true
      end
      && match EntityResolver.bf_relationship f with
         | Some rf => EntityResolver.related rf e
         | None => true
         end
  end.

(** A shovel that loads the truck, and the fleet of the two trucks and
    the shovel. *)
Definition shovel : Entity :=
  {| e_id := "Shovel_1";
     e_dtdlId := "dtmi:twin:Shovel_1";
     e_displayName := Some "Shovel";
     e_contents := Some [];
     e_type := Some "Shovel";
     e_properties := Some ∅;
     e_relationships := Some {[ "loads" := "Haul_Truck_CAT_777_2" ]} |}.

Definition fleet : DTDLModel.t := DTDLModel.make [truck2; shovel; truck20].

(** The filters "of type HaulTruck" and "loads the truck". *)
Definition trucksOnly : EntityResolver.BulkUpdateFilter :=
  {| EntityResolver.bf_type := Some "HaulTruck";
     EntityResolver.bf_relationship := None |}.

Definition loadingTruck2 : EntityResolver.BulkUpdateFilter :=
  {| EntityResolver.bf_type := None;
     EntityResolver.bf_relationship :=
       Some {| EntityResolver.rf_name := "loads";
               EntityResolver.rf_targetId := "Haul_Truck_CAT_777_2" |} |}.

(** The name that [resolveQuery] hands to the property resolver: "speed"
    for a question about the current speed that names no property, else
    the property name of the question. *)
Definition askedName (intent : QueryIntent) : string :=
  if QueryResolution.isCurrentSpeed (qi_questionType intent)
     && negb (EntityResolver.truthy (qi_propertyName intent))
  then "speed" else default "" (qi_propertyName intent).

(** The target names a path: it contains "path_" or "route_", in any
    case. *)
Definition namesPath (target : string) : bool :=
  JSString.includes (JSString.toLowerCase target) "path_"
  || JSString.includes (JSString.toLowerCase target) "route_".

(** A haul path among the entities, the question about its use over an
    hour, and a store that holds the seven records of the example for
    the path. *)
Definition haulRoad : Entity :=
  {| e_id := "path_1";
     e_dtdlId := "dtmi:twin:path_1";
     e_displayName := Some "Haul Path";
     e_contents := Some [];
     e_type := Some "HaulPath";
     e_properties := Some ∅;
     e_relationships := Some ∅ |}.

Definition roads : DTDLModel.t := DTDLModel.make [truck2; haulRoad].

Definition roadQuestion : QueryIntent :=
  {| qi_questionType := RouteUtilization;
     qi_targetEntity := "path_1";
     qi_timeWindow := window 60%float;
     qi_sourcePath := None;
     qi_destinationPath := None;
     qi_propertyName := None |}.

Definition onRoad (pathId : string) (minutes : float)
    : Result (list TelemetryRecord) :=
  if String.eqb pathId "path_1" then Ok tripSample else Ok [].

(** * Properties *)

(** ** The twin model *)

Section ModelFacts.

Implicit Types (m : DTDLModel.t) (e : Entity).

Lemma mapGet_mutate_eq m entityId e e' :
  DTDLModel.mapGet m entityId = Some e ->
  DTDLModel.mapGet (DTDLModel.mutate m entityId e') entityId = Some e'.
Proof.
  induction m as [|[k e0] r IH]; simpl; [discriminate|].
  destruct (String.eqb k entityId) eqn:Hk; simpl; rewrite Hk; auto.
Qed.

Lemma mapGet_mutate_ne m entityId other e' :
  entityId <> other ->
  DTDLModel.mapGet (DTDLModel.mutate m entityId e') other
  = DTDLModel.mapGet m other.
Proof.
  intros Hne. induction m as [|[k e0] r IH]; simpl; [reflexivity|].
  destruct (String.eqb k entityId) eqn:Hk; simpl.
  - apply String.eqb_eq in Hk. subst k.
    apply String.eqb_neq in Hne. rewrite Hne. reflexivity.
  - destruct (String.eqb k other); auto.
Qed.

Lemma mutate_keys m entityId e' :
  map fst (DTDLModel.mutate m entityId e') = map fst m.
Proof.
  induction m as [|[k e0] r IH]; simpl; [reflexivity|].
  destruct (String.eqb k entityId); simpl; congruence.
Qed.

(** Setting the value of a content item keeps what [find] looks at. *)
Lemma isPropertyNamed_setContentValue property value c :
  DTDLModel.isPropertyNamed property (DTDLModel.setContentValue value c)
  = DTDLModel.isPropertyNamed property c.
Proof. reflexivity. Qed.

(** After the write the same index is found, with the item written. *)
Lemma list_find_written property value (cs : list Content) i c :
  list_find (fun c => DTDLModel.isPropertyNamed property c = true) cs
  = Some (i, c) ->
  list_find (fun c => DTDLModel.isPropertyNamed property c = true)
    (<[i := DTDLModel.setContentValue value c]> cs)
  = Some (i, DTDLModel.setContentValue value c).
Proof.
  intros Hfind. apply list_find_Some in Hfind as (Hi & HP & Hbefore).
  apply list_find_Some. split; [|split].
  - apply list_lookup_insert_eq. eapply lookup_lt_Some; eauto.
  - rewrite isPropertyNamed_setContentValue. exact HP.
  - intros j y Hj Hlt. rewrite list_lookup_insert_ne in Hj by lia. eauto.
Qed.

End ModelFacts.

(** What a successful update does, for an entity that has the property in
    its cache and in its contents array. *)
Lemma update_present m entityId property value entity props pv cs i c :
  DTDLModel.getEntity m entityId = Some entity ->
  e_properties entity = Some props ->
  props !! property = Some pv ->
  e_contents entity = Some cs ->
  list_find (fun c => DTDLModel.isPropertyNamed property c = true) cs
  = Some (i, c) ->
  DTDLModel.updateEntityProperty m entityId property value
  = {| DTDLModel.o_result :=
         {| ur_success := true; ur_entityId := entityId;
            ur_property := property; ur_oldValue := pv_value pv;
            ur_newValue := value; ur_error := None |};
       DTDLModel.o_model :=
         DTDLModel.mutate m entityId
           (DTDLModel.withState entity
              (Some (<[i := DTDLModel.setContentValue value c]> cs))
              (Some (<[property := DTDLModel.setCacheValue value pv]> props)));
       DTDLModel.o_warnings := [] |}.
Proof.
  intros Hget Hprops Hpv Hcs Hfind.
  unfold DTDLModel.updateEntityProperty, DTDLModel.cached.
  rewrite Hget, Hprops, Hpv. unfold DTDLModel.updateContents.
  rewrite Hcs, Hfind. reflexivity.
Qed.

(** C4. A successful update of a property that the entity has both in its
    cache and in its contents array writes the new value into the cache
    entry and into the current-value field of the first Property item of
    that name, and nowhere else: the item's initial value and its other
    fields, the other items, the other cache entries and the other
    entities are as before. Reading back gives the new value from both
    representations and the old initial value. *)
Theorem C4_update_writes_cache_and_contents
    (m : DTDLModel.t) (entityId property : string) (value : JSValue)
    (entity : Entity) (props : gmap string PropertyValue) (pv : PropertyValue)
    (cs : list Content) (i : nat) (c : Content) :
  DTDLModel.getEntity m entityId = Some entity ->
  e_properties entity = Some props ->
  props !! property = Some pv ->
  e_contents entity = Some cs ->
  list_find (fun c => DTDLModel.isPropertyNamed property c = true) cs
  = Some (i, c) ->
  let o := DTDLModel.updateEntityProperty m entityId property value in
  let m' := DTDLModel.o_model o in
  ur_success (DTDLModel.o_result o) = true
  /\ ur_oldValue (DTDLModel.o_result o) = pv_value pv
  /\ ur_newValue (DTDLModel.o_result o) = value
  /\ DTDLModel.o_warnings o = []
  /\ DTDLModel.readCache m' entityId property = Some value
  /\ DTDLModel.readContent m' entityId property = Some value
  /\ DTDLModel.readInitial m' entityId property
     = DTDLModel.readInitial m entityId property
  /\ DTDLModel.readInitial m' entityId property = Some (c_initialValue c)
  /\ (exists entity',
        DTDLModel.getEntity m' entityId = Some entity'
        /\ e_contents entity'
           = Some (<[i := DTDLModel.setContentValue value c]> cs)
        /\ e_properties entity'
           = Some (<[property := DTDLModel.setCacheValue value pv]> props)
        /\ (forall j, j <> i ->
              (<[i := DTDLModel.setContentValue value c]> cs) !! j = cs !! j)
        /\ (forall other, other <> property ->
              DTDLModel.cached entity' other = DTDLModel.cached entity other))
  /\ (forall other, other <> entityId ->
        DTDLModel.getEntity m' other = DTDLModel.getEntity m other)
  /\ map fst m' = map fst m.
Proof.
  intros Hget Hprops Hpv Hcs Hfind. cbv zeta.
  rewrite (update_present m entityId property value entity props pv cs i c
             Hget Hprops Hpv Hcs Hfind).
  cbn [DTDLModel.o_result DTDLModel.o_model DTDLModel.o_warnings
       ur_success ur_oldValue ur_newValue].
  set (entity' := DTDLModel.withState entity
       (Some (<[i := DTDLModel.setContentValue value c]> cs))
       (Some (<[property := DTDLModel.setCacheValue value pv]> props))).
  set (m' := DTDLModel.mutate m entityId entity').
  assert (Hget' : DTDLModel.getEntity m' entityId = Some entity')
    by (eapply mapGet_mutate_eq; exact Hget).
  assert (Hinit : DTDLModel.readInitial m' entityId property
                  = Some (c_initialValue c)).
  { unfold DTDLModel.readInitial, DTDLModel.findContent.
    rewrite Hget'. simpl.
    rewrite (list_find_written property value cs i c Hfind). reflexivity. }
  split; [reflexivity|]. split; [reflexivity|]. split; [reflexivity|].
  split; [reflexivity|]. split; [|split; [|split; [|split; [|split; [|split]]]]].
  - unfold DTDLModel.readCache. rewrite Hget'. simpl.
    unfold DTDLModel.cached. simpl. rewrite lookup_insert_eq. reflexivity.
  - unfold DTDLModel.readContent, DTDLModel.findContent.
    rewrite Hget'. simpl.
    rewrite (list_find_written property value cs i c Hfind). reflexivity.
  - rewrite Hinit. unfold DTDLModel.readInitial, DTDLModel.findContent.
    rewrite Hget. simpl. rewrite Hcs. simpl. rewrite Hfind. reflexivity.
  - exact Hinit.
  - exists entity'. split; [exact Hget'|].
    split; [reflexivity|]. split; [reflexivity|]. split.
    + intros j Hj. apply list_lookup_insert_ne. congruence.
    + intros other Hother. unfold DTDLModel.cached. simpl. rewrite Hprops.
      apply lookup_insert_ne. congruence.
  - intros other Hother. apply mapGet_mutate_ne. congruence.
  - apply mutate_keys.
Qed.

(** The update of the example: [updateProperty(id,
    "focusSnapDistanceMeters", 300)] on the truck. *)
Lemma C4_update_witness :
  let o := DTDLModel.updateEntityProperty truckFirst "Haul_Truck_CAT_777_2"
             "focusSnapDistanceMeters" (VNum 300%float) in
  DTDLModel.readCache (DTDLModel.o_model o) "Haul_Truck_CAT_777_2"
    "focusSnapDistanceMeters" = Some (VNum 300%float)
  /\ DTDLModel.readContent (DTDLModel.o_model o) "Haul_Truck_CAT_777_2"
       "focusSnapDistanceMeters" = Some (VNum 300%float)
  /\ DTDLModel.readInitial (DTDLModel.o_model o) "Haul_Truck_CAT_777_2"
       "focusSnapDistanceMeters" = Some (VNum 250%float).
Proof.
  pose proof (C4_update_writes_cache_and_contents truckFirst
    "Haul_Truck_CAT_777_2" "focusSnapDistanceMeters" (VNum 300%float)
    truck2
    {[ "focusSnapDistanceMeters" :=
         {| pv_value := VNum 250%float; pv_type := PNumber;
            pv_editable := Some true; pv_constraints := None |} ]}
    {| pv_value := VNum 250%float; pv_type := PNumber;
       pv_editable := Some true; pv_constraints := None |}
    [snapDistance] 0%nat snapDistance
    eq_refl eq_refl eq_refl eq_refl eq_refl) as H.
  cbv zeta in H.
  destruct H as (_ & _ & _ & _ & Hc & Hl & _ & Hi & _).
  exact (conj Hc (conj Hl Hi)).
Defined.



(** ** The entity resolver *)

Section FindFacts.

Context {A : Type}.
Implicit Types (p q : A -> bool) (l : list A).

Lemma find_firstPassing p l e :
  List.find p l = Some e <-> firstPassing p l e.
Proof.
  split.
  - induction l as [|x r IH]; simpl; [discriminate|].
    destruct (p x) eqn:Hx.
    + intros [= <-]. exists [], r. auto.
    + intros Hr. destruct (IH Hr) as (b & a & -> & He & Hb).
      exists (x :: b), a. auto.
  - intros (b & a & -> & He & Hb).
    induction Hb as [|x b Hx Hb IH]; simpl.
    + rewrite He. reflexivity.
    + rewrite Hx. exact IH.
Qed.

Lemma find_ext p q l :
  (forall x, p x = q x) -> List.find p l = List.find q l.
Proof.
  intros Hpq. induction l as [|x r IH]; simpl; [reflexivity|].
  rewrite Hpq, IH. reflexivity.
Qed.

Lemma find_none_of_false l : List.find (fun _ : A => false) l = None.
Proof. induction l; simpl; auto. Qed.

Lemma find_guard (b : bool) p l :
  (if b then List.find p l else None) = List.find (fun x => b && p x) l.
Proof. destruct b; simpl; [reflexivity|]. symmetry. apply find_none_of_false. Qed.

Lemma find_in_filter p q l :
  List.find q (filter (fun x => p x = true) l)
  = List.find (fun x => p x && q x) l.
Proof.
  induction l as [|x r IH]; [reflexivity|].
  rewrite filter_cons. destruct (decide (p x = true)) as [Hx|Hx]; simpl.
  - rewrite Hx. simpl. rewrite IH. reflexivity.
  - apply not_true_is_false in Hx. rewrite Hx. simpl. exact IH.
Qed.

Lemma find_exists p l x :
  In x l -> p x = true -> exists e, List.find p l = Some e.
Proof.
  intros Hin Hx. destruct (List.find p l) eqn:Hf; [eauto|].
  exfalso. pose proof (List.find_none _ _ Hf x Hin). congruence.
Qed.

End FindFacts.

(** A scanning stage is a [find] over the entities in insertion order. *)
Lemma stage_scans s reference p model :
  scanPredicate s reference = Some p ->
  EntityResolver.stageFn s reference model
  = List.find p (DTDLModel.getAllEntities model).
Proof.
  destruct s; simpl; try discriminate.
  - intros [= <-]. reflexivity.
  - intros [= <-]. unfold EntityResolver.stagePartial, EntityResolver.find.
    apply find_guard.
  - unfold EntityResolver.stageTyped, EntityResolver.find.
    destruct (Regex.matchStart EntityResolver.typePattern
                (EntityResolver.normalize reference)) as [caps|].
    + intros [= <-]. unfold DTDLModel.getEntitiesByType.
      destruct (EntityResolver.nonEmpty (EntityResolver.group caps 6));
        rewrite find_in_filter; apply find_ext; intros e; simpl.
      * rewrite andb_assoc. reflexivity.
      * rewrite andb_true_r. reflexivity.
    + intros [= <-]. symmetry. apply find_none_of_false.
  - intros [= <-]. unfold EntityResolver.stageFuzzy, EntityResolver.find.
    apply find_guard.
Qed.

(** [resolve] is the first hit of the cascade, or the error. *)
Lemma resolve_firstHit reference model :
  EntityResolver.resolve reference model
  = match EntityResolver.firstHit EntityResolver.cascade reference model with
    | Some (_, e) => Ok e
    | None => Throw (EntityNotFoundError reference)
    end.
Proof.
  unfold EntityResolver.resolve, EntityResolver.cascade. simpl.
  repeat match goal with
         | |- context [match ?x with Some _ => _ | None => _ end] =>
             destruct x; try reflexivity
         end.
Qed.

(** The hit of a list of stages is the answer of one of them, and the
    stages before it in the list have none. *)
Lemma firstHit_split stages reference model s e :
  EntityResolver.firstHit stages reference model = Some (s, e) ->
  exists before after,
    stages = before ++ s :: after
    /\ EntityResolver.stageFn s reference model = Some e
    /\ Forall (fun s' => EntityResolver.stageFn s' reference model = None) before.
Proof.
  induction stages as [|s0 rest IH]; simpl; [discriminate|].
  destruct (EntityResolver.stageFn s0 reference model) as [e0|] eqn:H0.
  - intros [= <- <-]. exists [], rest. auto.
  - intros Hrest. destruct (IH Hrest) as (b & a & -> & Hs & Hb).
    exists (s0 :: b), a. auto.
Qed.

Lemma firstHit_none stages reference model :
  EntityResolver.firstHit stages reference model = None ->
  Forall (fun s => EntityResolver.stageFn s reference model = None) stages.
Proof.
  induction stages as [|s0 rest IH]; simpl; [constructor|].
  destruct (EntityResolver.stageFn s0 reference model) eqn:H0; [discriminate|].
  auto.
Qed.

(** In the cascade the stages before [s] are those of smaller rank. *)
Lemma cascade_before before s after s' :
  EntityResolver.cascade = before ++ s :: after ->
  rank s' < rank s -> In s' before.
Proof.
  unfold EntityResolver.cascade. intros Hsplit Hlt.
  destruct before as [|b0 [|b1 [|b2 [|b3 [|b4 [|b5 [|b6 bs]]]]]]];
    simplify_eq/=; destruct s'; simpl in Hlt; try lia; auto 10.
Qed.

(** The tokens of the reference of the example. *)
Lemma truck_777_2_parts :
  scanPredicate EntityResolver.Partial "truck 777 2"
  = Some (fun e => (0 <? 3)%nat
                   && EntityResolver.allPartsIn ["truck"; "777"; "2"] e).
Proof. reflexivity. Qed.

(** Any model that holds an entity of that id answers the reference of
    the example at the partial-match stage at the latest. *)
Lemma truck_777_2_partial_at_latest model x :
  In x (DTDLModel.getAllEntities model) ->
  e_id x = "Haul_Truck_CAT_777_2" ->
  exists s e,
    EntityResolver.firstHit EntityResolver.cascade "truck 777 2" model
    = Some (s, e)
    /\ rank s <= rank EntityResolver.Partial.
Proof.
  intros Hin Hid.
  pose proof (stage_scans EntityResolver.Partial "truck 777 2" _ model
                truck_777_2_parts) as Hscan.
  destruct (find_exists
              (fun e => (0 <? 3)%nat
                        && EntityResolver.allPartsIn ["truck"; "777"; "2"] e)
              (DTDLModel.getAllEntities model) x Hin) as [e He].
  { unfold EntityResolver.allPartsIn. rewrite Hid. reflexivity. }
  rewrite He in Hscan. unfold EntityResolver.cascade. simpl.
  destruct (EntityResolver.stageExact "truck 777 2" model) as [e0|];
    [exists EntityResolver.Exact, e0; simpl; split; [reflexivity|lia]|].
  destruct (EntityResolver.stageNormalized "truck 777 2" model) as [e1|];
    [exists EntityResolver.Normalized, e1; simpl; split; [reflexivity|lia]|].
  destruct (EntityResolver.stageCaseInsensitive "truck 777 2" model) as [e2|];
    [exists EntityResolver.CaseInsensitive, e2; simpl; split; [reflexivity|lia]|].
  simpl in Hscan. rewrite Hscan.
  exists EntityResolver.Partial, e. simpl. split; [reflexivity|lia].
Qed.

(** C1, as the code has it. Resolution is a fixed cascade: [resolve]
    answers with the first stage, in the order exact, normalized,
    case-insensitive, partial (token subset), typed, fuzzy, that finds an
    entity, no earlier stage having found one, and throws
    ENTITY_NOT_FOUND when none does; a scanning stage answers with the
    first entity, in the order of insertion, that passes its test. For
    the truck "Haul_Truck_CAT_777_2" and its decoy
    "Haul_Truck_CAT_777_20" the reference "truck 777 2" is answered by
    the partial-match stage, before the typed stage is tried, with the
    one of the two that was inserted first; and in any model that holds
    the truck the reference is answered at that stage at the latest. *)
Theorem C1_cascade_first_hit_in_insertion_order :
  (forall reference model,
     EntityResolver.resolve reference model
     = match EntityResolver.firstHit EntityResolver.cascade reference model with
       | Some (_, e) => Ok e
       | None => Throw (EntityNotFoundError reference)
       end)
  /\ (forall reference model s e,
        EntityResolver.firstHit EntityResolver.cascade reference model
        = Some (s, e) ->
        EntityResolver.stageFn s reference model = Some e
        /\ forall s', rank s' < rank s ->
                      EntityResolver.stageFn s' reference model = None)
  /\ (forall reference model,
        EntityResolver.firstHit EntityResolver.cascade reference model = None ->
        forall s, EntityResolver.stageFn s reference model = None)
  /\ (forall s reference p model e,
        scanPredicate s reference = Some p ->
        EntityResolver.stageFn s reference model = Some e ->
        firstPassing p (DTDLModel.getAllEntities model) e)
  /\ (EntityResolver.firstHit EntityResolver.cascade "truck 777 2" truckFirst
      = Some (EntityResolver.Partial, truck2)
      /\ EntityResolver.resolve "truck 777 2" truckFirst = Ok truck2
      /\ EntityResolver.firstHit EntityResolver.cascade "truck 777 2" decoyFirst
         = Some (EntityResolver.Partial, truck20)
      /\ EntityResolver.resolve "truck 777 2" decoyFirst = Ok truck20)
  /\ (forall model x,
        In x (DTDLModel.getAllEntities model) ->
        e_id x = "Haul_Truck_CAT_777_2" ->
        exists s e,
          EntityResolver.firstHit EntityResolver.cascade "truck 777 2" model
          = Some (s, e)
          /\ rank s <= rank EntityResolver.Partial).
Proof.
  split; [exact resolve_firstHit|].
  split.
  { intros reference model s e Hhit.
    destruct (firstHit_split _ _ _ _ _ Hhit) as (b & a & Hsplit & Hs & Hb).
    split; [exact Hs|]. intros s' Hlt.
    rewrite Forall_forall in Hb. apply Hb. apply list_elem_of_In.
    eapply cascade_before; eauto. }
  split.
  { intros reference model Hnone s.
    pose proof (firstHit_none _ _ _ Hnone) as Hall.
    rewrite Forall_forall in Hall. apply Hall. apply list_elem_of_In.
    unfold EntityResolver.cascade. destruct s; simpl; auto 10. }
  split.
  { intros s reference p model e Hp Hs.
    rewrite (stage_scans s reference p model Hp) in Hs.
    apply find_firstPassing. exact Hs. }
  split.
  { repeat split; vm_compute; reflexivity. }
  exact truck_777_2_partial_at_latest.
Qed.

(** The cascade on the truck and the decoy, through the theorem. *)
Lemma C1_cascade_witness :
  EntityResolver.stageFn EntityResolver.Partial "truck 777 2" decoyFirst
  = Some truck20
  /\ EntityResolver.stageFn EntityResolver.CaseInsensitive "truck 777 2"
       decoyFirst = None
  /\ firstPassing
       (fun e => (0 <? 3)%nat
                 && EntityResolver.allPartsIn ["truck"; "777"; "2"] e)
       (DTDLModel.getAllEntities decoyFirst) truck20.
Proof.
  destruct C1_cascade_first_hit_in_insertion_order
    as (_ & Hhit & _ & Hscan & (_ & _ & Hd & _) & _).
  destruct (Hhit "truck 777 2" decoyFirst EntityResolver.Partial truck20 Hd)
    as [Hs Hbefore].
  split; [exact Hs|]. split.
  - apply Hbefore. simpl. lia.
  - exact (Hscan EntityResolver.Partial "truck 777 2" _ decoyFirst truck20
             truck_777_2_parts Hs).
Defined.

(** C1 as the specification words it fails on both orders of insertion:
    the reference "truck 777 2" is never answered by the typed stage, and
    with the decoy inserted first the answer is the decoy. *)
Lemma C1_decoy_counterexample :
  ~ (exists e,
       EntityResolver.firstHit EntityResolver.cascade "truck 777 2" decoyFirst
       = Some (EntityResolver.Typed, e)
       /\ e_id e = "Haul_Truck_CAT_777_2")
  /\ ~ (exists e,
          EntityResolver.firstHit EntityResolver.cascade "truck 777 2"
            truckFirst = Some (EntityResolver.Typed, e))
  /\ (exists e,
        EntityResolver.resolve "truck 777 2" decoyFirst = Ok e
        /\ e_id e = "Haul_Truck_CAT_777_20"
        /\ e_id e <> "Haul_Truck_CAT_777_2").
Proof.
  split; [|split].
  - intros (e & He & _).
    assert (H : EntityResolver.firstHit EntityResolver.cascade "truck 777 2"
                  decoyFirst = Some (EntityResolver.Partial, truck20))
      by (vm_compute; reflexivity).
    rewrite H in He. discriminate.
  - intros (e & He).
    assert (H : EntityResolver.firstHit EntityResolver.cascade "truck 777 2"
                  truckFirst = Some (EntityResolver.Partial, truck2))
      by (vm_compute; reflexivity).
    rewrite H in He. discriminate.
  - exists truck20. split; [vm_compute; reflexivity|].
    split; [reflexivity|]. discriminate.
Qed.

(** The typed stage on the reference of the example: its pattern is
    matched against the normalized reference "truck_777_2", and does not
    match it. *)
Remark typed_stage_on_truck_777_2 :
  EntityResolver.normalize "truck 777 2" = "truck_777_2"
  /\ Regex.matchStart EntityResolver.typePattern "truck_777_2" = None
  /\ EntityResolver.stageTyped "truck 777 2" truckFirst = None.
Proof. repeat split; vm_compute; reflexivity. Qed.

(** ** The count executor *)

Section CountFacts.

Implicit Types (telemetry pre rest : list TelemetryRecord).

Lemma lastSeenOnSource_snoc sourcePath destinationPath pre record :
  lastSeenOnSource sourcePath destinationPath (pre ++ [record])
  = if CountExecutor.onPath record sourcePath then true
    else if CountExecutor.onPath record destinationPath then false
    else lastSeenOnSource sourcePath destinationPath pre.
Proof.
  unfold lastSeenOnSource. rewrite rev_app_distr. simpl.
  destruct (CountExecutor.onPath record sourcePath) eqn:Hs; simpl.
  - exact Hs.
  - destruct (CountExecutor.onPath record destinationPath); simpl; auto.
Qed.

Lemma wasOn_snoc pathId pre record :
  wasOn pathId (pre ++ [record]) = CountExecutor.onPath record pathId.
Proof. unfold wasOn. rewrite rev_app_distr. reflexivity. Qed.

(** A record is on one path at a time. *)
Lemma onPath_exclusive record sourcePath destinationPath :
  String.eqb sourcePath destinationPath = false ->
  CountExecutor.onPath record sourcePath = true ->
  CountExecutor.onPath record destinationPath = false.
Proof.
  unfold CountExecutor.onPath. intros Hne.
  destruct (haulPathId record) as [p|]; [|discriminate].
  intros Hp. apply String.eqb_eq in Hp. subst p. exact Hne.
Qed.

(** The loop of the source-to-destination count, started on [rest] after
    [pre] with the flag of [pre], adds the trips completed in [rest]. *)
Lemma betweenLoop_counts sourcePath destinationPath rest :
  String.eqb sourcePath destinationPath = false ->
  forall pre tripCount,
    CountExecutor.betweenLoop sourcePath destinationPath rest tripCount
      (lastSeenOnSource sourcePath destinationPath pre)
    = tripCount
      + List.length (List.filter (completesTrip sourcePath destinationPath)
                       (splitsFrom pre rest)).
Proof.
  intros Hne.
  induction rest as [|record rest IH]; intros pre tripCount; simpl.
  - lia.
  - pose proof (lastSeenOnSource_snoc sourcePath destinationPath pre record)
      as Hflag.
    unfold completesTrip at 1. simpl.
    destruct (CountExecutor.onPath record sourcePath) eqn:Hs; simpl.
    + rewrite (onPath_exclusive _ _ _ Hne Hs). simpl.
      rewrite <- Hflag. apply IH.
    + destruct (CountExecutor.onPath record destinationPath) eqn:Hd; simpl.
      * destruct (lastSeenOnSource sourcePath destinationPath pre) eqn:Hw;
          simpl.
        -- rewrite <- Hflag, IH. lia.
        -- rewrite <- Hflag. apply IH.
      * rewrite <- Hflag. apply IH.
Qed.

(** The loop of the entries count, likewise. *)
Lemma onPathLoop_counts pathId rest :
  forall pre tripCount,
    CountExecutor.onPathLoop pathId rest tripCount (wasOn pathId pre)
    = tripCount
      + List.length (List.filter (entersPath pathId) (splitsFrom pre rest)).
Proof.
  induction rest as [|record rest IH]; intros pre tripCount; simpl.
  - lia.
  - specialize (IH (pre ++ [record])). rewrite wasOn_snoc in IH.
    rewrite IH. unfold entersPath at 2. simpl.
    destruct (CountExecutor.onPath record pathId && negb (wasOn pathId pre));
      simpl; lia.
Qed.

End CountFacts.

Lemma length_zero_iff (telemetry : list TelemetryRecord) :
  (0 <? List.length telemetry)%nat = true ->
  (List.length telemetry =? 0)%nat = false.
Proof. destruct telemetry; simpl; [discriminate|reflexivity]. Qed.

(** C2. With distinct source and destination paths the count executor
    counts the records that come onto the destination while the flag
    "currently on source" is set, the flag being set by a record on the
    source, cleared by a record on the destination and left as it is by
    any other record; with a source path only it counts the records that
    are on the path while the record before them, if any, is not. On the
    path sequence A, A, B, A, B, B, C both counts are 2. *)
Theorem C2_count_trips_and_entries :
  (forall telemetry sourcePath destinationPath,
     String.eqb sourcePath destinationPath = false ->
     CountExecutor.countTripsBetweenPaths telemetry sourcePath destinationPath
     = List.length (List.filter (completesTrip sourcePath destinationPath)
                      (withHistory telemetry)))
  /\ (forall sourcePath destinationPath,
        lastSeenOnSource sourcePath destinationPath [] = false
        /\ forall pre record,
             lastSeenOnSource sourcePath destinationPath (pre ++ [record])
             = if CountExecutor.onPath record sourcePath then true
               else if CountExecutor.onPath record destinationPath then false
               else lastSeenOnSource sourcePath destinationPath pre)
  /\ (forall telemetry pathId,
        CountExecutor.countTripsOnPath telemetry pathId
        = List.length (List.filter (entersPath pathId) (withHistory telemetry)))
  /\ (forall pathId,
        wasOn pathId [] = false
        /\ forall pre record,
             wasOn pathId (pre ++ [record]) = CountExecutor.onPath record pathId)
  /\ (forall q telemetry sourcePath destinationPath,
        (0 <? List.length telemetry)%nat = true ->
        sourcePathOf q = Some sourcePath ->
        destinationPathOf q = Some destinationPath ->
        EntityResolver.nonEmpty sourcePath = true ->
        EntityResolver.nonEmpty destinationPath = true ->
        String.eqb sourcePath destinationPath = false ->
        qr_value (CountExecutor.execute q telemetry)
        = VNum (numOfNat (CountExecutor.countTripsBetweenPaths telemetry
                            sourcePath destinationPath)))
  /\ (forall q telemetry sourcePath,
        (0 <? List.length telemetry)%nat = true ->
        sourcePathOf q = Some sourcePath ->
        destinationPathOf q = None ->
        EntityResolver.nonEmpty sourcePath = true ->
        qr_value (CountExecutor.execute q telemetry)
        = VNum (numOfNat (CountExecutor.countTripsOnPath telemetry sourcePath)))
  /\ (CountExecutor.countTripsBetweenPaths tripSample "A" "B" = 2
      /\ CountExecutor.countTripsOnPath tripSample "A" = 2
      /\ qr_value (CountExecutor.execute
                     (queryOf Count None None (Some "A") (Some "B")) tripSample)
         = VNum 2%float
      /\ qr_value (CountExecutor.execute
                     (queryOf Count None None (Some "A") None) tripSample)
         = VNum 2%float).
Proof.
  split.
  { intros telemetry sourcePath destinationPath Hne.
    exact (betweenLoop_counts sourcePath destinationPath telemetry Hne [] 0). }
  split.
  { intros sourcePath destinationPath. split; [reflexivity|].
    intros pre record. apply lastSeenOnSource_snoc. }
  split.
  { intros telemetry pathId.
    exact (onPathLoop_counts pathId telemetry [] 0). }
  split.
  { intros pathId. split; [reflexivity|]. intros pre record.
    apply wasOn_snoc. }
  split.
  { intros q telemetry sourcePath destinationPath Hlen Hs Hd Hsn Hdn Hne.
    unfold CountExecutor.execute. rewrite (length_zero_iff _ Hlen).
    rewrite Hs, Hd. unfold CountExecutor.mode. rewrite Hsn, Hdn, Hne.
    reflexivity. }
  split.
  { intros q telemetry sourcePath Hlen Hs Hd Hsn.
    unfold CountExecutor.execute. rewrite (length_zero_iff _ Hlen).
    rewrite Hs, Hd. unfold CountExecutor.mode. rewrite Hsn. reflexivity. }
  repeat split; vm_compute; reflexivity.
Qed.

(** The two counts on the path sequence of the example, through the
    theorem. *)
Lemma C2_count_witness :
  List.length (List.filter (completesTrip "A" "B") (withHistory tripSample)) = 2
  /\ qr_value (CountExecutor.execute
                 (queryOf Count None None (Some "A") (Some "B")) tripSample)
     = VNum (numOfNat
               (CountExecutor.countTripsBetweenPaths tripSample "A" "B"))
  /\ qr_value (CountExecutor.execute
                 (queryOf Count None None (Some "A") None) tripSample)
     = VNum (numOfNat (CountExecutor.countTripsOnPath tripSample "A")).
Proof.
  destruct C2_count_trips_and_entries
    as (Hbetween & _ & _ & _ & Hexec & Hentries & (H2 & _)).
  split; [|split].
  - rewrite <- (Hbetween tripSample "A" "B" eq_refl). exact H2.
  - exact (Hexec (queryOf Count None None (Some "A") (Some "B")) tripSample
             "A" "B" eq_refl eq_refl eq_refl eq_refl eq_refl eq_refl).
  - exact (Hentries (queryOf Count None None (Some "A") None) tripSample "A"
             eq_refl eq_refl eq_refl eq_refl).
Defined.

(** C9. A count query whose source and destination paths are the same
    path is not counted from source to destination: the executor answers
    it as the query with that source path and no destination. For a
    path that is not the empty string the answer is the number of
    entries into the path: the records that are on the path while the
    record before them, if any, is not. On the path sequence A, A, B, A,
    B, B, C, with A as source and as destination, the answer is 2, the
    entries into A, where the count from source to destination is 0. *)
Theorem C9_equal_paths_count_entries
    (q : ResolvedQuery) (telemetry : list TelemetryRecord) (path : string) :
  sourcePathOf q = Some path ->
  destinationPathOf q = Some path ->
  (forall q',
     sourcePathOf q' = Some path ->
     destinationPathOf q' = None ->
     rq_timeWindow q' = rq_timeWindow q ->
     CountExecutor.execute q telemetry = CountExecutor.execute q' telemetry)
  /\ CountExecutor.mode (Some path) (Some path)
     = CountExecutor.mode (Some path) None
  /\ (EntityResolver.nonEmpty path = true ->
      CountExecutor.mode (Some path) (Some path) = CountExecutor.OnPath path
      /\ qr_value (CountExecutor.execute q telemetry)
         = VNum (numOfNat
                   (List.length (List.filter (entersPath path)
                                   (withHistory telemetry))))
      /\ ((0 <? List.length telemetry)%nat = true ->
          qr_value (CountExecutor.execute q telemetry)
          = VNum (numOfNat (CountExecutor.countTripsOnPath telemetry path))))
  /\ (qr_value (CountExecutor.execute
                  (queryOf Count None None (Some "A") (Some "A")) tripSample)
      = VNum 2%float
      /\ List.length (List.filter (entersPath "A") (withHistory tripSample))
         = 2
      /\ CountExecutor.countTripsBetweenPaths tripSample "A" "A" = 0).
Proof.
  intros Hs Hd.
  assert (Hmode : CountExecutor.mode (Some path) (Some path)
                  = CountExecutor.mode (Some path) None).
  { unfold CountExecutor.mode. rewrite String.eqb_refl.
    rewrite andb_false_r. reflexivity. }
  split; [|split; [|split]].
  - intros q' Hs' Hd' Htw. unfold CountExecutor.execute.
    rewrite Hs, Hd, Hs', Hd', Hmode, Htw. reflexivity.
  - exact Hmode.
  - intros Hne. rewrite Hmode. unfold CountExecutor.mode at 1. rewrite Hne.
    split; [reflexivity|].
    assert (Hvalue : (0 <? List.length telemetry)%nat = true ->
                     qr_value (CountExecutor.execute q telemetry)
                     = VNum (numOfNat
                               (CountExecutor.countTripsOnPath telemetry path))).
    { intros Hlen.
      unfold CountExecutor.execute. rewrite (length_zero_iff _ Hlen).
      rewrite Hs, Hd, Hmode. unfold CountExecutor.mode. rewrite Hne.
      reflexivity. }
    split; [|exact Hvalue].
    destruct telemetry as [|record rest]; [reflexivity|].
    rewrite (Hvalue eq_refl). do 2 f_equal.
    exact (onPathLoop_counts path (record :: rest) [] 0).
  - repeat split; vm_compute; reflexivity.
Qed.

(** The path sequence of the example with A as source and as
    destination: the two entries into A. *)
Lemma C9_equal_paths_witness :
  CountExecutor.execute (queryOf Count None None (Some "A") (Some "A"))
    tripSample
  = CountExecutor.execute (queryOf Count None None (Some "A") None) tripSample
  /\ qr_value (CountExecutor.execute
                 (queryOf Count None None (Some "A") (Some "A")) tripSample)
     = VNum (numOfNat
               (List.length (List.filter (entersPath "A")
                               (withHistory tripSample)))).
Proof.
  destruct (C9_equal_paths_count_entries
              (queryOf Count None None (Some "A") (Some "A")) tripSample "A"
              eq_refl eq_refl) as (Hsame & _ & Hentries & _).
  split.
  - exact (Hsame (queryOf Count None None (Some "A") None)
             eq_refl eq_refl eq_refl).
  - exact (proj1 (proj2 (Hentries eq_refl))).
Defined.

(** ** The aggregate and property executors *)

Section SortFacts.

Implicit Types (l : list TelemetryRecord) (x y : TelemetryRecord).

Lemma insertBy_In x y l :
  In y (PropertyExecutor.insertBy PropertyExecutor.byTimeDescending x l)
  <-> y = x \/ In y l.
Proof.
  induction l as [|z r IH]; simpl.
  - intuition.
  - destruct (PropertyExecutor.byTimeDescending x z <=? 0)%Z; simpl;
      rewrite ?IH; intuition.
Qed.

Lemma sort_In y l :
  In y (PropertyExecutor.sort PropertyExecutor.byTimeDescending l) <-> In y l.
Proof.
  induction l as [|z r IH]; simpl; [reflexivity|].
  unfold PropertyExecutor.sort in *. simpl. rewrite insertBy_In, IH.
  intuition.
Qed.

Lemma insertBy_sorted x l :
  StronglySorted laterFirst l ->
  StronglySorted laterFirst
    (PropertyExecutor.insertBy PropertyExecutor.byTimeDescending x l).
Proof.
  induction 1 as [|z r Hr IH Hz]; simpl.
  - repeat constructor.
  - unfold PropertyExecutor.byTimeDescending at 1.
    destruct (timestamp z - timestamp x <=? 0)%Z eqn:Hcmp.
    + apply Z.leb_le in Hcmp. constructor; [constructor; assumption|].
      constructor; [unfold laterFirst; lia|].
      rewrite List.Forall_forall in *. intros w Hw.
      specialize (Hz w Hw). unfold laterFirst in *. lia.
    + apply Z.leb_gt in Hcmp. constructor; [exact IH|].
      rewrite List.Forall_forall in *. intros w Hw.
      apply insertBy_In in Hw as [->|Hw]; [unfold laterFirst; lia|auto].
Qed.

Lemma sort_sorted l :
  StronglySorted laterFirst
    (PropertyExecutor.sort PropertyExecutor.byTimeDescending l).
Proof.
  induction l as [|z r IH]; simpl; [constructor|].
  apply insertBy_sorted. exact IH.
Qed.

(** The head of the sorted copy is a latest record. *)
Lemma sort_head_latest l mostRecent rest :
  PropertyExecutor.sort PropertyExecutor.byTimeDescending l
  = mostRecent :: rest ->
  isLatest l mostRecent.
Proof.
  intros Hsort. pose proof (sort_sorted l) as Hs. rewrite Hsort in Hs.
  inversion Hs as [|? ? _ Hall]; subst. split.
  - apply sort_In. rewrite Hsort. left. reflexivity.
  - intros r' Hr'. apply sort_In in Hr'. rewrite Hsort in Hr'.
    destruct Hr' as [->|Hr']; [lia|].
    rewrite List.Forall_forall in Hall. exact (Hall r' Hr').
Qed.

(** The sorted copy of a non-empty array is not empty. *)
Lemma sort_nonempty l :
  (0 <? List.length l)%nat = true ->
  exists mostRecent rest,
    PropertyExecutor.sort PropertyExecutor.byTimeDescending l
    = mostRecent :: rest.
Proof.
  destruct l as [|z r]; [discriminate|]. intros _.
  destruct (PropertyExecutor.sort PropertyExecutor.byTimeDescending (z :: r))
    as [|h t] eqn:Hsort; [|eauto].
  exfalso. assert (Hin : In z []) by (rewrite <- Hsort; apply sort_In; left;
                                      reflexivity).
  exact Hin.
Qed.

End SortFacts.

(** The speed field of a record. *)
Lemma getField_speedMph r : getField r "speedMph" = ofNum (speedMph r).
Proof. reflexivity. Qed.

(** The values the aggregate executor extracts for the speed are the
    speeds read, each times 1.60934. *)
Lemma extractValues_speed telemetry :
  AggregateExecutor.extractValues telemetry "speedMph"
  = map toKmh (speedsRead telemetry).
Proof.
  induction telemetry as [|r rest IH]; [reflexivity|].
  cbn [AggregateExecutor.extractValues]. rewrite getField_speedMph.
  unfold speedsRead. cbn [omap list_omap]. fold (speedsRead rest).
  destruct (speedMph r) as [x|]; simpl; [|exact IH].
  destruct (PrimFloat.is_nan x); simpl; [exact IH|].
  rewrite IH. reflexivity.
Qed.

(** The converted speed of the most recent record. *)
Lemma fromRecord_speed t mostRecent n x :
  AggregateExecutor.fieldOf t = "speedMph" ->
  speedMph mostRecent = Some x ->
  PropertyExecutor.fromRecord t mostRecent n
  = {| qr_value := VNum (toKmh x);
       qr_units := "km/h";
       qr_metadata :=
         Some {| md_recordCount := Some n; md_timeWindow := None |} |}.
Proof.
  intros Hfield Hx. unfold PropertyExecutor.fromRecord.
  rewrite Hfield, getField_speedMph, Hx. reflexivity.
Qed.

(** The aggregate executor outside its guards and its special case. *)
Lemma aggregate_execute_values argumentLimit telemetryService q op telemetry :
  rq_operation q = Some op ->
  (0 <? List.length telemetry)%nat = true ->
  AggregateExecutor.isRouteUtilization telemetryService q = false ->
  AggregateExecutor.execute argumentLimit telemetryService q telemetry
  = let values :=
      AggregateExecutor.extractValues telemetry
        (AggregateExecutor.getAggregateField q) in
    if (List.length values =? 0)%nat then
      Ok {| qr_value := VNum 0%float;
            qr_units := AggregateExecutor.getUnitsForProperty (rq_property q);
            qr_metadata :=
              Some {| md_recordCount := Some (List.length telemetry);
                      md_timeWindow := None |} |}
    else
      match AggregateExecutor.aggregate argumentLimit op values with
      | Throw e => Throw e
      | Ok result =>
          Ok {| qr_value := VNum result;
                qr_units :=
                  AggregateExecutor.getUnitsForProperty (rq_property q);
                qr_metadata :=
                  Some {| md_recordCount := Some (List.length telemetry);
                          md_timeWindow := Some (rq_timeWindow q) |} |}
      end.
Proof.
  intros Hop Hlen Hru. unfold AggregateExecutor.execute.
  rewrite Hop, (length_zero_iff _ Hlen), Hru. reflexivity.
Qed.

(** The switch of the aggregate executor answers, but for a maximum or a
    minimum of more values than the engine takes as arguments. *)
Lemma aggregate_answers argumentLimit op values :
  (op = Average \/ op = Sum
   \/ (List.length values <= argumentLimit)%nat) ->
  AggregateExecutor.aggregate argumentLimit op values
  = Ok (aggregateOf op values).
Proof.
  unfold AggregateExecutor.aggregate, JSMath.spread.
  intros [->|[->|Hfit]]; [reflexivity|reflexivity|].
  apply Nat.leb_le in Hfit. rewrite Hfit. destruct op; reflexivity.
Qed.

Lemma aggregate_overflows argumentLimit op values :
  op = Max \/ op = Min ->
  (argumentLimit < List.length values)%nat ->
  AggregateExecutor.aggregate argumentLimit op values
  = Throw JSMath.stackExceeded.
Proof.
  unfold AggregateExecutor.aggregate, JSMath.spread. intros Hop Hlong.
  apply Nat.leb_gt in Hlong. rewrite Hlong.
  destruct Hop as [->| ->]; reflexivity.
Qed.

(** C7, as the code has it. Every speed read from the field [speedMph]
    is multiplied by 1.60934: the aggregate executor aggregates the
    speeds of the records, each times 1.60934, and the property executor
    answers with the speed of a latest record times 1.60934. The
    property executor puts the units km/h beside the converted speed;
    the aggregate executor puts the units of the descriptor of the
    property there, which are "mph" for the speed field as the property
    resolver describes it, and no units for a query without a property.
    So a speed of 10 mph is reported as 16.0934 km/h by the property
    executor and as 16.0934 mph by the aggregate executor. (The maximum
    and the minimum of more speeds than the engine takes as arguments
    are not answered: the call throws.) *)
Theorem C7_speed_is_converted_to_kmh :
  MPH_TO_KMH = 1.60934%float
  /\ (forall telemetry,
        AggregateExecutor.extractValues telemetry "speedMph"
        = map (fun mph => PrimFloat.mul mph 1.60934%float)
            (speedsRead telemetry))
  /\ (forall argumentLimit telemetryService q op telemetry,
        rq_operation q = Some op ->
        AggregateExecutor.getAggregateField q = "speedMph" ->
        AggregateExecutor.isRouteUtilization telemetryService q = false ->
        (0 <? List.length (speedsRead telemetry))%nat = true ->
        let kmh :=
          map (fun mph => PrimFloat.mul mph 1.60934%float)
            (speedsRead telemetry) in
        ((op = Average \/ op = Sum
          \/ (List.length kmh <= argumentLimit)%nat) ->
         AggregateExecutor.execute argumentLimit telemetryService q telemetry
         = Ok {| qr_value := VNum (aggregateOf op kmh);
                 qr_units :=
                   AggregateExecutor.getUnitsForProperty (rq_property q);
                 qr_metadata :=
                   Some {| md_recordCount := Some (List.length telemetry);
                           md_timeWindow := Some (rq_timeWindow q) |} |})
        /\ (op = Max \/ op = Min ->
            (argumentLimit < List.length kmh)%nat ->
            AggregateExecutor.execute argumentLimit telemetryService q
              telemetry
            = Throw JSMath.stackExceeded))
  /\ (forall q t telemetry,
        rq_property q = Some (FromTelemetry t) ->
        AggregateExecutor.fieldOf t = "speedMph" ->
        (0 <? List.length telemetry)%nat = true ->
        exists mostRecent,
          isLatest telemetry mostRecent
          /\ PropertyExecutor.execute q telemetry
             = Ok (PropertyExecutor.fromRecord t mostRecent
                     (List.length telemetry))
          /\ forall mph,
               speedMph mostRecent = Some mph ->
               qr_value (PropertyExecutor.fromRecord t mostRecent
                           (List.length telemetry))
               = VNum (PrimFloat.mul mph 1.60934%float)
               /\ qr_units (PropertyExecutor.fromRecord t mostRecent
                              (List.length telemetry)) = "km/h")
  /\ (PropertyResolver.findPropertyInTelemetry "speed"
      = PropertyResolver.found speedInfo
      /\ AggregateExecutor.getUnitsForProperty (Some speedInfo) = "mph"
      /\ AggregateExecutor.getUnitsForProperty None = "")
  /\ (PrimFloat.mul 10%float 1.60934%float = 16.0934%float
      /\ (forall op,
            AggregateExecutor.execute sampleLimit true
              (queryOf Aggregate (Some speedInfo) (Some op) None None)
              [atSpeed 0 10%float]
            = Ok {| qr_value := VNum 16.0934%float;
                    qr_units := "mph";
                    qr_metadata :=
                      Some {| md_recordCount := Some 1%nat;
                              md_timeWindow := Some (window 60%float) |} |})
      /\ (forall op,
            resultUnits
              (AggregateExecutor.execute sampleLimit true
                 (queryOf Aggregate None (Some op) None None)
                 [atSpeed 0 10%float])
            = Some "")
      /\ PropertyExecutor.execute
           (queryOf GetProperty (Some speedInfo) None None None)
           [atSpeed 0 10%float]
         = Ok {| qr_value := VNum 16.0934%float;
                 qr_units := "km/h";
                 qr_metadata :=
                   Some {| md_recordCount := Some 1%nat;
                           md_timeWindow := None |} |}).
Proof.
  split; [reflexivity|].
  split; [exact extractValues_speed|].
  split.
  { intros argumentLimit telemetryService q op telemetry Hop Hfield Hru
      Hspeeds kmh.
    assert (Hlen : (0 <? List.length telemetry)%nat = true).
    { destruct telemetry; [discriminate Hspeeds|reflexivity]. }
    assert (Hexec :
      AggregateExecutor.execute argumentLimit telemetryService q telemetry
      = match AggregateExecutor.aggregate argumentLimit op kmh with
        | Throw e => Throw e
        | Ok result =>
            Ok {| qr_value := VNum result;
                  qr_units :=
                    AggregateExecutor.getUnitsForProperty (rq_property q);
                  qr_metadata :=
                    Some {| md_recordCount := Some (List.length telemetry);
                            md_timeWindow := Some (rq_timeWindow q) |} |}
        end).
    { rewrite (aggregate_execute_values _ _ _ _ _ Hop Hlen Hru). cbv zeta.
      rewrite Hfield, extractValues_speed. fold toKmh. unfold kmh.
      rewrite length_map.
      destruct (speedsRead telemetry) as [|x xs]; [discriminate Hspeeds|].
      reflexivity. }
    split.
    - intros Hfit. rewrite Hexec, (aggregate_answers _ _ _ Hfit).
      reflexivity.
    - intros Hop' Hlong.
      rewrite Hexec, (aggregate_overflows _ _ _ Hop' Hlong). reflexivity. }
  split.
  { intros q t telemetry Hprop Hfield Hlen.
    destruct (sort_nonempty telemetry Hlen) as (mostRecent & rest & Hsort).
    exists mostRecent. split; [exact (sort_head_latest _ _ _ Hsort)|].
    split.
    - unfold PropertyExecutor.execute.
      rewrite Hprop, (length_zero_iff _ Hlen), Hsort. reflexivity.
    - intros mph Hmph.
      rewrite (fromRecord_speed t mostRecent _ mph Hfield Hmph).
      split; reflexivity. }
  split; [repeat split; vm_compute; reflexivity|].
  split; [vm_compute; reflexivity|]. split.
  - intros op. destruct op; vm_compute; reflexivity.
  - split; [intros op; destruct op|]; vm_compute; reflexivity.
Qed.

(** Two records, the later one at 10 mph: both executors through the
    theorem, with the maximum on an engine that takes the two speeds and
    on one that takes a single argument. *)
Lemma C7_speed_witness :
  AggregateExecutor.execute sampleLimit true
    (queryOf Aggregate (Some speedInfo) (Some Max) None None)
    [atSpeed 0 5%float; atSpeed 60000 10%float]
  = Ok {| qr_value := VNum 16.0934%float;
          qr_units := "mph";
          qr_metadata :=
            Some {| md_recordCount := Some 2%nat;
                    md_timeWindow := Some (window 60%float) |} |}
  /\ AggregateExecutor.execute 1 true
       (queryOf Aggregate (Some speedInfo) (Some Max) None None)
       [atSpeed 0 5%float; atSpeed 60000 10%float]
     = Throw JSMath.stackExceeded
  /\ exists mostRecent,
       isLatest [atSpeed 0 5%float; atSpeed 60000 10%float] mostRecent
       /\ PropertyExecutor.execute
            (queryOf GetProperty (Some speedInfo) None None None)
            [atSpeed 0 5%float; atSpeed 60000 10%float]
          = Ok (PropertyExecutor.fromRecord
                  {| tp_name := "speedMph"; tp_type := INumber;
                     tp_units := Some "mph"; tp_telemetryField := "speedMph" |}
                  mostRecent 2).
Proof.
  destruct C7_speed_is_converted_to_kmh as (_ & _ & Hagg & Hprop & _).
  split; [|split].
  - rewrite (proj1 (Hagg sampleLimit true
                      (queryOf Aggregate (Some speedInfo) (Some Max) None None)
                      Max [atSpeed 0 5%float; atSpeed 60000 10%float]
                      eq_refl eq_refl eq_refl eq_refl)).
    + vm_compute. reflexivity.
    + right. right. vm_compute. lia.
  - apply (proj2 (Hagg 1 true
                    (queryOf Aggregate (Some speedInfo) (Some Max) None None)
                    Max [atSpeed 0 5%float; atSpeed 60000 10%float]
                    eq_refl eq_refl eq_refl eq_refl)).
    + left. reflexivity.
    + vm_compute. lia.
  - destruct (Hprop (queryOf GetProperty (Some speedInfo) None None None)
                {| tp_name := "speedMph"; tp_type := INumber;
                   tp_units := Some "mph"; tp_telemetryField := "speedMph" |}
                [atSpeed 0 5%float; atSpeed 60000 10%float]
                eq_refl eq_refl eq_refl) as (mostRecent & Hlatest & Hexec & _).
    exists mostRecent. split; [exact Hlatest|exact Hexec].
Defined.

(** C10. For a property of the schema the property executor answers with
    the current value of the descriptor when it is neither [undefined]
    nor [null], else with its initial value when that is neither, else
    with "N/A", whatever the telemetry records are. *)
Theorem C10_schema_property_ignores_telemetry
    (q : ResolvedQuery) (d : DTDLPropertyInfo)
    (telemetry : list TelemetryRecord) :
  rq_property q = Some (FromDTDL d) ->
  PropertyExecutor.execute q telemetry
  = Ok {| qr_value :=
            if negb (nullish (dp_value d)) then dp_value d
            else if negb (nullish (dp_initialValue d)) then dp_initialValue d
            else VStr "N/A";
          qr_units := PropertyExecutor.getUnitsForProperty (FromDTDL d);
          qr_metadata := None |}
  /\ forall telemetry',
       PropertyExecutor.execute q telemetry'
       = PropertyExecutor.execute q telemetry.
Proof.
  intros Hprop. unfold PropertyExecutor.execute. rewrite Hprop.
  split; [|reflexivity]. unfold coalesce.
  destruct (nullish (dp_value d)) eqn:Hvalue; simpl.
  - destruct (nullish (dp_initialValue d)); reflexivity.
  - rewrite Hvalue. reflexivity.
Qed.

(** The snap distance of the truck, which has no current value: the
    initial value 250, with and without telemetry. *)
Lemma C10_schema_property_witness :
  resultValue
    (PropertyExecutor.execute
       (queryOf GetProperty (Some snapInfo) None None None) tripSample)
  = Some (VNum 250%float)
  /\ PropertyExecutor.execute
       (queryOf GetProperty (Some snapInfo) None None None) []
     = PropertyExecutor.execute
         (queryOf GetProperty (Some snapInfo) None None None) tripSample.
Proof.
  destruct (C10_schema_property_ignores_telemetry
              (queryOf GetProperty (Some snapInfo) None None None)
              (PropertyResolver.createDTDLPropertyInfo snapDistance)
              tripSample eq_refl) as [Hvalue Hsame].
  split.
  - rewrite Hvalue. reflexivity.
  - exact (Hsame []).
Defined.

(** The aggregate executor on an empty array, whatever the query, once
    it has an operation. *)
Lemma aggregate_execute_empty argumentLimit telemetryService q op :
  rq_operation q = Some op ->
  AggregateExecutor.execute argumentLimit telemetryService q []
  = Ok {| qr_value := VNum 0%float;
          qr_units := AggregateExecutor.getUnitsForProperty (rq_property q);
          qr_metadata :=
            Some {| md_recordCount := Some 0%nat; md_timeWindow := None |} |}.
Proof.
  intros Hop. unfold AggregateExecutor.execute. rewrite Hop. reflexivity.
Qed.

(** The record count of an answer of the aggregate executor is the
    number of records. *)
Lemma aggregate_recordCount argumentLimit telemetryService q telemetry r :
  AggregateExecutor.execute argumentLimit telemetryService q telemetry
  = Ok r ->
  recordCount r = Some (List.length telemetry).
Proof.
  unfold AggregateExecutor.execute.
  destruct (rq_operation q) as [op|]; [|discriminate].
  destruct telemetry as [|x rest]; [intros [= <-]; reflexivity|].
  cbn [List.length Nat.eqb].
  destruct (AggregateExecutor.isRouteUtilization telemetryService q);
    [intros [= <-]; reflexivity|].
  cbv zeta.
  destruct (List.length _ =? 0)%nat; [intros [= <-]; reflexivity|].
  destruct (AggregateExecutor.aggregate _ _ _); [|discriminate].
  intros [= <-]. reflexivity.
Qed.

(** C6, as the code has it. With no telemetry records the property
    executor answers "N/A" with record count 0 for a telemetry property,
    and the aggregate executor answers 0 with record count 0 for a query
    that has an operation. With records but no numeric value to extract,
    the aggregate executor, outside the route utilization case, answers 0
    with the number of records as record count. An answer of the
    aggregate executor has record count 0 exactly when there are no
    records. *)
Theorem C6_no_data_results :
  (forall q t,
     rq_property q = Some (FromTelemetry t) ->
     PropertyExecutor.execute q []
     = Ok {| qr_value := VStr "N/A";
             qr_units := PropertyExecutor.getUnitsForProperty (FromTelemetry t);
             qr_metadata :=
               Some {| md_recordCount := Some 0%nat;
                       md_timeWindow := None |} |})
  /\ (forall argumentLimit telemetryService q op,
        rq_operation q = Some op ->
        AggregateExecutor.execute argumentLimit telemetryService q []
        = Ok {| qr_value := VNum 0%float;
                qr_units :=
                  AggregateExecutor.getUnitsForProperty (rq_property q);
                qr_metadata :=
                  Some {| md_recordCount := Some 0%nat;
                          md_timeWindow := None |} |})
  /\ (forall argumentLimit telemetryService q op telemetry,
        rq_operation q = Some op ->
        (0 <? List.length telemetry)%nat = true ->
        AggregateExecutor.isRouteUtilization telemetryService q = false ->
        AggregateExecutor.extractValues telemetry
          (AggregateExecutor.getAggregateField q) = [] ->
        AggregateExecutor.execute argumentLimit telemetryService q telemetry
        = Ok {| qr_value := VNum 0%float;
                qr_units :=
                  AggregateExecutor.getUnitsForProperty (rq_property q);
                qr_metadata :=
                  Some {| md_recordCount := Some (List.length telemetry);
                          md_timeWindow := None |} |})
  /\ (forall argumentLimit telemetryService q telemetry r,
        AggregateExecutor.execute argumentLimit telemetryService q telemetry
        = Ok r ->
        (recordCount r = Some 0%nat <-> telemetry = [])).
Proof.
  split.
  { intros q t Hprop. unfold PropertyExecutor.execute. rewrite Hprop.
    reflexivity. }
  split; [exact aggregate_execute_empty|].
  split.
  { intros argumentLimit telemetryService q op telemetry Hop Hlen Hru Hnone.
    rewrite (aggregate_execute_values _ _ _ _ _ Hop Hlen Hru). cbv zeta.
    rewrite Hnone. reflexivity. }
  intros argumentLimit telemetryService q telemetry r Hexec.
  rewrite (aggregate_recordCount _ _ _ _ _ Hexec). split.
  - intros [= Hlen]. destruct telemetry; [reflexivity|discriminate].
  - intros ->. reflexivity.
Qed.

(** The speed queries on no records and on records without a speed. *)
Lemma C6_no_data_witness :
  resultValue
    (PropertyExecutor.execute
       (queryOf GetProperty (Some speedInfo) None None None) [])
  = Some (VStr "N/A")
  /\ resultCount
       (AggregateExecutor.execute sampleLimit true
          (queryOf Aggregate (Some speedInfo) (Some Average) None None) [])
     = Some 0%nat
  /\ resultCount
       (AggregateExecutor.execute sampleLimit true
          (queryOf Aggregate (Some speedInfo) (Some Average) None None)
          tripSample)
     = Some 7%nat
  /\ resultValue
       (AggregateExecutor.execute sampleLimit true
          (queryOf Aggregate (Some speedInfo) (Some Average) None None)
          tripSample)
     = Some (VNum 0%float).
Proof.
  destruct C6_no_data_results as (Hprop & Hempty & Hnone & _).
  split; [|split; [|split]].
  - rewrite (Hprop (queryOf GetProperty (Some speedInfo) None None None)
               {| tp_name := "speedMph"; tp_type := INumber;
                  tp_units := Some "mph"; tp_telemetryField := "speedMph" |}
               eq_refl). reflexivity.
  - rewrite (Hempty sampleLimit true
               (queryOf Aggregate (Some speedInfo) (Some Average) None None)
               Average eq_refl). reflexivity.
  - rewrite (Hnone sampleLimit true
               (queryOf Aggregate (Some speedInfo) (Some Average) None None)
               Average tripSample eq_refl eq_refl eq_refl eq_refl).
    reflexivity.
  - rewrite (Hnone sampleLimit true
               (queryOf Aggregate (Some speedInfo) (Some Average) None None)
               Average tripSample eq_refl eq_refl eq_refl eq_refl).
    reflexivity.
Defined.

(** C6 as the specification words it fails: with no telemetry records the
    property executor answers a query on a property of the schema with
    the value of the property and no record count, and throws on a query
    without a property; the aggregate executor throws on a query without
    an operation; and with records but no numeric value the aggregate
    executor answers a route utilization query with the utilization, not
    with 0. *)
Lemma C6_no_data_counterexample :
  PropertyExecutor.execute
    (queryOf GetProperty (Some snapInfo) None None None) []
  = Ok {| qr_value := VNum 250%float; qr_units := ""; qr_metadata := None |}
  /\ resultValue
       (PropertyExecutor.execute
          (queryOf GetProperty (Some snapInfo) None None None) [])
     <> Some (VStr "N/A")
  /\ resultCount
       (PropertyExecutor.execute
          (queryOf GetProperty (Some snapInfo) None None None) [])
     <> Some 0%nat
  /\ throws (PropertyExecutor.execute
               (queryOf GetProperty None None None None) []) = true
  /\ throws (AggregateExecutor.execute sampleLimit true
               (queryOf Aggregate None None None None) []) = true
  /\ AggregateExecutor.extractValues tripSample
       (AggregateExecutor.getAggregateField
          (queryOf Aggregate None (Some Average) (Some "A") None)) = []
  /\ resultValue
       (AggregateExecutor.execute sampleLimit true
          (queryOf Aggregate None (Some Average) (Some "A") None) tripSample)
     = Some (VNum (PrimFloat.mul (PrimFloat.div 7%float 60%float) 100%float))
  /\ PrimFloat.eqb
       (PrimFloat.mul (PrimFloat.div 7%float 60%float) 100%float) 0%float
     = false.
Proof.
  repeat split; try (vm_compute; reflexivity); vm_compute; discriminate.
Qed.

(** The units beside a converted speed: the property executor always says
    km/h; the aggregate executor says what the descriptor says, "mph" for
    the speed field as the property resolver describes it, and nothing
    for a query without a property. *)
Remark units_of_a_converted_speed :
  resultUnits
    (PropertyExecutor.execute
       (queryOf GetProperty (Some speedInfo) None None None)
       [atSpeed 0 10%float]) = Some "km/h"
  /\ resultUnits
       (AggregateExecutor.execute sampleLimit true
          (queryOf Aggregate (Some speedInfo) (Some Average) None None)
          [atSpeed 0 10%float]) = Some "mph"
  /\ resultUnits
       (AggregateExecutor.execute sampleLimit true
          (queryOf Aggregate None (Some Average) None None)
          [atSpeed 0 10%float]) = Some "".
Proof. repeat split; vm_compute; reflexivity. Qed.

(** ** The update validator *)

Section FloatOrder.

(** Comparing the other way round gives the opposite answer. *)
Lemma SFcompare_antisym x y :
  SFcompare y x = option_map CompOpp (SFcompare x y).
Proof.
  destruct x as [sx|sx| |sx mx ex], y as [sy|sy| |sy my ey]; simpl;
    try reflexivity;
    try (destruct sx; reflexivity); try (destruct sy; reflexivity);
    try (destruct sx, sy; reflexivity).
  destruct sx, sy; simpl; try reflexivity;
    rewrite (Z.compare_antisym ey ex);
    destruct (ey ?= ex)%Z; simpl; try reflexivity; f_equal.
  - rewrite CompOpp_involutive. exact (Pos.compare_cont_antisym my mx Eq).
  - symmetry. exact (Pos.compare_cont_antisym mx my Eq).
Qed.


End FloatOrder.

Section ValidatorFacts.

Variable getConstraint : string -> string -> option PropertyConstraint.


End ValidatorFacts.



(** ** The schema resolver *)

(** [resolveCommand] once the entities and the property are resolved. *)
Lemma resolveCommand_resolved dtdlModel intent first rest result property :
  EntityResolver.resolveBulk (ci_targetEntity intent) dtdlModel
    (ci_filter intent) = Ok (first :: rest) ->
  PropertyResolver.resolveProperty first (ci_property intent) = result ->
  PropertyResolver.success result = true ->
  PropertyResolver.property result = Some property ->
  SchemaResolver.resolveCommand dtdlModel intent
  = match source property with
    | SourceTelemetry =>
        Throw (DomainError
                 ("Property '" +:+ ci_property intent +:+
                  "' is a telemetry field and cannot be modified. Only DTDL properties can be updated.")
                 "PROPERTY_NOT_EDITABLE")
    | SourceDtdl =>
        Ok {| rc_action := ci_action intent;
              rc_targetEntities := first :: rest;
              rc_property := property;
              rc_value := ci_value intent;
              rc_scope :=
                match ci_scope intent with
                | Some scope => scope
                | None => defaultScope (first :: rest)
                end;
              rc_filters := ci_filter intent |}
    end.
Proof.
  intros Hbulk Hres Hok Hprop. unfold SchemaResolver.resolveCommand.
  rewrite Hbulk, Hres, Hok, Hprop. reflexivity.
Qed.

(** C5. When the entities of a command resolve and its property resolves
    to a telemetry field, [resolveCommand] throws PROPERTY_NOT_EDITABLE;
    when the property resolves to a property of the schema, the resolved
    command has the scope the intent states, and without one "bulk" for
    more than one entity and "single" otherwise. A resolved command never
    has a telemetry field as its property. *)
Theorem C5_commands_reject_telemetry_and_default_scope
    (dtdlModel : DTDLModel.t) (intent : CommandIntent) :
  (forall first rest property,
     EntityResolver.resolveBulk (ci_targetEntity intent) dtdlModel
       (ci_filter intent) = Ok (first :: rest) ->
     PropertyResolver.success
       (PropertyResolver.resolveProperty first (ci_property intent)) = true ->
     PropertyResolver.property
       (PropertyResolver.resolveProperty first (ci_property intent))
     = Some property ->
     (source property = SourceTelemetry ->
      throws (SchemaResolver.resolveCommand dtdlModel intent) = true
      /\ thrownCode (SchemaResolver.resolveCommand dtdlModel intent)
         = Some "PROPERTY_NOT_EDITABLE")
     /\ (source property = SourceDtdl ->
         exists command,
           SchemaResolver.resolveCommand dtdlModel intent = Ok command
           /\ rc_targetEntities command = first :: rest
           /\ rc_property command = property
           /\ (forall scope, ci_scope intent = Some scope ->
                             rc_scope command = scope)
           /\ (ci_scope intent = None ->
               rc_scope command
               = if (1 <? List.length (first :: rest))%nat
                 then Bulk else Single)))
  /\ (forall command,
        SchemaResolver.resolveCommand dtdlModel intent = Ok command ->
        source (rc_property command) = SourceDtdl
        /\ rc_scope command
           = match ci_scope intent with
             | Some scope => scope
             | None =>
                 if (1 <? List.length (rc_targetEntities command))%nat
                 then Bulk else Single
             end).
Proof.
  split.
  - intros first rest property Hbulk Hok Hprop.
    rewrite (resolveCommand_resolved dtdlModel intent first rest _ property
               Hbulk eq_refl Hok Hprop).
    split.
    + intros ->. split; reflexivity.
    + intros ->. eexists. split; [reflexivity|]. simpl.
      split; [reflexivity|]. split; [reflexivity|]. split.
      * intros scope ->. reflexivity.
      * intros ->. reflexivity.
  - intros command. unfold SchemaResolver.resolveCommand.
    destruct (EntityResolver.resolveBulk _ _ _) as [[|first rest]|];
      try discriminate.
    destruct (PropertyResolver.success _); [|discriminate].
    destruct (PropertyResolver.property _) as [property|]; [|discriminate].
    destruct (source property) eqn:Hsource; [|discriminate].
    intros [= <-]. simpl. split; [exact Hsource|reflexivity].
Qed.

(** Commands on the trucks: the speed is a telemetry field; the snap
    distance is of the schema, on one truck and on all. *)
Lemma C5_commands_witness :
  thrownCode (SchemaResolver.resolveCommand truckFirst
                (commandOn "Haul_Truck_CAT_777_2" "speed" None))
  = Some "PROPERTY_NOT_EDITABLE"
  /\ (exists command,
        SchemaResolver.resolveCommand truckFirst
          (commandOn "Haul_Truck_CAT_777_2" "snap distance" None) = Ok command
        /\ rc_scope command = Single)
  /\ (exists command,
        SchemaResolver.resolveCommand truckFirst
          (commandOn "all trucks" "snap distance" None) = Ok command
        /\ rc_scope command = Bulk)
  /\ (exists command,
        SchemaResolver.resolveCommand truckFirst
          (commandOn "all trucks" "snap distance" (Some Single)) = Ok command
        /\ rc_scope command = Single).
Proof.
  split; [|split; [|split]].
  - destruct (C5_commands_reject_telemetry_and_default_scope truckFirst
                (commandOn "Haul_Truck_CAT_777_2" "speed" None)) as [H _].
    destruct (H truck2 [] speedInfo eq_refl eq_refl eq_refl) as [Ht _].
    exact (proj2 (Ht eq_refl)).
  - destruct (C5_commands_reject_telemetry_and_default_scope truckFirst
                (commandOn "Haul_Truck_CAT_777_2" "snap distance" None))
      as [H _].
    destruct (H truck2 [] snapInfo eq_refl eq_refl eq_refl) as [_ Hd].
    destruct (Hd eq_refl) as (command & Hc & _ & _ & _ & Hscope).
    exists command. split; [exact Hc|exact (Hscope eq_refl)].
  - destruct (C5_commands_reject_telemetry_and_default_scope truckFirst
                (commandOn "all trucks" "snap distance" None)) as [H _].
    destruct (H truck2 [truck20] snapInfo eq_refl eq_refl eq_refl) as [_ Hd].
    destruct (Hd eq_refl) as (command & Hc & _ & _ & _ & Hscope).
    exists command. split; [exact Hc|exact (Hscope eq_refl)].
  - destruct (C5_commands_reject_telemetry_and_default_scope truckFirst
                (commandOn "all trucks" "snap distance" (Some Single)))
      as [H _].
    destruct (H truck2 [truck20] snapInfo eq_refl eq_refl eq_refl) as [_ Hd].
    destruct (Hd eq_refl) as (command & Hc & _ & _ & Hscope & _).
    exists command. split; [exact Hc|exact (Hscope Single eq_refl)].
Defined.

(** * Further properties *)

(** ** The twin model: construction, lookup and JSON *)

Lemma find_app {A : Type} (p : A -> bool) (l1 l2 : list A) :
  List.find p (l1 ++ l2)
  = match List.find p l1 with
    | Some x => Some x
    | None => List.find p l2
    end.
Proof.
  induction l1 as [|x r IH]; simpl; [reflexivity|].
  destruct (p x); [reflexivity|exact IH].
Qed.

Section MapFacts.

Implicit Types (m : DTDLModel.t) (e : Entity) (id : string).

Lemma mapGet_mapSet_eq m id e :
  DTDLModel.mapGet (DTDLModel.mapSet m id e) id = Some e.
Proof.
  induction m as [|[k e0] r IH]; simpl.
  - rewrite String.eqb_refl. reflexivity.
  - destruct (String.eqb k id) eqn:Hk; simpl; rewrite Hk; auto.
Qed.

Lemma mapGet_mapSet_ne m id other e :
  id <> other ->
  DTDLModel.mapGet (DTDLModel.mapSet m id e) other = DTDLModel.mapGet m other.
Proof.
  intros Hne. induction m as [|[k e0] r IH]; simpl.
  - apply String.eqb_neq in Hne. rewrite Hne. reflexivity.
  - destruct (String.eqb k id) eqn:Hk; simpl.
    + apply String.eqb_eq in Hk. subst k.
      apply String.eqb_neq in Hne. rewrite Hne. reflexivity.
    + destruct (String.eqb k other); auto.
Qed.

Lemma mapGet_None_keys m id :
  DTDLModel.mapGet m id = None <-> ~ In id (map fst m).
Proof.
  induction m as [|[k e0] r IH]; simpl; [tauto|].
  destruct (String.eqb k id) eqn:Hk.
  - apply String.eqb_eq in Hk. split; [discriminate|]. intros H.
    exfalso. apply H. left. exact Hk.
  - apply String.eqb_neq in Hk. rewrite IH. tauto.
Qed.

(** A new key goes to the end. *)
Lemma mapSet_fresh m id e :
  ~ In id (map fst m) -> DTDLModel.mapSet m id e = m ++ [(id, e)].
Proof.
  induction m as [|[k e0] r IH]; simpl; [reflexivity|].
  intros Hfresh. destruct (String.eqb k id) eqn:Hk.
  - apply String.eqb_eq in Hk. exfalso. apply Hfresh. left. exact Hk.
  - rewrite IH by tauto. reflexivity.
Qed.

(** A key that is there keeps its place, and the keys are as before. *)
Lemma mapSet_keys_present m id e :
  In id (map fst m) -> map fst (DTDLModel.mapSet m id e) = map fst m.
Proof.
  induction m as [|[k e0] r IH]; simpl; [tauto|].
  intros Hin. destruct (String.eqb k id) eqn:Hk; simpl; [reflexivity|].
  apply String.eqb_neq in Hk. rewrite IH; [reflexivity|].
  destruct Hin; [contradiction|assumption].
Qed.

Lemma mapSet_keys m id e :
  map fst (DTDLModel.mapSet m id e)
  = match DTDLModel.mapGet m id with
    | Some _ => map fst m
    | None => map fst m ++ [id]
    end.
Proof.
  destruct (DTDLModel.mapGet m id) as [e0|] eqn:Hget.
  - apply mapSet_keys_present.
    destruct (in_dec string_dec id (map fst m)) as [Hin|Hout]; [exact Hin|].
    apply mapGet_None_keys in Hout. congruence.
  - apply mapGet_None_keys in Hget.
    rewrite (mapSet_fresh m id e Hget), map_app. reflexivity.
Qed.

Lemma mapSet_entries m id e b :
  In b (DTDLModel.mapSet m id e) -> b = (id, e) \/ In b m.
Proof.
  induction m as [|[k e0] r IH]; simpl.
  - intros [<-|[]]. left. reflexivity.
  - destruct (String.eqb k id) eqn:Hk; simpl.
    + apply String.eqb_eq in Hk. subst k. intros [<-|Hin]; auto.
    + intros [<-|Hin]; auto. destruct (IH Hin); auto.
Qed.

Lemma addEntity_wellFormed m e :
  wellFormed m -> wellFormed (DTDLModel.addEntity m e).
Proof.
  intros [Hnodup Hkeys]. unfold DTDLModel.addEntity. split.
  - rewrite mapSet_keys.
    destruct (DTDLModel.mapGet m (e_id e)) eqn:Hget; [exact Hnodup|].
    apply mapGet_None_keys in Hget.
    apply NoDup_app. split; [exact Hnodup|]. split.
    + intros x Hx Hx'. apply list_elem_of_In in Hx.
      apply list_elem_of_singleton in Hx'. subst x. contradiction.
    + apply NoDup_singleton.
  - rewrite List.Forall_forall in *. intros b Hb.
    destruct (mapSet_entries _ _ _ _ Hb) as [->|Hin]; [reflexivity|auto].
Qed.

(** The fold of the constructor, from any map: the lookup of an id gives
    the last entity of the list with that id, or what the map had. *)
Lemma fold_mapSet_lookup entities :
  forall m id,
    DTDLModel.mapGet
      (fold_left (fun m e => DTDLModel.mapSet m (e_id e) e) entities m) id
    = match lastWithId entities id with
      | Some e => Some e
      | None => DTDLModel.mapGet m id
      end.
Proof.
  unfold lastWithId.
  induction entities as [|e rest IH]; intros m id; simpl; [reflexivity|].
  rewrite IH, find_app.
  destruct (List.find _ (rev rest)) as [e'|]; [reflexivity|]. simpl.
  destruct (String.eqb (e_id e) id) eqn:He.
  - apply String.eqb_eq in He. subst id. apply mapGet_mapSet_eq.
  - apply String.eqb_neq in He. apply mapGet_mapSet_ne. exact He.
Qed.

Lemma fold_mapSet_wellFormed entities :
  forall m,
    wellFormed m ->
    wellFormed
      (fold_left (fun m e => DTDLModel.mapSet m (e_id e) e) entities m).
Proof.
  induction entities as [|e rest IH]; intros m Hm; simpl; [exact Hm|].
  apply IH. exact (addEntity_wellFormed m e Hm).
Qed.

(** Entities of distinct ids, none of them in the map, are appended in
    their order. *)
Lemma fold_mapSet_distinct entities :
  forall m,
    List.NoDup (map e_id entities) ->
    (forall e, In e entities -> ~ In (e_id e) (map fst m)) ->
    fold_left (fun m e => DTDLModel.mapSet m (e_id e) e) entities m
    = m ++ map (fun e => (e_id e, e)) entities.
Proof.
  induction entities as [|e rest IH]; intros m Hnodup Hfresh; simpl.
  - rewrite app_nil_r. reflexivity.
  - inversion Hnodup as [|? ? Hnotin Hrest]; subst.
    rewrite (mapSet_fresh m (e_id e) e) by (apply Hfresh; left; reflexivity).
    rewrite IH; [rewrite <- app_assoc; reflexivity|exact Hrest|].
    intros e' He' Hin. rewrite map_app in Hin. apply in_app_or in Hin.
    destruct Hin as [Hin|[Heq|[]]].
    + exact (Hfresh e' (or_intror He') Hin).
    + apply Hnotin. simpl in Heq. rewrite Heq. apply in_map. exact He'.
Qed.

(** The map the constructor builds is well-formed. *)
Lemma make_wellFormed (entities : list Entity) :
  wellFormed (DTDLModel.make entities).
Proof.
  unfold DTDLModel.make. apply fold_mapSet_wellFormed.
  split; constructor.
Qed.

End MapFacts.

(** X1. The constructor builds a well-formed map, in which the lookup of
    an id gives the last entity of the array with that id, and nothing
    for an id that no entity of the array has. *)
Theorem X1_constructor_lookup (entities : list Entity) (id : string) :
  wellFormed (DTDLModel.make entities)
  /\ DTDLModel.getEntity (DTDLModel.make entities) id
     = lastWithId entities id
  /\ (DTDLModel.getEntity (DTDLModel.make entities) id = None
      <-> ~ In id (map e_id entities)).
Proof.
  assert (Hget : DTDLModel.getEntity (DTDLModel.make entities) id
                 = lastWithId entities id).
  { unfold DTDLModel.getEntity, DTDLModel.make.
    rewrite fold_mapSet_lookup. destruct (lastWithId entities id); reflexivity. }
  split; [|split; [exact Hget|]].
  - apply fold_mapSet_wellFormed. split; [constructor|constructor].
  - rewrite Hget. unfold lastWithId. split.
    + intros Hnone Hin. apply in_map_iff in Hin as (e & He & Hin).
      apply in_rev in Hin.
      pose proof (List.find_none _ _ Hnone e Hin) as Hneq. simpl in Hneq.
      rewrite He, String.eqb_refl in Hneq. discriminate.
    + intros Hnotin. destruct (List.find _ (rev entities)) as [e|] eqn:Hf;
        [|reflexivity].
      apply List.find_some in Hf as [Hin Heq]. apply String.eqb_eq in Heq.
      exfalso. apply Hnotin. rewrite <- Heq. apply in_map.
      apply in_rev. exact Hin.
Qed.

(** X2. [addEntity] followed by [getEntity] of the id of the entity gives
    the entity; the lookup of any other id is as before; the keys keep
    their order, a new id going to the end; and a well-formed map stays
    well-formed. *)
Theorem X2_addEntity_getEntity (m : DTDLModel.t) (e : Entity) :
  DTDLModel.getEntity (DTDLModel.addEntity m e) (e_id e) = Some e
  /\ (forall other,
        other <> e_id e ->
        DTDLModel.getEntity (DTDLModel.addEntity m e) other
        = DTDLModel.getEntity m other)
  /\ map fst (DTDLModel.addEntity m e)
     = match DTDLModel.getEntity m (e_id e) with
       | Some _ => map fst m
       | None => map fst m ++ [e_id e]
       end
  /\ (wellFormed m -> wellFormed (DTDLModel.addEntity m e)).
Proof.
  split; [apply mapGet_mapSet_eq|]. split.
  - intros other Hne. apply mapGet_mapSet_ne. congruence.
  - split; [apply mapSet_keys|apply addEntity_wellFormed].
Qed.

(** The truck added to a model that has it, and to one that has not. *)
Lemma X2_addEntity_witness :
  wellFormed (DTDLModel.addEntity (DTDLModel.make [truck20]) truck2)
  /\ map fst (DTDLModel.addEntity (DTDLModel.make [truck20]) truck2)
     = ["Haul_Truck_CAT_777_20"; "Haul_Truck_CAT_777_2"].
Proof.
  destruct (X2_addEntity_getEntity (DTDLModel.make [truck20]) truck2)
    as (_ & _ & Hkeys & Hwf).
  split.
  - apply Hwf. apply make_wellFormed.
  - rewrite Hkeys. reflexivity.
Defined.

(** X3. The model and its JSON form go back and forth: [fromJSON] of
    [toJSON] of a well-formed model is the model, and [toJSON] of
    [fromJSON] of entities of distinct ids is the entities in their
    order. *)
Theorem X3_json_round_trip :
  (forall m, wellFormed m -> fromJSON (toJSON m) = m)
  /\ (forall entities,
        NoDup (map e_id entities) ->
        toJSON (fromJSON entities) = entities).
Proof.
  assert (Hmake : forall entities,
            NoDup (map e_id entities) ->
            DTDLModel.make entities = map (fun e => (e_id e, e)) entities).
  { intros entities Hnodup. apply NoDup_ListNoDup in Hnodup.
    unfold DTDLModel.make.
    rewrite (fold_mapSet_distinct entities [] Hnodup); [reflexivity|].
    intros e _ []. }
  split.
  - intros m [Hnodup Hkeys]. unfold fromJSON, toJSON, DTDLModel.getAllEntities.
    assert (Hids : map e_id (map snd m) = map fst m).
    { rewrite map_map. apply map_ext_in. intros b Hb.
      rewrite List.Forall_forall in Hkeys. symmetry. exact (Hkeys b Hb). }
    rewrite Hmake by (rewrite Hids; exact Hnodup).
    rewrite map_map. rewrite <- (map_id m) at 2. apply map_ext_in.
    intros [k e] Hb. rewrite List.Forall_forall in Hkeys.
    specialize (Hkeys (k, e) Hb). simpl in *. congruence.
  - intros entities Hnodup. unfold fromJSON, toJSON, DTDLModel.getAllEntities.
    rewrite (Hmake entities Hnodup), map_map. apply map_id.
Qed.

(** The model of the truck and its decoy, there and back. *)
Lemma X3_json_witness :
  fromJSON (toJSON truckFirst) = truckFirst
  /\ toJSON (fromJSON [truck2; truck20]) = [truck2; truck20].
Proof.
  destruct X3_json_round_trip as [Hm He]. split.
  - apply Hm. apply make_wellFormed.
  - apply He. apply NoDup_ListNoDup.
    repeat constructor; simpl; intuition discriminate.
Defined.

(** ** The twin model: updates *)

Section UpdateFacts.

Implicit Types (m : DTDLModel.t) (cs : list Content).

(** The outcome of an update of a property that is in the cache. *)
Lemma update_cached m entityId property value entity props pv :
  DTDLModel.getEntity m entityId = Some entity ->
  e_properties entity = Some props ->
  props !! property = Some pv ->
  DTDLModel.updateEntityProperty m entityId property value
  = {| DTDLModel.o_result :=
         {| ur_success := true; ur_entityId := entityId;
            ur_property := property; ur_oldValue := pv_value pv;
            ur_newValue := value; ur_error := None |};
       DTDLModel.o_model :=
         DTDLModel.mutate m entityId
           (DTDLModel.withState entity
              (fst (DTDLModel.updateContents entityId property value
                      (e_contents entity)))
              (Some (<[property := DTDLModel.setCacheValue value pv]> props)));
       DTDLModel.o_warnings :=
         snd (DTDLModel.updateContents entityId property value
                (e_contents entity)) |}.
Proof.
  intros Hget Hprops Hpv.
  unfold DTDLModel.updateEntityProperty, DTDLModel.cached.
  rewrite Hget, Hprops, Hpv.
  destruct (DTDLModel.updateContents entityId property value
              (e_contents entity)); reflexivity.
Qed.

(** The lookup in what [extractProperties] folds: the entry of the last
    Property item of that name, or what was there. *)
Lemma fold_addProperty_lookup cs :
  forall props name,
    fold_left DTDLRepository.addProperty cs props !! name
    = match List.find (DTDLModel.isPropertyNamed name) (rev cs) with
      | Some c => Some (DTDLRepository.propertyEntry c)
      | None => props !! name
      end.
Proof.
  induction cs as [|c rest IH]; intros props name; simpl; [reflexivity|].
  rewrite IH, find_app.
  destruct (List.find _ (rev rest)) as [c'|]; [reflexivity|]. simpl.
  unfold DTDLRepository.addProperty, DTDLModel.isPropertyNamed.
  destruct (String.eqb (c_atType c) "Property"); simpl; [|reflexivity].
  destruct (String.eqb (c_name c) name) eqn:Hname.
  - apply String.eqb_eq in Hname. subst name. apply lookup_insert_eq.
  - apply String.eqb_neq in Hname. apply lookup_insert_ne. exact Hname.
Qed.

Lemma extractProperties_lookup cs name :
  DTDLRepository.extractProperties cs !! name
  = DTDLRepository.propertyEntry
      <$> List.find (DTDLModel.isPropertyNamed name) (rev cs).
Proof.
  unfold DTDLRepository.extractProperties. rewrite fold_addProperty_lookup.
  destruct (List.find _ (rev cs)); reflexivity.
Qed.

(** [find] from the end of a list, around one of its elements. *)
Lemma find_rev_middle (p : Content -> bool) (l1 l2 : list Content) x :
  List.find p (rev (l1 ++ x :: l2))
  = match List.find p (rev l2) with
    | Some y => Some y
    | None => if p x then Some x else List.find p (rev l1)
    end.
Proof.
  rewrite rev_app_distr. simpl. rewrite <- app_assoc, !find_app. simpl.
  destruct (List.find p (rev l2)); [reflexivity|].
  destruct (p x); reflexivity.
Qed.

(** With only one Property item of the name, [find] from the end finds
    the one [find] from the start finds. *)
Lemma find_rev_only property cs i c :
  list_find (fun c => DTDLModel.isPropertyNamed property c = true) cs
  = Some (i, c) ->
  onlyPropertyNamed property cs i ->
  List.find (DTDLModel.isPropertyNamed property) (rev cs) = Some c
  /\ List.find (DTDLModel.isPropertyNamed property) (rev (drop (S i) cs))
     = None.
Proof.
  intros Hfind Honly. apply list_find_Some in Hfind as (Hi & Hc & _).
  assert (Hafter : List.find (DTDLModel.isPropertyNamed property)
                     (rev (drop (S i) cs)) = None).
  { destruct (List.find _ (rev (drop (S i) cs))) as [x|] eqn:Hf; [|reflexivity].
    apply List.find_some in Hf as [Hin Hx]. apply in_rev in Hin.
    apply list_elem_of_In, list_elem_of_lookup in Hin as [j Hj].
    rewrite lookup_drop in Hj. specialize (Honly _ _ Hj Hx). lia. }
  split; [|exact Hafter].
  rewrite <- (take_drop_middle cs i c Hi), rev_app_distr. simpl.
  rewrite <- app_assoc, find_app, Hafter. simpl. rewrite Hc. reflexivity.
Qed.

(** The entry of a Property item after its value is set to a value that
    is not [undefined]. *)
Lemma propertyEntry_setContentValue value c :
  value <> VUndefined ->
  DTDLRepository.propertyEntry (DTDLModel.setContentValue value c)
  = DTDLModel.setCacheValue value (DTDLRepository.propertyEntry c).
Proof.
  intros Hv. unfold DTDLRepository.propertyEntry, DTDLModel.setCacheValue.
  simpl. destruct value; try reflexivity. contradiction.
Qed.

(** [extractProperties] after the write to the only item of the name. *)
Lemma extractProperties_written property value cs i c :
  value <> VUndefined ->
  list_find (fun c => DTDLModel.isPropertyNamed property c = true) cs
  = Some (i, c) ->
  onlyPropertyNamed property cs i ->
  DTDLRepository.extractProperties (<[i := DTDLModel.setContentValue value c]> cs)
  = <[property := DTDLModel.setCacheValue value
                    (DTDLRepository.propertyEntry c)]>
      (DTDLRepository.extractProperties cs).
Proof.
  intros Hv Hfind Honly.
  destruct (find_rev_only property cs i c Hfind Honly) as [Hlast Hafter].
  pose proof Hfind as Hfind'.
  apply list_find_Some in Hfind' as (Hi & Hc & _).
  apply map_eq. intros name. rewrite extractProperties_lookup.
  rewrite insert_take_drop by (eapply lookup_lt_Some; exact Hi).
  rewrite find_rev_middle.
  destruct (decide (property = name)) as [<-|Hne].
  - rewrite lookup_insert_eq, Hafter.
    rewrite isPropertyNamed_setContentValue, Hc. simpl.
    rewrite propertyEntry_setContentValue by exact Hv. reflexivity.
  - rewrite lookup_insert_ne by exact Hne. rewrite extractProperties_lookup.
    assert (Hsplit : List.find (DTDLModel.isPropertyNamed name) (rev cs)
                     = List.find (DTDLModel.isPropertyNamed name)
                         (rev (take i cs ++ c :: drop (S i) cs)))
      by (rewrite (take_drop_middle cs i c Hi); reflexivity).
    rewrite Hsplit, find_rev_middle.
    rewrite isPropertyNamed_setContentValue.
    assert (Hname : DTDLModel.isPropertyNamed name c = false).
    { unfold DTDLModel.isPropertyNamed in *.
      apply andb_prop in Hc as [_ Hc]. apply String.eqb_eq in Hc.
      apply andb_false_iff. right. apply String.eqb_neq. congruence. }
    rewrite Hname. reflexivity.
Qed.

End UpdateFacts.

(** X4. The cache stays what [extractProperties] makes of the contents
    array: for an entity whose cache is extracted from its contents, an
    update of a property that has one Property item, with a value that is
    not [undefined], succeeds and leaves an entity whose cache is again
    what [extractProperties] makes of its contents. *)
Theorem X4_update_keeps_cache_extracted
    (m : DTDLModel.t) (entityId property : string) (value : JSValue)
    (entity : Entity) (cs : list Content) (i : nat) (c : Content) :
  DTDLModel.getEntity m entityId = Some entity ->
  e_contents entity = Some cs ->
  e_properties entity = Some (DTDLRepository.extractProperties cs) ->
  list_find (fun c => DTDLModel.isPropertyNamed property c = true) cs
  = Some (i, c) ->
  onlyPropertyNamed property cs i ->
  value <> VUndefined ->
  let o := DTDLModel.updateEntityProperty m entityId property value in
  ur_success (DTDLModel.o_result o) = true
  /\ exists entity',
       DTDLModel.getEntity (DTDLModel.o_model o) entityId = Some entity'
       /\ cacheFromContents entity'
       /\ DTDLModel.cached entity' property
          = Some (DTDLModel.setCacheValue value
                    (DTDLRepository.propertyEntry c)).
Proof.
  intros Hget Hcs Hprops Hfind Honly Hv. cbv zeta.
  destruct (find_rev_only property cs i c Hfind Honly) as [Hlast _].
  assert (Hpv : DTDLRepository.extractProperties cs !! property
                = Some (DTDLRepository.propertyEntry c)).
  { rewrite extractProperties_lookup, Hlast. reflexivity. }
  rewrite (update_present m entityId property value entity _ _ cs i c
             Hget Hprops Hpv Hcs Hfind).
  cbn [DTDLModel.o_result DTDLModel.o_model ur_success].
  split; [reflexivity|]. eexists. split.
  - eapply mapGet_mutate_eq. exact Hget.
  - split.
    + eexists. split; [reflexivity|]. simpl.
      rewrite (extractProperties_written property value cs i c Hv Hfind Honly).
      reflexivity.
    + unfold DTDLModel.cached. simpl. apply lookup_insert_eq.
Qed.

(** The truck as it comes from the store, its snap distance set to 300. *)
Lemma X4_update_witness :
  exists entity',
    DTDLModel.getEntity
      (DTDLModel.o_model
         (DTDLModel.updateEntityProperty
            (fromJSON [DTDLRepository.mapToDomain truckRow])
            "Haul_Truck_CAT_777_2" "focusSnapDistanceMeters" (VNum 300%float)))
      "Haul_Truck_CAT_777_2" = Some entity'
    /\ cacheFromContents entity'.
Proof.
  destruct (X4_update_keeps_cache_extracted
              (fromJSON [DTDLRepository.mapToDomain truckRow])
              "Haul_Truck_CAT_777_2" "focusSnapDistanceMeters"
              (VNum 300%float) (DTDLRepository.mapToDomain truckRow)
              [snapDistance] 0 snapDistance
              eq_refl eq_refl eq_refl eq_refl)
    as (_ & entity' & Hget & Hcache & _).
  - intros j c Hj _. destruct j as [|j]; [reflexivity|].
    destruct j; discriminate Hj.
  - discriminate.
  - exists entity'. split; [exact Hget|exact Hcache].
Defined.

(** X5. When the property is in the cache and the contents array has no
    Property item of that name, the update still succeeds: the cache
    takes the value, the contents array is left as it is, and one
    warning that names the property and the entity is logged. *)
Theorem X5_update_without_content_item
    (m : DTDLModel.t) (entityId property : string) (value : JSValue)
    (entity : Entity) (props : gmap string PropertyValue) (pv : PropertyValue)
    (cs : list Content) :
  DTDLModel.getEntity m entityId = Some entity ->
  e_properties entity = Some props ->
  props !! property = Some pv ->
  e_contents entity = Some cs ->
  list_find (fun c => DTDLModel.isPropertyNamed property c = true) cs = None ->
  let o := DTDLModel.updateEntityProperty m entityId property value in
  ur_success (DTDLModel.o_result o) = true
  /\ DTDLModel.readCache (DTDLModel.o_model o) entityId property = Some value
  /\ (exists entity',
        DTDLModel.getEntity (DTDLModel.o_model o) entityId = Some entity'
        /\ e_contents entity' = Some cs)
  /\ DTDLModel.o_warnings o
     = ["Property '" +:+ property +:+
        "' found in computed properties but not in contents array for entity '"
        +:+ entityId +:+ "'"].
Proof.
  intros Hget Hprops Hpv Hcs Hfind. cbv zeta.
  rewrite (update_cached m entityId property value entity props pv
             Hget Hprops Hpv).
  unfold DTDLModel.updateContents. rewrite Hcs, Hfind.
  cbn [fst snd DTDLModel.o_result DTDLModel.o_model DTDLModel.o_warnings
       ur_success].
  split; [reflexivity|]. split; [|split; [|reflexivity]].
  - unfold DTDLModel.readCache.
    rewrite (mapGet_mutate_eq m entityId entity _ Hget). simpl.
    unfold DTDLModel.cached. simpl. rewrite lookup_insert_eq. reflexivity.
  - eexists. split; [eapply mapGet_mutate_eq; exact Hget|reflexivity].
Qed.

(** The truck whose contents array lacks the snap distance. *)
Lemma X5_update_witness :
  DTDLModel.readCache
    (DTDLModel.o_model
       (DTDLModel.updateEntityProperty (DTDLModel.make [divergedTruck])
          "Haul_Truck_CAT_777_2" "focusSnapDistanceMeters" (VNum 300%float)))
    "Haul_Truck_CAT_777_2" "focusSnapDistanceMeters" = Some (VNum 300%float)
  /\ List.length
       (DTDLModel.o_warnings
          (DTDLModel.updateEntityProperty (DTDLModel.make [divergedTruck])
             "Haul_Truck_CAT_777_2" "focusSnapDistanceMeters"
             (VNum 300%float))) = 1.
Proof.
  destruct (X5_update_without_content_item (DTDLModel.make [divergedTruck])
              "Haul_Truck_CAT_777_2" "focusSnapDistanceMeters"
              (VNum 300%float) divergedTruck
              {[ "focusSnapDistanceMeters" :=
                   {| pv_value := VNum 250%float; pv_type := PNumber;
                      pv_editable := Some true; pv_constraints := None |} ]}
              {| pv_value := VNum 250%float; pv_type := PNumber;
                 pv_editable := Some true; pv_constraints := None |}
              [] eq_refl eq_refl eq_refl eq_refl eq_refl)
    as (_ & Hcache & _ & Hwarn).
  split; [exact Hcache|]. rewrite Hwarn. reflexivity.
Defined.

(** X6. [extractProperties] gives a name the entry of the last Property
    item of that name in the contents array, and no entry to a name that
    no Property item has; the value of the entry is the value of the
    item, its initial value when it has no value, and [null] when it has
    neither. *)
Theorem X6_extractProperties_lookup (cs : list Content) (name : string) :
  DTDLRepository.extractProperties cs !! name
  = DTDLRepository.propertyEntry
      <$> List.find (DTDLModel.isPropertyNamed name) (rev cs)
  /\ (DTDLRepository.extractProperties cs !! name = None
      <-> Forall (fun c => DTDLModel.isPropertyNamed name c = false) cs)
  /\ (forall c,
        pv_value (DTDLRepository.propertyEntry c)
        = match c_value c, c_initialValue c with
          | VUndefined, VUndefined => VNull
          | VUndefined, initialValue => initialValue
          | value, _ => value
          end).
Proof.
  split; [apply extractProperties_lookup|]. split.
  - rewrite extractProperties_lookup. split.
    + intros Hnone. apply List.Forall_forall. intros c Hc.
      destruct (List.find _ (rev cs)) eqn:Hf; [discriminate|].
      apply (List.find_none _ _ Hf). apply in_rev in Hc. exact Hc.
    + intros Hall. destruct (List.find _ (rev cs)) as [c|] eqn:Hf;
        [|reflexivity].
      apply List.find_some in Hf as [Hin Hc]. apply in_rev in Hin.
      rewrite List.Forall_forall in Hall. rewrite (Hall c Hin) in Hc.
      discriminate.
  - intros c. unfold DTDLRepository.propertyEntry. simpl.
    destruct (c_value c); simpl; try reflexivity.
    destruct (c_initialValue c); reflexivity.
Qed.

(** X7. Two updates of the same property of the same entity compose to
    the last one: when the first succeeds, the second succeeds, reports
    the value of the first as the old value, and leaves the model that
    the second alone would have left. *)
Theorem X7_last_update_wins
    (m : DTDLModel.t) (entityId property : string) (v1 v2 : JSValue) :
  let first := DTDLModel.updateEntityProperty m entityId property v1 in
  let second :=
    DTDLModel.updateEntityProperty (DTDLModel.o_model first) entityId
      property v2 in
  ur_success (DTDLModel.o_result first) = true ->
  ur_success (DTDLModel.o_result second) = true
  /\ ur_oldValue (DTDLModel.o_result second) = v1
  /\ DTDLModel.o_model second
     = DTDLModel.o_model
         (DTDLModel.updateEntityProperty m entityId property v2).
Proof.
  cbv zeta. intros Hfirst.
  destruct (DTDLModel.getEntity m entityId) as [entity|] eqn:Hget.
  2: { unfold DTDLModel.updateEntityProperty in Hfirst.
       rewrite Hget in Hfirst. discriminate. }
  destruct (e_properties entity) as [props|] eqn:Hprops.
  2: { unfold DTDLModel.updateEntityProperty, DTDLModel.cached in Hfirst.
       rewrite Hget, Hprops in Hfirst. discriminate. }
  destruct (props !! property) as [pv|] eqn:Hpv.
  2: { unfold DTDLModel.updateEntityProperty, DTDLModel.cached in Hfirst.
       rewrite Hget, Hprops, Hpv in Hfirst. discriminate. }
  rewrite (update_cached m entityId property v1 entity props pv
             Hget Hprops Hpv).
  rewrite (update_cached m entityId property v2 entity props pv
             Hget Hprops Hpv).
  cbn [DTDLModel.o_model DTDLModel.o_result].
  set (e1 := DTDLModel.withState entity _ _).
  assert (Hget1 : DTDLModel.getEntity (DTDLModel.mutate m entityId e1) entityId
                  = Some e1) by (eapply mapGet_mutate_eq; exact Hget).
  rewrite (update_cached _ entityId property v2 e1
             (<[property := DTDLModel.setCacheValue v1 pv]> props)
             (DTDLModel.setCacheValue v1 pv) Hget1 eq_refl
             (lookup_insert_eq _ _ _)).
  cbn [DTDLModel.o_model DTDLModel.o_result ur_success ur_oldValue].
  split; [reflexivity|]. split; [reflexivity|].
  assert (Hmm : forall (m0 : DTDLModel.t) a b,
            DTDLModel.mutate (DTDLModel.mutate m0 entityId a) entityId b
            = DTDLModel.mutate m0 entityId b).
  { induction m0 as [|[k e0] r IH]; intros a b; simpl; [reflexivity|].
    destruct (String.eqb k entityId) eqn:Hk; simpl; rewrite Hk;
      [reflexivity|]. rewrite IH. reflexivity. }
  rewrite Hmm. f_equal. unfold DTDLModel.withState. subst e1. simpl.
  rewrite insert_insert_eq. f_equal.
  unfold DTDLModel.updateContents.
  destruct (e_contents entity) as [cs|]; [|reflexivity]. simpl.
  destruct (list_find _ cs) as [[i c]|] eqn:Hfind; simpl.
  - rewrite (list_find_written property v1 cs i c Hfind). simpl.
    rewrite list_insert_insert_eq. reflexivity.
  - rewrite Hfind. reflexivity.
Qed.

(** The snap distance of the truck set to 300 and then to 400. *)
Lemma X7_last_update_witness :
  DTDLModel.readCache
    (DTDLModel.o_model
       (DTDLModel.updateEntityProperty
          (DTDLModel.o_model
             (DTDLModel.updateEntityProperty truckFirst
                "Haul_Truck_CAT_777_2" "focusSnapDistanceMeters"
                (VNum 300%float)))
          "Haul_Truck_CAT_777_2" "focusSnapDistanceMeters" (VNum 400%float)))
    "Haul_Truck_CAT_777_2" "focusSnapDistanceMeters"
  = Some (VNum 400%float).
Proof.
  destruct (X7_last_update_wins truckFirst "Haul_Truck_CAT_777_2"
              "focusSnapDistanceMeters" (VNum 300%float) (VNum 400%float)
              eq_refl) as (_ & _ & Hmodel).
  rewrite Hmodel. reflexivity.
Defined.

(** ** The entity resolver: what it answers with *)

Section ResolverFacts.

Implicit Types (m model : DTDLModel.t) (e : Entity).

Lemma mapGet_In m id e :
  DTDLModel.mapGet m id = Some e -> In e (DTDLModel.getAllEntities m).
Proof.
  unfold DTDLModel.getAllEntities.
  induction m as [|[k e0] r IH]; simpl; [discriminate|].
  destruct (String.eqb k id); [intros [= <-]; auto|auto].
Qed.

(** Every stage answers with an entity of the model. *)
Lemma stage_In s reference model e :
  EntityResolver.stageFn s reference model = Some e ->
  In e (DTDLModel.getAllEntities model).
Proof.
  destruct (scanPredicate s reference) as [p|] eqn:Hp.
  - rewrite (stage_scans s reference p model Hp). intros Hf.
    exact (proj1 (List.find_some _ _ Hf)).
  - destruct s; simpl in Hp; try discriminate;
      try (simpl; apply mapGet_In).
    destruct (Regex.matchStart _ _); discriminate.
Qed.

End ResolverFacts.

Lemma resolve_In reference model e :
  EntityResolver.resolve reference model = Ok e ->
  In e (DTDLModel.getAllEntities model).
Proof.
  rewrite resolve_firstHit.
  destruct (EntityResolver.firstHit EntityResolver.cascade reference model)
    as [[s e0]|] eqn:Hhit; [|discriminate].
  intros [= <-].
  destruct (firstHit_split _ _ _ _ _ Hhit) as (_ & _ & _ & Hs & _).
  exact (stage_In s reference model e0 Hs).
Qed.

(** X8. [resolve] answers only with an entity of the model, and the only
    thing it throws is the ENTITY_NOT_FOUND error that quotes the
    reference; on a model without entities it always throws. *)
Theorem X8_resolve_answers_from_the_model
    (reference : string) (model : DTDLModel.t) :
  (forall e,
     EntityResolver.resolve reference model = Ok e ->
     In e (DTDLModel.getAllEntities model))
  /\ (forall x,
        EntityResolver.resolve reference model = Throw x ->
        x = DomainError ("Entity '" +:+ reference +:+ "' not found")
              "ENTITY_NOT_FOUND")
  /\ (model = [] -> throws (EntityResolver.resolve reference model) = true).
Proof.
  rewrite resolve_firstHit.
  destruct (EntityResolver.firstHit EntityResolver.cascade reference model)
    as [[s e0]|] eqn:Hhit.
  - split; [|split].
    + intros e [= <-].
      destruct (firstHit_split _ _ _ _ _ Hhit) as (_ & _ & _ & Hs & _).
      exact (stage_In s reference model e0 Hs).
    + discriminate.
    + intros ->.
      destruct (firstHit_split _ _ _ _ _ Hhit) as (_ & _ & _ & Hs & _).
      destruct (stage_In s reference [] e0 Hs).
  - split; [discriminate|]. split; [|reflexivity].
    intros x [= <-]. reflexivity.
Qed.

(** The truck resolved in the model of the two trucks. *)
Lemma X8_resolve_witness :
  In truck2 (DTDLModel.getAllEntities truckFirst)
  /\ throws (EntityResolver.resolve "truck 777 2" []) = true.
Proof.
  destruct (X8_resolve_answers_from_the_model "truck 777 2" truckFirst)
    as (Hin & _ & _).
  destruct (X8_resolve_answers_from_the_model "truck 777 2" [])
    as (_ & _ & Hempty).
  split; [apply Hin; vm_compute; reflexivity|apply Hempty; reflexivity].
Defined.

(** X9. A reference that is the id of an entity up to case and to white
    space for underscores, that is, whose normalized form is the
    lower-cased id, is answered by one of the three exact stages: by the
    entity under the reference as key, else by the entity under the
    normalized reference as key, else by the first entity in insertion
    order whose lower-cased id is the normalized reference. *)
Theorem X9_ids_up_to_case_and_spacing
    (reference : string) (model : DTDLModel.t) (x : Entity) :
  In x (DTDLModel.getAllEntities model) ->
  JSString.toLowerCase (e_id x) = EntityResolver.normalize reference ->
  exists s e,
    EntityResolver.firstHit EntityResolver.cascade reference model
    = Some (s, e)
    /\ EntityResolver.resolve reference model = Ok e
    /\ match s with
       | EntityResolver.Exact =>
           DTDLModel.getEntity model reference = Some e
       | EntityResolver.Normalized =>
           DTDLModel.getEntity model (EntityResolver.normalize reference)
           = Some e
       | EntityResolver.CaseInsensitive =>
           firstPassing
             (fun e => String.eqb (JSString.toLowerCase (e_id e))
                         (EntityResolver.normalize reference))
             (DTDLModel.getAllEntities model) e
       | _ => False
       end.
Proof.
  intros Hin Hid. rewrite resolve_firstHit.
  unfold EntityResolver.cascade. simpl.
  destruct (EntityResolver.stageExact reference model) as [e0|] eqn:H0;
    [exists EntityResolver.Exact, e0; auto|].
  destruct (EntityResolver.stageNormalized reference model) as [e1|] eqn:H1;
    [exists EntityResolver.Normalized, e1; auto|].
  destruct (find_exists
              (fun e => String.eqb (JSString.toLowerCase (e_id e))
                          (EntityResolver.normalize reference))
              (DTDLModel.getAllEntities model) x Hin) as [e2 H2].
  { rewrite Hid. apply String.eqb_refl. }
  unfold EntityResolver.stageCaseInsensitive, EntityResolver.find.
  rewrite H2. exists EntityResolver.CaseInsensitive, e2.
  split; [reflexivity|]. split; [reflexivity|].
  apply find_firstPassing. exact H2.
Qed.

(** The truck under its id in capitals, with spaces. *)
Lemma X9_ids_witness :
  EntityResolver.resolve "HAUL TRUCK CAT 777 2" decoyFirst = Ok truck2.
Proof.
  destruct (X9_ids_up_to_case_and_spacing "HAUL TRUCK CAT 777 2" decoyFirst
              truck2) as (s & e & Hhit & Hres & _).
  - right. left. reflexivity.
  - reflexivity.
  - rewrite Hres. f_equal.
    assert (H : EntityResolver.firstHit EntityResolver.cascade
                  "HAUL TRUCK CAT 777 2" decoyFirst
                = Some (EntityResolver.CaseInsensitive, truck2))
      by (vm_compute; reflexivity).
    rewrite H in Hhit. congruence.
Defined.

(** ** The characters a pattern consumes *)

Section RegexFacts.

Variable ok : ascii -> bool.

Lemma append_assoc (a b c : string) : a +:+ (b +:+ c) = (a +:+ b) +:+ c.
Proof.
  induction a as [|x a IH]; [reflexivity|].
  change (String x (a +:+ (b +:+ c)) = String x ((a +:+ b) +:+ c)).
  rewrite IH. reflexivity.
Qed.

Lemma allChars_app (p : ascii -> bool) (a b : string) :
  allChars p (a +:+ b) = allChars p a && allChars p b.
Proof.
  induction a as [|c r IH]; simpl; [reflexivity|].
  rewrite IH, andb_assoc. reflexivity.
Qed.

Lemma allChars_impl (p q : ascii -> bool) (s : string) :
  (forall c, p c = true -> q c = true) ->
  allChars p s = true -> allChars q s = true.
Proof.
  intros Hpq. induction s as [|c r IH]; simpl; [reflexivity|].
  intros H. apply andb_prop in H as [Hc Hr]. rewrite (Hpq c Hc). auto.
Qed.

(** What [run] hands to its continuation is the input without a prefix
    of characters that the pattern may consume. *)
Lemma star_sound {A : Type} (cls : ascii -> bool) (s : string)
    (k : string -> option A) (res : A) (Q : string -> Prop) :
  (forall c, cls c = true -> ok c = true) ->
  Regex.star cls s k = Some res ->
  (forall s', k s' = Some res -> Q s') ->
  exists pre s', s = pre +:+ s' /\ allChars ok pre = true /\ Q s'.
Proof.
  intros Hcls.
  induction s as [|c r IH]; simpl; intros Hrun HQ.
  - exists EmptyString, EmptyString. auto.
  - destruct (cls c) eqn:Hc.
    + destruct (Regex.star cls r k) as [x|] eqn:Hr.
      * injection Hrun as ->.
        destruct (IH eq_refl HQ) as (pre & s' & -> & Hpre & Hq).
        exists (String c pre), s'. simpl. rewrite (Hcls c Hc), Hpre. auto.
      * exists EmptyString, (String c r). auto.
    + exists EmptyString, (String c r). auto.
Qed.

Lemma stripPrefix_sound (eqc : ascii -> ascii -> bool) (p s s' : string) :
  (forall c, allChars (fun a => negb (eqc a c)) p = false -> ok c = true) ->
  Regex.stripPrefix eqc p s = Some s' ->
  exists pre, s = pre +:+ s' /\ allChars ok pre = true.
Proof.
  revert s. induction p as [|a p IH]; intros s Hok; simpl.
  - intros [= ->]. exists EmptyString. auto.
  - destruct s as [|b s]; [discriminate|].
    destruct (eqc a b) eqn:Hab; [|discriminate]. intros Hrest.
    destruct (IH s) as (pre & -> & Hpre); [|exact Hrest|].
    + intros c Hc. apply Hok. simpl. rewrite Hc. apply andb_false_r.
    + exists (String b pre). simpl. rewrite Hpre, andb_true_r.
      split; [reflexivity|]. apply Hok. simpl. rewrite Hab. reflexivity.
Qed.

Lemma lit_consumes (p : string) :
  allChars ok p = true ->
  forall c, allChars (fun a => negb (Regex.eqCase a c)) p = false ->
            ok c = true.
Proof.
  induction p as [|a p IH]; simpl; [discriminate|].
  intros Hp c Hc. apply andb_prop in Hp as [Ha Hp].
  apply andb_false_iff in Hc as [Hc|Hc]; [|auto].
  apply negb_false_iff in Hc. unfold Regex.eqCase in Hc.
  apply Ascii.eqb_eq in Hc. subst c. exact Ha.
Qed.

Lemma run_sound (r : Regex.t) :
  consumesOnly ok r ->
  forall s caps k res (Q : string -> Prop),
    Regex.run r s caps k = Some res ->
    (forall s' caps', k s' caps' = Some res -> Q s') ->
    exists pre s', s = pre +:+ s' /\ allChars ok pre = true /\ Q s'.
Proof.
  induction r as [p|p|cls|cls|cls|a IHa b IHb|a IHa b IHb|a IHa|n a IHa|];
    simpl; intros Hok s caps k res Q Hrun HQ.
  - destruct (Regex.stripPrefix Regex.eqCase p s) as [s'|] eqn:Hp;
      [|discriminate].
    destruct (stripPrefix_sound _ p s s' (lit_consumes p Hok) Hp)
      as (pre & -> & Hpre).
    exists pre, s'. eauto.
  - destruct (Regex.stripPrefix Regex.eqNoCase p s) as [s'|] eqn:Hp;
      [|discriminate].
    destruct (stripPrefix_sound _ p s s' Hok Hp) as (pre & -> & Hpre).
    exists pre, s'. eauto.
  - destruct s as [|c s]; [discriminate|].
    destruct (cls c) eqn:Hc; [|discriminate].
    exists (String c EmptyString), s. simpl. rewrite (Hok c Hc). eauto.
  - apply (star_sound cls s (fun s' => k s' caps) res Q Hok Hrun). eauto.
  - destruct s as [|c s]; [discriminate|].
    destruct (cls c) eqn:Hc; [|discriminate].
    destruct (star_sound cls s (fun s' => k s' caps) res Q Hok Hrun)
      as (pre & s' & -> & Hpre & Hq); [eauto|].
    exists (String c pre), s'. simpl. rewrite (Hok c Hc), Hpre. auto.
  - destruct Hok as [Hoka Hokb].
    destruct (IHa Hoka s caps _ res
                (fun s1 => exists pre s', s1 = pre +:+ s'
                                          /\ allChars ok pre = true /\ Q s')
                Hrun) as (pre1 & s1 & -> & Hpre1 & pre2 & s2 & -> & Hpre2 & Hq).
    + intros s1 caps1 H1. exact (IHb Hokb s1 caps1 k res Q H1 HQ).
    + exists (pre1 +:+ pre2), s2. rewrite allChars_app, Hpre1, Hpre2.
      split; [apply append_assoc|auto].
  - destruct Hok as [Hoka Hokb].
    destruct (Regex.run a s caps k) as [x|] eqn:Ha.
    + injection Hrun as ->. exact (IHa Hoka s caps k res Q Ha HQ).
    + exact (IHb Hokb s caps k res Q Hrun HQ).
  - destruct (Regex.run a s caps k) as [x|] eqn:Ha.
    + injection Hrun as ->. exact (IHa Hok s caps k res Q Ha HQ).
    + exists EmptyString, s. eauto.
  - apply (IHa Hok s caps _ res Q Hrun). eauto.
  - destruct s; [|discriminate]. exists EmptyString, EmptyString. eauto.
Qed.

(** A pattern that ends with the end of the input matches only inputs
    made of characters it may consume. *)
Lemma run_anchored (r : Regex.t) :
  consumesOnly ok r ->
  endsWithEos r = true ->
  forall s caps k res,
    Regex.run r s caps k = Some res -> allChars ok s = true.
Proof.
  induction r as [p|p|cls|cls|cls|a IHa b IHb|a IHa b IHb|a IHa|n a IHa|];
    simpl; try discriminate; intros Hok Hend s caps k res Hrun.
  - destruct Hok as [Hoka Hokb].
    destruct (run_sound a Hoka s caps _ res
                (fun s1 => allChars ok s1 = true) Hrun)
      as (pre & s1 & -> & Hpre & Hs1).
    + intros s1 caps1 H1. exact (IHb Hokb Hend s1 caps1 k res H1).
    + rewrite allChars_app, Hpre, Hs1. reflexivity.
  - destruct s; [reflexivity|discriminate].
Qed.

End RegexFacts.

(** ** The typed stage and the normalized reference *)

Section TypedStageFacts.
Import JSString.

Lemma isLower_not_upper a : isLower a = true -> isUpper a = false.
Proof.
  unfold isLower, isUpper. intros H. apply andb_prop in H as [H1 _].
  apply Nat.leb_le in H1. apply andb_false_iff. right.
  apply Nat.leb_gt. lia.
Qed.

(** A character that matches a lower-case letter without regard to case
    is a letter. *)
Lemma eqNoCase_alpha a c :
  isLower a = true -> Regex.eqNoCase a c = true -> isAlpha c = true.
Proof.
  intros Ha Hc. unfold Regex.eqNoCase in Hc. apply Ascii.eqb_eq in Hc.
  unfold lowerChar in Hc. rewrite (isLower_not_upper a Ha) in Hc.
  unfold isAlpha. destruct (isUpper c) eqn:Hu; [apply orb_true_r|].
  subst c. rewrite Ha. reflexivity.
Qed.

Lemma litI_lower p :
  allChars isLower p = true ->
  forall c, allChars (fun a => negb (Regex.eqNoCase a c)) p = false ->
            isAlnumOrSpace c = true.
Proof.
  induction p as [|a p IH]; simpl; [discriminate|].
  intros Hp c Hc. apply andb_prop in Hp as [Ha Hp].
  apply andb_false_iff in Hc as [Hc|Hc]; [|auto].
  apply negb_false_iff in Hc. unfold isAlnumOrSpace, isAlnum.
  rewrite (eqNoCase_alpha a c Ha Hc). reflexivity.
Qed.

Lemma typePattern_consumes :
  consumesOnly isAlnumOrSpace EntityResolver.typePattern.
Proof.
  unfold EntityResolver.typePattern. cbn [Regex.seq Regex.alt consumesOnly].
  repeat split;
    try (apply litI_lower; reflexivity);
    intros c Hc; unfold isAlnumOrSpace, isAlnum, isAlpha in *;
    rewrite ?Hc, ?orb_true_r; reflexivity.
Qed.

(** White space does not survive the replacement of its runs. *)
Lemma replaceRuns_no_space b s :
  allChars notSpace (replaceRuns isSpace "_" b s) = true.
Proof.
  revert b. induction s as [|c r IH]; intros b; simpl; [reflexivity|].
  destruct (isSpace c) eqn:Hc.
  - destruct b; [apply IH|].
    change ("_" +:+ replaceRuns isSpace "_" true r)
      with (String "_" (replaceRuns isSpace "_" true r)).
    simpl. apply IH.
  - simpl. unfold notSpace at 1. rewrite Hc. simpl. apply IH.
Qed.

(** [trim] leaves a string without white space as it is. *)
Lemma trim_no_space s : allChars notSpace s = true -> trim s = s.
Proof.
  intros Hs. unfold trim.
  assert (Hstart : trimStart s = s).
  { destruct s as [|c r]; [reflexivity|]. simpl in *.
    apply andb_prop in Hs as [Hc _]. unfold notSpace in Hc.
    apply negb_true_iff in Hc. rewrite Hc. reflexivity. }
  rewrite Hstart. induction s as [|c r IH]; [reflexivity|].
  simpl in *. apply andb_prop in Hs as [Hc Hr].
  unfold notSpace in Hc. apply negb_true_iff in Hc.
  rewrite IH; [|exact Hr|].
  - destruct r; [rewrite Hc|]; reflexivity.
  - destruct r as [|c' r']; [reflexivity|]. simpl in *.
    apply andb_prop in Hr as [Hc' _]. unfold notSpace in Hc'.
    apply negb_true_iff in Hc'. rewrite Hc'. reflexivity.
Qed.

Lemma normalize_replaceRuns reference :
  EntityResolver.normalize reference
  = replaceRuns isSpace "_" false (toLowerCase reference).
Proof.
  unfold EntityResolver.normalize. apply trim_no_space.
  apply replaceRuns_no_space.
Qed.

(** A string whose white space runs were replaced and that is made of
    letters and digits had no white space to replace. *)
Lemma replaceRuns_alnum s :
  forall b,
    allChars isAlnum (replaceRuns isSpace "_" b s) = true ->
    allChars isAlnum (if b then trimStart s else s) = true.
Proof.
  induction s as [|c r IH]; intros b; simpl.
  - destruct b; reflexivity.
  - destruct (isSpace c) eqn:Hc.
    + destruct b; [apply (IH true)|].
      change ("_" +:+ replaceRuns isSpace "_" true r)
        with (String "_" (replaceRuns isSpace "_" true r)).
      simpl. discriminate.
    + simpl. intros H. apply andb_prop in H as [Ha Hr].
      specialize (IH false Hr). simpl in IH.
      destruct b; simpl; rewrite Ha, IH; reflexivity.
Qed.

Lemma lowerChar_alnum c : isAlnum (lowerChar c) = true -> isAlnum c = true.
Proof.
  unfold lowerChar. destruct (isUpper c) eqn:Hu; [|auto].
  intros _. unfold isAlnum, isAlpha. rewrite Hu, orb_true_r. reflexivity.
Qed.

Lemma toLowerCase_alnum s :
  allChars isAlnum (toLowerCase s) = true -> allChars isAlnum s = true.
Proof.
  induction s as [|c r IH]; simpl; [reflexivity|].
  intros H. apply andb_prop in H as [Hc Hr].
  rewrite (lowerChar_alnum c Hc), (IH Hr). reflexivity.
Qed.

Lemma allChars_and (p q : ascii -> bool) s :
  allChars p s = true -> allChars q s = true ->
  allChars (fun c => p c && q c) s = true.
Proof.
  induction s as [|c r IH]; simpl; [reflexivity|].
  intros Hp Hq. apply andb_prop in Hp as [Hp1 Hp2].
  apply andb_prop in Hq as [Hq1 Hq2]. rewrite Hp1, Hq1. simpl. auto.
Qed.

End TypedStageFacts.

(** X10. The normalized reference has no white space, so that the [trim]
    of the normalization changes nothing; and the typed stage, whose
    pattern is matched against the normalized reference, answers only
    references made of letters and digits alone: a reference with white
    space, an underscore or any other separator is never answered by the
    typed stage. *)
Theorem X10_typed_stage_needs_no_separators
    (reference : string) (model : DTDLModel.t) :
  allChars notSpace (EntityResolver.normalize reference) = true
  /\ EntityResolver.normalize reference
     = JSString.replaceRuns JSString.isSpace "_" false
         (JSString.toLowerCase reference)
  /\ (forall e,
        EntityResolver.stageTyped reference model = Some e ->
        allChars isAlnum reference = true)
  /\ (allChars isAlnum reference = false ->
      EntityResolver.stageTyped reference model = None).
Proof.
  assert (Hnospace : allChars notSpace (EntityResolver.normalize reference)
                     = true).
  { rewrite normalize_replaceRuns. apply replaceRuns_no_space. }
  assert (Htyped : forall e,
            EntityResolver.stageTyped reference model = Some e ->
            allChars isAlnum reference = true).
  { intros e. unfold EntityResolver.stageTyped.
    destruct (Regex.matchStart EntityResolver.typePattern
                (EntityResolver.normalize reference)) as [caps|] eqn:Hm;
      [|discriminate].
    intros _. unfold Regex.matchStart in Hm.
    pose proof (run_anchored isAlnumOrSpace EntityResolver.typePattern
                  typePattern_consumes eq_refl _ _ _ _ Hm) as Hok.
    pose proof (allChars_and _ _ _ Hok Hnospace) as Hboth.
    apply toLowerCase_alnum.
    apply (replaceRuns_alnum (JSString.toLowerCase reference) false).
    rewrite <- normalize_replaceRuns.
    revert Hboth. apply allChars_impl. intros c Hc.
    unfold isAlnumOrSpace, notSpace in Hc.
    destruct (JSString.isSpace c); [rewrite andb_false_r in Hc; discriminate|].
    rewrite orb_false_r, andb_true_r in Hc. exact Hc. }
  split; [exact Hnospace|]. split; [apply normalize_replaceRuns|].
  split; [exact Htyped|].
  intros Hsep. destruct (EntityResolver.stageTyped reference model) as [e|]
    eqn:He; [|reflexivity].
  rewrite (Htyped e eq_refl) in Hsep. discriminate.
Qed.

(** The example of the comment of the typed stage, and a reference
    without separators that the typed stage does answer. *)
Lemma X10_typed_stage_witness :
  EntityResolver.stageTyped "haul truck 777" truckFirst = None
  /\ EntityResolver.firstHit EntityResolver.cascade "truck777" truckFirst
     = Some (EntityResolver.Typed, truck2).
Proof.
  split.
  - apply (X10_typed_stage_needs_no_separators "haul truck 777" truckFirst).
    reflexivity.
  - vm_compute. reflexivity.
Defined.

(** ** Bulk resolution *)

Lemma filter_sublist {A : Type} (p : A -> bool) (l : list A) :
  sublist (List.filter p l) l.
Proof.
  induction l as [|x r IH]; simpl; [constructor|].
  destruct (p x); [apply sublist_skip|apply sublist_cons]; exact IH.
Qed.

Lemma filter_pass {A : Type} (p : A -> bool) (l : list A) :
  (forall x, p x = true) -> List.filter p l = l.
Proof.
  intros Hp. induction l as [|x r IH]; simpl; [reflexivity|].
  rewrite Hp, IH. reflexivity.
Qed.

Lemma filter_both {A : Type} (p q : A -> bool) (l : list A) :
  List.filter q (List.filter p l) = List.filter (fun x => p x && q x) l.
Proof.
  induction l as [|x r IH]; simpl; [reflexivity|].
  destruct (p x); simpl; [|exact IH].
  destruct (q x); rewrite IH; reflexivity.
Qed.

(** X11. A reference that contains "all", in any case, is never resolved
    as one entity: [resolveBulk] does not throw and answers with the
    entities of the model that pass the filter, all of them and no
    other, in insertion order. An entity passes when it has the type of
    the filter, if the filter names a type that is not the empty string,
    and is related to the target of the relationship of the filter, if
    the filter names one; every entity passes when there is no filter.
    Any other reference is answered by [resolve], as a list of one
    entity or with what [resolve] throws. The entities of an answer are
    always entities of the model. *)
Theorem X11_bulk_resolution
    (reference : string) (model : DTDLModel.t)
    (filter : option EntityResolver.BulkUpdateFilter) :
  (JSString.includes (JSString.toLowerCase reference) "all" = true ->
   EntityResolver.resolveBulk reference model filter
   = Ok (List.filter (passesFilter filter) (DTDLModel.getAllEntities model)))
  /\ (forall e,
        passesFilter filter e = true
        <-> forall f,
              filter = Some f ->
              (forall ty,
                 EntityResolver.bf_type f = Some ty ->
                 EntityResolver.nonEmpty ty = true ->
                 e_type e = Some ty)
              /\ (forall rf,
                    EntityResolver.bf_relationship f = Some rf ->
                    exists rels,
                      e_relationships e = Some rels
                      /\ rels !! EntityResolver.rf_name rf
                         = Some (EntityResolver.rf_targetId rf)))
  /\ (filter = None ->
      List.filter (passesFilter filter) (DTDLModel.getAllEntities model)
      = DTDLModel.getAllEntities model)
  /\ (JSString.includes (JSString.toLowerCase reference) "all" = false ->
      EntityResolver.resolveBulk reference model filter
      = match EntityResolver.resolve reference model with
        | Ok e => Ok [e]
        | Throw x => Throw x
        end)
  /\ (forall entities e,
        EntityResolver.resolveBulk reference model filter = Ok entities ->
        In e entities -> In e (DTDLModel.getAllEntities model)).
Proof.
  assert (Hbulk :
    JSString.includes (JSString.toLowerCase reference) "all" = true ->
    EntityResolver.resolveBulk reference model filter
    = Ok (List.filter (passesFilter filter)
            (DTDLModel.getAllEntities model))).
  { intros Hall. unfold EntityResolver.resolveBulk. rewrite Hall.
    f_equal. unfold passesFilter.
    destruct filter as [f|]; [|symmetry; apply filter_pass; reflexivity].
    destruct (EntityResolver.bf_type f) as [ty|] eqn:Hty;
      cbn [EntityResolver.truthy].
    - destruct (EntityResolver.nonEmpty ty) eqn:Hne.
      + destruct (EntityResolver.bf_relationship f) as [rf|].
        * apply filter_both.
        * apply filter_ext. intros e. rewrite andb_true_r. reflexivity.
      + destruct (EntityResolver.bf_relationship f) as [rf|];
          [reflexivity|]. symmetry. apply filter_pass. reflexivity.
    - destruct (EntityResolver.bf_relationship f) as [rf|];
        [reflexivity|]. symmetry. apply filter_pass. reflexivity. }
  split; [exact Hbulk|]. split; [|split; [|split]].
  - intros e. unfold passesFilter. destruct filter as [f|].
    2:{ split; [intros _ f [=]|reflexivity]. }
    split.
    + intros Hpass f0 [= <-]. apply andb_prop in Hpass as [Htype Hrel].
      split.
      * intros ty Hty Hne. rewrite Hty, Hne in Htype.
        unfold EntityResolver.optEqb in Htype.
        destruct (e_type e) as [t'|]; [|discriminate].
        apply String.eqb_eq in Htype. congruence.
      * intros rf Hrf. rewrite Hrf in Hrel.
        unfold EntityResolver.related in Hrel.
        destruct (e_relationships e) as [rels|]; [|discriminate].
        exists rels. split; [reflexivity|].
        unfold EntityResolver.optEqb in Hrel.
        destruct (rels !! EntityResolver.rf_name rf) as [t'|];
          [|discriminate].
        apply String.eqb_eq in Hrel. congruence.
    + intros Hpass. destruct (Hpass f eq_refl) as [Htype Hrel].
      apply andb_true_intro. split.
      * destruct (EntityResolver.bf_type f) as [ty|]; [|reflexivity].
        destruct (EntityResolver.nonEmpty ty) eqn:Hne; [|reflexivity].
        rewrite (Htype ty eq_refl Hne). simpl. apply String.eqb_refl.
      * destruct (EntityResolver.bf_relationship f) as [rf|]; [|reflexivity].
        destruct (Hrel rf eq_refl) as (rels & Hrels & Hlookup).
        unfold EntityResolver.related. rewrite Hrels, Hlookup. simpl.
        apply String.eqb_refl.
  - intros ->. apply filter_pass. reflexivity.
  - intros Hall. unfold EntityResolver.resolveBulk. rewrite Hall.
    reflexivity.
  - intros entities e.
    destruct (JSString.includes (JSString.toLowerCase reference) "all")
      eqn:Hall.
    + rewrite (Hbulk eq_refl). intros [= <-] He.
      apply filter_In in He. tauto.
    + unfold EntityResolver.resolveBulk. rewrite Hall.
      destruct (EntityResolver.resolve reference model) as [e0|] eqn:Hres;
        [|discriminate].
      intros [= <-] [<-|[]].
      exact (resolve_In reference model e0 Hres).
Qed.

(** "All equipment" on the fleet of two trucks and a shovel: without a
    filter every entity, with the type of the trucks the two trucks,
    with the relationship of the shovel the shovel. *)
Lemma X11_bulk_witness :
  JSString.includes (JSString.toLowerCase "All equipment") "all" = true
  /\ EntityResolver.resolveBulk "All equipment" fleet None
     = Ok [truck2; shovel; truck20]
  /\ EntityResolver.resolveBulk "All equipment" fleet (Some trucksOnly)
     = Ok [truck2; truck20]
  /\ EntityResolver.resolveBulk "All equipment" fleet (Some loadingTruck2)
     = Ok [shovel].
Proof.
  split; [reflexivity|].
  pose proof (fun filter =>
                proj1 (X11_bulk_resolution "All equipment" fleet filter)
                  eq_refl) as Hbulk.
  split; [|split]; rewrite Hbulk; vm_compute; reflexivity.
Defined.

(** * Further properties of the count executor and of the telemetry
      service *)

Section CountFacts.

Lemma pathBefore_snoc pre record :
  pathBefore (pre ++ [record]) = haulPathId record.
Proof. unfold pathBefore. rewrite rev_app_distr. reflexivity. Qed.

Lemma nonEmpty_eqb (p : string) :
  EntityResolver.nonEmpty p = negb (String.eqb p "").
Proof. destruct p; reflexivity. Qed.

Lemma pathChanged_changesPath pre record :
  CountExecutor.pathChanged (haulPathId record) (pathBefore pre)
  = changesPath (pre, record).
Proof.
  unfold CountExecutor.pathChanged, changesPath. simpl.
  destruct (haulPathId record) as [p|]; simpl; [|reflexivity].
  rewrite nonEmpty_eqb. destruct (pathBefore pre); reflexivity.
Qed.

Lemma allEntriesLoop_counts rest :
  forall pre tripCount,
    CountExecutor.allEntriesLoop rest tripCount (pathBefore pre)
    = tripCount + List.length (List.filter changesPath (splitsFrom pre rest)).
Proof.
  induction rest as [|record rest IH]; intros pre tripCount; simpl.
  - lia.
  - specialize (IH (pre ++ [record])). rewrite pathBefore_snoc in IH.
    rewrite IH, pathChanged_changesPath.
    destruct (changesPath (pre, record)); simpl; lia.
Qed.

Lemma filter_length_impl {A : Type} (p q : A -> bool) (l : list A) :
  (forall x, In x l -> p x = true -> q x = true) ->
  List.length (List.filter p l) <= List.length (List.filter q l).
Proof.
  induction l as [|x r IH]; intros Hpq; simpl; [lia|].
  assert (Hr : List.length (List.filter p r) <= List.length (List.filter q r))
    by (apply IH; intros y Hy; apply Hpq; right; exact Hy).
  destruct (p x) eqn:Hp.
  - rewrite (Hpq x (or_introl eq_refl) Hp). simpl. lia.
  - destruct (q x); simpl; lia.
Qed.

Lemma filter_length_le {A : Type} (p : A -> bool) (l : list A) :
  List.length (List.filter p l) <= List.length l.
Proof.
  induction l as [|x r IH]; simpl; [lia|]. destruct (p x); simpl; lia.
Qed.

Lemma splitsFrom_snd pre rest : map snd (splitsFrom pre rest) = rest.
Proof.
  revert pre. induction rest as [|r rest IH]; intros pre; simpl;
    [reflexivity|]. rewrite IH. reflexivity.
Qed.

Lemma filter_snd_length {A B : Type} (p : B -> bool) (l : list (A * B)) :
  List.length (List.filter (fun h => p (snd h)) l)
  = List.length (List.filter p (map snd l)).
Proof.
  induction l as [|x r IH]; simpl; [reflexivity|].
  destruct (p (snd x)); simpl; rewrite IH; reflexivity.
Qed.

(** A record that enters a path, other than the empty one, changes the
    path. *)
Lemma entersPath_changesPath pathId h :
  EntityResolver.nonEmpty pathId = true ->
  entersPath pathId h = true -> changesPath h = true.
Proof.
  destruct h as [pre record]. unfold entersPath, changesPath. simpl.
  intros Hne Henter. apply andb_prop in Henter as [Hon Hwas].
  unfold CountExecutor.onPath in Hon.
  destruct (haulPathId record) as [p|]; [|discriminate].
  apply String.eqb_eq in Hon. subst p.
  rewrite <- nonEmpty_eqb, Hne. simpl.
  unfold wasOn in Hwas. unfold pathBefore.
  destruct (rev pre) as [|r' ?]; [reflexivity|].
  unfold CountExecutor.onPath in Hwas.
  destruct (haulPathId r') as [p'|]; [|reflexivity].
  rewrite String.eqb_sym. exact Hwas.
Qed.

(** A record that completes a trip enters the destination. *)
Lemma completesTrip_entersPath sourcePath destinationPath h :
  String.eqb sourcePath destinationPath = false ->
  completesTrip sourcePath destinationPath h = true ->
  entersPath destinationPath h = true.
Proof.
  destruct h as [pre record]. unfold completesTrip, entersPath. simpl.
  intros Hne Htrip. apply andb_prop in Htrip as [Hon Hlast].
  rewrite Hon. simpl. unfold lastSeenOnSource in Hlast. unfold wasOn.
  destruct (rev pre) as [|r' ?]; [reflexivity|]. simpl in Hlast.
  destruct (CountExecutor.onPath r' sourcePath) eqn:Hs; simpl in Hlast.
  - rewrite (onPath_exclusive _ _ _ Hne Hs). reflexivity.
  - destruct (CountExecutor.onPath r' destinationPath); [|reflexivity].
    simpl in Hlast. congruence.
Qed.

(** The source-to-destination loop counts no more trips than there are
    records on the source, and one more if it starts with the flag
    set. *)
Lemma betweenLoop_source_bound sourcePath destinationPath telemetry :
  forall tripCount wasOnSource,
    CountExecutor.betweenLoop sourcePath destinationPath telemetry tripCount
      wasOnSource
    <= tripCount + (if wasOnSource then 1 else 0)
       + recordsOn sourcePath telemetry.
Proof.
  unfold recordsOn.
  induction telemetry as [|record rest IH]; intros tripCount wasOnSource;
    simpl.
  - lia.
  - destruct (CountExecutor.onPath record sourcePath); simpl.
    + specialize (IH tripCount true). simpl in IH.
      destruct wasOnSource; lia.
    + destruct (CountExecutor.onPath record destinationPath); simpl.
      * destruct wasOnSource.
        -- specialize (IH (S tripCount) false). simpl in IH. lia.
        -- specialize (IH tripCount false). simpl in IH. lia.
      * specialize (IH tripCount wasOnSource). lia.
Qed.

(** With the source as destination the branch that counts is never
    taken. *)
Lemma betweenLoop_same_path pathId telemetry :
  forall tripCount wasOnSource,
    CountExecutor.betweenLoop pathId pathId telemetry tripCount wasOnSource
    = tripCount.
Proof.
  induction telemetry as [|record rest IH]; intros tripCount wasOnSource;
    simpl; [reflexivity|].
  destruct (CountExecutor.onPath record pathId); simpl; apply IH.
Qed.

End CountFacts.

(** X12. With no source path, or the empty string as source path,
    [CountExecutor.execute] counts all path entries, whatever the
    destination path is: the records that have a haul path, not the
    empty string, that differs from the haul path of the record just
    before them, a record without haul path included (so a path left
    for a record without path and taken again counts twice). *)
Theorem X12_count_all_path_entries :
  (forall telemetry,
     CountExecutor.countAllPathEntries telemetry
     = List.length (List.filter changesPath (withHistory telemetry)))
  /\ (forall pre record,
        pathBefore [] = None
        /\ pathBefore (pre ++ [record]) = haulPathId record)
  /\ (forall q telemetry,
        EntityResolver.truthy (sourcePathOf q) = false ->
        (0 <? List.length telemetry)%nat = true ->
        qr_value (CountExecutor.execute q telemetry)
        = VNum (numOfNat (CountExecutor.countAllPathEntries telemetry))).
Proof.
  split; [|split].
  - intros telemetry. unfold CountExecutor.countAllPathEntries, withHistory.
    exact (allEntriesLoop_counts telemetry [] 0).
  - intros pre record. split; [reflexivity|apply pathBefore_snoc].
  - intros q telemetry Hsource Hlen. unfold CountExecutor.execute.
    rewrite (length_zero_iff _ Hlen). simpl. f_equal. f_equal.
    unfold CountExecutor.mode.
    destruct (sourcePathOf q) as [s|]; [|reflexivity].
    simpl in Hsource. rewrite Hsource. simpl.
    destruct (destinationPathOf q); reflexivity.
Qed.

(** A destination without a source: the five path changes of the sequence
    A, A, B, A, B, B, C. *)
Lemma X12_count_all_witness :
  EntityResolver.truthy
    (sourcePathOf (queryOf Count None None None (Some "B"))) = false
  /\ qr_value (CountExecutor.execute
                 (queryOf Count None None None (Some "B")) tripSample)
     = VNum (numOfNat (CountExecutor.countAllPathEntries tripSample))
  /\ List.length (List.filter changesPath (withHistory tripSample)) = 5.
Proof.
  destruct X12_count_all_path_entries as (_ & _ & Hexec).
  split; [reflexivity|]. split.
  - apply Hexec; reflexivity.
  - reflexivity.
Defined.

(** X13. Bounds of the counts. Between two distinct paths the count
    executor counts no more trips than there are entries into the
    destination, nor than there are records on the source; the entries
    into a path are no more than the records on it, and, for a path that
    is not the empty string, no more than the path changes that
    [countAllPathEntries] counts; these are no more than the records.
    With the same path as source and as destination
    [countTripsBetweenPaths] counts nothing. *)
Theorem X13_count_bounds
    (telemetry : list TelemetryRecord) (sourcePath destinationPath : string) :
  (String.eqb sourcePath destinationPath = false ->
   CountExecutor.countTripsBetweenPaths telemetry sourcePath destinationPath
   <= CountExecutor.countTripsOnPath telemetry destinationPath
   /\ CountExecutor.countTripsBetweenPaths telemetry sourcePath destinationPath
      <= recordsOn sourcePath telemetry)
  /\ CountExecutor.countTripsOnPath telemetry sourcePath
     <= recordsOn sourcePath telemetry
  /\ (EntityResolver.nonEmpty sourcePath = true ->
      CountExecutor.countTripsOnPath telemetry sourcePath
      <= CountExecutor.countAllPathEntries telemetry)
  /\ CountExecutor.countAllPathEntries telemetry <= List.length telemetry
  /\ CountExecutor.countTripsBetweenPaths telemetry sourcePath sourcePath = 0.
Proof.
  assert (Hentries : forall pathId,
            CountExecutor.countTripsOnPath telemetry pathId
            = List.length (List.filter (entersPath pathId)
                             (withHistory telemetry))).
  { intros pathId. exact (onPathLoop_counts pathId telemetry [] 0). }
  assert (Hall : CountExecutor.countAllPathEntries telemetry
                 = List.length (List.filter changesPath
                                  (withHistory telemetry))).
  { exact (allEntriesLoop_counts telemetry [] 0). }
  split; [|split; [|split; [|split]]].
  - intros Hne. split.
    + rewrite Hentries.
      unfold CountExecutor.countTripsBetweenPaths.
      pose proof (betweenLoop_counts sourcePath destinationPath telemetry Hne
                    [] 0) as Hcount.
      change (lastSeenOnSource sourcePath destinationPath []) with false
        in Hcount.
      rewrite Hcount.
      apply filter_length_impl. intros h _.
      apply completesTrip_entersPath. exact Hne.
    + exact (betweenLoop_source_bound sourcePath destinationPath telemetry
               0 false).
  - rewrite Hentries. unfold recordsOn.
    rewrite <- (splitsFrom_snd [] telemetry) at 2.
    rewrite <- (filter_snd_length
                  (fun r => CountExecutor.onPath r sourcePath)).
    apply filter_length_impl. intros h _ Henter.
    apply andb_prop in Henter as [Hon _]. exact Hon.
  - intros Hne. rewrite Hentries, Hall.
    apply filter_length_impl. intros h _.
    apply entersPath_changesPath. exact Hne.
  - rewrite Hall.
    rewrite <- (splitsFrom_snd [] telemetry) at 2.
    rewrite length_map. apply filter_length_le.
  - apply betweenLoop_same_path.
Qed.

(** The bounds on the sequence A, A, B, A, B, B, C: two trips from A to
    B, two entries into B, three records on A. *)
Lemma X13_count_bounds_witness :
  CountExecutor.countTripsBetweenPaths tripSample "A" "B"
  <= CountExecutor.countTripsOnPath tripSample "B"
  /\ CountExecutor.countTripsBetweenPaths tripSample "A" "B"
     <= recordsOn "A" tripSample
  /\ CountExecutor.countTripsOnPath tripSample "A"
     <= CountExecutor.countAllPathEntries tripSample.
Proof.
  destruct (X13_count_bounds tripSample "A" "B")
    as (Hbetween & _ & Hall & _).
  destruct (Hbetween eq_refl) as [Hd Hs].
  split; [exact Hd|]. split; [exact Hs|]. apply Hall. reflexivity.
Defined.

(** X14. The telemetry service counts as the count executor does:
    [countTrips] gives the count of [countTripsBetweenPaths] and
    [countTripsOnPath] that of the executor's method of the same name, on
    every sequence of records. (The service guards the empty sequence,
    on which the executor's loops count nothing.) *)
Theorem X14_service_counts_as_executor
    (records : list TelemetryRecord) (sourceRouteId destinationRouteId : string) :
  TelemetryService.countTrips records sourceRouteId destinationRouteId
  = CountExecutor.countTripsBetweenPaths records sourceRouteId
      destinationRouteId
  /\ TelemetryService.countTripsOnPath records sourceRouteId
     = CountExecutor.countTripsOnPath records sourceRouteId.
Proof.
  assert (Htrips : forall rs n w,
            TelemetryService.tripsLoop sourceRouteId destinationRouteId rs n w
            = CountExecutor.betweenLoop sourceRouteId destinationRouteId
                rs n w).
  { induction rs as [|r rs IH]; intros n w; simpl; [reflexivity|].
    rewrite !IH. reflexivity. }
  assert (Hpath : forall rs n w,
            TelemetryService.pathLoop sourceRouteId rs n w
            = CountExecutor.onPathLoop sourceRouteId rs n w).
  { induction rs as [|r rs IH]; intros n w; simpl; [reflexivity|].
    rewrite IH. reflexivity. }
  unfold TelemetryService.countTrips, TelemetryService.countTripsOnPath,
    CountExecutor.countTripsBetweenPaths, CountExecutor.countTripsOnPath.
  split.
  - destruct records; [reflexivity|]. apply Htrips.
  - destruct records; [reflexivity|]. apply Hpath.
Qed.

(** * Further properties of the speed metrics and of the aggregates *)

(** ** The order of the numbers and [Math.max], [Math.min] *)

Section FloatOrderMore.

Lemma SFcompare_trans x y z :
  SFcompare x y = Some Lt -> SFcompare y z = Some Lt -> SFcompare x z = Some Lt.
Proof.
  destruct x as [sx|sx| |sx mx ex], y as [sy|sy| |sy my ey],
           z as [sz|sz| |sz mz ez];
    simpl; try discriminate; try congruence;
    try (destruct sx; simpl; congruence);
    try (destruct sy; simpl; congruence);
    try (destruct sz; simpl; congruence);
    try (destruct sx, sy; simpl; congruence);
    try (destruct sx, sz; simpl; congruence);
    try (destruct sy, sz; simpl; congruence);
    try (destruct sx, sy, sz; simpl; congruence).
  destruct sx, sy, sz; simpl; try congruence;
    destruct (Z.compare_spec ex ey), (Z.compare_spec ey ez),
             (Z.compare_spec ex ez);
    simpl; try congruence; try lia; subst;
    change (PosDef.Pos.compare_cont Eq) with Pos.compare;
    destruct (Pos.compare_spec mx my), (Pos.compare_spec my mz),
             (Pos.compare_spec mx mz);
    simpl; try congruence; try lia.
Qed.

(** Equal in the order: the same, or two zeros. *)
Lemma SFcompare_Eq x y :
  SFcompare x y = Some Eq ->
  x = y \/ exists s s', x = S754_zero s /\ y = S754_zero s'.
Proof.
  destruct x as [sx|sx| |sx mx ex], y as [sy|sy| |sy my ey];
    simpl; try discriminate;
    try (destruct sx; discriminate); try (destruct sy; discriminate).
  - right. eauto.
  - destruct sx, sy; try discriminate; left; reflexivity.
  - destruct sx, sy; simpl; try discriminate;
      destruct (Z.compare_spec ex ey); simpl; try discriminate; subst;
      change (PosDef.Pos.compare_cont Eq) with Pos.compare;
      destruct (Pos.compare_spec mx my); simpl; try discriminate; subst;
      left; reflexivity.
Qed.

Lemma SFcompare_Eq_l x y z :
  SFcompare x y = Some Eq -> SFcompare x z = SFcompare y z.
Proof.
  intros H. destruct (SFcompare_Eq x y H) as [->|(s & s' & -> & ->)];
    reflexivity.
Qed.

Lemma SFcompare_Eq_r x y z :
  SFcompare x y = Some Eq -> SFcompare z x = SFcompare z y.
Proof.
  intros H. destruct (SFcompare_Eq x y H) as [->|(s & s' & -> & ->)];
    [reflexivity|]. destruct z; reflexivity.
Qed.

Lemma is_zero_compare a :
  PrimFloat.is_zero a = true ->
  SFcompare (Prim2SF a) (S754_zero false) = Some Eq.
Proof.
  unfold PrimFloat.is_zero. rewrite FloatAxioms.eqb_spec. unfold SFeqb.
  change (Prim2SF PrimFloat.zero) with (S754_zero false).
  destruct (SFcompare (Prim2SF a) (S754_zero false)) as [[]|];
    congruence.
Qed.

Lemma zeros_ltb_l a b x :
  PrimFloat.is_zero a = true -> PrimFloat.is_zero b = true ->
  PrimFloat.ltb a x = PrimFloat.ltb b x.
Proof.
  intros Ha Hb. rewrite !ltb_spec. unfold SFltb.
  rewrite (SFcompare_Eq_l _ _ (Prim2SF x) (is_zero_compare a Ha)).
  rewrite (SFcompare_Eq_l _ _ (Prim2SF x) (is_zero_compare b Hb)).
  reflexivity.
Qed.

Lemma zeros_ltb_r a b x :
  PrimFloat.is_zero a = true -> PrimFloat.is_zero b = true ->
  PrimFloat.ltb x a = PrimFloat.ltb x b.
Proof.
  intros Ha Hb. rewrite !ltb_spec. unfold SFltb.
  rewrite (SFcompare_Eq_r _ _ (Prim2SF x) (is_zero_compare a Ha)).
  rewrite (SFcompare_Eq_r _ _ (Prim2SF x) (is_zero_compare b Hb)).
  reflexivity.
Qed.

Lemma ltb_irrefl a : PrimFloat.ltb a a = false.
Proof.
  rewrite ltb_spec. unfold SFltb.
  pose proof (SFcompare_antisym (Prim2SF a) (Prim2SF a)) as H.
  destruct (SFcompare (Prim2SF a) (Prim2SF a)) as [[]|]; simpl in H;
    congruence.
Qed.

(** The steps of [Math.max]: the new highest is not below anything the
    old one was not below, nor below the new number. *)
Lemma maxStep_keeps highest number x :
  PrimFloat.ltb highest x = false ->
  PrimFloat.ltb (JSMath.maxStep highest number) x = false.
Proof.
  unfold JSMath.maxStep. intros Hx.
  destruct (JSMath.isPosZero number && JSMath.isNegZero highest) eqn:Hz;
    simpl.
  - apply andb_prop in Hz as [Hn Hh].
    apply andb_prop in Hn as [Hn _]. apply andb_prop in Hh as [Hh _].
    rewrite (zeros_ltb_l number highest x Hn Hh). exact Hx.
  - destruct (PrimFloat.ltb highest number) eqn:Hlt; [|exact Hx].
    rewrite ltb_spec in *. unfold SFltb in *.
    destruct (SFcompare (Prim2SF highest) (Prim2SF number)) as [[]|] eqn:Hn;
      try discriminate.
    destruct (SFcompare (Prim2SF number) (Prim2SF x)) as [[]|] eqn:Hnx;
      try reflexivity.
    rewrite (SFcompare_trans _ _ _ Hn Hnx) in Hx. discriminate.
Qed.

Lemma maxStep_new highest number :
  PrimFloat.ltb (JSMath.maxStep highest number) number = false.
Proof.
  unfold JSMath.maxStep.
  destruct (JSMath.isPosZero number && JSMath.isNegZero highest); simpl;
    [apply ltb_irrefl|].
  destruct (PrimFloat.ltb highest number) eqn:Hlt;
    [apply ltb_irrefl|exact Hlt].
Qed.

Lemma minStep_keeps lowest number x :
  PrimFloat.ltb x lowest = false ->
  PrimFloat.ltb x (JSMath.minStep lowest number) = false.
Proof.
  unfold JSMath.minStep. intros Hx.
  destruct (JSMath.isNegZero number && JSMath.isPosZero lowest) eqn:Hz;
    simpl.
  - apply andb_prop in Hz as [Hn Hh].
    apply andb_prop in Hn as [Hn _]. apply andb_prop in Hh as [Hh _].
    rewrite (zeros_ltb_r number lowest x Hn Hh). exact Hx.
  - destruct (PrimFloat.ltb number lowest) eqn:Hlt; [|exact Hx].
    rewrite ltb_spec in *. unfold SFltb in *.
    destruct (SFcompare (Prim2SF number) (Prim2SF lowest)) as [[]|] eqn:Hn;
      try discriminate.
    destruct (SFcompare (Prim2SF x) (Prim2SF number)) as [[]|] eqn:Hxn;
      try reflexivity.
    rewrite (SFcompare_trans _ _ _ Hxn Hn) in Hx. discriminate.
Qed.

Lemma minStep_new lowest number :
  PrimFloat.ltb number (JSMath.minStep lowest number) = false.
Proof.
  unfold JSMath.minStep.
  destruct (JSMath.isNegZero number && JSMath.isPosZero lowest); simpl;
    [apply ltb_irrefl|].
  destruct (PrimFloat.ltb number lowest) eqn:Hlt;
    [apply ltb_irrefl|exact Hlt].
Qed.

Lemma fold_maxStep_upper values :
  forall highest x,
    (PrimFloat.ltb highest x = false \/ In x values) ->
    PrimFloat.ltb (fold_left JSMath.maxStep values highest) x = false.
Proof.
  induction values as [|v values IH]; intros highest x; simpl.
  - intros [H|[]]. exact H.
  - intros [H|[<-|H]]; apply IH.
    + left. apply maxStep_keeps. exact H.
    + left. apply maxStep_new.
    + right. exact H.
Qed.

Lemma fold_minStep_lower values :
  forall lowest x,
    (PrimFloat.ltb x lowest = false \/ In x values) ->
    PrimFloat.ltb x (fold_left JSMath.minStep values lowest) = false.
Proof.
  induction values as [|v values IH]; intros lowest x; simpl.
  - intros [H|[]]. exact H.
  - intros [H|[<-|H]]; apply IH.
    + left. apply minStep_keeps. exact H.
    + left. apply minStep_new.
    + right. exact H.
Qed.

Lemma fold_maxStep_In values :
  forall highest,
    fold_left JSMath.maxStep values highest = highest
    \/ In (fold_left JSMath.maxStep values highest) values.
Proof.
  induction values as [|v values IH]; intros highest; simpl; [auto|].
  destruct (IH (JSMath.maxStep highest v)) as [H|H]; [|auto].
  rewrite H. unfold JSMath.maxStep.
  destruct (_ || _); auto.
Qed.

Lemma fold_minStep_In values :
  forall lowest,
    fold_left JSMath.minStep values lowest = lowest
    \/ In (fold_left JSMath.minStep values lowest) values.
Proof.
  induction values as [|v values IH]; intros lowest; simpl; [auto|].
  destruct (IH (JSMath.minStep lowest v)) as [H|H]; [|auto].
  rewrite H. unfold JSMath.minStep.
  destruct (_ || _); auto.
Qed.

Lemma is_nan_Prim2SF x :
  PrimFloat.is_nan x = false -> Prim2SF x <> S754_nan.
Proof.
  unfold PrimFloat.is_nan. rewrite FloatAxioms.eqb_spec. unfold SFeqb.
  intros H Hnan. rewrite Hnan in H. discriminate.
Qed.

(** Nothing but [-Infinity] is not above [-Infinity], NaN apart. *)
Lemma not_above_neg_infinity x :
  PrimFloat.is_nan x = false ->
  PrimFloat.ltb PrimFloat.neg_infinity x = false ->
  x = PrimFloat.neg_infinity.
Proof.
  intros Hnan Hlt. apply is_nan_Prim2SF in Hnan.
  rewrite ltb_spec in Hlt. unfold SFltb in Hlt.
  apply Prim2SF_inj.
  change (Prim2SF PrimFloat.neg_infinity) with (S754_infinity true) in *.
  destruct (Prim2SF x) as [s|[]| |s m e]; simpl in Hlt;
    try discriminate; congruence.
Qed.

Lemma not_below_infinity x :
  PrimFloat.is_nan x = false ->
  PrimFloat.ltb x PrimFloat.infinity = false ->
  x = PrimFloat.infinity.
Proof.
  intros Hnan Hlt. apply is_nan_Prim2SF in Hnan.
  rewrite ltb_spec in Hlt. unfold SFltb in Hlt.
  apply Prim2SF_inj.
  change (Prim2SF PrimFloat.infinity) with (S754_infinity false) in *.
  destruct (Prim2SF x) as [s|[]| |s m e]; simpl in Hlt;
    try discriminate; try congruence.
Qed.

(** [Math.max] of values none of which is NaN: one of the values, if
    there is a value, and below none of them. *)
Lemma max_greatest values :
  existsb PrimFloat.is_nan values = false ->
  (values <> [] -> In (JSMath.max values) values)
  /\ forall x, In x values -> PrimFloat.ltb (JSMath.max values) x = false.
Proof.
  intros Hnan. unfold JSMath.max. rewrite Hnan. split.
  - destruct values as [|v values]; [congruence|]. intros _.
    destruct (fold_maxStep_In (v :: values) PrimFloat.neg_infinity)
      as [H|H]; [|exact H].
    rewrite H. left.
    apply not_above_neg_infinity.
    + simpl in Hnan. apply orb_false_elim in Hnan. tauto.
    + rewrite <- H at 1. apply fold_maxStep_upper. right. left. reflexivity.
  - intros x Hx. apply fold_maxStep_upper. right. exact Hx.
Qed.

Lemma min_least values :
  existsb PrimFloat.is_nan values = false ->
  (values <> [] -> In (JSMath.min values) values)
  /\ forall x, In x values -> PrimFloat.ltb x (JSMath.min values) = false.
Proof.
  intros Hnan. unfold JSMath.min. rewrite Hnan. split.
  - destruct values as [|v values]; [congruence|]. intros _.
    destruct (fold_minStep_In (v :: values) PrimFloat.infinity)
      as [H|H]; [|exact H].
    rewrite H. left.
    apply not_below_infinity.
    + simpl in Hnan. apply orb_false_elim in Hnan. tauto.
    + rewrite <- H at 1. apply fold_minStep_lower. right. left. reflexivity.
  - intros x Hx. apply fold_minStep_lower. right. exact Hx.
Qed.

End FloatOrderMore.

Section MetricsFacts.

Lemma positive_not_nan s :
  PrimFloat.ltb 0%float s = true -> PrimFloat.is_nan s = false.
Proof.
  unfold PrimFloat.is_nan. rewrite ltb_spec, FloatAxioms.eqb_spec.
  unfold SFltb, SFeqb. change (Prim2SF 0%float) with (S754_zero false).
  destruct (Prim2SF s) as [?|[]| |[] ? ?]; simpl; try discriminate;
    try reflexivity.
  rewrite Z.compare_refl, Pos.compare_cont_refl. reflexivity.
Qed.

Lemma speeds_positive records s :
  In s (TelemetryService.speeds records) -> PrimFloat.ltb 0%float s = true.
Proof.
  unfold TelemetryService.speeds. intros H. apply filter_In in H. tauto.
Qed.

Lemma speeds_no_nan records :
  existsb PrimFloat.is_nan (TelemetryService.speeds records) = false.
Proof.
  destruct (existsb PrimFloat.is_nan (TelemetryService.speeds records))
    eqn:H; [|reflexivity].
  apply existsb_exists in H as (s & Hs & Hnan).
  rewrite (positive_not_nan s (speeds_positive records s Hs)) in Hnan.
  discriminate.
Qed.

Lemma speeds_from_records records s :
  In s (TelemetryService.speeds records) ->
  exists r mph,
    In r records /\ speedMph r = Some mph
    /\ s = PrimFloat.mul mph MPH_TO_KMH.
Proof.
  intros Hs. pose proof (speeds_positive records s Hs) as Hpos.
  unfold TelemetryService.speeds in Hs. apply filter_In in Hs as [Hs _].
  apply in_map_iff in Hs as (r & Hr & Hin). exists r.
  unfold TelemetryService.speedKmh in Hr.
  destruct (speedMph r) as [mph|].
  - exists mph. split; [exact Hin|]. split; [reflexivity|].
    destruct (PrimFloat.is_zero mph || PrimFloat.is_nan mph);
      [|congruence].
    subst s. discriminate.
  - subst s. discriminate.
Qed.

Lemma length_nonzero {A : Type} (l : list A) :
  (0 <? List.length l)%nat = true -> (List.length l =? 0)%nat = false.
Proof. destruct l; [discriminate|reflexivity]. Qed.

Lemma length_positive {A : Type} (l : list A) :
  (0 <? List.length l)%nat = true -> l <> [].
Proof. destruct l; [discriminate|congruence]. Qed.

Lemma extractValues_readings telemetry fieldName :
  String.eqb fieldName "speedMph" = false ->
  AggregateExecutor.extractValues telemetry fieldName
  = readings fieldName telemetry.
Proof.
  intros Hfield. unfold readings.
  induction telemetry as [|r rest IH]; [reflexivity|].
  cbn [AggregateExecutor.extractValues omap list_omap].
  destruct (getField r fieldName) as [| | b | x | s | ref]; try exact IH.
  destruct (PrimFloat.is_nan x); simpl; [exact IH|].
  rewrite Hfield, IH. reflexivity.
Qed.

Lemma readings_no_nan fieldName telemetry :
  existsb PrimFloat.is_nan (readings fieldName telemetry) = false.
Proof.
  unfold readings.
  induction telemetry as [|r rest IH]; [reflexivity|].
  cbn [omap list_omap].
  destruct (getField r fieldName) as [| | b | x | s | ref]; try exact IH.
  destruct (PrimFloat.is_nan x) eqn:Hx; simpl; [exact IH|].
  rewrite Hx. exact IH.
Qed.

Lemma readings_length fieldName telemetry :
  List.length (readings fieldName telemetry) <= List.length telemetry.
Proof.
  unfold readings.
  induction telemetry as [|r rest IH]; [simpl; lia|].
  cbn [omap list_omap List.length].
  destruct (getField r fieldName) as [| | b | x | s | ref];
    cbn [List.length]; try lia.
  destruct (PrimFloat.is_nan x); cbn [List.length]; lia.
Qed.

End MetricsFacts.

(** X15. The speed metrics of the telemetry service work on the speeds
    of the records in km/h (the [speedMph] times 1.60934) that are above
    0, all of them and nothing else: records without speed do not
    count. When no record has such a speed, the empty sequence included,
    the average, the maximum and the minimum are 0. Otherwise the
    average is their sum by their number; and the maximum and the
    minimum, which are computed by a call with the speeds spread as its
    arguments, are each one of these speeds, the maximum below none of
    them and none of them below the minimum, when the engine takes that
    many arguments, and throw a [RangeError] when it does not, as then
    [calculateMetrics] does. *)
Theorem X15_service_speed_metrics
    (argumentLimit : nat) (records : list TelemetryRecord) :
  (forall s,
     In s (TelemetryService.speeds records) ->
     PrimFloat.ltb 0%float s = true
     /\ exists r mph,
          In r records /\ speedMph r = Some mph
          /\ s = PrimFloat.mul mph MPH_TO_KMH)
  /\ (forall r mph,
        In r records -> speedMph r = Some mph ->
        PrimFloat.is_zero mph = false -> PrimFloat.is_nan mph = false ->
        PrimFloat.ltb 0%float (PrimFloat.mul mph MPH_TO_KMH) = true ->
        In (PrimFloat.mul mph MPH_TO_KMH) (TelemetryService.speeds records))
  /\ (TelemetryService.speeds records = [] ->
      TelemetryService.calculateAverageSpeed records = 0%float
      /\ TelemetryService.calculateMaxSpeed argumentLimit records
         = Ok 0%float
      /\ TelemetryService.calculateMinSpeed argumentLimit records
         = Ok 0%float)
  /\ ((0 <? List.length (TelemetryService.speeds records))%nat = true ->
      TelemetryService.calculateAverageSpeed records
      = PrimFloat.div (JSMath.sum (TelemetryService.speeds records))
          (numOfNat (List.length (TelemetryService.speeds records)))
      /\ ((List.length (TelemetryService.speeds records) <= argumentLimit)%nat
          ->
          exists highest lowest,
            TelemetryService.calculateMaxSpeed argumentLimit records
            = Ok highest
            /\ TelemetryService.calculateMinSpeed argumentLimit records
               = Ok lowest
            /\ In highest (TelemetryService.speeds records)
            /\ In lowest (TelemetryService.speeds records)
            /\ (forall s,
                  In s (TelemetryService.speeds records) ->
                  PrimFloat.ltb highest s = false
                  /\ PrimFloat.ltb s lowest = false)
            /\ TelemetryService.calculateMetrics argumentLimit records
               = Ok {| TelemetryService.averageSpeed :=
                         TelemetryService.calculateAverageSpeed records;
                       TelemetryService.maxSpeed := highest;
                       TelemetryService.minSpeed := lowest;
                       TelemetryService.tm_recordCount :=
                         List.length records |})
      /\ ((argumentLimit < List.length (TelemetryService.speeds records))%nat
          ->
          TelemetryService.calculateMaxSpeed argumentLimit records
          = Throw JSMath.stackExceeded
          /\ TelemetryService.calculateMinSpeed argumentLimit records
             = Throw JSMath.stackExceeded
          /\ TelemetryService.calculateMetrics argumentLimit records
             = Throw JSMath.stackExceeded)).
Proof.
  split; [|split; [|split]].
  - intros s Hs. split;
      [exact (speeds_positive records s Hs)
      |exact (speeds_from_records records s Hs)].
  - intros r mph Hr Hmph Hzero Hnan Hpos.
    unfold TelemetryService.speeds. apply filter_In. split; [|exact Hpos].
    apply in_map_iff. exists r. split; [|exact Hr].
    unfold TelemetryService.speedKmh. rewrite Hmph, Hzero, Hnan. reflexivity.
  - intros Hnone.
    unfold TelemetryService.calculateAverageSpeed,
      TelemetryService.calculateMaxSpeed, TelemetryService.calculateMinSpeed.
    rewrite Hnone. simpl.
    destruct (List.length records =? 0)%nat; auto.
  - intros Hsome.
    assert (Hrecords : (List.length records =? 0)%nat = false).
    { destruct records; [discriminate Hsome|reflexivity]. }
    unfold TelemetryService.calculateMetrics,
      TelemetryService.calculateMaxSpeed, TelemetryService.calculateMinSpeed.
    rewrite Hrecords, (length_nonzero _ Hsome). unfold JSMath.spread.
    split; [|split].
    + unfold TelemetryService.calculateAverageSpeed.
      rewrite Hrecords, (length_nonzero _ Hsome). reflexivity.
    + intros Hfit. apply Nat.leb_le in Hfit. rewrite Hfit.
      destruct (max_greatest _ (speeds_no_nan records)) as [HmaxIn Hmax].
      destruct (min_least _ (speeds_no_nan records)) as [HminIn Hmin].
      pose proof (length_positive _ Hsome) as Hne.
      exists (JSMath.max (TelemetryService.speeds records)),
             (JSMath.min (TelemetryService.speeds records)).
      split; [reflexivity|]. split; [reflexivity|].
      split; [exact (HmaxIn Hne)|]. split; [exact (HminIn Hne)|].
      split; [|reflexivity].
      intros s Hs. split; [exact (Hmax s Hs)|exact (Hmin s Hs)].
    + intros Hlong. apply Nat.leb_gt in Hlong. rewrite Hlong.
      repeat split.
Qed.

(** Speeds of 10, 0 and 30 mph: the record at rest does not count, and
    the maximum is one of the two speeds left; on an engine that takes a
    single argument the maximum of the two throws. *)
Lemma X15_service_speed_witness :
  List.length
    (TelemetryService.speeds [atSpeed 0 10; atSpeed 1 0; atSpeed 2 30]) = 2
  /\ (exists highest,
        TelemetryService.calculateMaxSpeed sampleLimit
          [atSpeed 0 10; atSpeed 1 0; atSpeed 2 30] = Ok highest
        /\ In highest
             (TelemetryService.speeds
                [atSpeed 0 10; atSpeed 1 0; atSpeed 2 30]))
  /\ TelemetryService.calculateMaxSpeed 1
       [atSpeed 0 10; atSpeed 1 0; atSpeed 2 30]
     = Throw JSMath.stackExceeded
  /\ TelemetryService.calculateMinSpeed sampleLimit [atSpeed 0 0]
     = Ok 0%float.
Proof.
  split; [reflexivity|].
  destruct (X15_service_speed_metrics sampleLimit
              [atSpeed 0 10; atSpeed 1 0; atSpeed 2 30])
    as (_ & _ & _ & Hsome).
  destruct (Hsome eq_refl) as (_ & Hfits & _).
  destruct Hfits as (highest & lowest & Hmax & _ & Hin & _);
    [vm_compute; lia|].
  destruct (X15_service_speed_metrics 1
              [atSpeed 0 10; atSpeed 1 0; atSpeed 2 30])
    as (_ & _ & _ & Hsome1).
  destruct (Hsome1 eq_refl) as (_ & _ & Hlong).
  split; [exists highest; split; [exact Hmax|exact Hin]|]. split.
  - apply Hlong. vm_compute. lia.
  - apply (X15_service_speed_metrics sampleLimit [atSpeed 0 0]).
    reflexivity.
Defined.

(** X16. For a telemetry field other than [speedMph] the aggregate
    executor works on the readings of the field as they are: the numbers
    of the records, those that are NaN left out, in the order of the
    records. When there is such a reading, and no more readings than the
    engine takes as arguments, the operation [max] answers with one of
    the readings that is below none of them, and [min] with one that
    none of them is below; with more readings than that, both throw a
    [RangeError]. *)
Theorem X16_extremes_of_a_field
    (argumentLimit : nat) (telemetryService : bool) (q : ResolvedQuery)
    (telemetry : list TelemetryRecord) :
  String.eqb (AggregateExecutor.getAggregateField q) "speedMph" = false ->
  let values := readings (AggregateExecutor.getAggregateField q) telemetry in
  AggregateExecutor.extractValues telemetry
    (AggregateExecutor.getAggregateField q) = values
  /\ ((0 <? List.length values)%nat = true ->
      (List.length values <= argumentLimit)%nat ->
      (rq_operation q = Some Max ->
       exists m,
         AggregateExecutor.execute argumentLimit telemetryService q telemetry
         = Ok {| qr_value := VNum m;
                 qr_units :=
                   AggregateExecutor.getUnitsForProperty (rq_property q);
                 qr_metadata :=
                   Some {| md_recordCount := Some (List.length telemetry);
                           md_timeWindow := Some (rq_timeWindow q) |} |}
         /\ In m values
         /\ forall x, In x values -> PrimFloat.ltb m x = false)
      /\ (rq_operation q = Some Min ->
          exists m,
            AggregateExecutor.execute argumentLimit telemetryService q
              telemetry
            = Ok {| qr_value := VNum m;
                    qr_units :=
                      AggregateExecutor.getUnitsForProperty (rq_property q);
                    qr_metadata :=
                      Some {| md_recordCount := Some (List.length telemetry);
                              md_timeWindow := Some (rq_timeWindow q) |} |}
            /\ In m values
            /\ forall x, In x values -> PrimFloat.ltb x m = false))
  /\ ((argumentLimit < List.length values)%nat ->
      rq_operation q = Some Max \/ rq_operation q = Some Min ->
      AggregateExecutor.execute argumentLimit telemetryService q telemetry
      = Throw JSMath.stackExceeded).
Proof.
  intros Hfield values.
  pose proof (extractValues_readings telemetry _ Hfield) as Hvalues.
  fold values in Hvalues. split; [exact Hvalues|].
  assert (Hlen : (0 <? List.length values)%nat = true ->
                 (0 <? List.length telemetry)%nat = true).
  { intros Hsome.
    pose proof (readings_length (AggregateExecutor.getAggregateField q)
                  telemetry) as Hle.
    fold values in Hle. apply Nat.ltb_lt. apply Nat.ltb_lt in Hsome. lia. }
  assert (Hru : AggregateExecutor.isRouteUtilization telemetryService q
                = false).
  { unfold AggregateExecutor.isRouteUtilization.
    unfold AggregateExecutor.getAggregateField in Hfield.
    destruct (rq_operation q) as [[]|]; try reflexivity.
    destruct (rq_property q) as [[]|]; try reflexivity.
    discriminate Hfield. }
  pose proof (readings_no_nan (AggregateExecutor.getAggregateField q)
                telemetry) as Hnan.
  fold values in Hnan.
  split.
  - intros Hsome Hfit.
    pose proof (length_positive _ Hsome) as Hne.
    split; intros Hop;
      rewrite (aggregate_execute_values argumentLimit telemetryService q _
                 telemetry Hop (Hlen Hsome) Hru);
      cbv zeta; rewrite Hvalues, (length_nonzero _ Hsome);
      rewrite (aggregate_answers argumentLimit _ values
                 (or_intror (or_intror Hfit)));
      cbn [aggregateOf].
    + exists (JSMath.max values). split; [reflexivity|].
      destruct (max_greatest values Hnan) as [Hin Hmax]. auto.
    + exists (JSMath.min values). split; [reflexivity|].
      destruct (min_least values Hnan) as [Hin Hmin]. auto.
  - intros Hlong Hop.
    assert (Hsome : (0 <? List.length values)%nat = true)
      by (apply Nat.ltb_lt; lia).
    destruct Hop as [Hop|Hop];
      rewrite (aggregate_execute_values argumentLimit telemetryService q _
                 telemetry Hop (Hlen Hsome) Hru);
      cbv zeta; rewrite Hvalues, (length_nonzero _ Hsome);
      rewrite (aggregate_overflows argumentLimit _ values); auto.
Qed.

(** Engine temperatures of 180, 205 and 190: the maximum is 205; an
    engine that takes two arguments throws. *)
Lemma X16_extremes_witness :
  AggregateExecutor.extractValues [atTemp 0 180; atTemp 1 205; atTemp 2 190]
    "engineTemp"
  = [180%float; 205%float; 190%float]
  /\ (exists m,
        resultValue
          (AggregateExecutor.execute sampleLimit true
             (queryOf Aggregate (Some tempInfo) (Some Max) None None)
             [atTemp 0 180; atTemp 1 205; atTemp 2 190])
        = Some (VNum m)
        /\ In m [180%float; 205%float; 190%float])
  /\ AggregateExecutor.execute 2 true
       (queryOf Aggregate (Some tempInfo) (Some Max) None None)
       [atTemp 0 180; atTemp 1 205; atTemp 2 190]
     = Throw JSMath.stackExceeded.
Proof.
  destruct (X16_extremes_of_a_field sampleLimit true
              (queryOf Aggregate (Some tempInfo) (Some Max) None None)
              [atTemp 0 180; atTemp 1 205; atTemp 2 190] eq_refl)
    as (Hvalues & Hextremes & _).
  destruct (X16_extremes_of_a_field 2 true
              (queryOf Aggregate (Some tempInfo) (Some Max) None None)
              [atTemp 0 180; atTemp 1 205; atTemp 2 190] eq_refl)
    as (_ & _ & Hthrows).
  split; [exact Hvalues|]. split.
  - destruct Hextremes as [Hmax _]; [reflexivity|vm_compute; lia|].
    destruct (Hmax eq_refl) as (m & Hm & Hin & _). exists m.
    rewrite Hm. split; [reflexivity|exact Hin].
  - apply Hthrows; [vm_compute; lia|left; reflexivity].
Defined.

(** * Further properties of the property executor *)

Section LatestFacts.

Implicit Types (l : list TelemetryRecord) (x y : TelemetryRecord).

Lemma sort_head_pickLatest l :
  hd_error (PropertyExecutor.sort PropertyExecutor.byTimeDescending l)
  = pickLatest l.
Proof.
  induction l as [|x l IH]; [reflexivity|].
  change (PropertyExecutor.sort PropertyExecutor.byTimeDescending (x :: l))
    with (PropertyExecutor.insertBy PropertyExecutor.byTimeDescending x
            (PropertyExecutor.sort PropertyExecutor.byTimeDescending l)).
  cbn [pickLatest]. rewrite <- IH.
  destruct (PropertyExecutor.sort PropertyExecutor.byTimeDescending l)
    as [|y r]; [reflexivity|].
  cbn [PropertyExecutor.insertBy hd_error].
  unfold PropertyExecutor.byTimeDescending.
  destruct (timestamp y - timestamp x <=? 0)%Z eqn:Hcmp.
  - apply Z.leb_le in Hcmp.
    assert (Hle : (timestamp y <=? timestamp x)%Z = true)
      by (apply Z.leb_le; lia).
    rewrite Hle. reflexivity.
  - apply Z.leb_gt in Hcmp.
    assert (Hgt : (timestamp y <=? timestamp x)%Z = false)
      by (apply Z.leb_gt; lia).
    rewrite Hgt. reflexivity.
Qed.

Lemma noneLater_spec l x :
  noneLater l x = true
  <-> forall r', In r' l -> (timestamp r' <= timestamp x)%Z.
Proof.
  unfold noneLater. rewrite forallb_forall. split; intros H r' Hr'.
  - apply Z.leb_le. exact (H r' Hr').
  - apply Z.leb_le. exact (H r' Hr').
Qed.

Lemma pickLatest_firstLatest l : pickLatest l = firstLatest l.
Proof.
  unfold firstLatest. induction l as [|x l IH]; [reflexivity|].
  cbn [pickLatest]. rewrite IH.
  destruct (List.find (noneLater l) l) as [y|] eqn:Hfind.
  - destruct (find_some _ _ Hfind) as [Hy Hnone].
    rewrite noneLater_spec in Hnone.
    destruct (timestamp y <=? timestamp x)%Z eqn:Hcmp.
    + apply Z.leb_le in Hcmp.
      assert (Hx : noneLater (x :: l) x = true).
      { apply noneLater_spec. intros r' [<-|Hr']; [lia|].
        specialize (Hnone r' Hr'). lia. }
      simpl. simpl in Hx. rewrite Hx. reflexivity.
    + apply Z.leb_gt in Hcmp.
      assert (Hx : noneLater (x :: l) x = false).
      { destruct (noneLater (x :: l) x) eqn:H; [|reflexivity].
        rewrite noneLater_spec in H.
        specialize (H y (or_intror Hy)). lia. }
      cbn [List.find]. rewrite Hx. rewrite <- Hfind. apply find_ext.
      intros r. unfold noneLater. cbn [forallb].
      destruct (forallb (fun r' => (timestamp r' <=? timestamp r)%Z) l)
        eqn:Hr; [|rewrite andb_false_r; reflexivity].
      rewrite andb_true_r.
      rewrite forallb_forall in Hr. specialize (Hr y Hy).
      apply Z.leb_le in Hr.
      assert (Hxr : (timestamp x <=? timestamp r)%Z = true)
        by (apply Z.leb_le; lia).
      rewrite Hxr. reflexivity.
  - destruct l as [|z l]; [simpl; rewrite Z.leb_refl; reflexivity|].
    exfalso. pose proof IH as Hpick.
    simpl in Hpick. destruct (pickLatest l) as [w|]; [|discriminate].
    destruct (timestamp w <=? timestamp z)%Z; discriminate.
Qed.

End LatestFacts.

(** X17. The property executor throws exactly when the query has no
    property. For a telemetry property and at least one record it
    answers from one record: the first, in the order of the records,
    than which none is later (the sort is stable, so that among records
    of the same latest time the first one is read). For a field other
    than [speedMph] the value is that of the field of this record, or
    "N/A" when the record has none; the record count is the number of
    records. *)
Theorem X17_property_read_from_first_latest
    (q : ResolvedQuery) (telemetry : list TelemetryRecord) :
  (throws (PropertyExecutor.execute q telemetry) = true
   <-> rq_property q = None)
  /\ forall t,
       rq_property q = Some (FromTelemetry t) ->
       (0 <? List.length telemetry)%nat = true ->
       exists mostRecent,
         firstLatest telemetry = Some mostRecent
         /\ PropertyExecutor.execute q telemetry
            = Ok (PropertyExecutor.fromRecord t mostRecent
                    (List.length telemetry))
         /\ resultCount (PropertyExecutor.execute q telemetry)
            = Some (List.length telemetry)
         /\ (String.eqb (AggregateExecutor.fieldOf t) "speedMph" = false ->
             resultValue (PropertyExecutor.execute q telemetry)
             = Some (match getField mostRecent (AggregateExecutor.fieldOf t)
                     with
                     | VUndefined | VNull => VStr "N/A"
                     | v => v
                     end)).
Proof.
  split.
  - unfold PropertyExecutor.execute.
    destruct (rq_property q) as [[d|t]|]; simpl.
    + split; discriminate.
    + destruct (List.length telemetry =? 0)%nat eqn:Hlen;
        [split; discriminate|].
      destruct (sort_nonempty telemetry) as (m & rest & Hsort).
      { destruct telemetry; [discriminate|reflexivity]. }
      rewrite Hsort. split; discriminate.
    + split; reflexivity.
  - intros t Hprop Hlen.
    destruct (sort_nonempty telemetry Hlen) as (m & rest & Hsort).
    exists m.
    assert (Hexec : PropertyExecutor.execute q telemetry
                    = Ok (PropertyExecutor.fromRecord t m
                            (List.length telemetry))).
    { unfold PropertyExecutor.execute.
      rewrite Hprop, (length_zero_iff _ Hlen), Hsort. reflexivity. }
    split.
    + rewrite <- pickLatest_firstLatest, <- sort_head_pickLatest, Hsort.
      reflexivity.
    + split; [exact Hexec|]. rewrite Hexec. split.
      * unfold PropertyExecutor.fromRecord.
        destruct (PropertyExecutor.convertedSpeed _ _); reflexivity.
      * intros Hfield. unfold PropertyExecutor.fromRecord, resultValue.
        unfold PropertyExecutor.convertedSpeed. rewrite Hfield.
        destruct (getField m (AggregateExecutor.fieldOf t)); reflexivity.
Qed.

(** Two records of the same time: the first is read. *)
Lemma X17_property_read_witness :
  firstLatest [atTemp 5 180; atTemp 9 205; atTemp 9 190]
  = Some (atTemp 9 205)
  /\ resultValue
       (PropertyExecutor.execute
          (queryOf GetProperty (Some tempInfo) None None None)
          [atTemp 5 180; atTemp 9 205; atTemp 9 190])
     = Some (VNum 205%float).
Proof.
  destruct (proj2 (X17_property_read_from_first_latest
                     (queryOf GetProperty (Some tempInfo) None None None)
                     [atTemp 5 180; atTemp 9 205; atTemp 9 190])
              _ eq_refl eq_refl)
    as (m & Hm & _ & _ & Hvalue).
  split; [reflexivity|].
  rewrite (Hvalue eq_refl).
  assert (Heq : Some m = Some (atTemp 9 205))
    by (rewrite <- Hm; reflexivity).
  injection Heq as ->. reflexivity.
Defined.

(** * Further properties of the resolution and execution of queries *)

Section QueryFacts.

Lemma resolve_Throw reference model x :
  EntityResolver.resolve reference model = Throw x ->
  x = EntityNotFoundError reference.
Proof.
  rewrite resolve_firstHit.
  destruct (EntityResolver.firstHit EntityResolver.cascade reference model)
    as [[s e0]|]; [discriminate|].
  intros [= <-]. reflexivity.
Qed.

Lemma resolveEntity_Ok model intent e :
  QueryResolution.resolveEntity model intent = Ok e ->
  In e (DTDLModel.getAllEntities model)
  \/ (e = QueryResolution.allEntities
      /\ qi_questionType intent = RouteUtilization
      /\ qi_targetEntity intent = "ALL").
Proof.
  unfold QueryResolution.resolveEntity.
  destruct (QueryResolution.isRouteUtilization (qi_questionType intent)
            && String.eqb (qi_targetEntity intent) "ALL") eqn:Hall.
  - intros [= <-]. right. apply andb_prop in Hall as [Hru Htarget].
    apply String.eqb_eq in Htarget.
    destruct (qi_questionType intent); try discriminate. auto.
  - intros Hres. left. exact (resolve_In _ _ _ Hres).
Qed.

Lemma resolveQueryProperty_Ok entity intent property dataSource :
  QueryResolution.resolveQueryProperty entity intent
  = Ok (property, dataSource) ->
  (property = None
   <-> QueryResolution.isCurrentSpeed (qi_questionType intent) = false
       /\ EntityResolver.truthy (qi_propertyName intent) = false)
  /\ (dataSource = DataDtdl ->
      exists d, property = Some (FromDTDL d))
  /\ dataSource <> DataBoth.
Proof.
  unfold QueryResolution.resolveQueryProperty.
  destruct (QueryResolution.isCurrentSpeed (qi_questionType intent))
    eqn:Hcs;
    destruct (EntityResolver.truthy (qi_propertyName intent)) eqn:Hname;
    simpl.
  - destruct (PropertyResolver.success _); [|discriminate].
    destruct (PropertyResolver.property _) as [p|]; [|discriminate].
    intros [= <- <-]. split; [split; [discriminate|intros [? ?]; discriminate]|].
    split; [|destruct (source p); discriminate].
    destruct p as [d|t]; simpl; [eauto|discriminate].
  - destruct (PropertyResolver.success _);
      [destruct (PropertyResolver.property _) as [p|]|];
      intros [= <- <-];
      (split; [split; [discriminate|intros [? ?]; discriminate]|]);
      (split; discriminate).
  - destruct (PropertyResolver.success _); [|discriminate].
    destruct (PropertyResolver.property _) as [p|]; [|discriminate].
    intros [= <- <-]. split; [split; [discriminate|intros [? ?]; discriminate]|].
    split; [|destruct (source p); discriminate].
    destruct p as [d|t]; simpl; [eauto|discriminate].
  - intros [= <- <-]. split; [tauto|]. split; discriminate.
Qed.

Lemma resolveQueryProperty_Throw entity intent x :
  QueryResolution.resolveQueryProperty entity intent = Throw x ->
  exnCode x = Some "PROPERTY_NOT_FOUND".
Proof.
  unfold QueryResolution.resolveQueryProperty.
  destruct (QueryResolution.isCurrentSpeed (qi_questionType intent)
            && negb (EntityResolver.truthy (qi_propertyName intent))).
  - destruct (PropertyResolver.success _);
      [destruct (PropertyResolver.property _)|]; discriminate.
  - destruct (EntityResolver.truthy (qi_propertyName intent));
      [|discriminate].
    destruct (PropertyResolver.success _);
      [destruct (PropertyResolver.property _)|];
      try discriminate; intros [= <-]; reflexivity.
Qed.

(** What [resolveQuery] puts into the resolved query. *)
Lemma resolveQuery_Ok model intent q :
  QueryResolution.resolveQuery model intent = Ok q ->
  exists entity property dataSource,
    QueryResolution.resolveEntity model intent = Ok entity
    /\ QueryResolution.resolveQueryProperty entity intent
       = Ok (property, dataSource)
    /\ rq_intent q
       = QueryResolution.mapQuestionTypeToIntent (qi_questionType intent)
    /\ rq_targetEntity q = entity
    /\ rq_property q = property
    /\ rq_operation q = QueryResolution.operationOf (qi_questionType intent)
    /\ rq_timeWindow q = qi_timeWindow intent
    /\ sourcePathOf q = QueryResolution.sourcePathFor intent
    /\ destinationPathOf q = qi_destinationPath intent
    /\ rq_dataSource q = Some dataSource.
Proof.
  unfold QueryResolution.resolveQuery.
  destruct (QueryResolution.resolveEntity model intent) as [entity|];
    [|discriminate].
  destruct (QueryResolution.resolveQueryProperty entity intent)
    as [[property dataSource]|] eqn:Hproperty; [|discriminate].
  intros [= <-]. exists entity, property, dataSource.
  rewrite Hproperty. repeat split; reflexivity.
Qed.

End QueryFacts.

(** X18. A query that [resolveQuery] resolves is about an entity of the
    model, or about the pseudo entity ALL, and that only for a route
    utilization question whose target is "ALL"; its intent is never
    "relationship" nor "current"; it has an operation exactly when its
    intent is "aggregate", and no property exactly when the question is
    not about the current speed and names no property; the data source
    is "dtdl" only with a property of the DTDL model, and never "both".
    The only errors thrown are ENTITY_NOT_FOUND and PROPERTY_NOT_FOUND,
    and a question that names no property is resolved whenever its
    target is, to the entity that [resolve] finds. This is for names that the property resolver reads as entries of
    its tables: the name asked for is not, once normalized, a name every
    object inherits, and no entity of the model has a Property item of
    such a name. *)
Theorem X18_resolved_queries (model : DTDLModel.t) (intent : QueryIntent) :
  readsEntriesOf model (askedName intent) = true ->
  (forall q,
     QueryResolution.resolveQuery model intent = Ok q ->
     (In (rq_targetEntity q) (DTDLModel.getAllEntities model)
      \/ (rq_targetEntity q = QueryResolution.allEntities
          /\ qi_questionType intent = RouteUtilization
          /\ qi_targetEntity intent = "ALL"))
     /\ rq_intent q <> Relationship
     /\ rq_intent q <> Current
     /\ (rq_intent q = Aggregate <-> rq_operation q <> None)
     /\ (rq_property q = None
         <-> QueryResolution.isCurrentSpeed (qi_questionType intent) = false
             /\ EntityResolver.truthy (qi_propertyName intent) = false)
     /\ (rq_dataSource q = Some DataDtdl ->
         exists d, rq_property q = Some (FromDTDL d))
     /\ rq_dataSource q <> Some DataBoth
     /\ rq_timeWindow q = qi_timeWindow intent
     /\ destinationPathOf q = qi_destinationPath intent)
  /\ (forall x,
        QueryResolution.resolveQuery model intent = Throw x ->
        x = EntityNotFoundError (qi_targetEntity intent)
        \/ exnCode x = Some "PROPERTY_NOT_FOUND")
  /\ (forall e,
        EntityResolver.resolve (qi_targetEntity intent) model = Ok e ->
        EntityResolver.truthy (qi_propertyName intent) = false ->
        qi_questionType intent <> RouteUtilization ->
        exists q,
          QueryResolution.resolveQuery model intent = Ok q
          /\ rq_targetEntity q = e).
Proof.
  intros _. split; [|split].
  - intros q Hq.
    destruct (resolveQuery_Ok model intent q Hq)
      as (entity & property & dataSource & Hentity & Hproperty & Hintent
          & Htarget & Hprop & Hop & Hwindow & _ & Hdest & Hsource).
    destruct (resolveQueryProperty_Ok _ _ _ _ Hproperty)
      as (Hnone & Hdtdl & Hboth).
    rewrite Htarget, Hintent, Hop, Hprop, Hsource.
    split; [exact (resolveEntity_Ok _ _ _ Hentity)|].
    split; [destruct (qi_questionType intent); discriminate|].
    split; [destruct (qi_questionType intent); discriminate|].
    split.
    { destruct (qi_questionType intent); simpl; split; congruence. }
    split; [exact Hnone|].
    split; [intros [= ->]; apply Hdtdl; reflexivity|].
    split; [congruence|]. split; [exact Hwindow|exact Hdest].
  - intros x. unfold QueryResolution.resolveQuery.
    destruct (QueryResolution.resolveEntity model intent) as [entity|x0]
      eqn:Hentity.
    + destruct (QueryResolution.resolveQueryProperty entity intent)
        as [[property dataSource]|x1] eqn:Hproperty; [discriminate|].
      intros [= <-]. right.
      exact (resolveQueryProperty_Throw _ _ _ Hproperty).
    + intros [= <-]. left.
      unfold QueryResolution.resolveEntity in Hentity.
      destruct (_ && _); [discriminate|].
      exact (resolve_Throw _ _ _ Hentity).
  - intros e Hres Hname Hqt.
    unfold QueryResolution.resolveQuery, QueryResolution.resolveEntity.
    assert (Hru : QueryResolution.isRouteUtilization (qi_questionType intent)
                  = false)
      by (destruct (qi_questionType intent); try reflexivity; congruence).
    rewrite Hru. cbn [andb]. rewrite Hres.
    unfold QueryResolution.resolveQueryProperty. rewrite Hname.
    cbn [negb]. rewrite andb_true_r.
    destruct (QueryResolution.isCurrentSpeed (qi_questionType intent)).
    + destruct (PropertyResolver.success _);
        [destruct (PropertyResolver.property _)|];
        eexists; split; reflexivity.
    + eexists. split; reflexivity.
Qed.

(** The question about the speed of truck 777 2 is resolved to the truck,
    with a property. *)
Lemma X18_resolved_witness :
  readsEntriesOf truckFirst (askedName speedQuestion) = true
  /\ exists q,
       QueryResolution.resolveQuery truckFirst speedQuestion = Ok q
       /\ In (rq_targetEntity q) (DTDLModel.getAllEntities truckFirst)
       /\ rq_property q <> None.
Proof.
  split; [reflexivity|].
  eexists. split; [vm_compute; reflexivity|].
  match goal with
  | |- In (rq_targetEntity ?q) _ /\ _ =>
      destruct (proj1 (X18_resolved_queries truckFirst speedQuestion eq_refl)
                  q)
        as (Hentity & _ & _ & _ & Hnone & _)
  end.
  - vm_compute. reflexivity.
  - split.
    + destruct Hentity as [Hin|(_ & Habs & _)]; [exact Hin|discriminate Habs].
    + intros Habs. apply Hnone in Habs as [Habs _]. discriminate Habs.
Defined.

Section ExecutionFacts.

Lemma getExecutor_make argumentLimit telemetryService q :
  QueryExecutorRegistry.getExecutor
    (QueryExecutorRegistry.make argumentLimit telemetryService) q
  = match rq_intent q with
    | GetProperty | Current => Ok propertyExecutor
    | Aggregate => Ok (aggregateExecutor argumentLimit telemetryService)
    | Count => Ok countExecutor
    | Relationship =>
        Throw (PlainError
                 ("No executor found for intent type: relationship. "
                  +:+ "Available executors: "
                  +:+ "PropertyExecutor, AggregateExecutor, CountExecutor"))
    end.
Proof.
  unfold QueryExecutorRegistry.getExecutor.
  destruct (rq_intent q); reflexivity.
Qed.

Lemma property_throws q telemetry :
  throws (PropertyExecutor.execute q telemetry) = true
  <-> rq_property q = None.
Proof.
  unfold PropertyExecutor.execute.
  destruct (rq_property q) as [[d|t]|]; simpl.
  - split; discriminate.
  - destruct (List.length telemetry =? 0)%nat eqn:Hlen;
      [split; discriminate|].
    destruct (sort_nonempty telemetry) as (m & rest & Hsort).
    { destruct telemetry; [discriminate|reflexivity]. }
    rewrite Hsort. split; discriminate.
  - split; reflexivity.
Qed.

Lemma property_Throw q telemetry x :
  PropertyExecutor.execute q telemetry = Throw x
  <-> rq_property q = None
      /\ x = PlainError "Property executor requires a property to be resolved".
Proof.
  split.
  - intros Hx.
    assert (Hnone : rq_property q = None)
      by (apply (property_throws q telemetry); rewrite Hx; reflexivity).
    split; [exact Hnone|].
    unfold PropertyExecutor.execute in Hx. rewrite Hnone in Hx.
    congruence.
  - intros [Hnone ->]. unfold PropertyExecutor.execute. rewrite Hnone.
    reflexivity.
Qed.

(** What the aggregate executor throws for a query with an operation. *)
Lemma aggregate_Throw argumentLimit telemetryService q op telemetry x :
  rq_operation q = Some op ->
  AggregateExecutor.execute argumentLimit telemetryService q telemetry
  = Throw x
  <-> (op = Max \/ op = Min)
      /\ (argumentLimit
          < List.length
              (AggregateExecutor.extractValues telemetry
                 (AggregateExecutor.getAggregateField q)))%nat
      /\ x = JSMath.stackExceeded.
Proof.
  intros Hop. unfold AggregateExecutor.execute. rewrite Hop.
  destruct telemetry as [|record rest].
  { simpl. split; [discriminate|]. intros (_ & Hlong & _). lia. }
  cbn [List.length Nat.eqb].
  destruct (AggregateExecutor.isRouteUtilization telemetryService q)
    eqn:Hru.
  { split; [discriminate|]. intros ([-> | ->] & _).
    - unfold AggregateExecutor.isRouteUtilization in Hru.
      rewrite Hop in Hru. discriminate.
    - unfold AggregateExecutor.isRouteUtilization in Hru.
      rewrite Hop in Hru. discriminate. }
  cbv zeta.
  set (values := AggregateExecutor.extractValues (record :: rest)
                   (AggregateExecutor.getAggregateField q)).
  destruct (List.length values =? 0)%nat eqn:Hnone.
  { apply Nat.eqb_eq in Hnone. split; [discriminate|].
    intros (_ & Hlong & _). lia. }
  unfold AggregateExecutor.aggregate, JSMath.spread.
  destruct op.
  - split; [discriminate|]. intros ([Habs|Habs] & _); discriminate.
  - destruct (List.length values <=? argumentLimit)%nat eqn:Hfit.
    + apply Nat.leb_le in Hfit. split; [discriminate|].
      intros (_ & Hlong & _). lia.
    + apply Nat.leb_gt in Hfit. split.
      * intros [= <-]. auto.
      * intros (_ & _ & ->). reflexivity.
  - destruct (List.length values <=? argumentLimit)%nat eqn:Hfit.
    + apply Nat.leb_le in Hfit. split; [discriminate|].
      intros (_ & Hlong & _). lia.
    + apply Nat.leb_gt in Hfit. split.
      * intros [= <-]. auto.
      * intros (_ & _ & ->). reflexivity.
  - split; [discriminate|]. intros ([Habs|Habs] & _); discriminate.
Qed.

Lemma property_recordCount q telemetry r :
  PropertyExecutor.execute q telemetry = Ok r ->
  recordCount r = None \/ recordCount r = Some (List.length telemetry).
Proof.
  unfold PropertyExecutor.execute.
  destruct (rq_property q) as [[d|t]|]; [| |discriminate].
  - intros [= <-]. left. reflexivity.
  - destruct telemetry as [|x rest]; [intros [= <-]; right; reflexivity|].
    cbn [List.length Nat.eqb].
    destruct (PropertyExecutor.sort _ _) as [|m ?]; [discriminate|].
    intros [= <-]. right. unfold PropertyExecutor.fromRecord.
    destruct (PropertyExecutor.convertedSpeed _ _); reflexivity.
Qed.

Lemma count_recordCount q telemetry :
  recordCount (CountExecutor.execute q telemetry)
  = Some (List.length telemetry).
Proof.
  unfold CountExecutor.execute.
  destruct telemetry as [|x rest]; reflexivity.
Qed.

Lemma nan_not_below x : PrimFloat.ltb PrimFloat.nan x = false.
Proof. rewrite ltb_spec. reflexivity. Qed.

(** What the executor of a resolved query throws on the records read. *)
Lemma executor_Throw argumentLimit telemetryService model intent q
    telemetry :
  QueryResolution.resolveQuery model intent = Ok q ->
  let q' :=
    QueryService.withTimeWindow q (QueryService.effectiveTimeWindow intent) in
  exists executor,
    QueryExecutorRegistry.getExecutor
      (QueryExecutorRegistry.make argumentLimit telemetryService) q'
    = Ok executor
    /\ canHandle executor (rq_intent q) = true
    /\ forall x,
       (execute executor q' telemetry = Throw x
        <-> (qi_questionType intent = PropertyQuestion
             /\ EntityResolver.truthy (qi_propertyName intent) = false
             /\ x = PlainError
                      "Property executor requires a property to be resolved")
            \/ ((qi_questionType intent = MaxSpeed
                 \/ qi_questionType intent = MinSpeed)
                /\ (argumentLimit
                    < List.length
                        (AggregateExecutor.extractValues telemetry
                           (AggregateExecutor.getAggregateField q')))%nat
                /\ x = JSMath.stackExceeded)).
Proof.
  intros Hq q'.
  destruct (resolveQuery_Ok model intent q Hq)
    as (entity & property & dataSource & _ & Hproperty & Hintent
        & _ & Hprop & Hop & _).
  destruct (resolveQueryProperty_Ok _ _ _ _ Hproperty) as (Hnone & _).
  rewrite <- Hprop in Hnone.
  rewrite getExecutor_make.
  change (rq_intent q') with (rq_intent q). rewrite Hintent.
  pose proof (fun op x => aggregate_Throw argumentLimit telemetryService q'
                            op telemetry x) as Hagg.
  change (rq_operation q') with (rq_operation q) in Hagg.
  rewrite Hop in Hagg.
  pose proof (fun x => property_Throw q' telemetry x) as Hget.
  change (rq_property q') with (rq_property q) in Hget.
  setoid_rewrite Hnone in Hget.
  destruct (qi_questionType intent) eqn:Hqt;
    cbn [QueryResolution.mapQuestionTypeToIntent
         QueryResolution.operationOf QueryResolution.isCurrentSpeed]
      in *.
  - exists (aggregateExecutor argumentLimit telemetryService).
    split; [reflexivity|]. split; [reflexivity|]. intros x.
    cbn [execute aggregateExecutor]. rewrite (Hagg Average x eq_refl).
    split.
    + intros ([Habs|Habs] & _); discriminate.
    + intros [(Habs & _)|([Habs|Habs] & _)]; discriminate.
  - exists propertyExecutor.
    split; [reflexivity|]. split; [reflexivity|]. intros x.
    cbn [execute propertyExecutor]. rewrite Hget. split.
    + intros [[Habs _] _]. discriminate.
    + intros [(Habs & _)|([Habs|Habs] & _)]; discriminate.
  - exists countExecutor.
    split; [reflexivity|]. split; [reflexivity|]. intros x.
    cbn [execute countExecutor]. split; [discriminate|].
    intros [(Habs & _)|([Habs|Habs] & _)]; discriminate.
  - exists (aggregateExecutor argumentLimit telemetryService).
    split; [reflexivity|]. split; [reflexivity|]. intros x.
    cbn [execute aggregateExecutor]. rewrite (Hagg Average x eq_refl).
    split.
    + intros ([Habs|Habs] & _); discriminate.
    + intros [(Habs & _)|([Habs|Habs] & _)]; discriminate.
  - exists (aggregateExecutor argumentLimit telemetryService).
    split; [reflexivity|]. split; [reflexivity|]. intros x.
    cbn [execute aggregateExecutor]. rewrite (Hagg Max x eq_refl).
    split.
    + intros (_ & Hlong & ->). right. auto.
    + intros [(Habs & _)|(_ & Hlong & ->)]; [discriminate|]. auto.
  - exists (aggregateExecutor argumentLimit telemetryService).
    split; [reflexivity|]. split; [reflexivity|]. intros x.
    cbn [execute aggregateExecutor]. rewrite (Hagg Min x eq_refl).
    split.
    + intros (_ & Hlong & ->). right. auto.
    + intros [(Habs & _)|(_ & Hlong & ->)]; [discriminate|]. auto.
  - exists propertyExecutor.
    split; [reflexivity|]. split; [reflexivity|]. intros x.
    cbn [execute propertyExecutor]. rewrite Hget. split.
    + intros [[_ Hname] ->]. left. auto.
    + intros [(_ & Hname & ->)|([Habs|Habs] & _)]; [|discriminate..].
      split; [split; [reflexivity|exact Hname]|reflexivity].
Qed.

(** [resolveQuery] throws domain errors only. *)
Lemma resolveQuery_Throw model intent x :
  QueryResolution.resolveQuery model intent = Throw x ->
  exists message code, x = DomainError message code.
Proof.
  unfold QueryResolution.resolveQuery.
  destruct (QueryResolution.resolveEntity model intent) as [entity|x0]
    eqn:Hentity.
  - destruct (QueryResolution.resolveQueryProperty entity intent)
      as [[property dataSource]|x1] eqn:Hproperty; [discriminate|].
    intros [= <-].
    pose proof (resolveQueryProperty_Throw _ _ _ Hproperty) as Hcode.
    destruct x1; try discriminate Hcode. eauto.
  - intros [= <-].
    unfold QueryResolution.resolveEntity in Hentity.
    destruct (_ && _); [discriminate|].
    rewrite (resolve_Throw _ _ _ Hentity). unfold EntityNotFoundError.
    eauto.
Qed.

End ExecutionFacts.

(** X19. The errors of [executeQuery], with the registry of the three
    executors, for names that the property resolver reads as entries of
    its tables. It throws, and then what is named here, in four cases
    and no other: [resolveQuery] throws, and its error is thrown; the
    read of the telemetry store throws, and what it throws is thrown
    again, as it is when it is an [Error] and inside a new [Error] when
    it is not; the
    question is a property question that names no property, and the
    error of the property executor that requires a property is thrown,
    after the store was read; the question asks for a maximum or a
    minimum speed over more values than the engine takes as the
    arguments of a call, and the [RangeError] of the engine is thrown.
    Every resolved query finds its executor: the registry does not throw
    "No executor found", nor the aggregate executor its demand for an
    operation. *)
Theorem X19_query_errors
    (argumentLimit : nat) (telemetryService : bool)
    (getTelemetry getTelemetryByPath
       : string -> float -> Result (list TelemetryRecord))
    (model : DTDLModel.t) (intent : QueryIntent) :
  readsEntriesOf model (askedName intent) = true ->
  let registry := QueryExecutorRegistry.make argumentLimit telemetryService in
  (forall x,
     QueryService.executeQuery getTelemetry getTelemetryByPath registry
       model intent = Throw x
     <-> QueryResolution.resolveQuery model intent = Throw x
         \/ exists q,
              QueryResolution.resolveQuery model intent = Ok q
              /\ let q' :=
                   QueryService.withTimeWindow q
                     (QueryService.effectiveTimeWindow intent) in
                 ((exists error,
                     QueryService.readTelemetry getTelemetry
                       getTelemetryByPath intent q' = Throw error
                     /\ x = QueryService.caught error)
                  \/ exists telemetry,
                       QueryService.readTelemetry getTelemetry
                         getTelemetryByPath intent q' = Ok telemetry
                       /\ ((qi_questionType intent = PropertyQuestion
                            /\ EntityResolver.truthy (qi_propertyName intent)
                               = false
                            /\ x = PlainError
                                     "Property executor requires a property to be resolved")
                           \/ ((qi_questionType intent = MaxSpeed
                                \/ qi_questionType intent = MinSpeed)
                               /\ (argumentLimit
                                   < List.length
                                       (AggregateExecutor.extractValues
                                          telemetry
                                          (AggregateExecutor.getAggregateField
                                             q')))%nat
                               /\ x = JSMath.stackExceeded))))
  /\ (forall q,
        QueryResolution.resolveQuery model intent = Ok q ->
        exists executor,
          QueryExecutorRegistry.getExecutor registry
            (QueryService.withTimeWindow q
               (QueryService.effectiveTimeWindow intent))
          = Ok executor
          /\ canHandle executor (rq_intent q) = true).
Proof.
  intros _ registry. split.
  - intros x. unfold QueryService.executeQuery.
    destruct (QueryResolution.resolveQuery model intent) as [q|x0] eqn:Hq.
    2:{ destruct (resolveQuery_Throw model intent x0 Hq)
          as (message & code & ->).
        cbn [QueryService.caught]. split; [intros [= <-]; left; reflexivity|].
        intros [[= <-]|(q & Habs & _)]; [reflexivity|discriminate]. }
    cbv zeta.
    set (q' := QueryService.withTimeWindow q
                 (QueryService.effectiveTimeWindow intent)).
    destruct (QueryService.readTelemetry getTelemetry getTelemetryByPath
                intent q') as [telemetry|x1] eqn:Hread.
    2:{ split.
        - intros [= <-]. right. exists q. split; [reflexivity|].
          left. exists x1. split; [exact Hread|reflexivity].
        - intros [Habs|(q0 & Hq0 & Hcase)]; [discriminate|].
          injection Hq0 as <-. cbv zeta in Hcase. fold q' in Hcase.
          rewrite Hread in Hcase.
          destruct Hcase as [(error & [= <-] & ->)|(t & Habs & _)];
            [reflexivity|discriminate]. }
    destruct (executor_Throw argumentLimit telemetryService model intent q
                telemetry Hq) as (executor & Hget & _ & Hthrows).
    fold q' in Hget, Hthrows. fold registry in Hget. rewrite Hget.
    destruct (execute executor q' telemetry) as [r|x2] eqn:Hexec.
    + split; [discriminate|].
      intros [Habs|(q0 & Hq0 & Hcase)]; [discriminate|].
      injection Hq0 as <-. cbv zeta in Hcase. fold q' in Hcase.
      rewrite Hread in Hcase.
      destruct Hcase as [(error & Habs & _)|(t & [= <-] & Hcase)];
        [discriminate|].
      apply Hthrows in Hcase. discriminate.
    + assert (Hsame : QueryService.caught x2 = x2).
      { destruct (proj1 (Hthrows x2) eq_refl)
          as [(_ & _ & ->)|(_ & _ & ->)]; reflexivity. }
      rewrite Hsame. split.
      * intros [= <-]. right. exists q. split; [reflexivity|]. right.
        exists telemetry. split; [exact Hread|].
        apply Hthrows. reflexivity.
      * intros [Habs|(q0 & Hq0 & Hcase)]; [discriminate|].
        injection Hq0 as <-. cbv zeta in Hcase. fold q' in Hcase.
        rewrite Hread in Hcase.
        destruct Hcase as [(error & Habs & _)|(t & [= <-] & Hcase)];
          [discriminate|].
        apply Hthrows in Hcase. congruence.
  - intros q Hq.
    destruct (executor_Throw argumentLimit telemetryService model intent q
                [] Hq) as (executor & Hget & Hcan & _).
    exists executor. split; [exact Hget|exact Hcan].
Qed.

(** A property question without a property name is resolved and then
    refused by the property executor; the question about the speed is
    answered when the store answers, and throws the error of the store
    when the store is down. *)
Lemma X19_query_errors_witness :
  QueryService.executeQuery oneRecord noRecord
    (QueryExecutorRegistry.make sampleLimit true) truckFirst namelessQuestion
  = Throw (PlainError "Property executor requires a property to be resolved")
  /\ throws (QueryResolution.resolveQuery truckFirst namelessQuestion) = false
  /\ QueryService.executeQuery storeTimesOut noRecord
       (QueryExecutorRegistry.make sampleLimit true) truckFirst speedQuestion
     = Throw timedOut
  /\ QueryService.executeQuery storeFails noRecord
       (QueryExecutorRegistry.make sampleLimit true) truckFirst speedQuestion
     = Throw (PlainError "Query execution failed: timeout")
  /\ throws (QueryService.executeQuery oneRecord noRecord
               (QueryExecutorRegistry.make sampleLimit true) truckFirst
               speedQuestion)
     = false.
Proof.
  pose proof (fun store intent H =>
                proj1 (X19_query_errors sampleLimit true store noRecord
                         truckFirst intent H)) as Hthrows.
  cbv zeta in Hthrows.
  split; [|split; [|split; [|split]]].
  - apply (Hthrows oneRecord namelessQuestion eq_refl). right.
    eexists. split; [vm_compute; reflexivity|]. right.
    exists [atSpeed 0 10]. split; [reflexivity|]. left.
    split; [reflexivity|]. split; reflexivity.
  - vm_compute. reflexivity.
  - apply (Hthrows storeTimesOut speedQuestion eq_refl). right.
    eexists. split; [vm_compute; reflexivity|]. left.
    exists timedOut. split; reflexivity.
  - apply (Hthrows storeFails speedQuestion eq_refl). right.
    eexists. split; [vm_compute; reflexivity|]. left.
    exists (NonError "timeout"). split; reflexivity.
  - destruct (QueryService.executeQuery oneRecord noRecord
                (QueryExecutorRegistry.make sampleLimit true) truckFirst
                speedQuestion) as [r|x] eqn:Hexec; [reflexivity|].
    apply (Hthrows oneRecord speedQuestion eq_refl) in Hexec.
    destruct Hexec as [Habs|(q & Hq & Hcase)];
      [vm_compute in Habs; discriminate Habs|].
    vm_compute in Hq. injection Hq as <-.
    destruct Hcase
      as [(error & Habs & _)
         |(t & Hread & [(Habs & _)|([Habs|Habs] & _)])];
      [vm_compute in Habs; discriminate Habs|discriminate Habs..].
Defined.

Section ResponseFacts.

Lemma max_with_thirty minutes :
  PrimFloat.ltb (JSMath.max [minutes; 30%float]) 30%float = false
  /\ PrimFloat.ltb (JSMath.max [minutes; 30%float]) minutes = false.
Proof.
  destruct (existsb PrimFloat.is_nan [minutes; 30%float]) eqn:Hnan.
  - unfold JSMath.max. rewrite Hnan. split; apply nan_not_below.
  - destruct (max_greatest _ Hnan) as [_ Hmax].
    split; apply Hmax; simpl; auto.
Qed.

Lemma executor_recordCount argumentLimit telemetryService q executor
    telemetry r :
  QueryExecutorRegistry.getExecutor
    (QueryExecutorRegistry.make argumentLimit telemetryService) q
  = Ok executor ->
  execute executor q telemetry = Ok r ->
  default (List.length telemetry) (recordCount r) = List.length telemetry.
Proof.
  rewrite getExecutor_make.
  destruct (rq_intent q); intros [= <-]; simpl; intros Hexec.
  - destruct (property_recordCount _ _ _ Hexec) as [-> | ->]; reflexivity.
  - rewrite (aggregate_recordCount _ _ _ _ _ Hexec). reflexivity.
  - injection Hexec as <-. rewrite count_recordCount. reflexivity.
  - destruct (property_recordCount _ _ _ Hexec) as [-> | ->]; reflexivity.
Qed.

(** The source path of a resolved query. *)
Lemma sourcePathFor_cases intent :
  (QueryResolution.isRouteUtilization (qi_questionType intent) = false
   \/ EntityResolver.truthy (qi_sourcePath intent) = true
   \/ namesPath (qi_targetEntity intent) = false ->
   QueryResolution.sourcePathFor intent = qi_sourcePath intent)
  /\ (QueryResolution.isRouteUtilization (qi_questionType intent) = true ->
      EntityResolver.truthy (qi_sourcePath intent) = false ->
      namesPath (qi_targetEntity intent) = true ->
      QueryResolution.sourcePathFor intent = Some (qi_targetEntity intent)).
Proof.
  unfold QueryResolution.sourcePathFor, namesPath. split.
  - intros [-> |[-> | ->]]; [reflexivity| |].
    + rewrite andb_false_r. reflexivity.
    + destruct (_ && _); reflexivity.
  - intros -> -> ->. reflexivity.
Qed.

End ResponseFacts.

(** X20. A response of [executeQuery], with the registry of the three
    executors, is about the entity of the resolved query; its record
    count is the number of records read, whichever executor answered and
    whether or not its answer carries a record count. The source path of
    the resolved query is the source path of the question, but for a
    route utilization question without one whose target contains
    "path_" or "route_", in any case: its source path is the target. The
    records are read by path, the source path, for a route utilization
    question with a source path, and else by the id of the entity. The
    time window of the response is the effective one, which for the
    questions about the current speed and about a property has minutes
    that are below neither 30 nor the minutes asked for, and for the
    other questions is the window asked for. *)
Theorem X20_query_response
    (argumentLimit : nat) (telemetryService : bool)
    (getTelemetry getTelemetryByPath
       : string -> float -> Result (list TelemetryRecord))
    (model : DTDLModel.t) (intent : QueryIntent)
    (response : QueryService.QueryResponse) :
  QueryService.executeQuery getTelemetry getTelemetryByPath
    (QueryExecutorRegistry.make argumentLimit telemetryService) model intent
  = Ok response ->
  exists q telemetry,
    QueryResolution.resolveQuery model intent = Ok q
    /\ (QueryResolution.isRouteUtilization (qi_questionType intent) = false
        \/ EntityResolver.truthy (qi_sourcePath intent) = true
        \/ namesPath (qi_targetEntity intent) = false ->
        sourcePathOf q = qi_sourcePath intent)
    /\ (QueryResolution.isRouteUtilization (qi_questionType intent) = true ->
        EntityResolver.truthy (qi_sourcePath intent) = false ->
        namesPath (qi_targetEntity intent) = true ->
        sourcePathOf q = Some (qi_targetEntity intent))
    /\ (if QueryResolution.isRouteUtilization (qi_questionType intent)
           && EntityResolver.truthy (sourcePathOf q)
        then getTelemetryByPath (default "" (sourcePathOf q))
               (tw_minutes (QueryService.effectiveTimeWindow intent))
        else getTelemetry (e_id (rq_targetEntity q))
               (tw_minutes (QueryService.effectiveTimeWindow intent)))
       = Ok telemetry
    /\ QueryService.resp_entityId response = e_id (rq_targetEntity q)
    /\ QueryService.resp_entityName response = e_id (rq_targetEntity q)
    /\ QueryService.resp_recordCount response = List.length telemetry
    /\ QueryService.resp_timeWindow response
       = QueryService.effectiveTimeWindow intent
    /\ (if QueryService.isCurrentQuery (qi_questionType intent)
        then PrimFloat.ltb
               (tw_minutes (QueryService.effectiveTimeWindow intent))
               30%float = false
             /\ PrimFloat.ltb
                  (tw_minutes (QueryService.effectiveTimeWindow intent))
                  (tw_minutes (qi_timeWindow intent)) = false
        else QueryService.effectiveTimeWindow intent = qi_timeWindow intent).
Proof.
  unfold QueryService.executeQuery.
  destruct (QueryResolution.resolveQuery model intent) as [q|x0] eqn:Hq;
    [|discriminate].
  cbv zeta.
  set (q' := QueryService.withTimeWindow q
               (QueryService.effectiveTimeWindow intent)).
  destruct (QueryService.readTelemetry getTelemetry getTelemetryByPath
              intent q') as [telemetry|] eqn:Hread; [|discriminate].
  destruct (QueryExecutorRegistry.getExecutor _ q') as [executor|]
    eqn:Hget; [|discriminate].
  destruct (execute executor q' telemetry) as [r|] eqn:Hexec;
    [|discriminate].
  intros [= <-]. exists q, telemetry.
  destruct (resolveQuery_Ok model intent q Hq)
    as (entity & property & dataSource & _ & _ & _ & _ & _ & _ & _
        & Hsource & _).
  destruct (sourcePathFor_cases intent) as [Hgiven Htarget].
  split; [reflexivity|].
  split; [intros Hcase; rewrite Hsource; exact (Hgiven Hcase)|].
  split; [intros Hru Hnone Hnames; rewrite Hsource;
          exact (Htarget Hru Hnone Hnames)|].
  split; [exact Hread|].
  split; [reflexivity|]. split; [reflexivity|]. split.
  { exact (executor_recordCount _ _ _ _ _ _ Hget Hexec). }
  split; [reflexivity|].
  unfold QueryService.effectiveTimeWindow.
  destruct (QueryService.isCurrentQuery (qi_questionType intent));
    [|reflexivity].
  exact (max_with_thirty (tw_minutes (qi_timeWindow intent))).
Qed.

(** The question about the use of path_1, which gives no source path:
    the seven records of the path are read, not the record of the
    entity. *)
Lemma X20_query_response_witness :
  exists response,
    QueryService.executeQuery oneRecord onRoad
      (QueryExecutorRegistry.make sampleLimit true) roads roadQuestion
    = Ok response
    /\ QueryService.resp_entityId response = "path_1"
    /\ QueryService.resp_recordCount response = 7
    /\ exists q,
         QueryResolution.resolveQuery roads roadQuestion = Ok q
         /\ sourcePathOf q = Some "path_1".
Proof.
  eexists. split; [vm_compute; reflexivity|].
  match goal with
  | |- QueryService.resp_entityId ?r = _ /\ _ =>
      destruct (X20_query_response sampleLimit true oneRecord onRoad roads
                  roadQuestion r)
        as (q & telemetry & Hq & _ & Htarget & _)
  end.
  - vm_compute. reflexivity.
  - split; [reflexivity|]. split; [reflexivity|].
    exists q. split; [exact Hq|].
    exact (Htarget eq_refl eq_refl eq_refl).
Defined.

(** ** The registry of executors *)

Section RegistryFacts.

Implicit Types (executors : QueryExecutorRegistry.t) (executor e : Executor).

Lemma filter_all {A : Type} (p : A -> bool) (l : list A) :
  List.find (fun x => negb (p x)) l = None -> List.filter p l = l.
Proof.
  induction l as [|x r IH]; simpl; [reflexivity|].
  destruct (p x); simpl; [|discriminate].
  intros H. rewrite (IH H). reflexivity.
Qed.

Lemma register_fst executors executor :
  fst (QueryExecutorRegistry.register executors executor)
  = List.filter
      (fun e => negb (QueryExecutorRegistry.sameName e executor)) executors
    ++ [executor].
Proof.
  unfold QueryExecutorRegistry.register.
  destruct (List.find _ executors) eqn:Hfind; [reflexivity|].
  simpl. f_equal. symmetry. apply filter_all.
  erewrite find_ext; [exact Hfind|].
  intros x. apply negb_involutive.
Qed.

Lemma find_filter_agree {A : Type} (p q : A -> bool) (l : list A) :
  (forall x, p x = true -> q x = true) ->
  List.find p (List.filter q l) = List.find p l.
Proof.
  intros Hpq. induction l as [|x r IH]; simpl; [reflexivity|].
  destruct (q x) eqn:Hq; simpl.
  - rewrite IH. reflexivity.
  - destruct (p x) eqn:Hp; [|exact IH].
    rewrite (Hpq x Hp) in Hq. discriminate.
Qed.

Lemma find_filter_none {A : Type} (p q : A -> bool) (l : list A) :
  (forall x, p x = true -> q x = false) ->
  List.find p (List.filter q l) = None.
Proof.
  intros Hpq. induction l as [|x r IH]; simpl; [reflexivity|].
  destruct (q x) eqn:Hq; simpl; [|exact IH].
  destruct (p x) eqn:Hp; [|exact IH].
  rewrite (Hpq x Hp) in Hq. discriminate.
Qed.

Lemma names_filter (p : Executor -> bool) executors :
  NoDup (map getName executors) ->
  NoDup (map getName (List.filter p executors)).
Proof.
  induction executors as [|x r IH]; simpl; [auto|].
  rewrite NoDup_cons. intros [Hx Hr]. destruct (p x); simpl; [|auto].
  apply NoDup_cons. split; [|auto].
  intros Hin. apply Hx.
  apply list_elem_of_In in Hin. apply list_elem_of_In.
  apply in_map_iff in Hin as (y & Hy & Hin). apply in_map_iff.
  exists y. split; [exact Hy|]. apply filter_In in Hin. tauto.
Qed.

End RegistryFacts.

(** X21. [register] puts the executor at the end of the registry, after
    the executors of other names in their order: an executor of the same
    name is dropped, with one warning, and without one no warning is
    logged. Afterwards the executor is found under its name, the other
    names find what they found before, and names that were distinct stay
    distinct. A query whose intent an executor of another name handles
    is dispatched as if the executor had not been registered. *)
Theorem X21_register
    (executors : QueryExecutorRegistry.t) (executor : Executor) :
  let registry := fst (QueryExecutorRegistry.register executors executor) in
  registry
  = List.filter
      (fun e => negb (QueryExecutorRegistry.sameName e executor)) executors
    ++ [executor]
  /\ QueryExecutorRegistry.getExecutorByName registry (getName executor)
     = Some executor
  /\ (forall name,
        name <> getName executor ->
        QueryExecutorRegistry.getExecutorByName registry name
        = QueryExecutorRegistry.getExecutorByName executors name)
  /\ (NoDup (map getName executors) -> NoDup (map getName registry))
  /\ (snd (QueryExecutorRegistry.register executors executor) = []
      <-> QueryExecutorRegistry.getExecutorByName executors
            (getName executor) = None)
  /\ (forall q e,
        In e executors ->
        QueryExecutorRegistry.sameName e executor = false ->
        canHandle e (rq_intent q) = true ->
        QueryExecutorRegistry.getExecutor registry q
        = QueryExecutorRegistry.getExecutor
            (List.filter
               (fun e => negb (QueryExecutorRegistry.sameName e executor))
               executors) q).
Proof.
  cbv zeta. rewrite register_fst.
  set (others := List.filter
                   (fun e => negb (QueryExecutorRegistry.sameName e executor))
                   executors).
  split; [reflexivity|]. split; [|split; [|split; [|split]]].
  - unfold QueryExecutorRegistry.getExecutorByName. rewrite find_app.
    subst others. rewrite find_filter_none.
    + simpl. rewrite String.eqb_refl. reflexivity.
    + intros x Hx. unfold QueryExecutorRegistry.sameName. rewrite Hx.
      reflexivity.
  - intros name Hname. unfold QueryExecutorRegistry.getExecutorByName.
    rewrite find_app. subst others. rewrite find_filter_agree.
    + destruct (List.find _ executors); [reflexivity|]. simpl.
      destruct (String.eqb_spec (getName executor) name); [congruence|].
      reflexivity.
    + intros x Hx. apply String.eqb_eq in Hx.
      unfold QueryExecutorRegistry.sameName.
      destruct (String.eqb_spec (getName x) (getName executor));
        [congruence|reflexivity].
  - intros Hnames. rewrite map_app. apply NoDup_app.
    split; [subst others; apply names_filter; exact Hnames|].
    split; [|apply NoDup_singleton].
    intros name Hin Hname. apply list_elem_of_In in Hin.
    apply in_map_iff in Hin as (y & Hy & Hin).
    subst others. apply filter_In in Hin as [_ Hother].
    simpl in Hname. apply list_elem_of_singleton in Hname.
    unfold QueryExecutorRegistry.sameName in Hother.
    rewrite Hy, Hname, String.eqb_refl in Hother. discriminate.
  - unfold QueryExecutorRegistry.register,
      QueryExecutorRegistry.getExecutorByName,
      QueryExecutorRegistry.sameName.
    destruct (List.find _ executors); simpl; split; congruence.
  - intros q e Hin Hother Hhandles.
    unfold QueryExecutorRegistry.getExecutor. rewrite find_app.
    assert (Hfound : exists e',
              List.find (fun e0 => canHandle e0 (rq_intent q)) others
              = Some e').
    { destruct (List.find (fun e0 => canHandle e0 (rq_intent q)) others)
        as [e'|] eqn:Hfind; [eauto|].
      exfalso.
      assert (Hine : In e others).
      { subst others. apply filter_In. split; [exact Hin|].
        rewrite Hother. reflexivity. }
      pose proof (find_none _ _ Hfind e Hine) as Hno. simpl in Hno.
      congruence. }
    destruct Hfound as [e' ->]. reflexivity.
Qed.

(** The aggregate executor registered again, without the telemetry
    service, in the registry of the three executors: it replaces the one
    that was there, after the count executor. *)
Lemma X21_register_witness :
  map getName
    (fst (QueryExecutorRegistry.register (QueryExecutorRegistry.make sampleLimit true)
            (aggregateExecutor sampleLimit false)))
  = ["PropertyExecutor"; "CountExecutor"; "AggregateExecutor"]
  /\ NoDup
       (map getName
          (fst (QueryExecutorRegistry.register
                  (QueryExecutorRegistry.make sampleLimit true)
                  (aggregateExecutor sampleLimit false)))).
Proof.
  destruct (X21_register (QueryExecutorRegistry.make sampleLimit true)
              (aggregateExecutor sampleLimit false)) as (Hfst & _ & _ & Hnames & _).
  split.
  - rewrite Hfst. reflexivity.
  - apply Hnames. vm_compute.
    repeat (apply NoDup_cons; split;
            [rewrite list_elem_of_In; simpl; intuition discriminate|]).
    apply NoDup_nil. exact I.
Defined.

(** * Further properties of the update validator *)

Section AcceptanceFacts.

Lemma checkEditable_None property constraint def :
  UpdateValidator.checkEditable property constraint def = None
  <-> UpdateValidator.defReadOnly def = false
      /\ match constraint with
         | Some c => k_readOnly c = false /\ k_editable c = true
         | None => pv_editable def <> Some false
         end.
Proof.
  unfold UpdateValidator.checkEditable.
  destruct (UpdateValidator.defReadOnly def);
    [split; [discriminate|intros [? _]; discriminate]|].
  destruct constraint as [c|].
  - destruct (k_readOnly c), (k_editable c); simpl;
      (split; [try discriminate; auto|intros [_ [? ?]]; congruence]).
  - destruct (pv_editable def) as [[]|];
      (split; [first [discriminate
                     |intros _; split; [reflexivity|discriminate]]
              |intros [_ ?]; congruence]).
Qed.

Lemma checkAllowed_None constraint def newValue :
  UpdateValidator.checkAllowed constraint def newValue = None
  <-> forall allowed,
        UpdateValidator.allowedValuesOf constraint def = Some allowed ->
        exists v, In v allowed /\ sameValueZero newValue v = true.
Proof.
  unfold UpdateValidator.checkAllowed, UpdateValidator.arrayIncludes.
  destruct (UpdateValidator.allowedValuesOf constraint def) as [allowed|].
  - destruct (existsb (sameValueZero newValue) allowed) eqn:Hin; simpl.
    + split; [|reflexivity]. intros _ l [= <-].
      apply existsb_exists in Hin. exact Hin.
    + split; [discriminate|]. intros H. exfalso.
      destruct (H allowed eq_refl) as (v & Hv & Hsame).
      assert (Hin' : existsb (sameValueZero newValue) allowed = true)
        by (apply existsb_exists; eauto).
      congruence.
  - split; [intros _ l; discriminate|reflexivity].
Qed.

Lemma checkTypeRange_None property constraint def newValue :
  (UpdateValidator.checkType property (pv_type def) newValue = None
   /\ UpdateValidator.checkRange (pv_type def) constraint def newValue = None)
  <-> match pv_type def with
      | PNumber =>
          exists x,
            newValue = VNum x
            /\ (forall m,
                  UpdateValidator.minValueOf constraint def = Some m ->
                  PrimFloat.ltb x m = false)
            /\ (forall m,
                  UpdateValidator.maxValueOf constraint def = Some m ->
                  PrimFloat.ltb m x = false)
      | PString => exists s, newValue = VStr s
      | PBoolean => exists b, newValue = VBool b
      | PObject => True
      end.
Proof.
  unfold UpdateValidator.checkType, UpdateValidator.checkRange.
  destruct (pv_type def).
  - destruct newValue as [| |b|x|s|ref]; simpl;
      try (split; [intros [? _]; discriminate
                  |intros (x' & Hx & _); discriminate]).
    unfold UpdateValidator.belowMinimum, UpdateValidator.aboveMaximum.
    destruct (UpdateValidator.minValueOf constraint def) as [lo|];
      destruct (UpdateValidator.maxValueOf constraint def) as [hi|];
      try destruct (PrimFloat.ltb x lo) eqn:Hlo;
      try destruct (PrimFloat.ltb hi x) eqn:Hhi;
      (split;
       [intros [_ H];
        first [discriminate
              |exists x; split; [reflexivity|];
               split; intros m; first [discriminate|intros [= <-]; assumption]]
       |intros (x' & [= <-] & Hmin & Hmax);
        try (specialize (Hmin _ eq_refl); congruence);
        try (specialize (Hmax _ eq_refl); congruence);
        split; reflexivity]).
  - destruct newValue as [| |b|x|s|ref]; simpl;
      (split; [intros [H _]; try discriminate; eauto
              |intros (s' & Hs); try discriminate; split; reflexivity]).
  - destruct newValue as [| |b|x|s|ref]; simpl;
      (split; [intros [H _]; try discriminate; eauto
              |intros (s' & Hs); try discriminate; split; reflexivity]).
  - destruct newValue; simpl; tauto.
Qed.

(** No check but the first reports a missing property. *)
Lemma checkEditable_found property constraint def p id :
  UpdateValidator.checkEditable property constraint def
  = Some (UpdateValidator.NoSuchProperty p id) -> False.
Proof.
  unfold UpdateValidator.checkEditable.
  destruct (UpdateValidator.defReadOnly def); [discriminate|].
  destruct constraint as [c|].
  - destruct (k_readOnly c || negb (k_editable c)); discriminate.
  - destruct (pv_editable def) as [[]|]; discriminate.
Qed.

Lemma checkType_found property expectedType newValue p id :
  UpdateValidator.checkType property expectedType newValue
  = Some (UpdateValidator.NoSuchProperty p id) -> False.
Proof.
  unfold UpdateValidator.checkType.
  destruct expectedType, (typeof newValue); discriminate.
Qed.

Lemma checkRange_found expectedType constraint def newValue p id :
  UpdateValidator.checkRange expectedType constraint def newValue
  = Some (UpdateValidator.NoSuchProperty p id) -> False.
Proof.
  unfold UpdateValidator.checkRange, UpdateValidator.belowMinimum,
    UpdateValidator.aboveMaximum.
  destruct expectedType; try discriminate.
  destruct newValue as [| |b|x|s|ref]; try discriminate.
  destruct (UpdateValidator.minValueOf constraint def) as [lo|];
    [destruct (PrimFloat.ltb x lo); [discriminate|]|];
    (destruct (UpdateValidator.maxValueOf constraint def) as [hi|];
     [destruct (PrimFloat.ltb hi x)|]; discriminate).
Qed.

Lemma checkAllowed_found constraint def newValue p id :
  UpdateValidator.checkAllowed constraint def newValue
  = Some (UpdateValidator.NoSuchProperty p id) -> False.
Proof.
  unfold UpdateValidator.checkAllowed.
  destruct (UpdateValidator.allowedValuesOf constraint def);
    [destruct (negb _)|]; discriminate.
Qed.

(** A result of [validate] is valid exactly when it has no error. *)
Lemma valid_error
    (getConstraint : string -> string -> option PropertyConstraint)
    entity property newValue :
  UpdateValidator.valid
    (UpdateValidator.validate getConstraint entity property newValue) = true
  <-> UpdateValidator.error
        (UpdateValidator.validate getConstraint entity property newValue)
      = None.
Proof.
  unfold UpdateValidator.validate.
  destruct (DTDLModel.cached entity property); [|split; discriminate].
  destruct (UpdateValidator.checkEditable _ _ _); [split; discriminate|].
  destruct (UpdateValidator.checkType _ _ _); [split; discriminate|].
  destruct (UpdateValidator.checkRange _ _ _ _); [split; discriminate|].
  destruct (UpdateValidator.checkAllowed _ _ _); split;
    try discriminate; reflexivity.
Qed.

End AcceptanceFacts.

(** X22. The outcome of [validate], with a store that answers, for a
    property whose name is not one that every object inherits (read on
    the cache, such a name gives a function and passes the first
    check). A result is valid exactly when it has no error. The value is
    accepted exactly when the property has an entry in the cache of the
    entity and the value is acceptable for this entry and the row of the
    store: not read-only; editable by the row, or, without a row, not
    marked [editable: false] in the entry (with a row the mark of the
    entry plays no part); of the type of the property; in the bounds;
    among the allowed values. The first check that fails gives the
    error: a missing entry before all, then read-only. A NaN for a
    numeric property is in any bounds. *)
Theorem X22_validation_outcome
    (getConstraint : string -> string -> option PropertyConstraint)
    (entity : Entity) (property : string) (newValue : JSValue) :
  inherited property = false ->
  let constraint :=
    getConstraint (UpdateValidator.entityTypeOf entity) property in
  let result :=
    UpdateValidator.validate getConstraint entity property newValue in
  (UpdateValidator.valid result = true
   <-> UpdateValidator.error result = None)
  /\ (UpdateValidator.valid result = true
      <-> exists def,
            DTDLModel.cached entity property = Some def
            /\ acceptable constraint def newValue)
  /\ (DTDLModel.cached entity property = None
      <-> UpdateValidator.error result
          = Some (UpdateValidator.NoSuchProperty property (e_id entity)))
  /\ (forall def,
        DTDLModel.cached entity property = Some def ->
        UpdateValidator.defReadOnly def = true ->
        UpdateValidator.error result
        = Some (UpdateValidator.ReadOnly property))
  /\ (forall def,
        DTDLModel.cached entity property = Some def ->
        pv_type def = PNumber ->
        UpdateValidator.checkEditable property constraint def = None ->
        UpdateValidator.allowedValuesOf constraint def = None ->
        UpdateValidator.validate getConstraint entity property
          (VNum PrimFloat.nan)
        = UpdateValidator.accept).
Proof.
  intros _. cbv zeta. unfold UpdateValidator.validate.
  set (constraint := getConstraint (UpdateValidator.entityTypeOf entity)
                       property).
  destruct (DTDLModel.cached entity property) as [def|] eqn:Hdef.
  2:{ split; [split; discriminate|].
      split; [split; [discriminate|intros (d & Hd & _); discriminate]|].
      split; [split; reflexivity|]. split; discriminate. }
  pose proof (checkEditable_None property constraint def) as Hedit.
  pose proof (checkTypeRange_None property constraint def newValue)
    as Htype.
  pose proof (checkAllowed_None constraint def newValue) as Hallowed.
  split; [|split; [|split; [|split]]].
  - destruct (UpdateValidator.checkEditable _ _ _);
      [split; discriminate|].
    destruct (UpdateValidator.checkType _ _ _); [split; discriminate|].
    destruct (UpdateValidator.checkRange _ _ _ _); [split; discriminate|].
    destruct (UpdateValidator.checkAllowed _ _ _); split;
      try discriminate; reflexivity.
  - unfold acceptable. split.
    + intros Hvalid. exists def. split; [reflexivity|].
      destruct (UpdateValidator.checkEditable _ _ _);
        [discriminate Hvalid|].
      destruct (UpdateValidator.checkType _ _ _); [discriminate Hvalid|].
      destruct (UpdateValidator.checkRange _ _ _ _);
        [discriminate Hvalid|].
      destruct (UpdateValidator.checkAllowed _ _ _);
        [discriminate Hvalid|].
      destruct Hedit as [Hedit _]. destruct (Hedit eq_refl) as [Hro Hrow].
      split; [exact Hro|]. split; [exact Hrow|].
      split; [apply Htype; split; reflexivity|].
      apply Hallowed. reflexivity.
    + intros (d & [= <-] & Hro & Hrow & Hty & Hal).
      destruct Hedit as [_ Hedit]. rewrite (Hedit (conj Hro Hrow)).
      destruct Htype as [_ Htype]. destruct (Htype Hty) as [-> ->].
      destruct Hallowed as [_ Hallowed]. rewrite (Hallowed Hal).
      reflexivity.
  - split; [discriminate|]. intros Herror. exfalso. revert Herror.
    destruct (UpdateValidator.checkEditable _ _ _) as [r|] eqn:H1;
      [intros [= ->]; exact (checkEditable_found _ _ _ _ _ H1)|].
    destruct (UpdateValidator.checkType _ _ _) as [r|] eqn:H2;
      [intros [= ->]; exact (checkType_found _ _ _ _ _ H2)|].
    destruct (UpdateValidator.checkRange _ _ _ _) as [r|] eqn:H3;
      [intros [= ->]; exact (checkRange_found _ _ _ _ _ _ H3)|].
    destruct (UpdateValidator.checkAllowed _ _ _) as [r|] eqn:H4;
      [intros [= ->]; exact (checkAllowed_found _ _ _ _ _ H4)|].
    discriminate.
  - intros d [= <-] Hro. unfold UpdateValidator.checkEditable.
    rewrite Hro. reflexivity.
  - intros d [= <-] Hnum Heditable Hnone. rewrite Heditable, Hnum. simpl.
    unfold UpdateValidator.belowMinimum, UpdateValidator.aboveMaximum.
    assert (Hlt : forall m, PrimFloat.ltb PrimFloat.nan m = false)
      by (intros m; rewrite ltb_spec; reflexivity).
    assert (Hgt : forall m, PrimFloat.ltb m PrimFloat.nan = false).
    { intros m. rewrite ltb_spec. unfold SFltb.
      change (Prim2SF PrimFloat.nan) with S754_nan.
      destruct (Prim2SF m); reflexivity. }
    destruct (UpdateValidator.minValueOf constraint def) as [lo|];
      destruct (UpdateValidator.maxValueOf constraint def) as [hi|];
      rewrite ?Hlt, ?Hgt; unfold UpdateValidator.checkAllowed;
      rewrite Hnone; reflexivity.
Qed.

(** With the row of the store that says editable, a snap distance of 50
    is accepted for the truck whose cache says [editable: false]; and
    NaN is accepted in the bounds 0 and 100. *)
Lemma X22_validation_witness :
  inherited "focusSnapDistanceMeters" = false
  /\ UpdateValidator.valid
    (UpdateValidator.validate snapStore lockedTruck
       "focusSnapDistanceMeters" (VNum 50%float)) = true
  /\ UpdateValidator.validate snapStore truck2 "focusSnapDistanceMeters"
       (VNum PrimFloat.nan)
     = UpdateValidator.accept.
Proof.
  destruct (X22_validation_outcome snapStore lockedTruck
              "focusSnapDistanceMeters" (VNum 50%float) eq_refl)
    as (_ & Haccept & _).
  destruct (X22_validation_outcome snapStore truck2
              "focusSnapDistanceMeters" (VNum 50%float) eq_refl)
    as (_ & _ & _ & _ & Hnan).
  split; [reflexivity|]. split.
  - apply Haccept. eexists. split; [reflexivity|].
    split; [reflexivity|]. split; [split; reflexivity|].
    split; [|intros allowed; discriminate].
    exists 50%float. split; [reflexivity|].
    split; intros m [= <-]; reflexivity.
  - apply (Hnan {| pv_value := VNum 250%float; pv_type := PNumber;
                   pv_editable := Some true; pv_constraints := None |});
      reflexivity.
Defined.

(** * Further properties of the execution of commands *)

Section ApplyFacts.

Variable save : Entity -> option string.

Implicit Types (model : DTDLModel.t) (entity : Entity).

(** The keys of the model after an update are those before. *)
Lemma update_keys model entityId property value :
  map fst (DTDLModel.o_model
             (DTDLModel.updateEntityProperty model entityId property value))
  = map fst model.
Proof.
  unfold DTDLModel.updateEntityProperty.
  destruct (DTDLModel.getEntity model entityId) as [e|]; [|reflexivity].
  destruct (e_properties e) as [props|]; [|reflexivity].
  destruct (DTDLModel.cached e property) as [pv|]; [|reflexivity].
  destruct (DTDLModel.updateContents _ _ _ _). simpl. apply mutate_keys.
Qed.

(** An update leaves the entities under the other keys as they are. *)
Lemma update_other model entityId property value other :
  entityId <> other ->
  DTDLModel.getEntity
    (DTDLModel.o_model
       (DTDLModel.updateEntityProperty model entityId property value)) other
  = DTDLModel.getEntity model other.
Proof.
  intros Hne. unfold DTDLModel.updateEntityProperty.
  destruct (DTDLModel.getEntity model entityId) as [e|]; [|reflexivity].
  destruct (e_properties e) as [props|]; [|reflexivity].
  destruct (DTDLModel.cached e property) as [pv|]; [|reflexivity].
  destruct (DTDLModel.updateContents _ _ _ _). simpl.
  apply mapGet_mutate_ne. exact Hne.
Qed.

(** After a successful update the entity is still in the model. *)
Lemma update_success_present model entityId property value :
  ur_success
    (DTDLModel.o_result
       (DTDLModel.updateEntityProperty model entityId property value))
  = true ->
  exists updated,
    DTDLModel.getEntity
      (DTDLModel.o_model
         (DTDLModel.updateEntityProperty model entityId property value))
      entityId
    = Some updated.
Proof.
  unfold DTDLModel.updateEntityProperty.
  destruct (DTDLModel.getEntity model entityId) as [e|] eqn:Hget;
    [|discriminate].
  destruct (e_properties e) as [props|]; [|discriminate].
  destruct (DTDLModel.cached e property) as [pv|]; [|discriminate].
  destruct (DTDLModel.updateContents _ _ _ _). simpl. intros _.
  eexists. exact (mapGet_mutate_eq _ _ _ _ Hget).
Qed.

Lemma update_entityId model entityId property value :
  ur_entityId
    (DTDLModel.o_result
       (DTDLModel.updateEntityProperty model entityId property value))
  = entityId.
Proof.
  unfold DTDLModel.updateEntityProperty.
  destruct (DTDLModel.getEntity model entityId) as [e|]; [|reflexivity].
  destruct (e_properties e) as [props|]; [|reflexivity].
  destruct (DTDLModel.cached e property) as [pv|]; [|reflexivity].
  destruct (DTDLModel.updateContents _ _ _ _). reflexivity.
Qed.

(** The errors of a failed update start with "Entity '" or with
    "Property '". *)
Lemma update_error model entityId property value message :
  ur_error
    (DTDLModel.o_result
       (DTDLModel.updateEntityProperty model entityId property value))
  = Some message ->
  exists rest, message = "Entity '" +:+ rest \/ message = "Property '" +:+ rest.
Proof.
  unfold DTDLModel.updateEntityProperty.
  destruct (DTDLModel.getEntity model entityId) as [e|].
  - destruct (e_properties e) as [props|];
      [destruct (DTDLModel.cached e property) as [pv|];
       [destruct (DTDLModel.updateContents _ _ _ _); discriminate|]|];
      intros [= <-]; eexists; right; reflexivity.
  - intros [= <-]. eexists. left. reflexivity.
Qed.

(** One turn of the loop. *)
Lemma applyOne_facts model entity property value :
  let '(result, model', saved, log) :=
    CommandService.applyOne save model entity property value in
  ur_entityId result = e_id entity
  /\ map fst model' = map fst model
  /\ (forall other,
        e_id entity <> other ->
        DTDLModel.getEntity model' other = DTDLModel.getEntity model other)
  /\ ur_error result <> Some "Entity not found after update"
  /\ model' = DTDLModel.o_model
                (DTDLModel.updateEntityProperty model (e_id entity)
                   property value)
  /\ (ur_success result = true ->
      exists updated,
        DTDLModel.getEntity model' (e_id entity) = Some updated
        /\ saved = [updated] /\ save updated = None)
  /\ List.length saved <= 1.
Proof.
  unfold CommandService.applyOne.
  pose proof (update_keys model (e_id entity) property value) as Hkeys.
  pose proof (fun other => update_other model (e_id entity) property value
                             other) as Hother.
  pose proof (update_success_present model (e_id entity) property value)
    as Hpresent.
  pose proof (update_entityId model (e_id entity) property value) as Hid.
  pose proof (update_error model (e_id entity) property value) as Herror.
  destruct (DTDLModel.updateEntityProperty model (e_id entity) property value)
    as [result model' warnings]. simpl in *.
  destruct (ur_success result) eqn:Hsuccess.
  - destruct (Hpresent eq_refl) as [updated Hupdated]. rewrite Hupdated.
    destruct (save updated) as [message|] eqn:Hsave.
    + repeat split; auto; discriminate.
    + repeat split; auto.
      * intros Habs. destruct (Herror _ Habs) as [rest [Hrest|Hrest]];
          discriminate Hrest.
      * intros _. exists updated. auto.
  - repeat split; auto; try congruence.
    intros Habs. destruct (Herror _ Habs) as [rest [Hrest|Hrest]];
      discriminate Hrest.
Qed.

End ApplyFacts.

Section ApplyAllFacts.

Variable save : Entity -> option string.

Lemma applyUpdates_cons model entity rest property value :
  CommandService.applyUpdates save model (entity :: rest) property value
  = let one := CommandService.applyOne save model entity property value in
    let r := CommandService.applyUpdates save (snd (fst (fst one))) rest
               property value in
    {| CommandService.a_updates :=
         fst (fst (fst one)) :: CommandService.a_updates r;
       CommandService.a_model := CommandService.a_model r;
       CommandService.a_saved :=
         snd (fst one) ++ CommandService.a_saved r;
       CommandService.a_log := snd one ++ CommandService.a_log r |}.
Proof.
  cbn [CommandService.applyUpdates].
  destruct (CommandService.applyOne save model entity property value)
    as [[[result model'] saved] log].
  reflexivity.
Qed.

Lemma applyUpdates_facts entities property value :
  forall model,
    let applied :=
      CommandService.applyUpdates save model entities property value in
    map ur_entityId (CommandService.a_updates applied) = map e_id entities
    /\ map fst (CommandService.a_model applied) = map fst model
    /\ (forall id,
          ~ In id (map e_id entities) ->
          DTDLModel.getEntity (CommandService.a_model applied) id
          = DTDLModel.getEntity model id)
    /\ (forall u,
          In u (CommandService.a_updates applied) ->
          ur_error u <> Some "Entity not found after update")
    /\ List.length (List.filter ur_success (CommandService.a_updates applied))
       <= List.length (CommandService.a_saved applied)
    /\ List.length (CommandService.a_saved applied)
       <= List.length entities.
Proof.
  induction entities as [|entity rest IH]; intros model.
  - simpl. repeat split; auto.
  - cbv zeta. rewrite applyUpdates_cons.
    pose proof (applyOne_facts save model entity property value) as Hone.
    destruct (CommandService.applyOne save model entity property value)
      as [[[result model'] saved] log].
    destruct Hone as (Hid & Hkeys & Hother & Herror & _ & Hsaved & Hlen).
    cbv zeta. cbn [fst snd CommandService.a_updates CommandService.a_model
                   CommandService.a_saved].
    specialize (IH model'). cbv zeta in IH.
    destruct IH as (IHids & IHkeys & IHother & IHerror & IHlow & IHhigh).
    split; [cbn [map]; congruence|]. split; [congruence|].
    split; [|split; [|split]].
    + intros id Hid'. cbn [map In] in Hid'.
      rewrite IHother by tauto. apply Hother. tauto.
    + intros u [<-|Hu]; [exact Herror|exact (IHerror u Hu)].
    + cbn [List.filter]. rewrite length_app.
      destruct (ur_success result) eqn:Hs; [|lia].
      destruct (Hsaved eq_refl) as (updated & _ & -> & _).
      cbn [List.length]. lia.
    + rewrite length_app. cbn [List.length]. lia.
Qed.

End ApplyAllFacts.

(** X23. What [applyUpdates] does to the model and to the repository.
    It gives one result for each entity, in their order; it neither adds
    nor removes an entity, and leaves the entities under other ids as
    they are; it hands to the repository at most one entity for each
    update, and one for each update that succeeds; it never reports
    "Entity not found after update". An update of a property that the
    stored entity has in its cache is done in the model whatever the
    repository does: the updated entity is handed to the repository, and
    when saving fails the result says so, with "Database persistence
    failed" and the message, while the model keeps the new value. *)
Theorem X23_apply_updates
    (save : Entity -> option string) (model : DTDLModel.t)
    (property : string) (value : JSValue) :
  (forall entities,
     let applied :=
       CommandService.applyUpdates save model entities property value in
     map ur_entityId (CommandService.a_updates applied) = map e_id entities
     /\ map fst (CommandService.a_model applied) = map fst model
     /\ (forall id,
           ~ In id (map e_id entities) ->
           DTDLModel.getEntity (CommandService.a_model applied) id
           = DTDLModel.getEntity model id)
     /\ (forall u,
           In u (CommandService.a_updates applied) ->
           ur_error u <> Some "Entity not found after update")
     /\ List.length
          (List.filter ur_success (CommandService.a_updates applied))
        <= List.length (CommandService.a_saved applied)
     /\ List.length (CommandService.a_saved applied)
        <= List.length entities)
  /\ (forall entity stored props pv,
        DTDLModel.getEntity model (e_id entity) = Some stored ->
        e_properties stored = Some props ->
        props !! property = Some pv ->
        let applied :=
          CommandService.applyUpdates save model [entity] property value in
        exists updated,
          DTDLModel.getEntity (CommandService.a_model applied) (e_id entity)
          = Some updated
          /\ DTDLModel.readCache (CommandService.a_model applied)
               (e_id entity) property = Some value
          /\ CommandService.a_saved applied = [updated]
          /\ map ur_success (CommandService.a_updates applied)
             = [match save updated with
                | None => true
                | Some _ => false
                end]
          /\ map ur_error (CommandService.a_updates applied)
             = [match save updated with
                | None => None
                | Some message =>
                    Some ("Database persistence failed: " +:+ message)
                end]).
Proof.
  split.
  - intros entities. exact (applyUpdates_facts save entities property value
                              model).
  - intros entity stored props pv Hstored Hprops Hpv. cbv zeta.
    cbn [CommandService.applyUpdates]. unfold CommandService.applyOne.
    rewrite (update_cached model (e_id entity) property value stored props
               pv Hstored Hprops Hpv).
    cbn [DTDLModel.o_result DTDLModel.o_model DTDLModel.o_warnings
         ur_success].
    set (updated := DTDLModel.withState stored _ _).
    assert (Hget : DTDLModel.getEntity
                     (DTDLModel.mutate model (e_id entity) updated)
                     (e_id entity) = Some updated)
      by exact (mapGet_mutate_eq _ _ _ _ Hstored).
    rewrite Hget. exists updated.
    assert (Hread : DTDLModel.readCache
                      (DTDLModel.mutate model (e_id entity) updated)
                      (e_id entity) property = Some value).
    { unfold DTDLModel.readCache. rewrite Hget. simpl.
      unfold DTDLModel.cached. subst updated. simpl.
      rewrite lookup_insert_eq. reflexivity. }
    destruct (save updated) as [message|]; simpl;
      (split; [exact Hget|]); (split; [exact Hread|]);
      repeat split; reflexivity.
Qed.

(** The snap distance of the truck set to 50 while the repository is
    down: the model has the new value, the result is a failure. *)
Lemma X23_apply_updates_witness :
  DTDLModel.readCache
    (CommandService.a_model
       (CommandService.applyUpdates storeDown truckFirst [truck2]
          "focusSnapDistanceMeters" (VNum 50%float)))
    "Haul_Truck_CAT_777_2" "focusSnapDistanceMeters"
  = Some (VNum 50%float)
  /\ map ur_success
       (CommandService.a_updates
          (CommandService.applyUpdates storeDown truckFirst [truck2]
             "focusSnapDistanceMeters" (VNum 50%float)))
     = [false].
Proof.
  destruct (proj2 (X23_apply_updates storeDown truckFirst
                     "focusSnapDistanceMeters" (VNum 50%float))
              truck2 truck2
              {[ "focusSnapDistanceMeters" :=
                   {| pv_value := VNum 250%float; pv_type := PNumber;
                      pv_editable := Some true; pv_constraints := None |} ]}
              {| pv_value := VNum 250%float; pv_type := PNumber;
                 pv_editable := Some true; pv_constraints := None |}
              eq_refl eq_refl eq_refl)
    as (updated & _ & Hread & _ & Hsuccess & _).
  split; [exact Hread|exact Hsuccess].
Defined.

Section CommandFacts.

Variable save : Entity -> option string.
Variable getConstraint : string -> string -> option PropertyConstraint.

Lemma validEntities_filter (v : Entity -> UpdateValidator.ValidationResult)
    (targets : list Entity) :
  CommandService.validEntities targets (map v targets)
  = List.filter (fun e => UpdateValidator.valid (v e)) targets.
Proof.
  unfold CommandService.validEntities.
  induction targets as [|e r IH]; [reflexivity|].
  cbn [map combine List.filter fst snd].
  destruct (UpdateValidator.valid (v e)); cbn [map fst]; rewrite IH;
    reflexivity.
Qed.

Lemma validationErrors_refused
    (v : Entity -> UpdateValidator.ValidationResult) (targets : list Entity) :
  CommandService.validationErrors targets (map v targets)
  = map (fun e => CommandService.Invalid (e_id e)
                    (UpdateValidator.error (v e)))
      (List.filter (fun e => negb (UpdateValidator.valid (v e))) targets).
Proof.
  unfold CommandService.validationErrors.
  induction targets as [|e r IH]; [reflexivity|].
  cbn [map combine omap list_omap List.filter fst snd].
  destruct (UpdateValidator.valid (v e)); cbn [negb map]; rewrite <- IH;
    reflexivity.
Qed.

Lemma resolveBulk_Throw reference model filter x :
  EntityResolver.resolveBulk reference model filter = Throw x ->
  x = EntityNotFoundError reference.
Proof.
  unfold EntityResolver.resolveBulk.
  destruct (JSString.includes _ _); [discriminate|].
  destruct (EntityResolver.resolve reference model) eqn:Hres;
    [discriminate|].
  intros [= <-]. exact (resolve_Throw _ _ _ Hres).
Qed.

(** [resolveCommand] throws domain errors only. *)
Lemma resolveCommand_Throw model intent x :
  SchemaResolver.resolveCommand model intent = Throw x ->
  exists message code, x = DomainError message code.
Proof.
  unfold SchemaResolver.resolveCommand.
  destruct (EntityResolver.resolveBulk _ _ _) as [[|first rest]|x0] eqn:Hbulk.
  - intros [= <-]. eauto.
  - destruct (PropertyResolver.success _);
      [destruct (PropertyResolver.property _) as [p|];
       [destruct (source p); [discriminate|]|]|];
      intros [= <-]; unfold SchemaResolver.propertyNotFound; eauto.
  - intros [= <-]. rewrite (resolveBulk_Throw _ _ _ _ Hbulk).
    unfold EntityNotFoundError. eauto.
Qed.

Lemma executeCommand_Ok model intent rc :
  SchemaResolver.resolveCommand model intent = Ok rc ->
  CommandService.executeCommand save getConstraint model intent
  = let applied :=
      CommandService.applyUpdates save model (accepted getConstraint rc)
        (infoName (rc_property rc)) (rc_value rc) in
    {| CommandService.x_response :=
         Ok (CommandService.formatResponse
               (CommandService.a_updates applied)
               (map (fun e =>
                       CommandService.Invalid (e_id e)
                         (UpdateValidator.error
                            (UpdateValidator.validate getConstraint e
                               (infoName (rc_property rc)) (rc_value rc))))
                  (refused getConstraint rc)));
       CommandService.x_model := CommandService.a_model applied;
       CommandService.x_saved := CommandService.a_saved applied;
       CommandService.x_log := CommandService.a_log applied |}.
Proof.
  intros Hrc. unfold CommandService.executeCommand. rewrite Hrc.
  cbv zeta. rewrite validEntities_filter, validationErrors_refused.
  reflexivity.
Qed.

Lemma filter_positive {A : Type} (p : A -> bool) (l : list A) :
  (0 <? List.length (List.filter p l))%nat = existsb p l.
Proof.
  induction l as [|x r IH]; [reflexivity|]. simpl.
  destruct (p x); [reflexivity|exact IH].
Qed.

Lemma filter_none {A : Type} (p : A -> bool) (l : list A) :
  List.filter (fun x => negb (p x)) l = [] <-> forallb p l = true.
Proof.
  induction l as [|x r IH]; simpl; [tauto|].
  destruct (p x); simpl; [exact IH|]. split; discriminate.
Qed.

Lemma filter_split_length {A : Type} (p : A -> bool) (l : list A) :
  List.length (List.filter p l)
  + List.length (List.filter (fun x => negb (p x)) l)
  = List.length l.
Proof.
  induction l as [|x r IH]; [reflexivity|]. simpl.
  destruct (p x); simpl; lia.
Qed.

End CommandFacts.

(** X24. [executeCommand] updates validated targets only, with a store
    of constraints that answers and for names that the property
    resolver reads as entries of its tables. It neither adds nor removes
    an entity.
    When [resolveCommand] throws a domain error, the model is as before,
    nothing is handed to the repository and the response is a failure
    without updates, with the message of the error. When the command is
    resolved, to a property whose name is not one that every object
    inherits, there is a response, and its updates are those of the
    targets that validation accepts, in their order, every entity whose id is not
    that of an accepted target is as before, and no more entities are
    handed to the repository than targets are accepted. *)
Theorem X24_only_validated_updates
    (save : Entity -> option string)
    (getConstraint : string -> string -> option PropertyConstraint)
    (model : DTDLModel.t) (intent : CommandIntent) :
  readsEntriesOf model (ci_property intent) = true ->
  let executed :=
    CommandService.executeCommand save getConstraint model intent in
  map fst (CommandService.x_model executed) = map fst model
  /\ (forall message code,
        SchemaResolver.resolveCommand model intent
        = Throw (DomainError message code) ->
        CommandService.x_model executed = model
        /\ CommandService.x_saved executed = []
        /\ CommandService.x_response executed
           = Ok {| CommandService.cr_success := false;
                   CommandService.cr_updates := [];
                   CommandService.cr_errors :=
                     Some [CommandService.Message message] |})
  /\ (forall rc,
        SchemaResolver.resolveCommand model intent = Ok rc ->
        inherited (infoName (rc_property rc)) = false ->
        (exists response,
           CommandService.x_response executed = Ok response
           /\ map ur_entityId (CommandService.cr_updates response)
              = map e_id (accepted getConstraint rc))
        /\ (forall id,
              ~ In id (map e_id (accepted getConstraint rc)) ->
              DTDLModel.getEntity (CommandService.x_model executed) id
              = DTDLModel.getEntity model id)
        /\ List.length (CommandService.x_saved executed)
           <= List.length (accepted getConstraint rc)).
Proof.
  intros _. cbv zeta.
  destruct (SchemaResolver.resolveCommand model intent) as [rc|x] eqn:Hrc.
  - rewrite (executeCommand_Ok save getConstraint model intent rc Hrc).
    cbv zeta.
    destruct (applyUpdates_facts save (accepted getConstraint rc)
                (infoName (rc_property rc)) (rc_value rc) model)
      as (Hids & Hkeys & Hother & _ & _ & Hsaved).
    cbn [CommandService.x_response CommandService.x_model
         CommandService.x_saved].
    split; [exact Hkeys|]. split; [discriminate|].
    intros rc0 [= <-] _. split; [|split; [exact Hother|exact Hsaved]].
    eexists. split; [reflexivity|]. exact Hids.
  - unfold CommandService.executeCommand. rewrite Hrc.
    destruct (resolveCommand_Throw model intent x Hrc)
      as (message & code & ->).
    cbn [CommandService.x_response CommandService.x_model
         CommandService.x_saved].
    split; [reflexivity|]. split; [|discriminate].
    intros message0 code0 [= <- <-]. repeat split.
Qed.

(** "Set the snap distance of all trucks to 300", without rows in the
    store: the truck whose cache says [editable: false] is refused and
    stays as it is, the other truck is updated. *)
Lemma X24_only_validated_witness :
  readsEntriesOf lockedFirst "snap distance" = true
  /\ exists rc,
    SchemaResolver.resolveCommand lockedFirst
      (commandOn "all trucks" "snap distance" None) = Ok rc
    /\ inherited (infoName (rc_property rc)) = false
    /\ map e_id (accepted noRows rc) = ["Haul_Truck_CAT_777_20"]
    /\ DTDLModel.getEntity
         (CommandService.x_model
            (CommandService.executeCommand storeUp noRows lockedFirst
               (commandOn "all trucks" "snap distance" None)))
         "Haul_Truck_CAT_777_2"
       = DTDLModel.getEntity lockedFirst "Haul_Truck_CAT_777_2".
Proof.
  split; [vm_compute; reflexivity|].
  eexists. split; [vm_compute; reflexivity|].
  split; [vm_compute; reflexivity|].
  split; [vm_compute; reflexivity|].
  match goal with
  | |- DTDLModel.getEntity (CommandService.x_model ?x) _ = _ =>
      destruct (X24_only_validated_updates storeUp noRows lockedFirst
                  (commandOn "all trucks" "snap distance" None) eq_refl)
        as (_ & _ & Hrc)
  end.
  eapply Hrc; [vm_compute; reflexivity|vm_compute; reflexivity|].
  vm_compute. intros [Habs|[]]. discriminate Habs.
Defined.

Section ResponseFormat.

Lemma formatResponse_errors updates errors :
  CommandService.cr_errors (CommandService.formatResponse updates errors)
  = match map CommandService.errorOf
            (List.filter (fun u => negb (ur_success u)) updates) ++ errors
    with
    | [] => None
    | all => Some all
    end.
Proof.
  unfold CommandService.formatResponse. cbv zeta.
  cbn [CommandService.cr_errors].
  destruct (List.filter (fun u => negb (ur_success u)) updates)
    as [|u failed]; destruct errors as [|e errors]; reflexivity.
Qed.

End ResponseFormat.

(** X25. The response to a resolved command accounts for every target:
    the updates and the refused targets together are as many as the
    targets. It is a success exactly when one update succeeded. Its
    errors are the errors of the failed updates, in their order, and
    then one entry for each refused target, in their order, with the id
    of the target and the reason of the refusal; there are no errors
    exactly when every update succeeded and no target was refused. *)
Theorem X25_command_response
    (save : Entity -> option string)
    (getConstraint : string -> string -> option PropertyConstraint)
    (model : DTDLModel.t) (intent : CommandIntent) (rc : ResolvedCommand) :
  SchemaResolver.resolveCommand model intent = Ok rc ->
  exists response,
    CommandService.x_response
      (CommandService.executeCommand save getConstraint model intent)
    = Ok response
    /\ List.length (CommandService.cr_updates response)
       + List.length (refused getConstraint rc)
       = List.length (rc_targetEntities rc)
    /\ CommandService.cr_success response
       = existsb ur_success (CommandService.cr_updates response)
    /\ (CommandService.cr_errors response = None
        <-> forallb ur_success (CommandService.cr_updates response) = true
            /\ refused getConstraint rc = [])
    /\ (forall errors,
          CommandService.cr_errors response = Some errors ->
          errors
          = map CommandService.errorOf
              (List.filter (fun u => negb (ur_success u))
                 (CommandService.cr_updates response))
            ++ map (fun e =>
                      CommandService.Invalid (e_id e)
                        (UpdateValidator.error
                           (UpdateValidator.validate getConstraint e
                              (infoName (rc_property rc)) (rc_value rc))))
                 (refused getConstraint rc))
    /\ (forall id reason errors,
          CommandService.cr_errors response = Some errors ->
          In (CommandService.Invalid id reason) errors ->
          reason <> None).
Proof.
  intros Hrc.
  rewrite (executeCommand_Ok save getConstraint model intent rc Hrc).
  cbv zeta. cbn [CommandService.x_response].
  set (applied := CommandService.applyUpdates save model
                    (accepted getConstraint rc) (infoName (rc_property rc))
                    (rc_value rc)).
  set (invalid := map _ (refused getConstraint rc)).
  eexists. split; [reflexivity|].
  pose proof (formatResponse_errors (CommandService.a_updates applied)
                invalid) as Herrors.
  set (failed := List.filter (fun u => negb (ur_success u))
                   (CommandService.a_updates applied)) in *.
  split; [|split; [|split; [|split]]].
  - change (CommandService.cr_updates _)
      with (CommandService.a_updates applied).
    destruct (applyUpdates_facts save (accepted getConstraint rc)
                (infoName (rc_property rc)) (rc_value rc) model)
      as (Hids & _).
    fold applied in Hids.
    assert (Hlen : List.length (CommandService.a_updates applied)
                   = List.length (accepted getConstraint rc)).
    { rewrite <- (length_map ur_entityId), Hids, length_map. reflexivity. }
    rewrite Hlen. unfold accepted, refused. apply filter_split_length.
  - unfold CommandService.formatResponse. cbv zeta.
    cbn [CommandService.cr_success CommandService.cr_updates].
    apply filter_positive.
  - rewrite Herrors.
    change (CommandService.cr_updates _)
      with (CommandService.a_updates applied).
    rewrite <- (filter_none ur_success). fold failed.
    destruct failed as [|u failed']; simpl.
    + subst invalid. destruct (refused getConstraint rc); simpl;
        split; try discriminate; try tauto.
      intros [_ Habs]; discriminate.
    + split; [discriminate|intros [Habs _]; discriminate].
  - intros errors. rewrite Herrors.
    change (CommandService.cr_updates _)
      with (CommandService.a_updates applied). fold failed.
    destruct (map CommandService.errorOf failed ++ invalid) eqn:Hall;
      [discriminate|].
    intros [= <-]. reflexivity.
  - intros id reason errors. rewrite Herrors.
    destruct (map CommandService.errorOf failed ++ invalid) eqn:Hall;
      [discriminate|].
    intros [= <-] Hin. rewrite <- Hall in Hin.
    apply in_app_or in Hin as [Hin|Hin].
    + apply in_map_iff in Hin as (u & Hu & _). discriminate Hu.
    + subst invalid. apply in_map_iff in Hin as (e & [= _ <-] & He).
      unfold refused in He. apply filter_In in He as [_ Hinvalid].
      destruct (valid_error getConstraint e
                  (infoName (rc_property rc)) (rc_value rc)) as [_ Hnone].
      intros Habs. rewrite (Hnone Habs) in Hinvalid. discriminate.
Qed.

(** The command on all trucks, resolved, with the repository down. *)
Lemma X25_command_response_witness :
  exists rc response,
    SchemaResolver.resolveCommand lockedFirst
      (commandOn "all trucks" "snap distance" None) = Ok rc
    /\ CommandService.x_response
         (CommandService.executeCommand storeDown noRows lockedFirst
            (commandOn "all trucks" "snap distance" None))
       = Ok response
    /\ CommandService.cr_success response
       = existsb ur_success (CommandService.cr_updates response).
Proof.
  assert (Hrc : exists rc,
            SchemaResolver.resolveCommand lockedFirst
              (commandOn "all trucks" "snap distance" None) = Ok rc)
    by (eexists; vm_compute; reflexivity).
  destruct Hrc as [rc Hrc].
  destruct (X25_command_response storeDown noRows lockedFirst
              (commandOn "all trucks" "snap distance" None) rc Hrc)
    as (response & Hresponse & _ & Hsuccess & _).
  exists rc, response. split; [exact Hrc|]. split; [exact Hresponse|].
  exact Hsuccess.
Defined.

Section TargetFacts.

(** In a well-formed model an entity of the model is under its id. *)
Lemma wellFormed_getEntity model e :
  wellFormed model ->
  In e (DTDLModel.getAllEntities model) ->
  DTDLModel.getEntity model (e_id e) = Some e.
Proof.
  unfold DTDLModel.getAllEntities, DTDLModel.getEntity.
  intros [Hnodup Hkeys].
  induction model as [|[k e0] r IH]; simpl; [intros []|].
  apply NoDup_cons in Hnodup as [Hk Hr].
  apply Forall_cons in Hkeys as [Hk0 Hkeys]. simpl in Hk0. subst k.
  intros [->|Hin].
  - rewrite String.eqb_refl. reflexivity.
  - destruct (String.eqb_spec (e_id e0) (e_id e)) as [Heq|_]; [|auto].
    exfalso. apply Hk. apply list_elem_of_In. rewrite Heq.
    apply in_map_iff in Hin as ([k' e'] & He' & Hin). simpl in He'. subst e'.
    apply in_map_iff. exists (k', e). split; [|exact Hin].
    rewrite List.Forall_forall in Hkeys. exact (Hkeys _ Hin).
Qed.

Lemma wellFormed_ids model :
  wellFormed model -> NoDup (map e_id (DTDLModel.getAllEntities model)).
Proof.
  unfold DTDLModel.getAllEntities. intros [Hnodup Hkeys].
  assert (Heq : map e_id (map snd model) = map fst model).
  { rewrite List.Forall_forall in Hkeys. rewrite map_map.
    apply map_ext_in. intros b Hb. symmetry. exact (Hkeys b Hb). }
  rewrite Heq. exact Hnodup.
Qed.

Lemma ids_filter (p : Entity -> bool) (entities : list Entity) :
  NoDup (map e_id entities) ->
  NoDup (map e_id (List.filter p entities)).
Proof.
  induction entities as [|x r IH]; simpl; [auto|].
  rewrite NoDup_cons. intros [Hx Hr]. destruct (p x); simpl; [|auto].
  apply NoDup_cons. split; [|auto].
  intros Hin. apply Hx.
  apply list_elem_of_In in Hin. apply list_elem_of_In.
  apply in_map_iff in Hin as (y & Hy & Hin). apply in_map_iff.
  exists y. split; [exact Hy|]. apply filter_In in Hin. tauto.
Qed.

(** The entities that [resolveBulk] answers with are entities of the
    model, with distinct ids when the model is well-formed. *)
Lemma resolveBulk_targets reference model filter entities :
  wellFormed model ->
  EntityResolver.resolveBulk reference model filter = Ok entities ->
  NoDup (map e_id entities)
  /\ forall e, In e entities -> In e (DTDLModel.getAllEntities model).
Proof.
  intros Hwf. pose proof (wellFormed_ids model Hwf) as Hids.
  unfold EntityResolver.resolveBulk.
  destruct (JSString.includes _ _).
  - intros [= <-].
    assert (Htyped :
              NoDup (map e_id
                       match filter with
                       | Some f =>
                           if EntityResolver.truthy (EntityResolver.bf_type f)
                           then List.filter
                                  (fun e =>
                                     EntityResolver.optEqb (e_type e)
                                       (EntityResolver.bf_type f))
                                  (DTDLModel.getAllEntities model)
                           else DTDLModel.getAllEntities model
                       | None => DTDLModel.getAllEntities model
                       end)
              /\ forall e,
                   In e match filter with
                        | Some f =>
                            if EntityResolver.truthy (EntityResolver.bf_type f)
                            then List.filter
                                   (fun e =>
                                      EntityResolver.optEqb (e_type e)
                                        (EntityResolver.bf_type f))
                                   (DTDLModel.getAllEntities model)
                            else DTDLModel.getAllEntities model
                        | None => DTDLModel.getAllEntities model
                        end ->
                   In e (DTDLModel.getAllEntities model)).
    { destruct filter as [f|]; [|auto].
      destruct (EntityResolver.truthy _); [|auto].
      split; [apply ids_filter; exact Hids|].
      intros e He. apply filter_In in He. tauto. }
    destruct Htyped as [Hnodup Hin].
    destruct filter as [f|]; [|auto].
    destruct (EntityResolver.bf_relationship f) as [rf|]; [|auto].
    split; [apply ids_filter; exact Hnodup|].
    intros e He. apply filter_In in He as [He _]. auto.
  - destruct (EntityResolver.resolve reference model) as [e0|] eqn:Hres;
      [|discriminate].
    intros [= <-]. split.
    + simpl. apply NoDup_singleton.
    + intros e [<-|[]]. exact (resolve_In _ _ _ Hres).
Qed.

Lemma resolveCommand_targets model intent rc :
  SchemaResolver.resolveCommand model intent = Ok rc ->
  EntityResolver.resolveBulk (ci_targetEntity intent) model (ci_filter intent)
  = Ok (rc_targetEntities rc)
  /\ rc_value rc = ci_value intent.
Proof.
  unfold SchemaResolver.resolveCommand.
  destruct (EntityResolver.resolveBulk _ _ _) as [[|first rest]|];
    try discriminate.
  destruct (PropertyResolver.success _); [|discriminate].
  destruct (PropertyResolver.property _) as [p|]; [|discriminate].
  destruct (source p); [|discriminate].
  intros [= <-]. split; reflexivity.
Qed.

End TargetFacts.

Section UpdatedTargets.

Variable save : Entity -> option string.

(** Every entity of the list ends with the value in its cache, when the
    ids are distinct and each entity of the list has the property in
    the cache of the entity stored under its id. *)
Lemma applyUpdates_all_updated property value entities :
  forall model,
    NoDup (map e_id entities) ->
    (forall e,
       In e entities ->
       exists stored props pv,
         DTDLModel.getEntity model (e_id e) = Some stored
         /\ e_properties stored = Some props
         /\ props !! property = Some pv) ->
    forall e,
      In e entities ->
      DTDLModel.readCache
        (CommandService.a_model
           (CommandService.applyUpdates save model entities property value))
        (e_id e) property
      = Some value.
Proof.
  induction entities as [|x rest IH]; intros model Hnodup Hpre e;
    [intros []|].
  cbn [map] in Hnodup. apply NoDup_cons in Hnodup as [Hx Hrest].
  rewrite applyUpdates_cons.
  pose proof (applyOne_facts save model x property value) as Hone.
  destruct (CommandService.applyOne save model x property value)
    as [[[result model'] saved] log].
  destruct Hone as (_ & _ & Hother & _ & Hmodel' & _).
  cbv zeta. cbn [fst snd CommandService.a_model].
  assert (Hpre' : forall e0,
            In e0 rest ->
            exists stored props pv,
              DTDLModel.getEntity model' (e_id e0) = Some stored
              /\ e_properties stored = Some props
              /\ props !! property = Some pv).
  { intros e0 He0. destruct (Hpre e0 (or_intror He0))
      as (stored & props & pv & Hget & Hprops & Hpv).
    exists stored, props, pv. split; [|auto].
    rewrite Hother; [exact Hget|].
    intros Heq. apply Hx. apply list_elem_of_In. rewrite Heq.
    apply in_map. exact He0. }
  intros [<-|He]; [|exact (IH model' Hrest Hpre' e He)].
  destruct (applyUpdates_facts save rest property value model')
    as (_ & _ & Huntouched & _).
  unfold DTDLModel.readCache. rewrite Huntouched.
  - destruct (Hpre x (or_introl eq_refl))
      as (stored & props & pv & Hget & Hprops & Hpv).
    rewrite Hmodel'.
    rewrite (update_cached model (e_id x) property value stored props pv
               Hget Hprops Hpv).
    cbn [DTDLModel.o_model].
    rewrite (mapGet_mutate_eq _ _ _ _ Hget). simpl.
    unfold DTDLModel.cached. simpl. rewrite lookup_insert_eq. reflexivity.
  - intros Hin. apply Hx. apply list_elem_of_In. exact Hin.
Qed.

End UpdatedTargets.

(** X30. On a well-formed model a resolved command leaves every target
    that validation accepts with the value of the command in its cache,
    whatever the repository does, and every target that validation
    refuses as it was. *)
Theorem X30_accepted_targets_are_updated
    (save : Entity -> option string)
    (getConstraint : string -> string -> option PropertyConstraint)
    (model : DTDLModel.t) (intent : CommandIntent) (rc : ResolvedCommand) :
  wellFormed model ->
  SchemaResolver.resolveCommand model intent = Ok rc ->
  let after :=
    CommandService.x_model
      (CommandService.executeCommand save getConstraint model intent) in
  (forall e,
     In e (accepted getConstraint rc) ->
     DTDLModel.readCache after (e_id e) (infoName (rc_property rc))
     = Some (ci_value intent))
  /\ (forall e,
        In e (refused getConstraint rc) ->
        DTDLModel.getEntity after (e_id e) = Some e).
Proof.
  intros Hwf Hrc. cbv zeta.
  destruct (resolveCommand_targets model intent rc Hrc) as [Hbulk Hvalue].
  destruct (resolveBulk_targets _ _ _ _ Hwf Hbulk) as [Hnodup Hin].
  rewrite (executeCommand_Ok save getConstraint model intent rc Hrc).
  cbv zeta. cbn [CommandService.x_model]. split.
  - intros e He. rewrite <- Hvalue.
    apply applyUpdates_all_updated; [apply ids_filter; exact Hnodup| |exact He].
    intros e0 He0. unfold accepted in He0.
    apply filter_In in He0 as [Htarget Hvalid].
    exists e0.
    assert (Hdef : exists def,
              DTDLModel.cached e0 (infoName (rc_property rc)) = Some def).
    { unfold UpdateValidator.validate in Hvalid.
      destruct (DTDLModel.cached e0 (infoName (rc_property rc)));
        [eauto|discriminate Hvalid]. }
    destruct Hdef as [def Hdef]. unfold DTDLModel.cached in Hdef.
    destruct (e_properties e0) as [props|] eqn:Hprops; [|discriminate Hdef].
    exists props, def.
    split; [exact (wellFormed_getEntity model e0 Hwf (Hin e0 Htarget))|].
    split; [reflexivity|exact Hdef].
  - intros e He. unfold refused in He.
    apply filter_In in He as [Htarget Hinvalid].
    destruct (applyUpdates_facts save (accepted getConstraint rc)
                (infoName (rc_property rc)) (rc_value rc) model)
      as (_ & _ & Huntouched & _).
    rewrite Huntouched;
      [exact (wellFormed_getEntity model e Hwf (Hin e Htarget))|].
    intros Hid. apply in_map_iff in Hid as (e' & Heq & He').
    unfold accepted in He'. apply filter_In in He' as [Htarget' Hvalid'].
    assert (Hsame : e' = e).
    { pose proof (wellFormed_getEntity model e Hwf (Hin e Htarget)) as H1.
      pose proof (wellFormed_getEntity model e' Hwf (Hin e' Htarget')) as H2.
      rewrite Heq in H2. congruence. }
    subst e'. rewrite Hvalid' in Hinvalid. discriminate Hinvalid.
Qed.

(** The command on all trucks in the model of the locked truck and the
    decoy, without rows in the store and with the repository down: the
    decoy has the new snap distance, the locked truck is as it was. *)
Lemma X30_accepted_targets_witness :
  DTDLModel.readCache
    (CommandService.x_model
       (CommandService.executeCommand storeDown noRows lockedFirst
          (commandOn "all trucks" "snap distance" None)))
    "Haul_Truck_CAT_777_20" "focusSnapDistanceMeters"
  = Some (VNum 300%float)
  /\ DTDLModel.getEntity
       (CommandService.x_model
          (CommandService.executeCommand storeDown noRows lockedFirst
             (commandOn "all trucks" "snap distance" None)))
       "Haul_Truck_CAT_777_2"
     = Some lockedTruck.
Proof.
  assert (Hrc : exists rc,
            SchemaResolver.resolveCommand lockedFirst
              (commandOn "all trucks" "snap distance" None) = Ok rc
            /\ rc_targetEntities rc = [lockedTruck; truck20]
            /\ infoName (rc_property rc) = "focusSnapDistanceMeters"
            /\ rc_value rc = VNum 300%float)
    by (eexists; split; [vm_compute; reflexivity|repeat split; reflexivity]).
  destruct Hrc as (rc & Hrc & Htargets & Hname & Hvalue).
  destruct (X30_accepted_targets_are_updated storeDown noRows lockedFirst
              (commandOn "all trucks" "snap distance" None) rc
              (make_wellFormed [lockedTruck; truck20]) Hrc)
    as [Haccepted Hrefused].
  split.
  - rewrite <- Hname. apply (Haccepted truck20).
    unfold accepted. rewrite Htargets, Hname, Hvalue. vm_compute. auto.
  - apply (Hrefused lockedTruck).
    unfold refused. rewrite Htargets, Hname, Hvalue. vm_compute. auto.
Defined.

(** * Further properties of the property resolver *)

Section NormalizedNames.
Import JSString.

Lemma lowerChar_not_upper c : isUpper (lowerChar c) = false.
Proof. destruct c as [[] [] [] [] [] [] [] []]; reflexivity. Qed.

Lemma toLowerCase_not_upper s :
  allChars (fun c => negb (isUpper c)) (toLowerCase s) = true.
Proof.
  induction s as [|c r IH]; simpl; [reflexivity|].
  rewrite lowerChar_not_upper. exact IH.
Qed.

Lemma toLowerCase_fixed s :
  allChars (fun c => negb (isUpper c)) s = true -> toLowerCase s = s.
Proof.
  induction s as [|c r IH]; [reflexivity|].
  cbn [allChars]. intros H. apply andb_prop in H as [Hc Hr].
  unfold toLowerCase in *. cbn [mapChars]. rewrite (IH Hr).
  unfold lowerChar. apply negb_true_iff in Hc. rewrite Hc. reflexivity.
Qed.

Lemma trimStart_allChars p s :
  allChars p s = true -> allChars p (trimStart s) = true.
Proof.
  induction s as [|c r IH]; simpl; [reflexivity|].
  intros H. destruct (isSpace c); [|exact H].
  apply andb_prop in H as [_ Hr]. auto.
Qed.

Lemma trimEnd_allChars p s :
  allChars p s = true -> allChars p (trimEnd s) = true.
Proof.
  induction s as [|c r IH]; simpl; [reflexivity|].
  intros H. apply andb_prop in H as [Hc Hr]. specialize (IH Hr).
  destruct (trimEnd r) as [|c' r'].
  - destruct (isSpace c); simpl; [reflexivity|]. rewrite Hc. reflexivity.
  - simpl in *. rewrite Hc. exact IH.
Qed.

Lemma deleteRuns_allChars cls p b s :
  allChars p s = true -> allChars p (replaceRuns cls "" b s) = true.
Proof.
  revert b. induction s as [|c r IH]; intros b; simpl; [reflexivity|].
  intros H. apply andb_prop in H as [Hc Hr].
  destruct (cls c).
  - destruct b; [apply IH; exact Hr|].
    change ("" +:+ replaceRuns cls "" true r)
      with (replaceRuns cls "" true r).
    apply IH. exact Hr.
  - simpl. rewrite Hc. apply IH. exact Hr.
Qed.

Lemma deleteRuns_none cls b s :
  allChars (fun c => negb (cls c)) (replaceRuns cls "" b s) = true.
Proof.
  revert b. induction s as [|c r IH]; intros b; simpl; [reflexivity|].
  destruct (cls c) eqn:Hc.
  - destruct b; [apply IH|].
    change ("" +:+ replaceRuns cls "" true r)
      with (replaceRuns cls "" true r).
    apply IH.
  - simpl. rewrite Hc. apply IH.
Qed.

Lemma deleteRuns_fixed cls b s :
  allChars (fun c => negb (cls c)) s = true -> replaceRuns cls "" b s = s.
Proof.
  revert b. induction s as [|c r IH]; intros b; simpl; [reflexivity|].
  intros H. apply andb_prop in H as [Hc Hr]. apply negb_true_iff in Hc.
  rewrite Hc, (IH false Hr). reflexivity.
Qed.

Lemma punct_space c :
  PropertyResolver.isPunct c = false -> isSpace c = false.
Proof.
  unfold PropertyResolver.isPunct. intros H.
  apply orb_false_elim in H as [H _]. apply orb_false_elim in H as [_ H].
  exact H.
Qed.

(** The first replacement leaves a plain string. *)
Lemma first_replace_plain name :
  allChars isPlain
    (replaceRuns PropertyResolver.isPunct "" false (trim (toLowerCase name)))
  = true.
Proof.
  unfold isPlain. apply allChars_and.
  - apply deleteRuns_allChars. unfold trim.
    apply trimEnd_allChars, trimStart_allChars, toLowerCase_not_upper.
  - apply deleteRuns_none.
Qed.

Lemma plain_no_space s :
  allChars isPlain s = true ->
  allChars (fun c => negb (isSpace c)) s = true.
Proof.
  apply allChars_impl. intros c Hc. unfold isPlain in Hc.
  apply andb_prop in Hc as [_ Hc]. apply negb_true_iff in Hc.
  rewrite (punct_space c Hc). reflexivity.
Qed.

Lemma normalize_first_replace name :
  PropertyResolver.normalizePropertyName name
  = replaceRuns PropertyResolver.isPunct "" false (trim (toLowerCase name)).
Proof.
  unfold PropertyResolver.normalizePropertyName.
  apply deleteRuns_fixed, plain_no_space, first_replace_plain.
Qed.

Lemma normalize_plain name :
  allChars isPlain (PropertyResolver.normalizePropertyName name) = true.
Proof. rewrite normalize_first_replace. apply first_replace_plain. Qed.

Lemma normalize_fixed s :
  allChars isPlain s = true -> PropertyResolver.normalizePropertyName s = s.
Proof.
  intros Hs. rewrite normalize_first_replace.
  assert (Hupper : allChars (fun c => negb (isUpper c)) s = true).
  { revert Hs. apply allChars_impl. intros c Hc. unfold isPlain in Hc.
    apply andb_prop in Hc. tauto. }
  assert (Hpunct : allChars (fun c => negb (PropertyResolver.isPunct c)) s
                   = true).
  { revert Hs. apply allChars_impl. intros c Hc. unfold isPlain in Hc.
    apply andb_prop in Hc. tauto. }
  rewrite (toLowerCase_fixed s Hupper).
  rewrite (trim_no_space s (plain_no_space s Hs)).
  apply deleteRuns_fixed. exact Hpunct.
Qed.

End NormalizedNames.

(** X26. A normalized property name has no capital letter, underscore,
    white space or hyphen: the second replacement of
    [normalizePropertyName] finds nothing to remove, normalizing twice
    is normalizing once, and a plain name is its own normal form. So of
    the telemetry fields only "status" and "payload" are the normal form
    of a name, and only they can be met by the first step of
    [findPropertyInTelemetry], which looks the normalized name up: the
    other fields have a capital letter in their name, and are found by
    their variations or by containment. *)
Theorem X26_normalized_property_names (name : string) :
  let normalized := PropertyResolver.normalizePropertyName name in
  allChars isPlain normalized = true
  /\ normalized
     = JSString.replaceRuns PropertyResolver.isPunct "" false
         (JSString.trim (JSString.toLowerCase name))
  /\ PropertyResolver.normalizePropertyName normalized = normalized
  /\ (allChars isPlain name = true -> normalized = name)
  /\ (forall fieldName field,
        In (fieldName, field) PropertyResolver.TELEMETRY_FIELDS ->
        fieldName = normalized ->
        fieldName = "status" \/ fieldName = "payload").
Proof.
  cbv zeta. pose proof (normalize_plain name) as Hplain.
  split; [exact Hplain|]. split; [apply normalize_first_replace|].
  split; [apply normalize_fixed; exact Hplain|].
  split; [apply normalize_fixed|].
  intros fieldName field Hin Heq.
  set (normalized := PropertyResolver.normalizePropertyName name) in *.
  unfold PropertyResolver.TELEMETRY_FIELDS in Hin. cbn [In] in Hin.
  repeat (destruct Hin as [Hin|Hin];
          [injection Hin as Hk _; subst fieldName;
           first [left; reflexivity
                 |right; reflexivity
                 |rewrite <- Heq in Hplain; vm_compute in Hplain;
                  discriminate Hplain]
          |]).
  contradiction.
Qed.

(** The names "Haul Path_ID" and "haulpathid". *)
Lemma X26_normalized_names_witness :
  PropertyResolver.normalizePropertyName "Haul Path_ID" = "haulpathid"
  /\ PropertyResolver.normalizePropertyName "haulpathid" = "haulpathid".
Proof.
  split; [reflexivity|].
  apply (X26_normalized_property_names "haulpathid"). reflexivity.
Defined.

Section ResolutionFacts.
Import JSString.

Lemma lookup_In {A : Type} (table : list (string * A)) key v :
  PropertyResolver.lookup table key = Some v -> In (key, v) table.
Proof.
  induction table as [|[k x] r IH]; simpl; [discriminate|].
  destruct (String.eqb_spec k key) as [->|_]; [|auto].
  intros [= <-]. left. reflexivity.
Qed.

(** A telemetry descriptor built from the table of the fields. *)
Lemma byVariation_grounded table normalizedName p :
  PropertyResolver.byVariation table normalizedName = Some p ->
  exists fieldName field,
    PropertyResolver.lookup PropertyResolver.TELEMETRY_FIELDS fieldName
    = Some field
    /\ p = PropertyResolver.telemetryInfo fieldName field.
Proof.
  induction table as [|[fieldName variations] rest IH];
    cbn [PropertyResolver.byVariation]; [discriminate|].
  destruct (PropertyResolver.someVariation variations normalizedName);
    [|exact IH].
  destruct (PropertyResolver.lookup PropertyResolver.TELEMETRY_FIELDS
              fieldName) as [field|] eqn:Hfield; [|exact IH].
  intros [= <-]. eauto.
Qed.

Lemma byContainment_In fields normalizedName p :
  PropertyResolver.byContainment fields normalizedName = Some p ->
  exists fieldName field,
    In (fieldName, field) fields
    /\ p = PropertyResolver.telemetryInfo fieldName field.
Proof.
  induction fields as [|[fieldName field] rest IH];
    cbn [PropertyResolver.byContainment]; [discriminate|].
  destruct (_ || _).
  - intros [= <-]. exists fieldName, field. split; [left|]; reflexivity.
  - intros H. destruct (IH H) as (f & x & Hin & ->).
    exists f, x. split; [right; exact Hin|reflexivity].
Qed.

(** The table of the telemetry fields has each name once. *)
Lemma telemetry_fields_lookup fieldName field :
  In (fieldName, field) PropertyResolver.TELEMETRY_FIELDS ->
  PropertyResolver.lookup PropertyResolver.TELEMETRY_FIELDS fieldName
  = Some field.
Proof.
  unfold PropertyResolver.TELEMETRY_FIELDS. intros Hin.
  repeat (destruct Hin as [Hin|Hin];
          [injection Hin as <- <-; reflexivity|]).
  destruct Hin.
Qed.

Lemma byContainment_grounded normalizedName p :
  PropertyResolver.byContainment PropertyResolver.TELEMETRY_FIELDS
    normalizedName = Some p ->
  exists fieldName field,
    PropertyResolver.lookup PropertyResolver.TELEMETRY_FIELDS fieldName
    = Some field
    /\ p = PropertyResolver.telemetryInfo fieldName field.
Proof.
  intros H. destruct (byContainment_In _ _ _ H) as (f & x & Hin & ->).
  exists f, x. split; [exact (telemetry_fields_lookup f x Hin)|reflexivity].
Qed.

Lemma findPropertyInTelemetry_grounded normalizedName :
  let r := PropertyResolver.findPropertyInTelemetry normalizedName in
  (PropertyResolver.success r = true <-> PropertyResolver.property r <> None)
  /\ forall p,
       PropertyResolver.property r = Some p ->
       exists fieldName field,
         PropertyResolver.lookup PropertyResolver.TELEMETRY_FIELDS fieldName
         = Some field
         /\ p = PropertyResolver.telemetryInfo fieldName field.
Proof.
  cbv zeta. unfold PropertyResolver.findPropertyInTelemetry.
  destruct (PropertyResolver.lookup PropertyResolver.TELEMETRY_FIELDS
              normalizedName) as [field|] eqn:Hexact.
  { split; [split; [discriminate|reflexivity]|].
    intros p [= <-]. eauto. }
  destruct (PropertyResolver.byVariation _ _) as [p0|] eqn:Hvar.
  { split; [split; [discriminate|reflexivity]|].
    intros p [= <-]. exact (byVariation_grounded _ _ _ Hvar). }
  destruct (PropertyResolver.byContainment _ _) as [p0|] eqn:Hcont.
  { split; [split; [discriminate|reflexivity]|].
    intros p [= <-]. exact (byContainment_grounded _ _ Hcont). }
  split; [split; [discriminate|intros H; exfalso; apply H; reflexivity]|].
  discriminate.
Qed.

Lemma findPropertyInDTDL_grounded entity normalizedName :
  let r := PropertyResolver.findPropertyInDTDL entity normalizedName in
  (PropertyResolver.success r = true <-> PropertyResolver.property r <> None)
  /\ forall p,
       PropertyResolver.property r = Some p ->
       exists contents content,
         e_contents entity = Some contents
         /\ In content contents
         /\ c_atType content = "Property"
         /\ PropertyResolver.dtdlMatches (c_name content) normalizedName
            = true
         /\ p = FromDTDL (PropertyResolver.createDTDLPropertyInfo content).
Proof.
  cbv zeta. unfold PropertyResolver.findPropertyInDTDL.
  destruct (e_contents entity) as [contents|].
  2:{ split; [split; [discriminate|intros H; exfalso; apply H; reflexivity]|].
      discriminate. }
  destruct (List.find _ contents) as [content|] eqn:Hfind.
  - split; [split; [discriminate|reflexivity]|].
    intros p [= <-]. apply find_some in Hfind as [Hin Hmatch].
    apply andb_prop in Hmatch as [Htype Hname].
    apply String.eqb_eq in Htype. exists contents, content. auto.
  - split; [split; [discriminate|intros H; exfalso; apply H; reflexivity]|].
    discriminate.
Qed.

(** The empty string is in every string. *)
Lemma includes_empty s : includes s "" = true.
Proof. destruct s; reflexivity. Qed.

Lemma dtdlMatches_empty propName :
  PropertyResolver.dtdlMatches propName "" = true.
Proof.
  unfold PropertyResolver.dtdlMatches. rewrite includes_empty.
  rewrite orb_true_r. reflexivity.
Qed.

End ResolutionFacts.

(** X27. What [resolveProperty] answers, for names that it reads as
    entries of its tables: the name asked for is not, once normalized, a
    name every object inherits, and no Property item of the entity has
    such a name. It succeeds exactly when it gives a property. A
    property of the DTDL model is the descriptor of a Property item of
    the contents of the entity whose name matches; a
    telemetry property is the descriptor that the table of telemetry
    fields gives for its name, and is given only when no Property item
    of the entity matches. A failure carries the message that quotes the
    name as it was asked, and at most five suggestions, taken in their
    order from the names of the Property items of the entity followed by
    the telemetry fields. A name that is normalized to the empty string,
    one made of underscores, white space and hyphens alone, never
    fails: it is answered with the first Property item of the entity,
    and with the telemetry field "status" when the entity has none. *)
Theorem X27_property_resolution (entity : Entity) (name : string) :
  readsEntries entity name = true ->
  let r := PropertyResolver.resolveProperty entity name in
  (PropertyResolver.success r = true <-> PropertyResolver.property r <> None)
  /\ (forall d,
        PropertyResolver.property r = Some (FromDTDL d) ->
        exists contents content,
          e_contents entity = Some contents
          /\ In content contents
          /\ c_atType content = "Property"
          /\ PropertyResolver.dtdlMatches (c_name content)
               (PropertyResolver.normalizePropertyName name) = true
          /\ d = PropertyResolver.createDTDLPropertyInfo content)
  /\ (forall t,
        PropertyResolver.property r = Some (FromTelemetry t) ->
        (exists field,
           PropertyResolver.lookup PropertyResolver.TELEMETRY_FIELDS
             (tp_name t) = Some field
           /\ FromTelemetry t
              = PropertyResolver.telemetryInfo (tp_name t) field)
        /\ PropertyResolver.property
             (PropertyResolver.findPropertyInDTDL entity
                (PropertyResolver.normalizePropertyName name)) = None)
  /\ (PropertyResolver.success r = false ->
      PropertyResolver.error r
      = Some ("Property '" +:+ name +:+
              "' not found in DTDL model or telemetry schema")
      /\ exists suggestions,
           PropertyResolver.suggestions r = Some suggestions
           /\ List.length suggestions <= 5
           /\ sublist suggestions
                (PropertyResolver.propertyNames entity
                 ++ map fst PropertyResolver.TELEMETRY_FIELDS))
  /\ (PropertyResolver.normalizePropertyName name = "" ->
      PropertyResolver.property r
      = Some match firstProperty entity with
             | Some content =>
                 FromDTDL (PropertyResolver.createDTDLPropertyInfo content)
             | None => PropertyResolver.telemetryInfo "status" (IString, None)
             end).
Proof.
  intros _. cbv zeta. unfold PropertyResolver.resolveProperty.
  set (normalized := PropertyResolver.normalizePropertyName name).
  destruct (findPropertyInDTDL_grounded entity normalized)
    as [Hdtdl_ok Hdtdl].
  destruct (findPropertyInTelemetry_grounded normalized)
    as [Htel_ok Htel].
  cbv zeta in *.
  assert (Hempty : normalized = "" ->
            PropertyResolver.findPropertyInDTDL entity normalized
            = match firstProperty entity with
              | Some content =>
                  PropertyResolver.found
                    (FromDTDL (PropertyResolver.createDTDLPropertyInfo content))
              | None =>
                  match e_contents entity with
                  | Some _ =>
                      PropertyResolver.notFound
                        "Property not found in DTDL contents"
                  | None =>
                      PropertyResolver.notFound "Entity has no contents array"
                  end
              end).
  { intros ->. unfold PropertyResolver.findPropertyInDTDL, firstProperty.
    destruct (e_contents entity) as [contents|]; [|reflexivity].
    rewrite (find_ext _ (fun content =>
                           String.eqb (c_atType content) "Property")).
    - destruct (List.find _ contents); reflexivity.
    - intros content. rewrite dtdlMatches_empty. apply andb_true_r. }
  destruct (PropertyResolver.findPropertyInDTDL entity normalized)
    as [ok1 p1 e1 s1] eqn:Hfind1.
  cbn [PropertyResolver.success PropertyResolver.property] in *.
  assert (Hcase1 : (ok1 = true /\ exists p, p1 = Some p)
                   \/ (p1 = None /\ ok1 = false)).
  { destruct p1 as [p|].
    - left. split; [apply Hdtdl_ok; discriminate|eauto].
    - right. split; [reflexivity|].
      destruct ok1; [|reflexivity]. exfalso.
      destruct Hdtdl_ok as [H _]. apply (H eq_refl). reflexivity. }
  destruct Hcase1 as [[-> [p ->]]|[-> ->]].
  - cbn [PropertyResolver.success PropertyResolver.property].
    split; [split; [discriminate|reflexivity]|].
    split.
    { intros d [= ->].
      destruct (Hdtdl _ eq_refl)
        as (contents & content & Hc & Hin & Hty & Hm & [= ->]).
      exists contents, content. auto. }
    split.
    { intros t [= ->].
      destruct (Hdtdl _ eq_refl) as (? & ? & _ & _ & _ & _ & Habs).
      discriminate Habs. }
    split; [discriminate|].
    intros Hnorm. specialize (Hempty Hnorm).
    destruct (firstProperty entity);
      [|destruct (e_contents entity); discriminate Hempty].
    unfold PropertyResolver.found in Hempty. congruence.
  - destruct (PropertyResolver.findPropertyInTelemetry normalized)
      as [ok2 p2 e2 s2] eqn:Hfind2.
    cbn [PropertyResolver.success PropertyResolver.property] in *.
    assert (Hcase2 : (ok2 = true /\ exists p, p2 = Some p)
                     \/ (p2 = None /\ ok2 = false)).
    { destruct p2 as [p|].
      - left. split; [apply Htel_ok; discriminate|eauto].
      - right. split; [reflexivity|].
        destruct ok2; [|reflexivity]. exfalso.
        destruct Htel_ok as [H _]. apply (H eq_refl). reflexivity. }
    destruct Hcase2 as [[-> [p ->]]|[-> ->]].
    + cbn [PropertyResolver.success PropertyResolver.property].
      destruct (Htel _ eq_refl) as (fieldName & field & Hfield & ->).
      split; [split; [discriminate|reflexivity]|].
      split; [discriminate|].
      split.
      { intros t [= <-]. split; [|reflexivity].
        exists field. split; [exact Hfield|reflexivity]. }
      split; [discriminate|].
      intros Hnorm. specialize (Hempty Hnorm).
      destruct (firstProperty entity); [discriminate Hempty|].
      assert (Hstatus : PropertyResolver.findPropertyInTelemetry ""
                        = PropertyResolver.found
                            (PropertyResolver.telemetryInfo "status"
                               (IString, None)))
        by (vm_compute; reflexivity).
      rewrite Hnorm, Hstatus in Hfind2.
      unfold PropertyResolver.found in Hfind2. congruence.
    + cbn [PropertyResolver.success PropertyResolver.property
           PropertyResolver.error PropertyResolver.suggestions].
      split; [split; [discriminate|intros H; exfalso; apply H; reflexivity]|].
      split; [discriminate|]. split; [discriminate|].
      split.
      { intros _. split; [reflexivity|].
        eexists. split; [reflexivity|].
        unfold PropertyResolver.getSuggestions. cbv zeta. split.
        - rewrite length_firstn. lia.
        - etransitivity; [apply sublist_take|apply filter_sublist]. }
      intros Hnorm. exfalso.
      rewrite Hnorm in Hfind2. vm_compute in Hfind2. discriminate Hfind2.
Qed.

(** A name of separators alone, asked of the truck: the answer is its
    first property, the snap distance. *)
Lemma X27_property_resolution_witness :
  readsEntries truck2 "_ -" = true
  /\ PropertyResolver.normalizePropertyName "_ -" = ""
  /\ PropertyResolver.property (PropertyResolver.resolveProperty truck2 "_ -")
     = Some snapInfo.
Proof.
  split; [reflexivity|]. split; [reflexivity|].
  destruct (X27_property_resolution truck2 "_ -" eq_refl)
    as (_ & _ & _ & _ & H).
  rewrite (H eq_refl). reflexivity.
Defined.

(** * Further properties of the entities that come from the store *)

Section StoreFacts.
Import JSString.

Lemma nonEmpty_allChars p s :
  EntityResolver.nonEmpty s = false -> allChars p s = true.
Proof. destruct s; [reflexivity|discriminate]. Qed.

Lemma typeOfDisplayName_facts displayName :
  EntityResolver.nonEmpty (DTDLRepository.typeOfDisplayName displayName)
  = true
  /\ allChars notSpace (DTDLRepository.typeOfDisplayName displayName) = true.
Proof.
  unfold DTDLRepository.typeOfDisplayName.
  destruct (includes displayName "Haul Truck"); [split; reflexivity|].
  destruct (includes displayName "Loader"); [split; reflexivity|].
  destruct (includes displayName "HaulPath" || includes displayName "Path");
    [split; reflexivity|].
  destruct (includes displayName "Stockpile"); [split; reflexivity|].
  destruct (includes displayName "Mine Layout"); [split; reflexivity|].
  cbv zeta.
  destruct (EntityResolver.nonEmpty (replaceRuns isSpace "" false displayName))
    eqn:Hne; [|split; reflexivity].
  split; [exact Hne|]. apply deleteRuns_none.
Qed.

Lemma fold_addRelationship_grounded contents :
  forall relationships name target,
    fold_left DTDLRepository.addRelationship contents relationships !! name
    = Some target ->
    relationships !! name = Some target
    \/ exists content,
         In content contents
         /\ c_atType content = "Relationship"
         /\ c_name content = name
         /\ c_target content = Some target
         /\ EntityResolver.nonEmpty name = true
         /\ EntityResolver.nonEmpty target = true.
Proof.
  induction contents as [|content rest IH]; intros relationships name target;
    simpl; [auto|].
  intros H. destruct (IH _ _ _ H) as [Hhere|(c & Hin & Hc)].
  - unfold DTDLRepository.addRelationship in Hhere.
    destruct (String.eqb_spec (c_atType content) "Relationship")
      as [Htype|_]; [|auto].
    destruct (c_target content) as [relTarget|] eqn:Htarget; [|auto].
    destruct (EntityResolver.nonEmpty (c_name content)
              && EntityResolver.nonEmpty relTarget) eqn:Hne; [|auto].
    destruct (String.eqb_spec (c_name content) name) as [Hname|Hname].
    + subst name. rewrite lookup_insert_eq in Hhere.
      injection Hhere as <-. apply andb_prop in Hne as [Hn Ht].
      right. exists content. repeat split; auto.
    + rewrite lookup_insert_ne in Hhere by exact Hname. auto.
  - right. exists c. split; [right; exact Hin|exact Hc].
Qed.

End StoreFacts.

(** X28. An entity that [mapToDomain] makes of a row of the store has a
    type that is not the empty string and has no white space, "Unknown"
    for a row without display name; [computeType] and the validator's
    [entity.type || "Unknown"] give this type back. Its contents are
    never missing, its cache is what [extractProperties] makes of its
    contents, and each of its relationships comes from a Relationship
    item of the contents with that name and that target, both not
    empty. *)
Theorem X28_entities_from_the_store (row : DTDLRepository.Row) :
  let entity := DTDLRepository.mapToDomain row in
  (exists type,
     e_type entity = Some type
     /\ EntityResolver.nonEmpty type = true
     /\ allChars notSpace type = true
     /\ DTDLRepository.computeType entity = type
     /\ UpdateValidator.entityTypeOf entity = type)
  /\ (DTDLRepository.r_displayName row = None ->
      e_type entity = Some "Unknown")
  /\ e_contents entity = Some (default [] (DTDLRepository.r_contents row))
  /\ cacheFromContents entity
  /\ (forall relationships name target,
        e_relationships entity = Some relationships ->
        relationships !! name = Some target ->
        exists content,
          In content (default [] (DTDLRepository.r_contents row))
          /\ c_atType content = "Relationship"
          /\ c_name content = name
          /\ c_target content = Some target
          /\ EntityResolver.nonEmpty name = true
          /\ EntityResolver.nonEmpty target = true).
Proof.
  cbv zeta. unfold DTDLRepository.mapToDomain. cbv zeta.
  set (displayName := if EntityResolver.truthy (DTDLRepository.r_displayName row)
                      then default "" (DTDLRepository.r_displayName row)
                      else "").
  destruct (typeOfDisplayName_facts displayName) as [Hne Hspace].
  split; [|split; [|split; [|split]]].
  - exists (DTDLRepository.typeOfDisplayName displayName).
    cbn [e_type]. split; [reflexivity|]. split; [exact Hne|].
    split; [exact Hspace|].
    unfold DTDLRepository.computeType, UpdateValidator.entityTypeOf.
    cbn [e_type EntityResolver.truthy]. rewrite Hne. split; reflexivity.
  - intros Hnone. subst displayName. rewrite Hnone. reflexivity.
  - reflexivity.
  - eexists. split; reflexivity.
  - intros relationships name target [= <-] Hlookup.
    destruct (fold_addRelationship_grounded _ _ _ _ Hlookup)
      as [Habs|H]; [|exact H].
    rewrite lookup_empty in Habs. discriminate Habs.
Qed.

(** A bare row gives an entity of the type "Unknown", with empty
    contents. *)
Lemma X28_entities_witness :
  e_type (DTDLRepository.mapToDomain bareRow) = Some "Unknown"
  /\ e_contents (DTDLRepository.mapToDomain bareRow) = Some [].
Proof.
  destruct (X28_entities_from_the_store bareRow)
    as (_ & Htype & Hcontents & _).
  split; [exact (Htype eq_refl)|exact Hcontents].
Defined.

Section ReloadFacts.

Lemma find_rev_none (p : Content -> bool) (cs : list Content) :
  list_find (fun c => p c = true) cs = None ->
  List.find p (rev cs) = None.
Proof.
  intros Hnone. apply list_find_None in Hnone.
  destruct (List.find p (rev cs)) as [c|] eqn:Hfind; [|reflexivity].
  exfalso. apply find_some in Hfind as [Hin Hp]. apply in_rev in Hin.
  rewrite Forall_forall in Hnone. apply (Hnone c); [|exact Hp].
  apply list_elem_of_In. exact Hin.
Qed.

End ReloadFacts.

(** X29. What survives saving and loading again. [save] writes the
    fields of the DTDL document and none of the computed ones, and
    [mapToDomain] computes these from the contents: the entity loaded
    again has the id, the DTDL id, the display name and the contents
    that were saved, and the cache that [extractProperties] makes of the
    contents. So an entity whose cache is extracted from its contents
    comes back with the same cache; but the update of a property that is
    in the cache and has no Property item in the contents, which
    succeeds in the model, is lost: the entity loaded again has no such
    property. *)
Theorem X29_save_and_load :
  (forall entity,
     let loaded :=
       DTDLRepository.mapToDomain (DTDLRepository.savedRow entity) in
     e_id loaded = e_id entity
     /\ e_dtdlId loaded = e_dtdlId entity
     /\ e_displayName loaded = e_displayName entity
     /\ e_contents loaded = Some (default [] (e_contents entity))
     /\ cacheFromContents loaded)
  /\ (forall entity,
        cacheFromContents entity ->
        e_properties
          (DTDLRepository.mapToDomain (DTDLRepository.savedRow entity))
        = e_properties entity
        /\ e_contents
             (DTDLRepository.mapToDomain (DTDLRepository.savedRow entity))
           = e_contents entity)
  /\ (forall m entityId property value entity props pv cs,
        DTDLModel.getEntity m entityId = Some entity ->
        e_properties entity = Some props ->
        props !! property = Some pv ->
        e_contents entity = Some cs ->
        list_find (fun c => DTDLModel.isPropertyNamed property c = true) cs
        = None ->
        exists updated,
          DTDLModel.getEntity
            (DTDLModel.o_model
               (DTDLModel.updateEntityProperty m entityId property value))
            entityId = Some updated
          /\ DTDLModel.cached updated property
             = Some (DTDLModel.setCacheValue value pv)
          /\ DTDLModel.cached
               (DTDLRepository.mapToDomain (DTDLRepository.savedRow updated))
               property = None).
Proof.
  split; [|split].
  - intros entity. cbv zeta. unfold DTDLRepository.mapToDomain.
    cbn [DTDLRepository.savedRow DTDLRepository.r_id DTDLRepository.r_dtdlId
         DTDLRepository.r_displayName DTDLRepository.r_contents
         e_id e_dtdlId e_displayName e_contents].
    repeat split. eexists. split; reflexivity.
  - intros entity (cs & Hcs & Hprops).
    unfold DTDLRepository.mapToDomain.
    cbn [DTDLRepository.savedRow DTDLRepository.r_contents
         e_properties e_contents].
    rewrite Hcs, Hprops. split; reflexivity.
  - intros m entityId property value entity props pv cs
      Hget Hprops Hpv Hcs Hnone.
    rewrite (update_cached m entityId property value entity props pv
               Hget Hprops Hpv).
    unfold DTDLModel.updateContents. rewrite Hcs, Hnone.
    cbn [fst snd DTDLModel.o_model].
    eexists. split; [exact (mapGet_mutate_eq _ _ _ _ Hget)|].
    split.
    + unfold DTDLModel.cached. cbn [DTDLModel.withState e_properties].
      apply lookup_insert_eq.
    + unfold DTDLModel.cached, DTDLRepository.mapToDomain.
      cbn [DTDLRepository.savedRow DTDLRepository.r_contents
           DTDLModel.withState e_contents e_properties].
      change (default [] (Some cs)) with cs.
      rewrite extractProperties_lookup, (find_rev_none _ _ Hnone).
      reflexivity.
Qed.

(** The truck whose contents lack the snap distance: the update to 300
    is in the model, and not in the entity loaded again. *)
Lemma X29_save_and_load_witness :
  exists updated,
    DTDLModel.getEntity
      (DTDLModel.o_model
         (DTDLModel.updateEntityProperty (DTDLModel.make [divergedTruck])
            "Haul_Truck_CAT_777_2" "focusSnapDistanceMeters"
            (VNum 300%float)))
      "Haul_Truck_CAT_777_2" = Some updated
    /\ DTDLModel.cached
         (DTDLRepository.mapToDomain (DTDLRepository.savedRow updated))
         "focusSnapDistanceMeters" = None.
Proof.
  destruct (proj2 (proj2 X29_save_and_load)
              (DTDLModel.make [divergedTruck]) "Haul_Truck_CAT_777_2"
              "focusSnapDistanceMeters" (VNum 300%float) divergedTruck
              {[ "focusSnapDistanceMeters" :=
                   {| pv_value := VNum 250%float; pv_type := PNumber;
                      pv_editable := Some true; pv_constraints := None |} ]}
              {| pv_value := VNum 250%float; pv_type := PNumber;
                 pv_editable := Some true; pv_constraints := None |}
              [] eq_refl eq_refl eq_refl eq_refl eq_refl)
    as (updated & Hget & _ & Hlost).
  exists updated. split; [exact Hget|exact Hlost].
Defined.
